(** * Camera, zoom and interaction state of the panorama viewer

    A shallow embedding of the viewer core found in
    [src/js/PanoSphereViewer.js] (constructor), [PanoSphereViewer.public.js]
    (public API) and [PanoSphereViewer.events.js] (input handlers), together
    with the properties of that core stated in the design document.

    JavaScript numbers are carried as rationals: the embedding keeps the
    arithmetic the code writes and leaves out the rounding of IEEE doubles.
    The values Infinity and NaN are no rationals.  The code produces them
    where it divides by a stored quantity that is zero; a viewer records in
    [non_finite] that it has done so, and from then on the rationals it
    carries no longer tell what the code holds.  Objects of the source become records
    with the field names of the source; a method that mutates [this] becomes
    a function from viewer to viewer; a method that can throw returns an
    [Outcome]; events fired with [trigger] are appended to a trace.  The
    parts of the library that live in files other than these three (the
    [PSVUtils] helpers, [cleanPosition], [applyRanges], the constants) are
    gathered in the class [Externals] or modelled from the design document
    where it describes them. *)

From Stdlib Require Import ZArith QArith Qround Qabs List String Bool Lia Lqa.
Import ListNotations.
Local Open Scope string_scope.
Local Open Scope list_scope.
Local Open Scope Q_scope.

(** ** JavaScript primitives used by the viewer *)

Module JS.

Definition number : Type := Q.

(** [Math.round]: nearest integer, halves towards +infinity. *)
Definition Math_round (x : number) : number := inject_Z (Qfloor (x + (1 # 2))).

(** [parseInt] of a number whose decimal string is written without an
    exponent (zero, or a number from 1e-6 up to 1e21 in magnitude, as the
    pointer coordinates and the sizes of elements are): the integer part,
    towards zero. *)
Definition parseInt (x : number) : number :=
  inject_Z (Z.quot (Qnum x) (Zpos (Qden x))).

Definition Math_abs (x : number) : number := Qabs x.

(** [Math.PI] is the double nearest to pi, which is this rational. *)
Definition Math_PI : number := 884279719003555 # 281474976710656.

Definition ltb (x y : number) : bool := negb (Qle_bool y x).
Definition gtb (x y : number) : bool := ltb y x.
Definition eqb (x y : number) : bool := Qeq_bool x y.

(** Truthiness of a number: every number but zero. *)
Definition truthy (x : number) : bool := negb (Qeq_bool x 0).

(** A value that is a number, a string or [undefined], as the [duration]
    argument of [animate] is. *)
Inductive value : Type :=
| undefined
| num (n : number)
| str (s : string).

Definition truthy_value (v : value) : bool :=
  match v with
  | undefined => false
  | num n => truthy n
  | str s => negb (String.eqb s EmptyString)
  end.

Definition is_number (v : value) : bool :=
  match v with num _ => true | _ => false end.

(** [Number(null)] is 0: a [null] met by arithmetic counts as zero. *)
Definition of_nullable (o : option number) : number :=
  match o with Some x => x | None => 0 end.

End JS.
Import JS.

(** ** Helpers of [PSVUtils] *)

Module PSVUtils.

(** Modelled from the spec: [PSVUtils.bound] is not part of the sources at
    hand; the design document has it clamp a value into [[min, max]]. *)
Definition bound (x min max : number) : number :=
  if ltb x min then min else if ltb max x then max else x.

(** Modelled from the spec: [PSVUtils.isInteger] is not part of the sources
    at hand; a number is an integer when it has no fractional part. *)
Definition isInteger (x : number) : bool :=
  Qeq_bool x (inject_Z (Qfloor x)).

Definition HalfPI : number := Math_PI / 2.
Definition TwoPI : number := Math_PI * 2.

End PSVUtils.

(** ** Data model *)

(** [PanoSphereViewer.Position]. *)
Record Position : Type := mkPosition {
  longitude : number;
  latitude : number
}.

(** [PanoSphereViewer.ExtendedPosition]: a spherical position or texture
    coordinates. *)
Inductive ExtendedPosition : Type :=
| spherical (p : Position)
| texture (x y : number).

(** [PanoSphereViewer.Size]. *)
Record Size : Type := mkSize {
  width : number;
  height : number
}.

(** [THREE.Vector3]. *)
Record Vector3 : Type := mkVector3 {
  vx : number;
  vy : number;
  vz : number
}.

(** [PanoSphereViewer.ClickData]; [target] is the identity of the DOM
    element under the pointer. *)
Module ClickData.
Record t : Type := mk {
  target : nat;
  client_x : number;
  client_y : number;
  viewer_x : number;
  viewer_y : number;
  longitude : number;
  latitude : number;
  texture_x : option number;
  texture_y : option number
}.
End ClickData.

(** The part of a [MouseEvent] or [Touch] the handlers read;
    [in_hud] is [PSVUtils.getClosest(evt.target, '.psv-hud')] being found. *)
Record PointerEvt : Type := mkPointerEvt {
  evt_target : nat;
  in_hud : bool;
  clientX : number;
  clientY : number;
  buttons : number
}.

(** The closure returned by [_getAutorotateUpdate]; [last] is its captured
    variable, [None] while it is [undefined]. *)
Record AutorotateCb : Type := mkAutorotateCb {
  last : option number
}.

(** The closure returned by [_getOrientationUpdate] captures nothing. *)
Inductive OrientationCb : Type := orientationUpdate.

(** Modelled from the spec: [PSVUtils.animation] is not part of the sources
    at hand.  The design document makes it return a cancellable handle that
    interpolates each property between its start and its end, calls a
    per-tick callback and settles as completed or cancelled.  The handle
    keeps the options it was created with; [on_rotate] stands for
    [onTick: this.rotate.bind(this)] and [on_inertia] for the callback of
    [_stopMoveInertia], whose [ensure] clause resets [moving]; [running]
    holds until the handle settles. *)
Inductive AnimationCallback : Type := on_rotate | on_inertia.

Record Animation : Type := mkAnimation {
  properties : list (string * (number * number));
  duration : value;
  easing : string;
  onTick : AnimationCallback;
  running : bool  (* not settled yet *)
}.

(** The promise stored by [setPanorama]: what its continuation still needs. *)
Record Loading : Type := mkLoading {
  load_position : option ExtendedPosition;
  load_transition : bool
}.

(** Events fired through [trigger]. *)
Inductive Event : Type :=
| autorotate (enabled : bool)
| gyroscope_updated (enabled : bool)
| _side_reached (side : string)
| position_updated (p : Position)
| zoom_updated (level : number)
| size_updated (s : Size)
| stereo_updated (enabled : bool)
| click (data : ClickData.t)
| dblclick (data : ClickData.t)
| show_notification
| hide_notification.

(** [options.container]: an element, the id of one, or nothing. *)
Inductive Container : Type :=
| no_container
| container_element
| container_id (id : string).

Record Config : Type := mkConfig {
  container : Container;
  panorama : option string;
  longitude_range : option (list number);
  latitude_range : option (list number);
  tilt_up_max : option number;
  tilt_down_max : option number;
  min_fov : number;
  max_fov : number;
  default_fov : option number;
  default_long : number;
  default_lat : number;
  anim_speed : number;
  anim_lat : option number;
  cache_texture : number;
  move_inertia : bool;
  mousemove_hover : bool;
  mousewheel_factor : number;
  config_move_speed : number;  (* config.move_speed *)
  transition : bool;  (* whether config.transition is set *)
  webgl : bool
}.

Definition set_container (x : Container) (r : Config) : Config :=
  {| container := x; panorama := panorama r;
     longitude_range := longitude_range r;
     latitude_range := latitude_range r; tilt_up_max := tilt_up_max r;
     tilt_down_max := tilt_down_max r; min_fov := min_fov r;
     max_fov := max_fov r; default_fov := default_fov r;
     default_long := default_long r; default_lat := default_lat r;
     anim_speed := anim_speed r; anim_lat := anim_lat r;
     cache_texture := cache_texture r; move_inertia := move_inertia r;
     mousemove_hover := mousemove_hover r;
     mousewheel_factor := mousewheel_factor r;
     config_move_speed := config_move_speed r; transition := transition r;
     webgl := webgl r |}.

Definition set_panorama (x : option string) (r : Config) : Config :=
  {| container := container r; panorama := x;
     longitude_range := longitude_range r;
     latitude_range := latitude_range r; tilt_up_max := tilt_up_max r;
     tilt_down_max := tilt_down_max r; min_fov := min_fov r;
     max_fov := max_fov r; default_fov := default_fov r;
     default_long := default_long r; default_lat := default_lat r;
     anim_speed := anim_speed r; anim_lat := anim_lat r;
     cache_texture := cache_texture r; move_inertia := move_inertia r;
     mousemove_hover := mousemove_hover r;
     mousewheel_factor := mousewheel_factor r;
     config_move_speed := config_move_speed r; transition := transition r;
     webgl := webgl r |}.

Definition set_longitude_range (x : option (list number)) (r : Config) : Config :=
  {| container := container r; panorama := panorama r; longitude_range := x;
     latitude_range := latitude_range r; tilt_up_max := tilt_up_max r;
     tilt_down_max := tilt_down_max r; min_fov := min_fov r;
     max_fov := max_fov r; default_fov := default_fov r;
     default_long := default_long r; default_lat := default_lat r;
     anim_speed := anim_speed r; anim_lat := anim_lat r;
     cache_texture := cache_texture r; move_inertia := move_inertia r;
     mousemove_hover := mousemove_hover r;
     mousewheel_factor := mousewheel_factor r;
     config_move_speed := config_move_speed r; transition := transition r;
     webgl := webgl r |}.

Definition set_latitude_range (x : option (list number)) (r : Config) : Config :=
  {| container := container r; panorama := panorama r;
     longitude_range := longitude_range r; latitude_range := x;
     tilt_up_max := tilt_up_max r; tilt_down_max := tilt_down_max r;
     min_fov := min_fov r; max_fov := max_fov r;
     default_fov := default_fov r; default_long := default_long r;
     default_lat := default_lat r; anim_speed := anim_speed r;
     anim_lat := anim_lat r; cache_texture := cache_texture r;
     move_inertia := move_inertia r; mousemove_hover := mousemove_hover r;
     mousewheel_factor := mousewheel_factor r;
     config_move_speed := config_move_speed r; transition := transition r;
     webgl := webgl r |}.

Definition set_tilt_up_max (x : option number) (r : Config) : Config :=
  {| container := container r; panorama := panorama r;
     longitude_range := longitude_range r;
     latitude_range := latitude_range r; tilt_up_max := x;
     tilt_down_max := tilt_down_max r; min_fov := min_fov r;
     max_fov := max_fov r; default_fov := default_fov r;
     default_long := default_long r; default_lat := default_lat r;
     anim_speed := anim_speed r; anim_lat := anim_lat r;
     cache_texture := cache_texture r; move_inertia := move_inertia r;
     mousemove_hover := mousemove_hover r;
     mousewheel_factor := mousewheel_factor r;
     config_move_speed := config_move_speed r; transition := transition r;
     webgl := webgl r |}.

Definition set_tilt_down_max (x : option number) (r : Config) : Config :=
  {| container := container r; panorama := panorama r;
     longitude_range := longitude_range r;
     latitude_range := latitude_range r; tilt_up_max := tilt_up_max r;
     tilt_down_max := x; min_fov := min_fov r; max_fov := max_fov r;
     default_fov := default_fov r; default_long := default_long r;
     default_lat := default_lat r; anim_speed := anim_speed r;
     anim_lat := anim_lat r; cache_texture := cache_texture r;
     move_inertia := move_inertia r; mousemove_hover := mousemove_hover r;
     mousewheel_factor := mousewheel_factor r;
     config_move_speed := config_move_speed r; transition := transition r;
     webgl := webgl r |}.

Definition set_min_fov (x : number) (r : Config) : Config :=
  {| container := container r; panorama := panorama r;
     longitude_range := longitude_range r;
     latitude_range := latitude_range r; tilt_up_max := tilt_up_max r;
     tilt_down_max := tilt_down_max r; min_fov := x; max_fov := max_fov r;
     default_fov := default_fov r; default_long := default_long r;
     default_lat := default_lat r; anim_speed := anim_speed r;
     anim_lat := anim_lat r; cache_texture := cache_texture r;
     move_inertia := move_inertia r; mousemove_hover := mousemove_hover r;
     mousewheel_factor := mousewheel_factor r;
     config_move_speed := config_move_speed r; transition := transition r;
     webgl := webgl r |}.

Definition set_max_fov (x : number) (r : Config) : Config :=
  {| container := container r; panorama := panorama r;
     longitude_range := longitude_range r;
     latitude_range := latitude_range r; tilt_up_max := tilt_up_max r;
     tilt_down_max := tilt_down_max r; min_fov := min_fov r; max_fov := x;
     default_fov := default_fov r; default_long := default_long r;
     default_lat := default_lat r; anim_speed := anim_speed r;
     anim_lat := anim_lat r; cache_texture := cache_texture r;
     move_inertia := move_inertia r; mousemove_hover := mousemove_hover r;
     mousewheel_factor := mousewheel_factor r;
     config_move_speed := config_move_speed r; transition := transition r;
     webgl := webgl r |}.

Definition set_default_fov (x : option number) (r : Config) : Config :=
  {| container := container r; panorama := panorama r;
     longitude_range := longitude_range r;
     latitude_range := latitude_range r; tilt_up_max := tilt_up_max r;
     tilt_down_max := tilt_down_max r; min_fov := min_fov r;
     max_fov := max_fov r; default_fov := x; default_long := default_long r;
     default_lat := default_lat r; anim_speed := anim_speed r;
     anim_lat := anim_lat r; cache_texture := cache_texture r;
     move_inertia := move_inertia r; mousemove_hover := mousemove_hover r;
     mousewheel_factor := mousewheel_factor r;
     config_move_speed := config_move_speed r; transition := transition r;
     webgl := webgl r |}.

Definition set_default_long (x : number) (r : Config) : Config :=
  {| container := container r; panorama := panorama r;
     longitude_range := longitude_range r;
     latitude_range := latitude_range r; tilt_up_max := tilt_up_max r;
     tilt_down_max := tilt_down_max r; min_fov := min_fov r;
     max_fov := max_fov r; default_fov := default_fov r; default_long := x;
     default_lat := default_lat r; anim_speed := anim_speed r;
     anim_lat := anim_lat r; cache_texture := cache_texture r;
     move_inertia := move_inertia r; mousemove_hover := mousemove_hover r;
     mousewheel_factor := mousewheel_factor r;
     config_move_speed := config_move_speed r; transition := transition r;
     webgl := webgl r |}.

Definition set_default_lat (x : number) (r : Config) : Config :=
  {| container := container r; panorama := panorama r;
     longitude_range := longitude_range r;
     latitude_range := latitude_range r; tilt_up_max := tilt_up_max r;
     tilt_down_max := tilt_down_max r; min_fov := min_fov r;
     max_fov := max_fov r; default_fov := default_fov r;
     default_long := default_long r; default_lat := x;
     anim_speed := anim_speed r; anim_lat := anim_lat r;
     cache_texture := cache_texture r; move_inertia := move_inertia r;
     mousemove_hover := mousemove_hover r;
     mousewheel_factor := mousewheel_factor r;
     config_move_speed := config_move_speed r; transition := transition r;
     webgl := webgl r |}.

Definition set_anim_speed (x : number) (r : Config) : Config :=
  {| container := container r; panorama := panorama r;
     longitude_range := longitude_range r;
     latitude_range := latitude_range r; tilt_up_max := tilt_up_max r;
     tilt_down_max := tilt_down_max r; min_fov := min_fov r;
     max_fov := max_fov r; default_fov := default_fov r;
     default_long := default_long r; default_lat := default_lat r;
     anim_speed := x; anim_lat := anim_lat r;
     cache_texture := cache_texture r; move_inertia := move_inertia r;
     mousemove_hover := mousemove_hover r;
     mousewheel_factor := mousewheel_factor r;
     config_move_speed := config_move_speed r; transition := transition r;
     webgl := webgl r |}.

Definition set_anim_lat (x : option number) (r : Config) : Config :=
  {| container := container r; panorama := panorama r;
     longitude_range := longitude_range r;
     latitude_range := latitude_range r; tilt_up_max := tilt_up_max r;
     tilt_down_max := tilt_down_max r; min_fov := min_fov r;
     max_fov := max_fov r; default_fov := default_fov r;
     default_long := default_long r; default_lat := default_lat r;
     anim_speed := anim_speed r; anim_lat := x;
     cache_texture := cache_texture r; move_inertia := move_inertia r;
     mousemove_hover := mousemove_hover r;
     mousewheel_factor := mousewheel_factor r;
     config_move_speed := config_move_speed r; transition := transition r;
     webgl := webgl r |}.

Definition set_cache_texture (x : number) (r : Config) : Config :=
  {| container := container r; panorama := panorama r;
     longitude_range := longitude_range r;
     latitude_range := latitude_range r; tilt_up_max := tilt_up_max r;
     tilt_down_max := tilt_down_max r; min_fov := min_fov r;
     max_fov := max_fov r; default_fov := default_fov r;
     default_long := default_long r; default_lat := default_lat r;
     anim_speed := anim_speed r; anim_lat := anim_lat r; cache_texture := x;
     move_inertia := move_inertia r; mousemove_hover := mousemove_hover r;
     mousewheel_factor := mousewheel_factor r;
     config_move_speed := config_move_speed r; transition := transition r;
     webgl := webgl r |}.

Definition set_move_inertia (x : bool) (r : Config) : Config :=
  {| container := container r; panorama := panorama r;
     longitude_range := longitude_range r;
     latitude_range := latitude_range r; tilt_up_max := tilt_up_max r;
     tilt_down_max := tilt_down_max r; min_fov := min_fov r;
     max_fov := max_fov r; default_fov := default_fov r;
     default_long := default_long r; default_lat := default_lat r;
     anim_speed := anim_speed r; anim_lat := anim_lat r;
     cache_texture := cache_texture r; move_inertia := x;
     mousemove_hover := mousemove_hover r;
     mousewheel_factor := mousewheel_factor r;
     config_move_speed := config_move_speed r; transition := transition r;
     webgl := webgl r |}.

Definition set_mousemove_hover (x : bool) (r : Config) : Config :=
  {| container := container r; panorama := panorama r;
     longitude_range := longitude_range r;
     latitude_range := latitude_range r; tilt_up_max := tilt_up_max r;
     tilt_down_max := tilt_down_max r; min_fov := min_fov r;
     max_fov := max_fov r; default_fov := default_fov r;
     default_long := default_long r; default_lat := default_lat r;
     anim_speed := anim_speed r; anim_lat := anim_lat r;
     cache_texture := cache_texture r; move_inertia := move_inertia r;
     mousemove_hover := x; mousewheel_factor := mousewheel_factor r;
     config_move_speed := config_move_speed r; transition := transition r;
     webgl := webgl r |}.

Definition set_mousewheel_factor (x : number) (r : Config) : Config :=
  {| container := container r; panorama := panorama r;
     longitude_range := longitude_range r;
     latitude_range := latitude_range r; tilt_up_max := tilt_up_max r;
     tilt_down_max := tilt_down_max r; min_fov := min_fov r;
     max_fov := max_fov r; default_fov := default_fov r;
     default_long := default_long r; default_lat := default_lat r;
     anim_speed := anim_speed r; anim_lat := anim_lat r;
     cache_texture := cache_texture r; move_inertia := move_inertia r;
     mousemove_hover := mousemove_hover r; mousewheel_factor := x;
     config_move_speed := config_move_speed r; transition := transition r;
     webgl := webgl r |}.

Definition set_config_move_speed (x : number) (r : Config) : Config :=
  {| container := container r; panorama := panorama r;
     longitude_range := longitude_range r;
     latitude_range := latitude_range r; tilt_up_max := tilt_up_max r;
     tilt_down_max := tilt_down_max r; min_fov := min_fov r;
     max_fov := max_fov r; default_fov := default_fov r;
     default_long := default_long r; default_lat := default_lat r;
     anim_speed := anim_speed r; anim_lat := anim_lat r;
     cache_texture := cache_texture r; move_inertia := move_inertia r;
     mousemove_hover := mousemove_hover r;
     mousewheel_factor := mousewheel_factor r; config_move_speed := x;
     transition := transition r; webgl := webgl r |}.

Definition set_transition (x : bool) (r : Config) : Config :=
  {| container := container r; panorama := panorama r;
     longitude_range := longitude_range r;
     latitude_range := latitude_range r; tilt_up_max := tilt_up_max r;
     tilt_down_max := tilt_down_max r; min_fov := min_fov r;
     max_fov := max_fov r; default_fov := default_fov r;
     default_long := default_long r; default_lat := default_lat r;
     anim_speed := anim_speed r; anim_lat := anim_lat r;
     cache_texture := cache_texture r; move_inertia := move_inertia r;
     mousemove_hover := mousemove_hover r;
     mousewheel_factor := mousewheel_factor r;
     config_move_speed := config_move_speed r; transition := x;
     webgl := webgl r |}.

Definition set_webgl (x : bool) (r : Config) : Config :=
  {| container := container r; panorama := panorama r;
     longitude_range := longitude_range r;
     latitude_range := latitude_range r; tilt_up_max := tilt_up_max r;
     tilt_down_max := tilt_down_max r; min_fov := min_fov r;
     max_fov := max_fov r; default_fov := default_fov r;
     default_long := default_long r; default_lat := default_lat r;
     anim_speed := anim_speed r; anim_lat := anim_lat r;
     cache_texture := cache_texture r; move_inertia := move_inertia r;
     mousemove_hover := mousemove_hover r;
     mousewheel_factor := mousewheel_factor r;
     config_move_speed := config_move_speed r; transition := transition r;
     webgl := x |}.


Record Props : Type := mkProps {
  needsUpdate : bool;  (* if the view needs to be rendered *)
  isCubemap : bool;  (* if the panorama is a cubemap *)
  position : Position;  (* current direction of the camera *)
  zoom_lvl : number;  (* current zoom level *)
  vFov : number;  (* vertical FOV *)
  hFov : number;  (* horizontal FOV *)
  aspect : number;  (* viewer aspect ratio *)
  move_speed : number;  (* move speed *)
  moving : bool;  (* is the user moving *)
  zooming : bool;  (* is the user zooming *)
  start_mouse_x : number;  (* start x position of the click/touch *)
  start_mouse_y : number;  (* start y position of the click/touch *)
  mouse_x : number;  (* current x position of the cursor *)
  mouse_y : number;  (* current y position of the cursor *)
  mouse_history : list (list number);  (* latest positions of the cursor, [time, x, y] *)
  gyro_alpha_offset : number;  (* current alpha offset for gyroscope controls *)
  pinch_dist : number;  (* distance between fingers when zooming *)
  orientation_cb : option OrientationCb;  (* update callback of the device orientation *)
  autorotate_cb : option AutorotateCb;  (* update callback of the automatic rotation *)
  animation_promise : option Animation;  (* promise of the current animation *)
  loading_promise : option Loading;  (* promise of the setPanorama method *)
  start_timeout : option number;  (* timeout of the automatic rotation delay *)
  dblclick_data : option ClickData.t;  (* click data kept between two clicks *)
  dblclick_timeout : option number;  (* timeout for double click *)
  size : Size  (* size of the container *)
}.

Definition set_needsUpdate (x : bool) (r : Props) : Props :=
  {| needsUpdate := x; isCubemap := isCubemap r; position := position r;
     zoom_lvl := zoom_lvl r; vFov := vFov r; hFov := hFov r;
     aspect := aspect r; move_speed := move_speed r; moving := moving r;
     zooming := zooming r; start_mouse_x := start_mouse_x r;
     start_mouse_y := start_mouse_y r; mouse_x := mouse_x r;
     mouse_y := mouse_y r; mouse_history := mouse_history r;
     gyro_alpha_offset := gyro_alpha_offset r; pinch_dist := pinch_dist r;
     orientation_cb := orientation_cb r; autorotate_cb := autorotate_cb r;
     animation_promise := animation_promise r;
     loading_promise := loading_promise r; start_timeout := start_timeout r;
     dblclick_data := dblclick_data r;
     dblclick_timeout := dblclick_timeout r; size := size r |}.

Definition set_isCubemap (x : bool) (r : Props) : Props :=
  {| needsUpdate := needsUpdate r; isCubemap := x; position := position r;
     zoom_lvl := zoom_lvl r; vFov := vFov r; hFov := hFov r;
     aspect := aspect r; move_speed := move_speed r; moving := moving r;
     zooming := zooming r; start_mouse_x := start_mouse_x r;
     start_mouse_y := start_mouse_y r; mouse_x := mouse_x r;
     mouse_y := mouse_y r; mouse_history := mouse_history r;
     gyro_alpha_offset := gyro_alpha_offset r; pinch_dist := pinch_dist r;
     orientation_cb := orientation_cb r; autorotate_cb := autorotate_cb r;
     animation_promise := animation_promise r;
     loading_promise := loading_promise r; start_timeout := start_timeout r;
     dblclick_data := dblclick_data r;
     dblclick_timeout := dblclick_timeout r; size := size r |}.

Definition set_position (x : Position) (r : Props) : Props :=
  {| needsUpdate := needsUpdate r; isCubemap := isCubemap r; position := x;
     zoom_lvl := zoom_lvl r; vFov := vFov r; hFov := hFov r;
     aspect := aspect r; move_speed := move_speed r; moving := moving r;
     zooming := zooming r; start_mouse_x := start_mouse_x r;
     start_mouse_y := start_mouse_y r; mouse_x := mouse_x r;
     mouse_y := mouse_y r; mouse_history := mouse_history r;
     gyro_alpha_offset := gyro_alpha_offset r; pinch_dist := pinch_dist r;
     orientation_cb := orientation_cb r; autorotate_cb := autorotate_cb r;
     animation_promise := animation_promise r;
     loading_promise := loading_promise r; start_timeout := start_timeout r;
     dblclick_data := dblclick_data r;
     dblclick_timeout := dblclick_timeout r; size := size r |}.

Definition set_zoom_lvl (x : number) (r : Props) : Props :=
  {| needsUpdate := needsUpdate r; isCubemap := isCubemap r;
     position := position r; zoom_lvl := x; vFov := vFov r; hFov := hFov r;
     aspect := aspect r; move_speed := move_speed r; moving := moving r;
     zooming := zooming r; start_mouse_x := start_mouse_x r;
     start_mouse_y := start_mouse_y r; mouse_x := mouse_x r;
     mouse_y := mouse_y r; mouse_history := mouse_history r;
     gyro_alpha_offset := gyro_alpha_offset r; pinch_dist := pinch_dist r;
     orientation_cb := orientation_cb r; autorotate_cb := autorotate_cb r;
     animation_promise := animation_promise r;
     loading_promise := loading_promise r; start_timeout := start_timeout r;
     dblclick_data := dblclick_data r;
     dblclick_timeout := dblclick_timeout r; size := size r |}.

Definition set_vFov (x : number) (r : Props) : Props :=
  {| needsUpdate := needsUpdate r; isCubemap := isCubemap r;
     position := position r; zoom_lvl := zoom_lvl r; vFov := x;
     hFov := hFov r; aspect := aspect r; move_speed := move_speed r;
     moving := moving r; zooming := zooming r;
     start_mouse_x := start_mouse_x r; start_mouse_y := start_mouse_y r;
     mouse_x := mouse_x r; mouse_y := mouse_y r;
     mouse_history := mouse_history r;
     gyro_alpha_offset := gyro_alpha_offset r; pinch_dist := pinch_dist r;
     orientation_cb := orientation_cb r; autorotate_cb := autorotate_cb r;
     animation_promise := animation_promise r;
     loading_promise := loading_promise r; start_timeout := start_timeout r;
     dblclick_data := dblclick_data r;
     dblclick_timeout := dblclick_timeout r; size := size r |}.

Definition set_hFov (x : number) (r : Props) : Props :=
  {| needsUpdate := needsUpdate r; isCubemap := isCubemap r;
     position := position r; zoom_lvl := zoom_lvl r; vFov := vFov r;
     hFov := x; aspect := aspect r; move_speed := move_speed r;
     moving := moving r; zooming := zooming r;
     start_mouse_x := start_mouse_x r; start_mouse_y := start_mouse_y r;
     mouse_x := mouse_x r; mouse_y := mouse_y r;
     mouse_history := mouse_history r;
     gyro_alpha_offset := gyro_alpha_offset r; pinch_dist := pinch_dist r;
     orientation_cb := orientation_cb r; autorotate_cb := autorotate_cb r;
     animation_promise := animation_promise r;
     loading_promise := loading_promise r; start_timeout := start_timeout r;
     dblclick_data := dblclick_data r;
     dblclick_timeout := dblclick_timeout r; size := size r |}.

Definition set_aspect (x : number) (r : Props) : Props :=
  {| needsUpdate := needsUpdate r; isCubemap := isCubemap r;
     position := position r; zoom_lvl := zoom_lvl r; vFov := vFov r;
     hFov := hFov r; aspect := x; move_speed := move_speed r;
     moving := moving r; zooming := zooming r;
     start_mouse_x := start_mouse_x r; start_mouse_y := start_mouse_y r;
     mouse_x := mouse_x r; mouse_y := mouse_y r;
     mouse_history := mouse_history r;
     gyro_alpha_offset := gyro_alpha_offset r; pinch_dist := pinch_dist r;
     orientation_cb := orientation_cb r; autorotate_cb := autorotate_cb r;
     animation_promise := animation_promise r;
     loading_promise := loading_promise r; start_timeout := start_timeout r;
     dblclick_data := dblclick_data r;
     dblclick_timeout := dblclick_timeout r; size := size r |}.

Definition set_move_speed (x : number) (r : Props) : Props :=
  {| needsUpdate := needsUpdate r; isCubemap := isCubemap r;
     position := position r; zoom_lvl := zoom_lvl r; vFov := vFov r;
     hFov := hFov r; aspect := aspect r; move_speed := x; moving := moving r;
     zooming := zooming r; start_mouse_x := start_mouse_x r;
     start_mouse_y := start_mouse_y r; mouse_x := mouse_x r;
     mouse_y := mouse_y r; mouse_history := mouse_history r;
     gyro_alpha_offset := gyro_alpha_offset r; pinch_dist := pinch_dist r;
     orientation_cb := orientation_cb r; autorotate_cb := autorotate_cb r;
     animation_promise := animation_promise r;
     loading_promise := loading_promise r; start_timeout := start_timeout r;
     dblclick_data := dblclick_data r;
     dblclick_timeout := dblclick_timeout r; size := size r |}.

Definition set_moving (x : bool) (r : Props) : Props :=
  {| needsUpdate := needsUpdate r; isCubemap := isCubemap r;
     position := position r; zoom_lvl := zoom_lvl r; vFov := vFov r;
     hFov := hFov r; aspect := aspect r; move_speed := move_speed r;
     moving := x; zooming := zooming r; start_mouse_x := start_mouse_x r;
     start_mouse_y := start_mouse_y r; mouse_x := mouse_x r;
     mouse_y := mouse_y r; mouse_history := mouse_history r;
     gyro_alpha_offset := gyro_alpha_offset r; pinch_dist := pinch_dist r;
     orientation_cb := orientation_cb r; autorotate_cb := autorotate_cb r;
     animation_promise := animation_promise r;
     loading_promise := loading_promise r; start_timeout := start_timeout r;
     dblclick_data := dblclick_data r;
     dblclick_timeout := dblclick_timeout r; size := size r |}.

Definition set_zooming (x : bool) (r : Props) : Props :=
  {| needsUpdate := needsUpdate r; isCubemap := isCubemap r;
     position := position r; zoom_lvl := zoom_lvl r; vFov := vFov r;
     hFov := hFov r; aspect := aspect r; move_speed := move_speed r;
     moving := moving r; zooming := x; start_mouse_x := start_mouse_x r;
     start_mouse_y := start_mouse_y r; mouse_x := mouse_x r;
     mouse_y := mouse_y r; mouse_history := mouse_history r;
     gyro_alpha_offset := gyro_alpha_offset r; pinch_dist := pinch_dist r;
     orientation_cb := orientation_cb r; autorotate_cb := autorotate_cb r;
     animation_promise := animation_promise r;
     loading_promise := loading_promise r; start_timeout := start_timeout r;
     dblclick_data := dblclick_data r;
     dblclick_timeout := dblclick_timeout r; size := size r |}.

Definition set_start_mouse_x (x : number) (r : Props) : Props :=
  {| needsUpdate := needsUpdate r; isCubemap := isCubemap r;
     position := position r; zoom_lvl := zoom_lvl r; vFov := vFov r;
     hFov := hFov r; aspect := aspect r; move_speed := move_speed r;
     moving := moving r; zooming := zooming r; start_mouse_x := x;
     start_mouse_y := start_mouse_y r; mouse_x := mouse_x r;
     mouse_y := mouse_y r; mouse_history := mouse_history r;
     gyro_alpha_offset := gyro_alpha_offset r; pinch_dist := pinch_dist r;
     orientation_cb := orientation_cb r; autorotate_cb := autorotate_cb r;
     animation_promise := animation_promise r;
     loading_promise := loading_promise r; start_timeout := start_timeout r;
     dblclick_data := dblclick_data r;
     dblclick_timeout := dblclick_timeout r; size := size r |}.

Definition set_start_mouse_y (x : number) (r : Props) : Props :=
  {| needsUpdate := needsUpdate r; isCubemap := isCubemap r;
     position := position r; zoom_lvl := zoom_lvl r; vFov := vFov r;
     hFov := hFov r; aspect := aspect r; move_speed := move_speed r;
     moving := moving r; zooming := zooming r;
     start_mouse_x := start_mouse_x r; start_mouse_y := x;
     mouse_x := mouse_x r; mouse_y := mouse_y r;
     mouse_history := mouse_history r;
     gyro_alpha_offset := gyro_alpha_offset r; pinch_dist := pinch_dist r;
     orientation_cb := orientation_cb r; autorotate_cb := autorotate_cb r;
     animation_promise := animation_promise r;
     loading_promise := loading_promise r; start_timeout := start_timeout r;
     dblclick_data := dblclick_data r;
     dblclick_timeout := dblclick_timeout r; size := size r |}.

Definition set_mouse_x (x : number) (r : Props) : Props :=
  {| needsUpdate := needsUpdate r; isCubemap := isCubemap r;
     position := position r; zoom_lvl := zoom_lvl r; vFov := vFov r;
     hFov := hFov r; aspect := aspect r; move_speed := move_speed r;
     moving := moving r; zooming := zooming r;
     start_mouse_x := start_mouse_x r; start_mouse_y := start_mouse_y r;
     mouse_x := x; mouse_y := mouse_y r; mouse_history := mouse_history r;
     gyro_alpha_offset := gyro_alpha_offset r; pinch_dist := pinch_dist r;
     orientation_cb := orientation_cb r; autorotate_cb := autorotate_cb r;
     animation_promise := animation_promise r;
     loading_promise := loading_promise r; start_timeout := start_timeout r;
     dblclick_data := dblclick_data r;
     dblclick_timeout := dblclick_timeout r; size := size r |}.

Definition set_mouse_y (x : number) (r : Props) : Props :=
  {| needsUpdate := needsUpdate r; isCubemap := isCubemap r;
     position := position r; zoom_lvl := zoom_lvl r; vFov := vFov r;
     hFov := hFov r; aspect := aspect r; move_speed := move_speed r;
     moving := moving r; zooming := zooming r;
     start_mouse_x := start_mouse_x r; start_mouse_y := start_mouse_y r;
     mouse_x := mouse_x r; mouse_y := x; mouse_history := mouse_history r;
     gyro_alpha_offset := gyro_alpha_offset r; pinch_dist := pinch_dist r;
     orientation_cb := orientation_cb r; autorotate_cb := autorotate_cb r;
     animation_promise := animation_promise r;
     loading_promise := loading_promise r; start_timeout := start_timeout r;
     dblclick_data := dblclick_data r;
     dblclick_timeout := dblclick_timeout r; size := size r |}.

Definition set_mouse_history (x : list (list number)) (r : Props) : Props :=
  {| needsUpdate := needsUpdate r; isCubemap := isCubemap r;
     position := position r; zoom_lvl := zoom_lvl r; vFov := vFov r;
     hFov := hFov r; aspect := aspect r; move_speed := move_speed r;
     moving := moving r; zooming := zooming r;
     start_mouse_x := start_mouse_x r; start_mouse_y := start_mouse_y r;
     mouse_x := mouse_x r; mouse_y := mouse_y r; mouse_history := x;
     gyro_alpha_offset := gyro_alpha_offset r; pinch_dist := pinch_dist r;
     orientation_cb := orientation_cb r; autorotate_cb := autorotate_cb r;
     animation_promise := animation_promise r;
     loading_promise := loading_promise r; start_timeout := start_timeout r;
     dblclick_data := dblclick_data r;
     dblclick_timeout := dblclick_timeout r; size := size r |}.

Definition set_gyro_alpha_offset (x : number) (r : Props) : Props :=
  {| needsUpdate := needsUpdate r; isCubemap := isCubemap r;
     position := position r; zoom_lvl := zoom_lvl r; vFov := vFov r;
     hFov := hFov r; aspect := aspect r; move_speed := move_speed r;
     moving := moving r; zooming := zooming r;
     start_mouse_x := start_mouse_x r; start_mouse_y := start_mouse_y r;
     mouse_x := mouse_x r; mouse_y := mouse_y r;
     mouse_history := mouse_history r; gyro_alpha_offset := x;
     pinch_dist := pinch_dist r; orientation_cb := orientation_cb r;
     autorotate_cb := autorotate_cb r;
     animation_promise := animation_promise r;
     loading_promise := loading_promise r; start_timeout := start_timeout r;
     dblclick_data := dblclick_data r;
     dblclick_timeout := dblclick_timeout r; size := size r |}.

Definition set_pinch_dist (x : number) (r : Props) : Props :=
  {| needsUpdate := needsUpdate r; isCubemap := isCubemap r;
     position := position r; zoom_lvl := zoom_lvl r; vFov := vFov r;
     hFov := hFov r; aspect := aspect r; move_speed := move_speed r;
     moving := moving r; zooming := zooming r;
     start_mouse_x := start_mouse_x r; start_mouse_y := start_mouse_y r;
     mouse_x := mouse_x r; mouse_y := mouse_y r;
     mouse_history := mouse_history r;
     gyro_alpha_offset := gyro_alpha_offset r; pinch_dist := x;
     orientation_cb := orientation_cb r; autorotate_cb := autorotate_cb r;
     animation_promise := animation_promise r;
     loading_promise := loading_promise r; start_timeout := start_timeout r;
     dblclick_data := dblclick_data r;
     dblclick_timeout := dblclick_timeout r; size := size r |}.

Definition set_orientation_cb (x : option OrientationCb) (r : Props) : Props :=
  {| needsUpdate := needsUpdate r; isCubemap := isCubemap r;
     position := position r; zoom_lvl := zoom_lvl r; vFov := vFov r;
     hFov := hFov r; aspect := aspect r; move_speed := move_speed r;
     moving := moving r; zooming := zooming r;
     start_mouse_x := start_mouse_x r; start_mouse_y := start_mouse_y r;
     mouse_x := mouse_x r; mouse_y := mouse_y r;
     mouse_history := mouse_history r;
     gyro_alpha_offset := gyro_alpha_offset r; pinch_dist := pinch_dist r;
     orientation_cb := x; autorotate_cb := autorotate_cb r;
     animation_promise := animation_promise r;
     loading_promise := loading_promise r; start_timeout := start_timeout r;
     dblclick_data := dblclick_data r;
     dblclick_timeout := dblclick_timeout r; size := size r |}.

Definition set_autorotate_cb (x : option AutorotateCb) (r : Props) : Props :=
  {| needsUpdate := needsUpdate r; isCubemap := isCubemap r;
     position := position r; zoom_lvl := zoom_lvl r; vFov := vFov r;
     hFov := hFov r; aspect := aspect r; move_speed := move_speed r;
     moving := moving r; zooming := zooming r;
     start_mouse_x := start_mouse_x r; start_mouse_y := start_mouse_y r;
     mouse_x := mouse_x r; mouse_y := mouse_y r;
     mouse_history := mouse_history r;
     gyro_alpha_offset := gyro_alpha_offset r; pinch_dist := pinch_dist r;
     orientation_cb := orientation_cb r; autorotate_cb := x;
     animation_promise := animation_promise r;
     loading_promise := loading_promise r; start_timeout := start_timeout r;
     dblclick_data := dblclick_data r;
     dblclick_timeout := dblclick_timeout r; size := size r |}.

Definition set_animation_promise (x : option Animation) (r : Props) : Props :=
  {| needsUpdate := needsUpdate r; isCubemap := isCubemap r;
     position := position r; zoom_lvl := zoom_lvl r; vFov := vFov r;
     hFov := hFov r; aspect := aspect r; move_speed := move_speed r;
     moving := moving r; zooming := zooming r;
     start_mouse_x := start_mouse_x r; start_mouse_y := start_mouse_y r;
     mouse_x := mouse_x r; mouse_y := mouse_y r;
     mouse_history := mouse_history r;
     gyro_alpha_offset := gyro_alpha_offset r; pinch_dist := pinch_dist r;
     orientation_cb := orientation_cb r; autorotate_cb := autorotate_cb r;
     animation_promise := x; loading_promise := loading_promise r;
     start_timeout := start_timeout r; dblclick_data := dblclick_data r;
     dblclick_timeout := dblclick_timeout r; size := size r |}.

Definition set_loading_promise (x : option Loading) (r : Props) : Props :=
  {| needsUpdate := needsUpdate r; isCubemap := isCubemap r;
     position := position r; zoom_lvl := zoom_lvl r; vFov := vFov r;
     hFov := hFov r; aspect := aspect r; move_speed := move_speed r;
     moving := moving r; zooming := zooming r;
     start_mouse_x := start_mouse_x r; start_mouse_y := start_mouse_y r;
     mouse_x := mouse_x r; mouse_y := mouse_y r;
     mouse_history := mouse_history r;
     gyro_alpha_offset := gyro_alpha_offset r; pinch_dist := pinch_dist r;
     orientation_cb := orientation_cb r; autorotate_cb := autorotate_cb r;
     animation_promise := animation_promise r; loading_promise := x;
     start_timeout := start_timeout r; dblclick_data := dblclick_data r;
     dblclick_timeout := dblclick_timeout r; size := size r |}.

Definition set_start_timeout (x : option number) (r : Props) : Props :=
  {| needsUpdate := needsUpdate r; isCubemap := isCubemap r;
     position := position r; zoom_lvl := zoom_lvl r; vFov := vFov r;
     hFov := hFov r; aspect := aspect r; move_speed := move_speed r;
     moving := moving r; zooming := zooming r;
     start_mouse_x := start_mouse_x r; start_mouse_y := start_mouse_y r;
     mouse_x := mouse_x r; mouse_y := mouse_y r;
     mouse_history := mouse_history r;
     gyro_alpha_offset := gyro_alpha_offset r; pinch_dist := pinch_dist r;
     orientation_cb := orientation_cb r; autorotate_cb := autorotate_cb r;
     animation_promise := animation_promise r;
     loading_promise := loading_promise r; start_timeout := x;
     dblclick_data := dblclick_data r;
     dblclick_timeout := dblclick_timeout r; size := size r |}.

Definition set_dblclick_data (x : option ClickData.t) (r : Props) : Props :=
  {| needsUpdate := needsUpdate r; isCubemap := isCubemap r;
     position := position r; zoom_lvl := zoom_lvl r; vFov := vFov r;
     hFov := hFov r; aspect := aspect r; move_speed := move_speed r;
     moving := moving r; zooming := zooming r;
     start_mouse_x := start_mouse_x r; start_mouse_y := start_mouse_y r;
     mouse_x := mouse_x r; mouse_y := mouse_y r;
     mouse_history := mouse_history r;
     gyro_alpha_offset := gyro_alpha_offset r; pinch_dist := pinch_dist r;
     orientation_cb := orientation_cb r; autorotate_cb := autorotate_cb r;
     animation_promise := animation_promise r;
     loading_promise := loading_promise r; start_timeout := start_timeout r;
     dblclick_data := x; dblclick_timeout := dblclick_timeout r;
     size := size r |}.

Definition set_dblclick_timeout (x : option number) (r : Props) : Props :=
  {| needsUpdate := needsUpdate r; isCubemap := isCubemap r;
     position := position r; zoom_lvl := zoom_lvl r; vFov := vFov r;
     hFov := hFov r; aspect := aspect r; move_speed := move_speed r;
     moving := moving r; zooming := zooming r;
     start_mouse_x := start_mouse_x r; start_mouse_y := start_mouse_y r;
     mouse_x := mouse_x r; mouse_y := mouse_y r;
     mouse_history := mouse_history r;
     gyro_alpha_offset := gyro_alpha_offset r; pinch_dist := pinch_dist r;
     orientation_cb := orientation_cb r; autorotate_cb := autorotate_cb r;
     animation_promise := animation_promise r;
     loading_promise := loading_promise r; start_timeout := start_timeout r;
     dblclick_data := dblclick_data r; dblclick_timeout := x;
     size := size r |}.

Definition set_size (x : Size) (r : Props) : Props :=
  {| needsUpdate := needsUpdate r; isCubemap := isCubemap r;
     position := position r; zoom_lvl := zoom_lvl r; vFov := vFov r;
     hFov := hFov r; aspect := aspect r; move_speed := move_speed r;
     moving := moving r; zooming := zooming r;
     start_mouse_x := start_mouse_x r; start_mouse_y := start_mouse_y r;
     mouse_x := mouse_x r; mouse_y := mouse_y r;
     mouse_history := mouse_history r;
     gyro_alpha_offset := gyro_alpha_offset r; pinch_dist := pinch_dist r;
     orientation_cb := orientation_cb r; autorotate_cb := autorotate_cb r;
     animation_promise := animation_promise r;
     loading_promise := loading_promise r; start_timeout := start_timeout r;
     dblclick_data := dblclick_data r;
     dblclick_timeout := dblclick_timeout r; size := x |}.


(** The viewer instance: its configuration, its internal properties, the
    parts of the page the methods at hand test or toggle, the events it
    has triggered (oldest first) and the console warnings.  [non_finite]
    tells whether the code has stored Infinity or NaN in one of its
    numbers. *)
Record Viewer : Type := mkViewer {
  config : Config;
  prop : Props;
  scene : bool;             (* whether [this.scene] exists *)
  canvas_container : bool;  (* whether [this.canvas_container] exists *)
  stereoEffect : bool;      (* whether [this.stereoEffect] exists *)
  notification_visible : bool;  (* [this.notification.isNotificationVisible()] *)
  non_finite : bool;
  triggered : list Event;
  console : list string
}.

Definition with_config (f : Config -> Config) (v : Viewer) : Viewer :=
  {| config := f (config v); prop := prop v; scene := scene v;
     canvas_container := canvas_container v;
     stereoEffect := stereoEffect v;
     notification_visible := notification_visible v;
     non_finite := non_finite v;
     triggered := triggered v; console := console v |}.

Definition with_prop (f : Props -> Props) (v : Viewer) : Viewer :=
  {| config := config v; prop := f (prop v); scene := scene v;
     canvas_container := canvas_container v;
     stereoEffect := stereoEffect v;
     notification_visible := notification_visible v;
     non_finite := non_finite v;
     triggered := triggered v; console := console v |}.

Definition set_scene (b : bool) (v : Viewer) : Viewer :=
  {| config := config v; prop := prop v; scene := b;
     canvas_container := canvas_container v;
     stereoEffect := stereoEffect v;
     notification_visible := notification_visible v;
     non_finite := non_finite v;
     triggered := triggered v; console := console v |}.

Definition set_canvas_container (b : bool) (v : Viewer) : Viewer :=
  {| config := config v; prop := prop v; scene := scene v;
     canvas_container := b;
     stereoEffect := stereoEffect v;
     notification_visible := notification_visible v;
     non_finite := non_finite v;
     triggered := triggered v; console := console v |}.

Definition set_stereoEffect (b : bool) (v : Viewer) : Viewer :=
  {| config := config v; prop := prop v; scene := scene v;
     canvas_container := canvas_container v;
     stereoEffect := b;
     notification_visible := notification_visible v;
     non_finite := non_finite v;
     triggered := triggered v; console := console v |}.

Definition set_notification_visible (b : bool) (v : Viewer) : Viewer :=
  {| config := config v; prop := prop v; scene := scene v;
     canvas_container := canvas_container v;
     stereoEffect := stereoEffect v;
     notification_visible := b;
     non_finite := non_finite v;
     triggered := triggered v; console := console v |}.

Definition set_non_finite (b : bool) (v : Viewer) : Viewer :=
  {| config := config v; prop := prop v; scene := scene v;
     canvas_container := canvas_container v;
     stereoEffect := stereoEffect v;
     notification_visible := notification_visible v;
     non_finite := b;
     triggered := triggered v; console := console v |}.

Definition emit (e : Event) (v : Viewer) : Viewer :=
  {| config := config v; prop := prop v; scene := scene v;
     canvas_container := canvas_container v;
     stereoEffect := stereoEffect v;
     notification_visible := notification_visible v;
     non_finite := non_finite v;
     triggered := triggered v ++ [e]; console := console v |}.

Definition console_warn (msg : string) (v : Viewer) : Viewer :=
  {| config := config v; prop := prop v; scene := scene v;
     canvas_container := canvas_container v;
     stereoEffect := stereoEffect v;
     notification_visible := notification_visible v;
     non_finite := non_finite v;
     triggered := triggered v; console := console v ++ [msg] |}.

(** [x / y] for a stored divisor [y]: when [y] is zero the quotient the
    code computes is Infinity or NaN, and the viewer that stores it, or a
    number computed from it, holds a value that is no rational. *)
Definition dividing_by (y : number) (v : Viewer) : Viewer :=
  if eqb y 0 then set_non_finite true v else v.

(** [PSVError]. *)
Definition PSVError : Type := string.

(** What the constructor throws: a [PSVError], or the [TypeError] of the
    engine. *)
Inductive Thrown : Type :=
| psv_error (message : PSVError)
| type_error.

(** Result of a method that can throw: the value returned or the error
    thrown, with the viewer as the call leaves it. *)
Inductive Outcome (A : Type) : Type :=
| returned (a : A) (v : Viewer)
| thrown (e : PSVError) (v : Viewer).
Arguments returned {A} a v.
Arguments thrown {A} e v.

Definition viewer_of {A : Type} (o : Outcome A) : Viewer :=
  match o with returned _ v => v | thrown _ v => v end.

(** A promise as the public API hands it back. *)
Inductive Promise : Type :=
| D_resolved
| D_rejected
| animation_handle (a : Animation)
| loading_handle (l : Loading).

(** ** What the three source files take from the rest of the library *)

Class Externals : Type := {
  (** constants of [PanoSphereViewer] *)
  MOVE_THRESHOLD : number;
  INERTIA_WINDOW : number;
  DBLCLICK_DELAY : number;
  ANGLE_THRESHOLD : number;
  SPHERE_RADIUS : number;
  pixelRatio : number;
  DEFAULTS_cache_texture : number;
  (** capability probes of [PanoSphereViewer.SYSTEM] and [PSVUtils.checkTHREE] *)
  isCanvasSupported : bool;
  isWebGLSupported : bool;
  has_CanvasRenderer_Projector : bool;
  has_DeviceOrientationControls : bool;
  has_StereoEffect : bool;
  has_NoSleep : bool;  (* ['NoSleep' in window] *)
  (** [document.getElementById(id)] finding an element *)
  getElementById : string -> bool;
  (** methods of the viewer defined in other files *)
  cleanPosition : ExtendedPosition -> Position;
  applyRanges : Config -> Position -> Position * list string;
  viewerCoordsToVector3 : Props -> number -> number -> option Vector3;
  vector3ToSphericalCoords : Vector3 -> Position;
  sphericalCoordsToTextureCoords : Position -> number * number;
  (** helpers of [PSVUtils] and of the host *)
  parseAngle : number -> bool -> number;
  parseSpeed : value -> number;
  getShortestArc : number -> number -> number;
  (** geometry of the container element *)
  boundingRect_left : number;
  boundingRect_top : number;
  offsetLeft : number;
  offsetTop : number;
  offsetWidth : number;
  offsetHeight : number;
  (** floating-point functions the code calls *)
  Math_sqrt : number -> number;
  degToRad : number -> number;
  horizontal_fov : number -> number -> number;
  great_circle_angle : Position -> Position -> number
}.

Section Core.

Context {ext : Externals}.

(** The object [position] after [cleanPosition] has rewritten it in place:
    a spherical position holds the cleaned angles, texture coordinates stay
    and resolve to the same angles again. *)
Definition cleaned (position : ExtendedPosition) : ExtendedPosition :=
  match position with
  | spherical _ => spherical (cleanPosition position)
  | texture x y => texture x y
  end.

(** *** PanoSphereViewer.public.js *)

Definition getPosition (v : Viewer) : Position :=
  {| longitude := longitude (position (prop v));
     latitude := latitude (position (prop v)) |}.

Definition getZoomLevel (v : Viewer) : number := zoom_lvl (prop v).

Definition getSize (v : Viewer) : Size :=
  {| width := width (size (prop v)); height := height (size (prop v)) |}.

Definition isSome {A : Type} (o : option A) : bool :=
  match o with Some _ => true | None => false end.

Definition isAutorotateEnabled (v : Viewer) : bool :=
  isSome (autorotate_cb (prop v)).

Definition isGyroscopeEnabled (v : Viewer) : bool :=
  isSome (orientation_cb (prop v)).

Definition needsUpdate_ (v : Viewer) : Viewer :=
  with_prop (set_needsUpdate true) v.

(** Modelled from the spec: [_reverseAutorotate] is not part of the sources
    at hand; the design document has the autorotation "reversed in
    direction", that is the sign of the configured speed flips. *)
Definition _reverseAutorotate (v : Viewer) : Viewer :=
  with_config (fun c => set_anim_speed (- anim_speed c) c) v.

(** The listener [_bindEvents] attaches to [_side-reached]. *)
Definition on_side_reached (side : string) (v : Viewer) : Viewer :=
  if isAutorotateEnabled v then
    if (String.eqb side "left" || String.eqb side "right")%bool
    then _reverseAutorotate v
    else v
  else v.

(** [trigger]: the event is recorded, then the listeners the viewer itself
    registered run. *)
Definition trigger (e : Event) (v : Viewer) : Viewer :=
  match e with
  | _side_reached side => on_side_reached side (emit e v)
  | _ => emit e v
  end.

(** [sides.forEach(this.trigger.bind(this, '_side-reached'))]. *)
Definition reach (sides : list string) (v : Viewer) : Viewer :=
  fold_left (fun v side => trigger (_side_reached side) v) sides v.

Definition rotate (position : ExtendedPosition) (v : Viewer) : Viewer :=
  let p := cleanPosition position in
  let '(p, sides) := applyRanges (config v) p in
  let v := reach sides v in
  let v := with_prop (set_position p) v in
  let v := needsUpdate_ v in
  trigger (position_updated (getPosition v)) v.

Definition zoom (level : number) (v : Viewer) : Viewer :=
  let v := with_prop (set_zoom_lvl (PSVUtils.bound (Math_round level) 0 100)) v in
  let v := with_prop (set_vFov
             (max_fov (config v)
              + (zoom_lvl (prop v) / 100) * (min_fov (config v) - max_fov (config v)))) v in
  let v := with_prop (set_hFov (horizontal_fov (vFov (prop v)) (aspect (prop v)))) v in
  let v := needsUpdate_ v in
  trigger (zoom_updated (getZoomLevel v)) v.

Definition zoomIn (v : Viewer) : Viewer :=
  if ltb (zoom_lvl (prop v)) 100 then zoom (zoom_lvl (prop v) + 1) v else v.

Definition zoomOut (v : Viewer) : Viewer :=
  if gtb (zoom_lvl (prop v)) 0 then zoom (zoom_lvl (prop v) - 1) v else v.

Definition stopAutorotate (v : Viewer) : Viewer :=
  let v := match start_timeout (prop v) with
           | Some _ => with_prop (set_start_timeout None) v
           | None => v
           end in
  if isAutorotateEnabled v then
    let v := with_prop (set_autorotate_cb None) v in
    trigger (autorotate false) v
  else v.

(** Settling of an animation handle: the [ensure] clause of the inertia
    animation clears [moving]. *)
Definition settle (a : Animation) (v : Viewer) : Viewer :=
  match onTick a with
  | on_inertia => with_prop (set_moving false) v
  | on_rotate => v
  end.

(** [stopAnimation]: [cancel] settles the handle unless it has settled
    already. *)
Definition stopAnimation (v : Viewer) : Viewer :=
  match animation_promise (prop v) with
  | Some a =>
      let v := if running a then settle a v else v in
      with_prop (set_animation_promise None) v
  | None => v
  end.

Definition stopGyroscopeControl (v : Viewer) : Viewer :=
  if isGyroscopeEnabled v then
    let v := with_prop (set_orientation_cb None) v in
    trigger (gyroscope_updated false) v
  else v.

(** Modelled from the spec: [_stopAll] is not part of the sources at hand;
    the design document has a new navigation driver stop whichever driver
    was active before, and the stop-all tear down every registered
    before-render hook: autorotation, animation and gyroscope control. *)
Definition _stopAll (v : Viewer) : Viewer :=
  stopGyroscopeControl (stopAnimation (stopAutorotate v)).

Definition _getAutorotateUpdate : AutorotateCb := {| last := None |}.

Definition startAutorotate (v : Viewer) : Viewer :=
  let v := _stopAll v in
  let v := with_prop (set_autorotate_cb (Some _getAutorotateUpdate)) v in
  trigger (autorotate true) v.

(** One call of the closure of [_getAutorotateUpdate]. *)
Definition autorotateUpdate (cb : AutorotateCb) (timestamp : number) (v : Viewer) : Viewer :=
  let elapsed := match last cb with
                 | None => 0
                 | Some l => timestamp - l
                 end in
  let v := with_prop (set_autorotate_cb (Some {| last := Some timestamp |})) v in
  rotate (spherical
            {| longitude := longitude (position (prop v))
                            + anim_speed (config v) * elapsed / 1000;
               latitude := latitude (position (prop v))
                           - (latitude (position (prop v))
                              - of_nullable (anim_lat (config v))) / 200 |}) v.

Definition toggleAutorotate (v : Viewer) : Viewer :=
  if isAutorotateEnabled v then stopAutorotate v else startAutorotate v.

Definition multiplyScalar (d : Vector3) (k : number) : Vector3 :=
  {| vx := vx d * k; vy := vy d * k; vz := vz d * k |}.

(** [startGyroscopeControl]; [supported] is the way the promise
    [SYSTEM.deviceOrientationSupported] settles and [direction] the camera
    direction once the orientation controls have been updated. *)
Definition startGyroscopeControl (supported : bool) (direction : Vector3)
    (v : Viewer) : Outcome Promise :=
  if has_DeviceOrientationControls then
    if supported then
      let v := _stopAll v in
      let sphericalCoords := vector3ToSphericalCoords direction in
      let v := with_prop (set_gyro_alpha_offset (longitude sphericalCoords)) v in
      let v := with_prop (set_orientation_cb (Some orientationUpdate)) v in
      returned D_resolved (trigger (gyroscope_updated true) v)
    else
      returned D_rejected (console_warn "PanoSphereViewer: gyroscope not available" v)
  else
    thrown "Missing Three.js components: DeviceOrientationControls. Get them from three.js-examples package." v.

(** One call of the closure of [_getOrientationUpdate]; [device] gives the
    camera direction the orientation controls produce for an alpha offset. *)
Definition orientationUpdate_call (device : number -> Vector3) (v : Viewer) : Viewer :=
  let direction := device (gyro_alpha_offset (prop v)) in
  let direction := multiplyScalar direction SPHERE_RADIUS in
  let sphericalCoords := vector3ToSphericalCoords direction in
  let v := with_prop (set_position
             {| longitude := longitude sphericalCoords;
                latitude := latitude sphericalCoords |}) v in
  needsUpdate_ v.

Definition toggleGyroscopeControl (supported : bool) (direction : Vector3)
    (v : Viewer) : Outcome unit :=
  if isGyroscopeEnabled v then returned tt (stopGyroscopeControl v)
  else match startGyroscopeControl supported direction v with
       | returned _ v => returned tt v
       | thrown e v => thrown e v
       end.

Definition isStereoEnabled (v : Viewer) : bool := stereoEffect v.

(** [startNoSleep]: the wake lock is no part of the viewer state; what the
    viewer shows of the call is the warning when NoSleep.js is missing. *)
Definition startNoSleep (v : Viewer) : Viewer :=
  if negb has_NoSleep
  then console_warn "PanoSphereViewer: NoSleep is not available" v
  else v.

(** [notification.showNotification] and [notification.hideNotification]
    ([components/PSVNotification.js]) as the viewer sees them: the banner
    shown or hidden, and the event triggered on the viewer.  The timer
    [showNotification] sets calls [hideNotification] when it comes due. *)
Definition showNotification (v : Viewer) : Viewer :=
  let v := set_notification_visible true v in
  trigger show_notification v.

Definition hideNotification (v : Viewer) : Viewer :=
  if notification_visible v then
    let v := set_notification_visible false v in
    trigger hide_notification v
  else v.

(** [startStereoView]; [supported] and [direction] as for
    [startGyroscopeControl].  The full screen is the browser's, and the
    hud, the navigation bar and the panel it hides are components whose
    files are not part of the sources at hand. *)
Definition startStereoView (supported : bool) (direction : Vector3)
    (v : Viewer) : Outcome unit :=
  if (has_DeviceOrientationControls && has_StereoEffect)%bool then
    (* Need to be in the main event queue *)
    let v := startNoSleep v in
    match startGyroscopeControl supported direction v with
    | returned D_resolved v =>
        let v := set_stereoEffect true v in
        let v := needsUpdate_ v in
        let v := trigger (stereo_updated true) v in
        returned tt (showNotification v)
    | returned _ v => returned tt v
    | thrown e v => thrown e v
    end
  else
    thrown "Missing Three.js components: StereoEffect, DeviceOrientationControls. Get them from three.js-examples package." v.

Definition stopStereoView (v : Viewer) : Viewer :=
  if isStereoEnabled v then
    let v := set_stereoEffect false v in
    let v := needsUpdate_ v in
    let v := stopGyroscopeControl v in
    trigger (stereo_updated false) v
  else v.

Definition animate (pos : ExtendedPosition) (dur : value) (v : Viewer)
    : Promise * Viewer :=
  let v := _stopAll v in
  let target := cleanPosition pos in
  let pos := cleaned pos in
  if (negb (truthy_value dur)
      || (ltb (Math_abs (longitude target - longitude (position (prop v)))) ANGLE_THRESHOLD
          && ltb (Math_abs (latitude target - latitude (position (prop v)))) ANGLE_THRESHOLD))%bool
  then (D_resolved, rotate pos v)
  else
    let '(target, sides) := applyRanges (config v) target in
    let v := reach sides v in
    let dur :=
      if (negb (truthy_value dur) && negb (is_number dur))%bool then
        (* desired radial speed *)
        let speed := if truthy_value dur then parseSpeed dur
                     else anim_speed (config v) in
        let angle := great_circle_angle (position (prop v)) target in
        num (angle / speed * 1000)
      else dur in
    (* longitude offset for shortest arc *)
    let tOffset := getShortestArc (longitude (position (prop v))) (longitude target) in
    let a := {| properties :=
                  [("longitude",
                    (longitude (position (prop v)),
                     longitude (position (prop v)) + tOffset));
                   ("latitude",
                    (latitude (position (prop v)), latitude target))];
                duration := dur;
                easing := "inOutSine";
                onTick := on_rotate;
                running := true |} in
    (animation_handle a, with_prop (set_animation_promise (Some a)) v).

(** [setPanorama], with the optional arguments already told apart: [pos]
    is [None] when no position is passed. *)
Definition setPanorama (path : string) (pos : option ExtendedPosition)
    (with_transition : bool) (v : Viewer) : Outcome Promise :=
  match loading_promise (prop v) with
  | Some _ => thrown "Loading already in progress" v
  | None =>
      if (with_transition && isCubemap (prop v))%bool then
        thrown "Transition is not available with cubemap." v
      else
        let pos' := option_map cleaned pos in
        let v := match pos with
                 | Some _ => _stopAll v
                 | None => v
                 end in
        let v := with_config (set_panorama (Some path)) v in
        let l := {| load_position := pos';
                    load_transition :=
                      negb (negb with_transition || negb (transition (config v))
                            || negb (scene v)) |} in
        let v := with_prop (set_loading_promise (Some l)) v in
        returned (loading_handle l) v
  end.

(** Modelled from the spec: [_setTexture] is not part of the sources at
    hand; the design document has the renderer rebuild the mesh and the
    texture when the panorama changes.  The constructor leaves [scene] and
    [canvas_container] at [null] and [setPanorama] tests both before it
    uses them: they come with the first texture that is set. *)
Definition _setTexture (v : Viewer) : Viewer :=
  set_canvas_container true (set_scene true v).

(** Continuation of [setPanorama] once the texture promise settles; [ok]
    tells whether the texture was loaded.  The transition effect belongs
    to the renderer side.  Without transition the [ensure] clause sets the
    opacity of [canvas_container] before it clears [loading_promise]: where
    there is no canvas container the assignment throws and the promise
    stays. *)
Definition panoramaLoaded (ok : bool) (v : Viewer) : Viewer :=
  match loading_promise (prop v) with
  | None => v
  | Some l =>
      if load_transition l then
        with_prop (set_loading_promise None) v
      else
        let v :=
          if ok then
            let v := _setTexture v in
            match load_position l with
            | Some pos => rotate pos v
            | None => v
            end
          else v in
        if canvas_container v
        then with_prop (set_loading_promise None) v
        else v
  end.

(** Truthiness of [config.panorama]: a path that is not the empty string. *)
Definition configured_panorama (c : Config) : option string :=
  match panorama c with
  | Some path => if String.eqb path EmptyString then None else Some path
  | None => None
  end.

(** [load]. *)
Definition load (v : Viewer) : Outcome Promise :=
  match configured_panorama (config v) with
  | None => thrown "No value given for panorama." v
  | Some path => setPanorama path None false v
  end.

(** *** PanoSphereViewer.events.js *)

(** A handler that reads past the end of the history or spins in its loop
    does not complete; such a handler yields [None]. *)
Notation "'let?' x ':=' e 'in' k" :=
  (match e with Some x => k | None => None end)
  (at level 10, x name, e at level 100, k at level 200, only parsing).

Definition _onResize (clientWidth clientHeight : number) (v : Viewer) : Viewer :=
  if (negb (eqb clientWidth (width (size (prop v))))
      || negb (eqb clientHeight (height (size (prop v)))))%bool then
    let v := with_prop (set_size {| width := parseInt clientWidth;
                                    height := parseInt clientHeight |}) v in
    let v := dividing_by (height (size (prop v))) v in
    let v := with_prop (set_aspect (width (size (prop v)) / height (size (prop v)))) v in
    let v := needsUpdate_ v in
    trigger (size_updated (getSize v)) v
  else v.

Definition _onKeyDown (key : string) (v : Viewer) : Viewer :=
  let dLat := if String.eqb key "ArrowUp" then 1 # 100
              else if String.eqb key "ArrowDown" then - (1 # 100)
              else 0 in
  let dLong := if String.eqb key "ArrowRight" then 1 # 100
               else if String.eqb key "ArrowLeft" then - (1 # 100)
               else 0 in
  let dZoom := if (String.eqb key "PageUp" || String.eqb key "+")%bool then 1
               else if (String.eqb key "PageDown" || String.eqb key "-")%bool then - (1)
               else 0 in
  if negb (eqb dZoom 0) then
    zoom (zoom_lvl (prop v) + dZoom) v
  else if (negb (eqb dLat 0) || negb (eqb dLong 0))%bool then
    rotate (spherical
              {| longitude := longitude (position (prop v))
                              + dLong * move_speed (prop v) * hFov (prop v);
                 latitude := latitude (position (prop v))
                             + dLat * move_speed (prop v) * vFov (prop v) |}) v
  else v.

(** [this.prop.mouse_history[0][i]], [None] when it is [undefined]. *)
Definition history_0 (h : list (list number)) (i : nat) : option number :=
  match h with
  | [] => None
  | s :: _ => nth_error s i
  end.

(** [Array.prototype.splice(start, count)], for the array left behind. *)
Definition splice {A : Type} (l : list A) (start count : nat) : list A :=
  firstn start l ++ skipn (start + count) l.

(** [x < y] where [x] may be [undefined]. *)
Definition ltb_undef (x : option number) (y : number) : bool :=
  match x with Some x => ltb x y | None => false end.

(** [previous && x - previous > y] where [previous] may be [null] or
    [undefined] and [x] may be [undefined]. *)
Definition pause_longer (previous x : option number) (y : number) : bool :=
  match previous, x with
  | Some p, Some x => (truthy p && gtb (x - p) y)%bool
  | _, _ => false
  end.

(** The [for] loop of [_logMouseMove]; every iteration uses one unit of
    [fuel], and the loop is cut ([None]) when none is left. *)
Fixpoint logMouseMove_loop (fuel : nat) (now : number) (h : list (list number))
    (i : nat) (previous : option number) : option (list (list number)) :=
  if Nat.ltb i (List.length h) then
    match fuel with
    | O => None
    | S fuel =>
        if ltb_undef (history_0 h i) (now - INERTIA_WINDOW) then
          logMouseMove_loop fuel now (splice h i 1) i previous
        else if pause_longer previous (history_0 h i) (INERTIA_WINDOW / 10) then
          let h := splice h 0 i in
          logMouseMove_loop fuel now h 0 (history_0 h 0)
        else
          logMouseMove_loop fuel now h (S i) (history_0 h (S i))
    end
  else Some h.

(** Enough iterations for every run of the loop that ends: an iteration
    either shortens the history, or moves [i] forward, or (once in a row)
    resets [i] without shortening. *)
Definition logMouseMove_fuel (h : list (list number)) : nat := 4 * List.length h + 2.

(** [_logMouseMove]; [now] is the value [Date.now()] returns. *)
Definition _logMouseMove (evt : PointerEvt) (now : number) (v : Viewer) : option Viewer :=
  let h := mouse_history (prop v) ++ [[now; clientX evt; clientY evt]] in
  let? h := logMouseMove_loop (logMouseMove_fuel h) now h 0 None in
  Some (with_prop (set_mouse_history h) v).

Definition _startMove (evt : PointerEvt) (now : number) (v : Viewer) : option Viewer :=
  let v := stopAutorotate v in
  let v := stopAnimation v in
  let v := with_prop (set_start_mouse_x (parseInt (clientX evt))) v in
  let v := with_prop (set_mouse_x (start_mouse_x (prop v))) v in
  let v := with_prop (set_start_mouse_y (parseInt (clientY evt))) v in
  let v := with_prop (set_mouse_y (start_mouse_y (prop v))) v in
  let v := with_prop (set_moving true) v in
  let v := with_prop (set_zooming false) v in
  let v := with_prop (set_mouse_history []) v in
  _logMouseMove evt now v.

Definition _startZoom (t0 t1 : PointerEvt) (v : Viewer) : Viewer :=
  let x0 := parseInt (clientX t0) in
  let y0 := parseInt (clientY t0) in
  let x1 := parseInt (clientX t1) in
  let y1 := parseInt (clientY t1) in
  let v := with_prop (set_pinch_dist
             (Math_sqrt ((x0 - x1) * (x0 - x1) + (y0 - y1) * (y0 - y1)))) v in
  let v := with_prop (set_moving false) v in
  with_prop (set_zooming true) v.

(** The click data [_click] assembles, [None] when the pointer ray meets
    no point of the sphere. *)
Definition click_data (evt : PointerEvt) (v : Viewer) : option ClickData.t :=
  let viewer_x := parseInt (clientX evt - boundingRect_left) in
  let viewer_y := parseInt (clientY evt - boundingRect_top) in
  match viewerCoordsToVector3 (prop v) viewer_x viewer_y with
  | None => None
  | Some intersect =>
      let sphericalCoords := vector3ToSphericalCoords intersect in
      (* TODO: for cubemap, computes texture's index and coordinates *)
      let textureCoords :=
        if negb (isCubemap (prop v))
        then Some (sphericalCoordsToTextureCoords
                     {| longitude := longitude sphericalCoords;
                        latitude := latitude sphericalCoords |})
        else None in
      Some {| ClickData.target := evt_target evt;
              ClickData.client_x := clientX evt;
              ClickData.client_y := clientY evt;
              ClickData.viewer_x := viewer_x;
              ClickData.viewer_y := viewer_y;
              ClickData.longitude := longitude sphericalCoords;
              ClickData.latitude := latitude sphericalCoords;
              ClickData.texture_x := option_map fst textureCoords;
              ClickData.texture_y := option_map snd textureCoords |}
  end.

(** Both coordinates of two clicks closer than [MOVE_THRESHOLD]. *)
Definition near (first data : ClickData.t) : bool :=
  (ltb (Math_abs (ClickData.client_x first - ClickData.client_x data)) MOVE_THRESHOLD
   && ltb (Math_abs (ClickData.client_y first - ClickData.client_y data)) MOVE_THRESHOLD)%bool.

(** [_click]; [now] is the time at which [setTimeout] is called, so that the
    timer is due at [now + DBLCLICK_DELAY]. *)
Definition _click (evt : PointerEvt) (now : number) (v : Viewer) : option Viewer :=
  match click_data evt v with
  | None => Some v
  | Some data =>
      match dblclick_timeout (prop v) with
      | None =>
          let v := trigger (click data) v in
          let v := with_prop (set_dblclick_data (Some data)) v in
          Some (with_prop (set_dblclick_timeout (Some (now + DBLCLICK_DELAY))) v)
      | Some _ =>
          let? first := dblclick_data (prop v) in
          let v := if near first data then trigger (dblclick first) v else v in
          let v := with_prop (set_dblclick_timeout None) v in
          Some (with_prop (set_dblclick_data None) v)
      end
  end.

(** The callback [_click] hands to [setTimeout]. *)
Definition dblclick_expired (v : Viewer) : Viewer :=
  let v := with_prop (set_dblclick_timeout None) v in
  with_prop (set_dblclick_data None) v.

Definition _move (evt : PointerEvt) (log : bool) (now : number) (v : Viewer) : option Viewer :=
  if moving (prop v) then
    let x := parseInt (clientX evt) in
    let y := parseInt (clientY evt) in
    let rotation_longitude :=
      (x - mouse_x (prop v)) / width (size (prop v))
      * move_speed (prop v) * hFov (prop v) * pixelRatio in
    let rotation_latitude :=
      (y - mouse_y (prop v)) / height (size (prop v))
      * move_speed (prop v) * vFov (prop v) * pixelRatio in
    let v := dividing_by (width (size (prop v))) v in
    let v :=
      if isGyroscopeEnabled v then
        with_prop (set_gyro_alpha_offset
                     (gyro_alpha_offset (prop v) + rotation_longitude)) v
      else
        let v := dividing_by (height (size (prop v))) v in
        rotate (spherical
                  {| longitude := longitude (position (prop v)) - rotation_longitude;
                     latitude := latitude (position (prop v)) + rotation_latitude |}) v in
    let v := with_prop (set_mouse_x x) v in
    let v := with_prop (set_mouse_y y) v in
    if log then _logMouseMove evt now v else Some v
  else Some v.

Definition _moveAbsolute (evt : PointerEvt) (v : Viewer) : Viewer :=
  if moving (prop v) then
    let v := dividing_by offsetWidth v in
    let v := dividing_by offsetHeight v in
    rotate (spherical
              {| longitude := ((clientX evt - offsetLeft) / offsetWidth - (1 # 2))
                              * PSVUtils.TwoPI;
                 latitude := - (((clientY evt - offsetTop) / offsetHeight - (1 # 2))
                                * Math_PI) |}) v
  else v.

Definition _stopMoveInertia (evt : PointerEvt) (v : Viewer) : option Viewer :=
  let? x0 := history_0 (mouse_history (prop v)) 1 in
  let? y0 := history_0 (mouse_history (prop v)) 2 in
  let direction_x := clientX evt - x0 in
  let direction_y := clientY evt - y0 in
  let norm := Math_sqrt (direction_x * direction_x + direction_y * direction_y) in
  let a := {| properties :=
                [("clientX", (clientX evt, clientX evt + direction_x));
                 ("clientY", (clientY evt, clientY evt + direction_y))];
              duration := num (norm * INERTIA_WINDOW / 100);
              easing := "outCirc";
              onTick := on_inertia;
              running := true |} in
  Some (with_prop (set_animation_promise (Some a)) v).

Definition _stopMove (evt : PointerEvt) (now : number) (v : Viewer) : option Viewer :=
  if negb (in_hud evt) then Some v
  else
    let? v :=
      if moving (prop v) then
        let? v :=
          (* move threshold to trigger a click *)
          if (ltb (Math_abs (clientX evt - start_mouse_x (prop v))) MOVE_THRESHOLD
              && ltb (Math_abs (clientY evt - start_mouse_y (prop v))) MOVE_THRESHOLD)%bool
          then
            let? v := _click evt now v in
            Some (with_prop (set_moving false) v)
          (* inertia animation *)
          else if (move_inertia (config v) && negb (isGyroscopeEnabled v))%bool then
            let? v := _logMouseMove evt now v in
            _stopMoveInertia evt v
          else
            Some (with_prop (set_moving false) v) in
        Some (with_prop (set_mouse_history []) v)
      else Some v in
    Some (with_prop (set_zooming false) v).

Definition _zoom (t0 t1 : PointerEvt) (v : Viewer) : Viewer :=
  if zooming (prop v) then
    let x0 := parseInt (clientX t0) in
    let y0 := parseInt (clientY t0) in
    let x1 := parseInt (clientX t1) in
    let y1 := parseInt (clientY t1) in
    let p := Math_sqrt ((x0 - x1) * (x0 - x1) + (y0 - y1) * (y0 - y1)) in
    let delta := 80 * (p - pinch_dist (prop v)) / width (size (prop v)) in
    let v := dividing_by (width (size (prop v))) v in
    let v := zoom (zoom_lvl (prop v) + delta) v in
    with_prop (set_pinch_dist p) v
  else v.

Definition _onMouseDown (evt : PointerEvt) (now : number) (v : Viewer) : option Viewer :=
  _startMove evt now v.

Definition _onMouseUp (evt : PointerEvt) (now : number) (v : Viewer) : option Viewer :=
  let? v := _stopMove evt now v in
  Some (if isStereoEnabled v then stopStereoView v else v).

Definition _onMouseMove (evt : PointerEvt) (now : number) (v : Viewer) : option Viewer :=
  if negb (eqb (buttons evt) 0) then _move evt true now v
  else if mousemove_hover (config v) then Some (_moveAbsolute evt v)
  else Some v.

Definition _onTouchStart (touches : list PointerEvt) (now : number) (v : Viewer)
    : option Viewer :=
  match touches with
  | [t0] => _startMove t0 now v
  | [t0; t1] => Some (_startZoom t0 t1 v)
  | _ => Some v
  end.

Definition _onTouchEnd (changed : PointerEvt) (now : number) (v : Viewer) : option Viewer :=
  _stopMove changed now v.

Definition _onTouchMove (touches : list PointerEvt) (now : number) (v : Viewer)
    : option Viewer :=
  match touches with
  | [t0] => _move t0 true now v
  | [t0; t1] => Some (_zoom t0 t1 v)
  | _ => Some v
  end.

(** [_onMouseWheel]; [spinY] is [PSVUtils.normalizeWheel(evt).spinY]. *)
Definition _onMouseWheel (spinY : number) (v : Viewer) : Viewer :=
  let delta := spinY * 5 in
  if negb (eqb delta 0) then
    zoom (zoom_lvl (prop v) - delta * mousewheel_factor (config v)) v
  else v.

(** *** PanoSphereViewer.js: the constructor *)

Definition initial_prop : Props :=
  {| needsUpdate := true;
     isCubemap := false;
     position := {| longitude := 0; latitude := 0 |};
     zoom_lvl := 0;
     vFov := 0;
     hFov := 0;
     aspect := 0;
     move_speed := 1 # 10;
     moving := false;
     zooming := false;
     start_mouse_x := 0;
     start_mouse_y := 0;
     mouse_x := 0;
     mouse_y := 0;
     mouse_history := [];
     gyro_alpha_offset := 0;
     pinch_dist := 0;
     orientation_cb := None;
     autorotate_cb := None;
     animation_promise := None;
     loading_promise := None;
     start_timeout := None;
     dblclick_data := None;
     dblclick_timeout := None;
     size := {| width := 0; height := 0 |} |}.

(** longitude range must have two values *)
Definition check_longitude_range (v : Viewer) : Viewer :=
  match longitude_range (config v) with
  | Some r =>
      if negb (Nat.eqb (List.length r) 2) then
        let v := with_config (set_longitude_range None) v in
        console_warn "PanoSphereViewer: longitude_range must have exactly two elements." v
      else v
  | None => v
  end.

Definition check_latitude_range (v : Viewer) : Viewer :=
  match latitude_range (config v) with
  | Some r =>
      (* latitude range must have two values *)
      if negb (Nat.eqb (List.length r) 2) then
        let v := with_config (set_latitude_range None) v in
        console_warn "PanoSphereViewer: latitude_range must have exactly two elements." v
      (* latitude range must be ordered *)
      else
        match r with
        | [r0; r1] =>
            if gtb r0 r1 then
              let v := with_config (set_latitude_range (Some [r1; r0])) v in
              console_warn "PanoSphereViewer: latitude_range values must be ordered." v
            else v
        | _ => v
        end
  | None =>
      (* migrate legacy tilt_up_max and tilt_down_max *)
      if (isSome (tilt_up_max (config v)) || isSome (tilt_down_max (config v)))%bool then
        let lo := match tilt_down_max (config v) with
                  | Some t => t - Math_PI / 4
                  | None => - PSVUtils.HalfPI
                  end in
        let hi := match tilt_up_max (config v) with
                  | Some t => t + Math_PI / 4
                  | None => PSVUtils.HalfPI
                  end in
        let v := with_config (set_latitude_range (Some [lo; hi])) v in
        console_warn "PanoSphereViewer: tilt_up_max and tilt_down_max are deprecated, use latitude_range instead." v
      else v
  end.

(** min_fov and max_fov must be ordered *)
Definition check_fov_order (v : Viewer) : Viewer :=
  if ltb (max_fov (config v)) (min_fov (config v)) then
    let temp_fov := max_fov (config v) in
    let v := with_config (fun c => set_max_fov (min_fov c) c) v in
    let v := with_config (set_min_fov temp_fov) v in
    console_warn "PanoSphereViewer: max_fov cannot be lower than min_fov." v
  else v.

Definition check_cache_texture (v : Viewer) : Viewer :=
  if (truthy (cache_texture (config v))
      && (negb (PSVUtils.isInteger (cache_texture (config v)))
          || ltb (cache_texture (config v)) 0))%bool then
    let v := with_config (set_cache_texture DEFAULTS_cache_texture) v in
    console_warn "PanoSphereViewer: invalid value for cache_texture" v
  else v.

(** min_fov/max_fov between 1 and 179 *)
Definition bound_fov (v : Viewer) : Viewer :=
  let v := with_config (fun c => set_min_fov (PSVUtils.bound (min_fov c) 1 179) c) v in
  with_config (fun c => set_max_fov (PSVUtils.bound (max_fov c) 1 179) c) v.

Definition set_default_fov_ (v : Viewer) : Viewer :=
  match default_fov (config v) with
  (* default default_fov is middle point between min_fov and max_fov *)
  | None =>
      with_config (fun c => set_default_fov (Some (max_fov c / 2 + min_fov c / 2)) c) v
  (* default_fov between min_fov and max_fov *)
  | Some d =>
      with_config (fun c => set_default_fov
                              (Some (PSVUtils.bound d (min_fov c) (max_fov c))) c) v
  end.

Definition parse_config (v : Viewer) : Viewer :=
  (* parse default_long, is between 0 and 2*PI *)
  let v := with_config (fun c => set_default_long (parseAngle (default_long c) false) c) v in
  (* parse default_lat, is between -PI/2 and PI/2 *)
  let v := with_config (fun c => set_default_lat (parseAngle (default_lat c) true) c) v in
  let v := match anim_lat (config v) with
           (* default anim_lat is default_lat *)
           | None => with_config (fun c => set_anim_lat (Some (default_lat c)) c) v
           (* parse anim_lat, is between -PI/2 and PI/2 *)
           | Some a => with_config (set_anim_lat (Some (parseAngle a true))) v
           end in
  (* parse longitude_range, between 0 and 2*PI *)
  let v := match longitude_range (config v) with
           | Some r => with_config (set_longitude_range
                         (Some (map (fun angle => parseAngle angle false) r))) v
           | None => v
           end in
  (* parse latitude_range, between -PI/2 and PI/2 *)
  let v := match latitude_range (config v) with
           | Some r => with_config (set_latitude_range
                         (Some (map (fun angle => parseAngle angle true) r))) v
           | None => v
           end in
  (* parse anim_speed *)
  with_config (fun c => set_anim_speed (parseSpeed (num (anim_speed c))) c) v.

(** The corrections of the configuration, lines 113 to 164 of the
    constructor (the deprecated options that only concern the sphere mesh
    are not part of the camera state). *)
Definition check_config (v : Viewer) : Viewer :=
  let v := check_longitude_range v in
  let v := check_latitude_range v in
  let v := check_fov_order v in
  let v := check_cache_texture v in
  bound_fov v.

(** Lines 113 to 223: corrections, defaults and parsing. *)
Definition configure (v : Viewer) : Viewer :=
  let v := check_config v in
  let v := set_default_fov_ v in
  parse_config v.

(** The instance as the constructor first fills it. *)
Definition blank (options : Config) : Viewer :=
  {| config := options; prop := initial_prop; scene := false;
     canvas_container := false; stereoEffect := false;
     notification_visible := false; non_finite := false;
     triggered := []; console := [] |}.

(** apply default zoom level *)
Definition apply_default_zoom (v : Viewer) : Viewer :=
  let tempZoom :=
    Math_round ((of_nullable (default_fov (config v)) - min_fov (config v))
                / (max_fov (config v) - min_fov (config v)) * 100) in
  let v := dividing_by (max_fov (config v) - min_fov (config v)) v in
  zoom (tempZoom - 2 * (tempZoom - 50)) v.

(** actual move speed depends on pixel-ratio *)
Definition apply_move_speed (v : Viewer) : Viewer :=
  with_prop (set_move_speed (degToRad (config_move_speed (config v) / pixelRatio))) v.

(** set default position *)
Definition apply_default_position (v : Viewer) : Viewer :=
  rotate (spherical {| longitude := default_long (config v);
                       latitude := default_lat (config v) |}) v.

(** Truthiness of [options.container]: an element, or an id that is not
    the empty string. *)
Definition given (c : Container) : bool :=
  match c with
  | no_container => false
  | container_element => true
  | container_id id => negb (String.eqb id EmptyString)
  end.

(** Whether [this.parent] is an element: the container itself, or what
    [document.getElementById] finds for its id. *)
Definition parent (options : Config) : bool :=
  match container options with
  | no_container => false
  | container_element => true
  | container_id id => getElementById id
  end.

(** The constructor; [options] is [DEFAULTS] merged with the options given,
    [clientWidth] and [clientHeight] the size of the container element. *)
Definition PanoSphereViewer (options : Config) (clientWidth clientHeight : number)
    : Thrown + Viewer :=
  (* check container *)
  if negb (given (container options)) then
    inl (psv_error "No value given for container.")
  (* must support canvas *)
  else if negb isCanvasSupported then inl (psv_error "Canvas is not supported.")
  (* additional scripts if webgl not supported/disabled *)
  else if ((negb isWebGLSupported || negb (webgl options))
           && negb has_CanvasRenderer_Projector)%bool then
    inl (psv_error "Missing Three.js components: CanvasRenderer, Projector. Get them from three.js-examples package.")
  else
    let v := blank options in
    let v := configure v in
    (* init: [this.parent.panoSphereViewer = this] *)
    if negb (parent options) then inl type_error
    else
      let v := _onResize clientWidth clientHeight v in
      let v := apply_default_zoom v in
      let v := apply_move_speed v in
      let v := apply_default_position v in
      (* load panorama *)
      match configured_panorama (config v) with
      | Some path =>
          match setPanorama path None false v with
          | returned _ v => inr v
          | thrown e _ => inl (psv_error e)
          end
      | None => inr v
      end.

(** The latitude range and the cache size the corrections leave. *)
Definition corrected_latitude_range (c : Config) : option (list number) :=
  match latitude_range c with
  | Some r =>
      if negb (Nat.eqb (List.length r) 2) then None
      else match r with
           | [r0; r1] => if gtb r0 r1 then Some [r1; r0] else Some r
           | _ => Some r
           end
  | None =>
      if (isSome (tilt_up_max c) || isSome (tilt_down_max c))%bool then
        Some [match tilt_down_max c with
              | Some t => t - Math_PI / 4
              | None => - PSVUtils.HalfPI
              end;
              match tilt_up_max c with
              | Some t => t + Math_PI / 4
              | None => PSVUtils.HalfPI
              end]
      else None
  end.

Definition corrected_cache_texture (c : Config) : number :=
  if (truthy (cache_texture c)
      && (negb (PSVUtils.isInteger (cache_texture c)) || ltb (cache_texture c) 0))%bool
  then DEFAULTS_cache_texture
  else cache_texture c.

(** The warnings the corrections send to the console. *)
Definition longitude_range_warning (c : Config) : list string :=
  match longitude_range c with
  | Some r =>
      if negb (Nat.eqb (List.length r) 2)
      then ["PanoSphereViewer: longitude_range must have exactly two elements."]
      else []
  | None => []
  end.

Definition latitude_range_warning (c : Config) : list string :=
  match latitude_range c with
  | Some r =>
      if negb (Nat.eqb (List.length r) 2)
      then ["PanoSphereViewer: latitude_range must have exactly two elements."]
      else match r with
           | [r0; r1] =>
               if gtb r0 r1
               then ["PanoSphereViewer: latitude_range values must be ordered."]
               else []
           | _ => []
           end
  | None =>
      if (isSome (tilt_up_max c) || isSome (tilt_down_max c))%bool
      then ["PanoSphereViewer: tilt_up_max and tilt_down_max are deprecated, use latitude_range instead."]
      else []
  end.

Definition fov_warning (c : Config) : list string :=
  if ltb (max_fov c) (min_fov c)
  then ["PanoSphereViewer: max_fov cannot be lower than min_fov."]
  else [].

Definition cache_texture_warning (c : Config) : list string :=
  if (truthy (cache_texture c)
      && (negb (PSVUtils.isInteger (cache_texture c)) || ltb (cache_texture c) 0))%bool
  then ["PanoSphereViewer: invalid value for cache_texture"]
  else [].

(** What the constructor requires before it looks at the ranges and the
    fields of view: a container (an element, or the id of one the
    document has), canvas support, and a renderer (WebGL supported and
    wanted, or the canvas renderer loaded). *)
Definition can_construct (options : Config) : bool :=
  (given (container options) && parent options
   && isCanvasSupported
   && ((isWebGLSupported && webgl options) || has_CanvasRenderer_Projector))%bool.

(** ** The viewer as a transition system *)

(** Whatever can happen to a viewer: a call of its public API, a DOM event
    dispatched to [handleEvent], a frame of the render loop, a tick or the
    completion of the running animation, a timer coming due (for the
    notification banner: a call of [hideNotification]). *)
Inductive Op : Type :=
| op_rotate (pos : ExtendedPosition)
| op_animate (pos : ExtendedPosition) (dur : value)
| op_stopAnimation
| op_zoom (level : number)
| op_zoomIn
| op_zoomOut
| op_startAutorotate
| op_stopAutorotate
| op_toggleAutorotate
| op_startGyroscopeControl (supported : bool) (direction : Vector3)
| op_stopGyroscopeControl
| op_toggleGyroscopeControl (supported : bool) (direction : Vector3)
| op_startStereoView (supported : bool) (direction : Vector3)
| op_stopStereoView
| op_setPanorama (path : string) (pos : option ExtendedPosition) (with_transition : bool)
| op_panoramaLoaded (ok : bool)
| op_resize (clientWidth clientHeight : number)
| op_keydown (key : string)
| op_mousedown (evt : PointerEvt) (now : number)
| op_mouseup (evt : PointerEvt) (now : number)
| op_mousemove (evt : PointerEvt) (now : number)
| op_touchstart (touches : list PointerEvt) (now : number)
| op_touchend (changed : PointerEvt) (now : number)
| op_touchmove (touches : list PointerEvt) (now : number)
| op_mousewheel (spinY : number)
| op_before_render (timestamp : number) (device : number -> Vector3)
| op_animation_tick (a b : number)
| op_animation_done
| op_dblclick_timeout
| op_start_timeout
| op_hideNotification.

(** The [before-render] event: the hooks registered by [startAutorotate]
    and [startGyroscopeControl] are called with the frame timestamp. *)
Definition before_render (timestamp : number) (device : number -> Vector3)
    (v : Viewer) : Viewer :=
  let v := match autorotate_cb (prop v) with
           | Some cb => autorotateUpdate cb timestamp v
           | None => v
           end in
  match orientation_cb (prop v) with
  | Some _ => orientationUpdate_call device v
  | None => v
  end.

(** A tick of the running animation: [a] and [b] are the interpolated values
    of its two properties, handed to its [onTick]. *)
Definition animation_tick (a b : number) (v : Viewer) : option Viewer :=
  match animation_promise (prop v) with
  | Some anim =>
      if running anim then
        match onTick anim with
        | on_rotate => Some (rotate (spherical {| longitude := a; latitude := b |}) v)
        | on_inertia =>
            _move {| evt_target := 0; in_hud := false;
                     clientX := a; clientY := b; buttons := 0 |} false 0 v
        end
      else Some v
  | None => Some v
  end.

(** The running animation reaches its end: its promise settles, the handle
    stays in [animation_promise]. *)
Definition animation_done (v : Viewer) : Viewer :=
  match animation_promise (prop v) with
  | Some anim =>
      if running anim then
        let v := settle anim v in
        with_prop (set_animation_promise
                     (Some {| properties := properties anim;
                              duration := duration anim;
                              easing := easing anim;
                              onTick := onTick anim;
                              running := false |})) v
      else v
  | None => v
  end.

Definition step (op : Op) (v : Viewer) : option Viewer :=
  match op with
  | op_rotate pos => Some (rotate pos v)
  | op_animate pos dur => Some (snd (animate pos dur v))
  | op_stopAnimation => Some (stopAnimation v)
  | op_zoom level => Some (zoom level v)
  | op_zoomIn => Some (zoomIn v)
  | op_zoomOut => Some (zoomOut v)
  | op_startAutorotate => Some (startAutorotate v)
  | op_stopAutorotate => Some (stopAutorotate v)
  | op_toggleAutorotate => Some (toggleAutorotate v)
  | op_startGyroscopeControl supported direction =>
      Some (viewer_of (startGyroscopeControl supported direction v))
  | op_stopGyroscopeControl => Some (stopGyroscopeControl v)
  | op_toggleGyroscopeControl supported direction =>
      Some (viewer_of (toggleGyroscopeControl supported direction v))
  | op_startStereoView supported direction =>
      Some (viewer_of (startStereoView supported direction v))
  | op_stopStereoView => Some (stopStereoView v)
  | op_setPanorama path pos with_transition =>
      Some (viewer_of (setPanorama path pos with_transition v))
  | op_panoramaLoaded ok => Some (panoramaLoaded ok v)
  | op_resize clientWidth clientHeight => Some (_onResize clientWidth clientHeight v)
  | op_keydown key => Some (_onKeyDown key v)
  | op_mousedown evt now => _onMouseDown evt now v
  | op_mouseup evt now => _onMouseUp evt now v
  | op_mousemove evt now => _onMouseMove evt now v
  | op_touchstart touches now => _onTouchStart touches now v
  | op_touchend changed now => _onTouchEnd changed now v
  | op_touchmove touches now => _onTouchMove touches now v
  | op_mousewheel spinY => Some (_onMouseWheel spinY v)
  | op_before_render timestamp device => Some (before_render timestamp device v)
  | op_animation_tick a b => animation_tick a b v
  | op_animation_done => Some (animation_done v)
  | op_dblclick_timeout =>
      Some (match dblclick_timeout (prop v) with
            | Some _ => dblclick_expired v
            | None => v
            end)
  | op_start_timeout =>
      Some (match start_timeout (prop v) with
            | Some _ => startAutorotate v
            | None => v
            end)
  | op_hideNotification => Some (hideNotification v)
  end.

(** Timers that are due at [now] have fired before an event dispatched at
    [now] is handled. *)
Definition elapse (now : number) (v : Viewer) : Viewer :=
  match dblclick_timeout (prop v) with
  | Some due => if Qle_bool due now then dblclick_expired v else v
  | None => v
  end.

(** A pointer-up at time [now] that [_stopMove] classifies as a click. *)
Definition click_at (evt : PointerEvt) (now : number) (v : Viewer) : option Viewer :=
  _click evt now (elapse now v).

(** A run: the operations applied in order, as long as each completes. *)
Fixpoint run (ops : list Op) (v : Viewer) : option Viewer :=
  match ops with
  | [] => Some v
  | op :: ops => let? v := step op v in run ops v
  end.

(** ** Navigation drivers *)

(** The subsystems that can move the camera (design document, data model). *)
Inductive Driver : Type :=
| manual_drag
| inertia_animation
| autorotate_driver
| gyroscope_driver
| programmatic_animation.

(** The callback of the animation registered in [animation_promise], while
    that animation has not settled. *)
Definition running_animation (v : Viewer) : option AnimationCallback :=
  match animation_promise (prop v) with
  | Some a => if running a then Some (onTick a) else None
  | None => None
  end.

(** The drivers the state of the viewer shows as active: a drag while
    [moving] is set and no inertia animation runs, the registered animation
    while it runs, autorotation and gyroscope control while their hook is
    registered. *)
Definition active_drivers (v : Viewer) : list Driver :=
  (match running_animation v with
   | Some on_inertia => [inertia_animation]
   | Some on_rotate => if moving (prop v) then [manual_drag; programmatic_animation]
                       else [programmatic_animation]
   | None => if moving (prop v) then [manual_drag] else []
   end)
  ++ (if isAutorotateEnabled v then [autorotate_driver] else [])
  ++ (if isGyroscopeEnabled v then [gyroscope_driver] else []).

(** Gyroscope control is registered together with no other hook and with no
    animation handle. *)
Definition gyroscope_exclusive (v : Viewer) : Prop :=
  isGyroscopeEnabled v = true ->
  autorotate_cb (prop v) = None /\ animation_promise (prop v) = None.

(** The position [rotate] stores for an argument: cleaned, then constrained
    to the ranges; and the sides it reports on the way. *)
Definition constrained (pos : ExtendedPosition) (v : Viewer) : Position :=
  fst (applyRanges (config v) (cleanPosition pos)).

Definition sides_reached (pos : ExtendedPosition) (v : Viewer) : list string :=
  snd (applyRanges (config v) (cleanPosition pos)).

(** The events a step has added to the trace. *)
Definition fired (v v' : Viewer) : list Event :=
  skipn (List.length (triggered v)) (triggered v').

(** [c'] is [c] but for the two options a viewer rewrites once it is
    built: the path of the panorama ([setPanorama]) and the autorotation
    speed ([_reverseAutorotate]). *)
Definition same_options (c c' : Config) : Prop :=
  set_panorama None (set_anim_speed 0 c') = set_panorama None (set_anim_speed 0 c).

(** [p] is what [rotate] stores for some argument under the options of
    [c]: the argument cleaned, then constrained to the ranges. *)
Definition rotated_to (c : Config) (p : Position) : Prop :=
  exists pos c', same_options c c' /\ p = fst (applyRanges c' (cleanPosition pos)).

(** The step from [v] to [v'] changed the camera position the way [rotate]
    does: the position stored is an argument cleaned and constrained to
    the ranges, the dirty flag is set and observers were told the new
    position. *)
Definition through_rotate (v v' : Viewer) : Prop :=
  position (prop v') = position (prop v)
  \/ (rotated_to (config v) (position (prop v'))
      /\ needsUpdate (prop v') = true
      /\ In (position_updated (getPosition v')) (fired v v')).

(** [tracked v v']: from [v] to [v'] the trace has only grown, the dirty
    flag has not been cleared, the options are the same but for the path
    and the autorotation speed, a value that is no number is not
    forgotten, and the position is the same or has been written the way
    [rotate] does. *)
Definition tracked (v v' : Viewer) : Prop :=
  exists evs,
    triggered v' = triggered v ++ evs
    /\ (needsUpdate (prop v) = true -> needsUpdate (prop v') = true)
    /\ same_options (config v) (config v')
    /\ (non_finite v = true -> non_finite v' = true)
    /\ (position (prop v') = position (prop v)
        \/ (rotated_to (config v) (position (prop v'))
            /\ needsUpdate (prop v') = true
            /\ In (position_updated (getPosition v')) evs)).

(** [calm v v']: from [v] to [v'] no driver hook and no animation has been
    registered that was not there before. *)
Definition calm (v v' : Viewer) : Prop :=
  (isGyroscopeEnabled v' = true -> isGyroscopeEnabled v = true)
  /\ (autorotate_cb (prop v) = None -> autorotate_cb (prop v') = None)
  /\ (animation_promise (prop v) = None -> animation_promise (prop v') = None).

(** A relation on viewers, for a handler that may not complete. *)
Definition when_completed (R : Viewer -> Viewer -> Prop) (v : Viewer)
    (o : option Viewer) : Prop :=
  match o with
  | Some v' => R v v'
  | None => True
  end.

(** The gyroscope hook runs in this step. *)
Definition runs_orientation_hook (op : Op) (v : Viewer) : Prop :=
  match op with
  | op_before_render _ _ => isGyroscopeEnabled v = true
  | _ => False
  end.

(** The mouse history holds samples [[t; x; y]], oldest first, none older
    than the inertia window before [now] and none later than [now]. *)
Definition sample_time (s : list number) : number := nth 0 s 0.

Definition is_sample (s : list number) : Prop :=
  exists t x y, s = [t; x; y].

Inductive oldest_first : list (list number) -> Prop :=
| oldest_first_nil : oldest_first []
| oldest_first_cons s h :
    Forall (fun s' => sample_time s <= sample_time s') h ->
    oldest_first h -> oldest_first (s :: h).

(** [kept h' h]: [h'] is [h] with some samples removed. *)
Inductive kept {A : Type} : list A -> list A -> Prop :=
| kept_nil : kept [] []
| kept_drop x l' l : kept l' l -> kept l' (x :: l)
| kept_keep x l' l : kept l' l -> kept (x :: l') (x :: l).

Definition within_window (now : number) (h : list (list number)) : Prop :=
  Forall (fun s => is_sample s
                   /\ now - INERTIA_WINDOW <= sample_time s
                   /\ sample_time s <= now) h.

End Core.

(** ** A concrete environment

    Values for the constants and plain stand-ins for the functions of
    [Externals], used to run the model: no range is configured, angles are
    taken as cleaned already, the pointer ray always meets the sphere. *)

Definition plain_externals : Externals :=
  {| MOVE_THRESHOLD := 4;
     INERTIA_WINDOW := 300;
     DBLCLICK_DELAY := 300;
     ANGLE_THRESHOLD := 3 # 1000;
     SPHERE_RADIUS := 100;
     pixelRatio := 1;
     DEFAULTS_cache_texture := 0;
     isCanvasSupported := true;
     isWebGLSupported := true;
     has_CanvasRenderer_Projector := false;
     has_DeviceOrientationControls := true;
     has_StereoEffect := true;
     has_NoSleep := true;
     getElementById := fun id => String.eqb id "viewer";
     cleanPosition := fun pos => match pos with
                                 | spherical p => p
                                 | texture x y => {| longitude := x; latitude := y |}
                                 end;
     applyRanges := fun _ p => (p, []);
     viewerCoordsToVector3 := fun _ x y => Some {| vx := x; vy := y; vz := 0 |};
     vector3ToSphericalCoords := fun d => {| longitude := vx d / 100; latitude := vy d / 100 |};
     sphericalCoordsToTextureCoords := fun p => (longitude p, latitude p);
     parseAngle := fun a _ => a;
     parseSpeed := fun s => match s with num n => n | _ => 0 end;
     getShortestArc := fun from to => to - from;
     boundingRect_left := 0;
     boundingRect_top := 0;
     offsetLeft := 0;
     offsetTop := 0;
     offsetWidth := 800;
     offsetHeight := 600;
     Math_sqrt := fun x => x;
     degToRad := fun x => x * Math_PI / 180;
     horizontal_fov := fun vfov aspect => vfov * aspect;
     great_circle_angle := fun _ _ => 1 |}.

Definition sample_options : Config :=
  {| container := container_element;
     panorama := None;
     longitude_range := None;
     latitude_range := None;
     tilt_up_max := None;
     tilt_down_max := None;
     min_fov := 30;
     max_fov := 90;
     default_fov := None;
     default_long := 0;
     default_lat := 0;
     anim_speed := 1 # 5;
     anim_lat := None;
     cache_texture := 0;
     move_inertia := true;
     mousemove_hover := false;
     mousewheel_factor := 1;
     config_move_speed := 1;
     transition := false;
     webgl := true |}.

(** The viewer the constructor builds from [sample_options] in a container
    of 800 by 600 pixels. *)
Definition sample_viewer : Viewer :=
  match PanoSphereViewer (ext := plain_externals) sample_options 800 600 with
  | inr v => v
  | inl _ => blank sample_options
  end.

Definition pointer (x y : number) : PointerEvt :=
  {| evt_target := 0%nat; in_hud := true; clientX := x; clientY := y; buttons := 1 |}.

(** The camera direction a device reports, for every alpha offset. *)
Definition device_reading (alpha : number) : Vector3 :=
  {| vx := alpha + 1; vy := 1 # 2; vz := 0 |}.

Definition ahead : Vector3 := {| vx := 0; vy := 0; vz := 1 |}.

(** [sample_viewer] once gyroscope control has started. *)
Definition gyroscope_viewer : Viewer :=
  viewer_of (startGyroscopeControl (ext := plain_externals) true ahead sample_viewer).

(** [sample_viewer] once autorotation has started. *)
Definition autorotating_viewer : Viewer :=
  startAutorotate sample_viewer.

(** [sample_viewer] while a panorama loads. *)
Definition loading_viewer : Viewer :=
  viewer_of (setPanorama (ext := plain_externals) "pano.jpg" None false sample_viewer).

(** [sample_viewer] during a drag started at (10, 10) at time 1000. *)
Definition dragging_viewer : Viewer :=
  match _startMove (ext := plain_externals) (pointer 10 10) 1000 sample_viewer with
  | Some v => v
  | None => sample_viewer
  end.

(** Options with every fault the constructor corrects. *)
Definition faulty_options : Config :=
  {| container := container_element;
     panorama := Some "pano.jpg";
     longitude_range := Some [1];
     latitude_range := Some [1; - (1)];
     tilt_up_max := None;
     tilt_down_max := None;
     min_fov := 200;
     max_fov := 30;
     default_fov := Some 50;
     default_long := 0;
     default_lat := 0;
     anim_speed := 1 # 5;
     anim_lat := None;
     cache_texture := - (3 # 2);
     move_inertia := true;
     mousemove_hover := false;
     mousewheel_factor := 1;
     config_move_speed := 1;
     transition := false;
     webgl := true |}.

(** ** Markers ([PSVMarker.js]) *)

Module PSVMarker.

(** The values a marker descriptor holds: primitives, arrays of primitives
    and objects with primitive properties.  An object is the list of its own
    properties in creation order, each name once. *)
Inductive primitive : Type :=
| p_undefined
| p_boolean (b : bool)
| p_number (n : number)
| p_string (s : string).

Inductive jsval : Type :=
| js (p : primitive)
| js_array (items : list primitive)
| js_object (fields : list (string * primitive)).

(** Truthiness: [undefined], [false], [0] and the empty string are falsy;
    arrays and objects are truthy. *)
Definition truthy_primitive (p : primitive) : bool :=
  match p with
  | p_undefined => false
  | p_boolean b => b
  | p_number n => JS.truthy n
  | p_string s => negb (String.eqb s EmptyString)
  end.

Definition truthy (x : jsval) : bool :=
  match x with
  | js p => truthy_primitive p
  | js_array _ => true
  | js_object _ => true
  end.

(** The own property [key] of an object, if it has one. *)
Fixpoint lookup {A : Type} (o : list (string * A)) (key : string)
    : option A :=
  match o with
  | [] => None
  | (k, x) :: o => if String.eqb k key then Some x else lookup o key
  end.

(** [o.hasOwnProperty(key)]. *)
Definition hasOwnProperty {A : Type} (o : list (string * A))
    (key : string) : bool :=
  isSome (lookup o key).

(** [o[key] = x]: an own property keeps its place, a new one goes last. *)
Fixpoint set {A : Type} (key : string) (x : A)
    (o : list (string * A)) : list (string * A) :=
  match o with
  | [] => [(key, x)]
  | (k, y) :: o => if String.eqb k key then (k, x) :: o else (k, y) :: set key x o
  end.

(** A marker descriptor, and [properties[key]]. *)
Definition object : Type := list (string * jsval).

Definition get (o : object) (key : string) : jsval :=
  match lookup o key with
  | Some x => x
  | None => js p_undefined
  end.

(** [d[key]] for the definition of a shape, and [a[i]] for an array. *)
Definition field (o : list (string * primitive)) (key : string)
    : primitive :=
  match lookup o key with
  | Some x => x
  | None => p_undefined
  end.

Definition item (a : list primitive) (i : nat) : primitive := nth i a p_undefined.

(** [PSVMarker.types]. *)
Definition types : list string :=
  ["image"; "html"; "rect"; "circle"; "ellipse"; "path"].

(** [PSVMarker.getType]; the type returned is [found[0]], which is
    [undefined] ([None]) when nothing was found and [allowNone] is set. *)
Definition getType (properties : object) (allowNone : bool)
    : PSVError + option string :=
  let found := filter (fun type => truthy (get properties type)) types in
  if (Nat.eqb (List.length found) 0 && negb allowNone)%bool then
    inl (String.append "missing marker content, either " (String.concat ", " types))
  else if Nat.ltb 1 (List.length found) then
    inl (String.append "multiple marker content, either " (String.concat ", " types))
  else inr (hd_error found).

(** [this.type === t], the type being [undefined] when [None]. *)
Definition type_is (type : option string) (t : string) : bool :=
  match type with
  | Some s => String.eqb s t
  | None => false
  end.

Definition isNormal (type : option string) : bool :=
  (type_is type "image" || type_is type "html")%bool.

Definition isSvg (type : option string) : bool :=
  (type_is type "rect" || type_is type "circle"
   || type_is type "ellipse" || type_is type "path")%bool.

(** The checks that open the constructor, lines 9 to 44: the marker type
    when they all pass, the error thrown otherwise. *)
Definition check_properties (properties : object) : PSVError + option string :=
  if negb (truthy (get properties "id")) then
    inl "missing marker id"
  else if (truthy (get properties "image")
           && (negb (truthy (get properties "width"))
               || negb (truthy (get properties "height"))))%bool then
    inl "missing marker width/height"
  else if ((truthy (get properties "image") || truthy (get properties "html"))
           && ((negb (hasOwnProperty properties "x")
                || negb (hasOwnProperty properties "y"))
               && (negb (hasOwnProperty properties "latitude")
                   || negb (hasOwnProperty properties "longitude"))))%bool then
    inl "missing marker position, latitude/longitude or x/y"
  else getType properties false.

(** [newType !== this.type] for a [newType] that is not [undefined]. *)
Definition same_type (a b : option string) : bool :=
  match a, b with
  | Some s, Some t => String.eqb s t
  | None, None => true
  | _, _ => false
  end.

(** The check that opens [update], lines 207 to 212, for [properties] that
    are given and are not the marker itself. *)
Definition check_update (type : option string) (properties : object)
    : PSVError + unit :=
  match getType properties true with
  | inl e => inl e
  | inr newType =>
      if (isSome newType && negb (same_type newType type))%bool
      then inl "cannot change marker type"
      else inr tt
  end.

(** The [switch] of [_updateSvg], lines 291 to 364: the definition [_def]
    of the shape as it is rewritten in place.  A definition that is a
    primitive other than the ones tested (a boolean, [undefined], a string
    for a shape other than a path, a number for a path) is assigned
    properties or enumerated as if it were an object; what that does depends
    on the mode and the edition of the language the script runs in, and the
    model gives no result ([None]) for it. *)
Definition shape_definition (type : string) (_def : jsval) : option jsval :=
  if String.eqb type "rect" then
    match _def with
    | js (p_number n) =>
        Some (js_object [("x", p_number 0); ("y", p_number 0);
                         ("width", p_number n); ("height", p_number n)])
    | js_array a =>
        Some (js_object [("x", p_number 0); ("y", p_number 0);
                         ("width", item a 0); ("height", item a 1)])
    | js_object o =>
        Some (js_object (set "x" (p_number 0) (set "y" (p_number 0) o)))
    | _ => None
    end
  else if String.eqb type "circle" then
    match _def with
    | js (p_number n) =>
        Some (js_object [("cx", p_number n); ("cy", p_number n); ("r", p_number n)])
    | js_array a =>
        Some (js_object [("cx", item a 0); ("cy", item a 0); ("r", item a 0)])
    | js_object o =>
        Some (js_object (set "cx" (field o "r") (set "cy" (field o "r") o)))
    | _ => None
    end
  else if String.eqb type "ellipse" then
    match _def with
    | js (p_number n) =>
        Some (js_object [("cx", p_number n); ("cy", p_number n);
                         ("rx", p_number n); ("ry", p_number n)])
    | js_array a =>
        Some (js_object [("cx", item a 0); ("cy", item a 1);
                         ("rx", item a 0); ("ry", item a 1)])
    | js_object o =>
        let o := set "cx" (field o "rx") o in
        Some (js_object (set "cy" (field o "ry") o))
    | _ => None
    end
  else if String.eqb type "path" then
    match _def with
    | js (p_string s) => Some (js_object [("d", p_string s)])
    | js_object _ | js_array _ => Some _def
    | _ => None
    end
  else Some _def.

(** [_updateSvg] on the marker object: [this._def] is [this[type]]. *)
Definition _updateSvg_def (type : string) (marker : object) : option object :=
  match shape_definition type (get marker type) with
  | Some d => Some (set type d marker)
  | None => None
  end.

End PSVMarker.


(** ** The panorama cache ([PanoSphereViewer.public.js], lines 685 to 736) *)

(** [PanoSphereViewer.PanoData]. *)
Record PanoData : Type := mkPanoData {
  full_width : number;
  full_height : number;
  cropped_width : number;
  cropped_height : number;
  cropped_x : number;
  cropped_y : number
}.

(** [PanoSphereViewer.CacheItem]; [image] is the identity of the texture. *)
Module CacheItem.
Record t : Type := mk {
  panorama : string;
  image : nat;
  pano_data : PanoData
}.
End CacheItem.

Module PanoramaCache.

(** [prop.cache]. *)
Definition cache : Type := list CacheItem.t.

(** [preloadPanorama]; [_loadTexture] belongs to the loader side and is
    taken as it comes. *)
Definition preloadPanorama {T : Type} (_loadTexture : string -> T)
    (panorama : string) (v : Viewer) : PSVError + T :=
  if negb (truthy (cache_texture (config v))) then
    inl "Cannot preload panorama, cache_texture is disabled"
  else inr (_loadTexture panorama).

(** The [for] loop of [clearPanoramaCache]: the first entry of the panorama
    is spliced out and the loop is left. *)
Fixpoint remove_first (panorama : string) (c : cache) : cache :=
  match c with
  | [] => []
  | entry :: c =>
      if String.eqb (CacheItem.panorama entry) panorama then c
      else entry :: remove_first panorama c
  end.

(** [clearPanoramaCache]; [panorama] is [None] when the argument is not
    given.  The cache as the call leaves it, or the error thrown. *)
Definition clearPanoramaCache (panorama : option string) (v : Viewer) (c : cache)
    : PSVError + cache :=
  if negb (truthy (cache_texture (config v))) then
    inl "Cannot clear cache, cache_texture is disabled"
  else
    match panorama with
    | Some p =>
        if negb (String.eqb p EmptyString) then inr (remove_first p c)
        else inr []
    | None => inr []
    end.

(** [getPanoramaCache]; [None] is [undefined]. *)
Definition getPanoramaCache (panorama : string) (v : Viewer) (c : cache)
    : PSVError + option CacheItem.t :=
  if negb (truthy (cache_texture (config v))) then
    inl "Cannot query cache, cache_texture is disabled"
  else
    inr (hd_error
           (filter (fun entry => String.eqb (CacheItem.panorama entry) panorama) c)).

End PanoramaCache.

(** ** The notification banner ([components/PSVNotification.js]) *)

Module PSVNotification.

(** The banner: the text of its content element, whether its container
    carries the class [psv-notification--visible], the events it has
    triggered on the viewer and the times at which its pending timers are
    due, in the order they were set. *)
Record t : Type := mk {
  content : string;
  visible : bool;
  fired : list string;
  timers : list number
}.

(** The argument of [showNotification]; a [timeout] that is missing is 0. *)
Record Config : Type := mkConfig {
  config_content : string;
  timeout : number
}.

Definition isNotificationVisible (n : t) : bool := visible n.

Definition hideNotification (n : t) : t :=
  if isNotificationVisible n then
    {| content := content n; visible := false;
       fired := fired n ++ ["hide-notification"]; timers := timers n |}
  else n.

(** [showNotification]; [now] is the time of the call, so that the timer
    it sets is due at [now + timeout]. *)
Definition showNotification (config : Config) (now : number) (n : t) : t :=
  {| content := config_content config;
     visible := true;
     fired := fired n ++ ["show-notification"];
     timers := if truthy (timeout config)
               then timers n ++ [now + timeout config]
               else timers n |}.

(** The timers that are due at [now] fire, each one calling
    [hideNotification], in the order they were set. *)
Fixpoint due_timers (now : number) (timers : list number) : list number :=
  match timers with
  | [] => []
  | due :: timers =>
      if Qle_bool due now then due :: due_timers now timers
      else due_timers now timers
  end.

Fixpoint pending_timers (now : number) (timers : list number) : list number :=
  match timers with
  | [] => []
  | due :: timers =>
      if Qle_bool due now then pending_timers now timers
      else due :: pending_timers now timers
  end.

Definition elapse (now : number) (n : t) : t :=
  let n' := fold_left (fun n _ => hideNotification n) (due_timers now (timers n)) n in
  {| content := content n'; visible := visible n';
     fired := fired n'; timers := pending_timers now (timers n) |}.

End PSVNotification.


(** ** Event listeners ([PanoSphereViewer.events.js], lines 5 to 96, and the
    keyboard and fullscreen methods of [PanoSphereViewer.public.js]) *)

Module Listeners.

(** The objects the viewer listens on. *)
Inductive Target : Type := window | hud_container | document.

Definition Target_eqb (a b : Target) : bool :=
  match a, b with
  | window, window | hud_container, hud_container | document, document => true
  | _, _ => false
  end.

(** What of the host the viewer touches when it binds and unbinds: the
    DOM listeners whose handler is the viewer itself (a target and an event
    type each), the number of handlers the viewer has attached to its own
    [_side-reached] event, the cursor of the HUD, and the
    [fullscreen-updated] events triggered. *)
Record Host : Type := mkHost {
  listeners : list (Target * string);
  side_reached_handlers : nat;
  cursor : option string;
  fullscreen_updated : list bool
}.

(** The options and system values the methods read; [fullscreenEvent] is
    [None] where the browser has no fullscreen event. *)
Record Settings : Type := mkSettings {
  mousemove : bool;
  hover : bool;   (* config.mousemove_hover *)
  mousewheel : bool;
  keyboard : bool;
  fullscreenEvent : option string;
  mouseWheelEvent : string
}.

Definition same_listener (a b : Target * string) : bool :=
  (Target_eqb (fst a) (fst b) && String.eqb (snd a) (snd b))%bool.

(** [target.addEventListener(type, this)]: a listener that is registered
    already is not registered twice. *)
Definition addEventListener (target : Target) (type : string) (h : Host) : Host :=
  {| listeners := if existsb (same_listener (target, type)) (listeners h)
                  then listeners h
                  else listeners h ++ [(target, type)];
     side_reached_handlers := side_reached_handlers h;
     cursor := cursor h;
     fullscreen_updated := fullscreen_updated h |}.

(** [target.removeEventListener(type, this)]. *)
Definition removeEventListener (target : Target) (type : string) (h : Host) : Host :=
  {| listeners := filter (fun l => negb (same_listener (target, type) l)) (listeners h);
     side_reached_handlers := side_reached_handlers h;
     cursor := cursor h;
     fullscreen_updated := fullscreen_updated h |}.

Definition _bindEvents (s : Settings) (h : Host) : Host :=
  let h := addEventListener window "resize" h in
  (* all interation events are binded to the HUD only *)
  let h :=
    if mousemove s then
      let h := {| listeners := listeners h;
                  side_reached_handlers := side_reached_handlers h;
                  cursor := Some "move";
                  fullscreen_updated := fullscreen_updated h |} in
      let h :=
        if hover s then
          let h := addEventListener hud_container "mouseenter" h in
          addEventListener hud_container "mouseleave" h
        else
          let h := addEventListener hud_container "mousedown" h in
          addEventListener window "mouseup" h in
      let h := addEventListener hud_container "touchstart" h in
      let h := addEventListener window "touchend" h in
      let h := addEventListener hud_container "mousemove" h in
      addEventListener hud_container "touchmove" h
    else h in
  let h := match fullscreenEvent s with
           | Some e => addEventListener document e h
           | None => h
           end in
  let h := if mousewheel s
           then addEventListener hud_container (mouseWheelEvent s) h
           else h in
  {| listeners := listeners h;
     side_reached_handlers := S (side_reached_handlers h);
     cursor := cursor h;
     fullscreen_updated := fullscreen_updated h |}.

Definition _unbindEvents (s : Settings) (h : Host) : Host :=
  let h := removeEventListener window "resize" h in
  let h :=
    if mousemove s then
      let h := removeEventListener hud_container "mousedown" h in
      let h := removeEventListener hud_container "mouseenter" h in
      let h := removeEventListener hud_container "touchstart" h in
      let h := removeEventListener window "mouseup" h in
      let h := removeEventListener window "touchend" h in
      let h := removeEventListener hud_container "mouseleave" h in
      let h := removeEventListener hud_container "mousemove" h in
      removeEventListener hud_container "touchmove" h
    else h in
  let h := match fullscreenEvent s with
           | Some e => removeEventListener document e h
           | None => h
           end in
  let h := if mousewheel s
           then removeEventListener hud_container (mouseWheelEvent s) h
           else h in
  {| listeners := listeners h;
     side_reached_handlers := 0;
     cursor := cursor h;
     fullscreen_updated := fullscreen_updated h |}.

Definition startKeyboardControl (h : Host) : Host :=
  addEventListener window "keydown" h.

Definition stopKeyboardControl (h : Host) : Host :=
  removeEventListener window "keydown" h.

(** [_fullscreenToggled]; [enabled] is what [isFullscreenEnabled] answers. *)
Definition _fullscreenToggled (s : Settings) (enabled : bool) (h : Host) : Host :=
  let h := if keyboard s then
             if enabled then startKeyboardControl h else stopKeyboardControl h
           else h in
  {| listeners := listeners h;
     side_reached_handlers := side_reached_handlers h;
     cursor := cursor h;
     fullscreen_updated := fullscreen_updated h ++ [enabled] |}.

(** The methods [handleEvent] dispatches to. *)
Inductive Handler : Type :=
| on_resize
| on_keydown
| on_mousedown
| on_touchstart
| on_mouseup
| on_touchend
| on_mousemove
| on_touchmove
| on_fullscreen
| on_mousewheel.

(** [handleEvent]: the method run for a DOM event of a given type, [None]
    when the [switch] has no case for it. *)
Definition handleEvent (s : Settings) (type : string) : option Handler :=
  if String.eqb type "resize" then Some on_resize
  else if String.eqb type "keydown" then Some on_keydown
  else if String.eqb type "mousedown" then Some on_mousedown
  else if String.eqb type "mouseenter" then Some on_mousedown
  else if String.eqb type "touchstart" then Some on_touchstart
  else if String.eqb type "mouseup" then Some on_mouseup
  else if String.eqb type "mouseleave" then Some on_mouseup
  else if String.eqb type "touchend" then Some on_touchend
  else if String.eqb type "mousemove" then Some on_mousemove
  else if String.eqb type "touchmove" then Some on_touchmove
  else if match fullscreenEvent s with
          | Some e => String.eqb type e
          | None => false
          end then Some on_fullscreen
  else if String.eqb type (mouseWheelEvent s) then Some on_mousewheel
  else None.

(** What the viewer does to its listeners between its construction and its
    destruction. *)
Inductive Action : Type :=
| act_startKeyboardControl
| act_stopKeyboardControl
| act_fullscreenToggled (enabled : bool).

Definition act (s : Settings) (a : Action) (h : Host) : Host :=
  match a with
  | act_startKeyboardControl => startKeyboardControl h
  | act_stopKeyboardControl => stopKeyboardControl h
  | act_fullscreenToggled enabled => _fullscreenToggled s enabled h
  end.

(** The listener part of [destroy], lines 100 and 108. *)
Definition destroy (s : Settings) (h : Host) : Host :=
  _unbindEvents s (stopKeyboardControl h).

End Listeners.

(** The listeners of the viewer: the ones [_bindEvents] registers under the
    settings [s], and the keyboard listener. *)
Definition listener_of_viewer (s : Listeners.Settings)
    (l : Listeners.Target * string) : Prop :=
  In l (Listeners.listeners
          (Listeners.startKeyboardControl
             (Listeners._bindEvents s
                {| Listeners.listeners := [];
                   Listeners.side_reached_handlers := 0;
                   Listeners.cursor := None;
                   Listeners.fullscreen_updated := [] |}))).


(** ** Soundness of the interaction state *)

(** The viewer is not held to drag and to pinch at once. *)
Definition gesture_ok (p : Props) : Prop :=
  (moving p && zooming p)%bool = false.

(** The zoom level is a whole number from 0 to 100 and the vertical field
    of view is the one [zoom] derives from it. *)
Definition zoom_ok (c : Config) (p : Props) : Prop :=
  (exists k : Z, (0 <= k <= 100)%Z /\ zoom_lvl p = inject_Z k)
  /\ vFov p = max_fov c + zoom_lvl p / 100 * (min_fov c - max_fov c).

(** Every entry of the mouse history is a sample [[t; x; y]]. *)
Definition history_ok (p : Props) : Prop :=
  Forall is_sample (mouse_history p).

(** While the double-click timer is pending the data of the first click is
    kept. *)
Definition dblclick_ok (p : Props) : Prop :=
  dblclick_timeout p <> None -> dblclick_data p <> None.

(** The zoom level and the field of view are held to [zoom_ok] as long as
    the viewer has stored no value that is no number. *)
Definition sound (v : Viewer) : Prop :=
  gesture_ok (prop v)
  /\ (non_finite v = false -> zoom_ok (config v) (prop v))
  /\ history_ok (prop v) /\ dblclick_ok (prop v).

(** [keeps v v']: going from [v] to [v'] does not break soundness. *)
Definition keeps (v v' : Viewer) : Prop := sound v -> sound v'.

(** A sample is fresh at [now] when it is not older than the inertia
    window. *)
Definition fresh {ext : Externals} (now : number) (s : list number) : bool :=
  negb (ltb (nth 0 s 0) (now - INERTIA_WINDOW)).


(** ** Concrete markers, caches, banners and hosts *)

(** A rectangle marker given by the length of its side. *)
Definition square_marker : PSVMarker.object :=
  [("id", PSVMarker.js (PSVMarker.p_string "door"));
   ("rect", PSVMarker.js (PSVMarker.p_number 20));
   ("x", PSVMarker.js (PSVMarker.p_number 100));
   ("y", PSVMarker.js (PSVMarker.p_number 200))].

(** An image marker placed by its spherical coordinates. *)
Definition image_marker : PSVMarker.object :=
  [("id", PSVMarker.js (PSVMarker.p_string "pin"));
   ("image", PSVMarker.js (PSVMarker.p_string "pin.png"));
   ("width", PSVMarker.js (PSVMarker.p_number 32));
   ("height", PSVMarker.js (PSVMarker.p_number 32));
   ("latitude", PSVMarker.js (PSVMarker.p_number 0));
   ("longitude", PSVMarker.js (PSVMarker.p_number 1))].

(** [sample_viewer] with a cache of five textures. *)
Definition caching_viewer : Viewer :=
  with_config (set_cache_texture 5) sample_viewer.

Definition whole_sphere : PanoData :=
  {| full_width := 4000; full_height := 2000;
     cropped_width := 4000; cropped_height := 2000;
     cropped_x := 0; cropped_y := 0 |}.

(** A cache that holds the panorama [a.jpg] twice. *)
Definition sample_cache : PanoramaCache.cache :=
  [ {| CacheItem.panorama := "a.jpg"; CacheItem.image := 1;
       CacheItem.pano_data := whole_sphere |};
    {| CacheItem.panorama := "b.jpg"; CacheItem.image := 2;
       CacheItem.pano_data := whole_sphere |};
    {| CacheItem.panorama := "a.jpg"; CacheItem.image := 3;
       CacheItem.pano_data := whole_sphere |} ].

(** The banner before anything was shown. *)
Definition hidden_banner : PSVNotification.t :=
  {| PSVNotification.content := "";
     PSVNotification.visible := false;
     PSVNotification.fired := [];
     PSVNotification.timers := [] |}.

Definition one_second (text : string) : PSVNotification.Config :=
  {| PSVNotification.config_content := text; PSVNotification.timeout := 1000 |}.

(** The default settings in a browser that has a fullscreen event. *)
Definition sample_settings : Listeners.Settings :=
  {| Listeners.mousemove := true;
     Listeners.hover := false;
     Listeners.mousewheel := true;
     Listeners.keyboard := true;
     Listeners.fullscreenEvent := Some "fullscreenchange";
     Listeners.mouseWheelEvent := "wheel" |}.

Definition bare_host : Listeners.Host :=
  {| Listeners.listeners := [];
     Listeners.side_reached_handlers := 0;
     Listeners.cursor := None;
     Listeners.fullscreen_updated := [] |}.

(** [sample_viewer] in stereo view. *)
Definition stereo_viewer : Viewer :=
  viewer_of (startStereoView (ext := plain_externals) true ahead sample_viewer).

(** [gyroscope_viewer] during a drag started at (10, 10) at time 1000. *)
Definition gyroscope_dragging_viewer : Viewer :=
  match _startMove (ext := plain_externals) (pointer 10 10) 1000 gyroscope_viewer with
  | Some v => v
  | None => gyroscope_viewer
  end.

(** [sample_options] without a container, and with a legacy tilt option. *)
Definition no_container_options : Config := set_container no_container sample_options.

(** [sample_options] with the id of an element the page does not have. *)
Definition missing_container_options : Config :=
  set_container (container_id "missing") sample_options.

Definition legacy_options : Config := set_tilt_up_max (Some 1) sample_options.
(** * Properties *)

(** ** Arithmetic of the JavaScript primitives *)

Lemma ltb_lt (x y : number) : ltb x y = true <-> x < y.
Proof.
  unfold ltb. rewrite negb_true_iff. split.
  - intros E. apply Qnot_le_lt. intros L.
    apply Qle_bool_iff in L. congruence.
  - intros L. destruct (Qle_bool y x) eqn:E; [|reflexivity].
    apply Qle_bool_iff in E. exfalso. apply (Qlt_not_le _ _ L E).
Qed.

Lemma ltb_ge (x y : number) : ltb x y = false <-> y <= x.
Proof.
  unfold ltb. rewrite negb_false_iff. apply Qle_bool_iff.
Qed.

Ltac reflect_ltb :=
  repeat match goal with
         | E : ltb _ _ = true |- _ => apply ltb_lt in E
         | E : ltb _ _ = false |- _ => apply ltb_ge in E
         | E : gtb _ _ = true |- _ => unfold gtb in E; apply ltb_lt in E
         | E : gtb _ _ = false |- _ => unfold gtb in E; apply ltb_ge in E
         end.


Lemma bound_range (x min max : number) :
  min <= max ->
  min <= PSVUtils.bound x min max /\ PSVUtils.bound x min max <= max.
Proof.
  intros L. unfold PSVUtils.bound.
  destruct (ltb x min) eqn:E1; [lra|].
  destruct (ltb max x) eqn:E2; [lra|].
  reflect_ltb. lra.
Qed.

Lemma bound_id (x min max : number) :
  min <= x -> x <= max -> PSVUtils.bound x min max = x.
Proof.
  intros L1 L2. unfold PSVUtils.bound.
  destruct (ltb x min) eqn:E1; [reflect_ltb; lra|].
  destruct (ltb max x) eqn:E2; [reflect_ltb; lra|].
  reflexivity.
Qed.

Lemma bound_mono (x y min max : number) :
  min <= max -> x <= y ->
  PSVUtils.bound x min max <= PSVUtils.bound y min max.
Proof.
  intros L Lxy. unfold PSVUtils.bound.
  destruct (ltb x min) eqn:E1; destruct (ltb y min) eqn:E2;
    destruct (ltb max x) eqn:E3; destruct (ltb max y) eqn:E4;
    reflect_ltb; lra.
Qed.

Section Facts.

Context {ext : Externals}.

(** ** Zoom *)

(** C1: for every level, [zoom] stores the rounded level clamped into
    [0, 100] and sets the vertical field of view to
    [max_fov + (level / 100) * (min_fov - max_fov)]; [zoom(150)] stores 100,
    [zoom(-10)] stores 0, and [zoom(50)] with [min_fov = 30] and
    [max_fov = 90] gives a vertical field of view of 60. *)
Theorem zoom_clamps_level_and_interpolates_fov (v : Viewer) (level : number) :
  zoom_lvl (prop (zoom level v)) = PSVUtils.bound (Math_round level) 0 100
  /\ 0 <= zoom_lvl (prop (zoom level v)) <= 100
  /\ (exists z : Z, zoom_lvl (prop (zoom level v)) = inject_Z z)
  /\ vFov (prop (zoom level v))
     = max_fov (config v)
       + (zoom_lvl (prop (zoom level v)) / 100)
         * (min_fov (config v) - max_fov (config v))
  /\ zoom_lvl (prop (zoom 150 v)) = 100
  /\ zoom_lvl (prop (zoom (- (10)) v)) = 0
  /\ vFov (prop (zoom 50 (with_config
                            (fun c => set_min_fov 30 (set_max_fov 90 c)) v)))
     == 60.
Proof.
  assert (R : 0 <= PSVUtils.bound (Math_round level) 0 100 <= 100)
    by (apply bound_range; lra).
  split; [reflexivity|].
  split; [exact R|].
  split.
  { simpl. unfold PSVUtils.bound.
    destruct (ltb (Math_round level) 0); [exists 0%Z; reflexivity|].
    destruct (ltb 100 (Math_round level)); [exists 100%Z; reflexivity|].
    eexists; reflexivity. }
  split; [reflexivity|].
  split; [reflexivity|].
  split; [reflexivity|].
  simpl. reflexivity.
Qed.

(** ** Events and the rotation funnel *)

Lemma set_anim_speed_eta (c : Config) : set_anim_speed (anim_speed c) c = c.
Proof. destruct c; reflexivity. Qed.

(** [trigger] touches the trace and, through the [_side-reached] listener,
    the configured speed; nothing else. *)
Lemma trigger_spec (e : Event) (v : Viewer) :
  prop (trigger e v) = prop v
  /\ triggered (trigger e v) = triggered v ++ [e]
  /\ scene (trigger e v) = scene v
  /\ stereoEffect (trigger e v) = stereoEffect v
  /\ console (trigger e v) = console v
  /\ config (trigger e v) = set_anim_speed (anim_speed (config (trigger e v))) (config v)
  /\ (isAutorotateEnabled v = false -> config (trigger e v) = config v).
Proof.
  destruct e; simpl; rewrite ?set_anim_speed_eta; try (repeat split; reflexivity).
  unfold on_side_reached, isAutorotateEnabled. simpl.
  destruct (isSome (autorotate_cb (prop v))) eqn:A.
  - destruct (String.eqb side "left" || String.eqb side "right")%bool; simpl;
      rewrite ?set_anim_speed_eta; repeat split; try reflexivity; discriminate.
  - simpl. rewrite set_anim_speed_eta. repeat split; reflexivity.
Qed.

Lemma prop_trigger (e : Event) (v : Viewer) : prop (trigger e v) = prop v.
Proof. apply trigger_spec. Qed.

Lemma triggered_trigger (e : Event) (v : Viewer) :
  triggered (trigger e v) = triggered v ++ [e].
Proof. apply trigger_spec. Qed.

Lemma scene_trigger (e : Event) (v : Viewer) : scene (trigger e v) = scene v.
Proof. apply trigger_spec. Qed.

Lemma stereoEffect_trigger (e : Event) (v : Viewer) :
  stereoEffect (trigger e v) = stereoEffect v.
Proof. apply trigger_spec. Qed.

Lemma console_trigger (e : Event) (v : Viewer) : console (trigger e v) = console v.
Proof. apply trigger_spec. Qed.

Lemma config_trigger (e : Event) (v : Viewer) :
  config (trigger e v) = set_anim_speed (anim_speed (config (trigger e v))) (config v).
Proof. apply trigger_spec. Qed.

Lemma config_trigger_idle (e : Event) (v : Viewer) :
  isAutorotateEnabled v = false -> config (trigger e v) = config v.
Proof. apply trigger_spec. Qed.

Lemma reach_spec (sides : list string) (v : Viewer) :
  prop (reach sides v) = prop v
  /\ triggered (reach sides v) = triggered v ++ map _side_reached sides
  /\ scene (reach sides v) = scene v
  /\ stereoEffect (reach sides v) = stereoEffect v
  /\ console (reach sides v) = console v
  /\ config (reach sides v) = set_anim_speed (anim_speed (config (reach sides v))) (config v)
  /\ (isAutorotateEnabled v = false -> config (reach sides v) = config v).
Proof.
  revert v. induction sides as [|side sides IH]; intros v; simpl.
  - rewrite app_nil_r, set_anim_speed_eta. repeat split; reflexivity.
  - destruct (IH (trigger (_side_reached side) v)) as (P & T & S & St & C & Cf & Ci).
    destruct (trigger_spec (_side_reached side) v) as (P' & T' & S' & St' & C' & Cf' & Ci').
    unfold reach in *. simpl in *.
    rewrite P, T, S, St, C, P', T', S', St', C'.
    rewrite <- app_assoc. simpl.
    repeat split; try reflexivity.
    + rewrite Cf, Cf'. reflexivity.
    + intros A. rewrite Ci.
      * apply Ci'. exact A.
      * unfold isAutorotateEnabled in *. rewrite P'. exact A.
Qed.

Lemma rotate_spec (pos : ExtendedPosition) (v : Viewer) :
  prop (rotate pos v) = set_needsUpdate true (set_position (constrained pos v) (prop v))
  /\ triggered (rotate pos v)
     = triggered v ++ map _side_reached (sides_reached pos v)
       ++ [position_updated (getPosition (rotate pos v))]
  /\ scene (rotate pos v) = scene v
  /\ stereoEffect (rotate pos v) = stereoEffect v
  /\ console (rotate pos v) = console v
  /\ config (rotate pos v) = set_anim_speed (anim_speed (config (rotate pos v))) (config v)
  /\ (isAutorotateEnabled v = false -> config (rotate pos v) = config v).
Proof.
  unfold rotate, constrained, sides_reached.
  destruct (applyRanges (config v) (cleanPosition pos)) as [p sides]. simpl.
  destruct (reach_spec sides v) as (P & T & S & St & C & Cf & Ci).
  rewrite P, T, S, St, C. rewrite <- app_assoc.
  repeat split; try reflexivity.
  - rewrite Cf at 1. reflexivity.
  - exact Ci.
Qed.

Lemma prop_rotate (pos : ExtendedPosition) (v : Viewer) :
  prop (rotate pos v) = set_needsUpdate true (set_position (constrained pos v) (prop v)).
Proof. apply rotate_spec. Qed.

Lemma triggered_rotate (pos : ExtendedPosition) (v : Viewer) :
  triggered (rotate pos v)
  = triggered v ++ map _side_reached (sides_reached pos v)
    ++ [position_updated (getPosition (rotate pos v))].
Proof. apply rotate_spec. Qed.

Lemma scene_rotate (pos : ExtendedPosition) (v : Viewer) :
  scene (rotate pos v) = scene v.
Proof. apply rotate_spec. Qed.

Lemma stereoEffect_rotate (pos : ExtendedPosition) (v : Viewer) :
  stereoEffect (rotate pos v) = stereoEffect v.
Proof. apply rotate_spec. Qed.

Lemma config_rotate (pos : ExtendedPosition) (v : Viewer) :
  config (rotate pos v) = set_anim_speed (anim_speed (config (rotate pos v))) (config v).
Proof. apply rotate_spec. Qed.

Lemma config_rotate_idle (pos : ExtendedPosition) (v : Viewer) :
  isAutorotateEnabled v = false -> config (rotate pos v) = config v.
Proof. apply rotate_spec. Qed.

(** The page and the record of a value that is no number are left as they
    are by [trigger], and so by [rotate]. *)
Lemma trigger_page (e : Event) (v : Viewer) :
  canvas_container (trigger e v) = canvas_container v
  /\ notification_visible (trigger e v) = notification_visible v
  /\ non_finite (trigger e v) = non_finite v.
Proof.
  destruct e; simpl; try (repeat split; reflexivity).
  unfold on_side_reached.
  destruct (isAutorotateEnabled _); [|repeat split; reflexivity].
  destruct (String.eqb side "left" || String.eqb side "right")%bool;
    repeat split; reflexivity.
Qed.

Lemma reach_page (sides : list string) (v : Viewer) :
  canvas_container (reach sides v) = canvas_container v
  /\ notification_visible (reach sides v) = notification_visible v
  /\ non_finite (reach sides v) = non_finite v.
Proof.
  revert v. induction sides as [|side sides IH]; intros v;
    [repeat split; reflexivity|].
  destruct (IH (trigger (_side_reached side) v)) as (C & N & F).
  destruct (trigger_page (_side_reached side) v) as (C' & N' & F').
  unfold reach in *. cbn [fold_left].
  rewrite C, N, F, C', N', F'. repeat split; reflexivity.
Qed.

Lemma rotate_page (pos : ExtendedPosition) (v : Viewer) :
  canvas_container (rotate pos v) = canvas_container v
  /\ notification_visible (rotate pos v) = notification_visible v
  /\ non_finite (rotate pos v) = non_finite v.
Proof.
  unfold rotate.
  destruct (applyRanges (config v) (cleanPosition pos)) as [p sides].
  destruct (trigger_page
              (position_updated
                 (getPosition (needsUpdate_ (with_prop (set_position p) (reach sides v)))))
              (needsUpdate_ (with_prop (set_position p) (reach sides v))))
    as (C & N & F).
  rewrite C, N, F. unfold needsUpdate_. cbn [canvas_container notification_visible
    non_finite with_prop].
  apply reach_page.
Qed.

Lemma non_finite_trigger (e : Event) (v : Viewer) :
  non_finite (trigger e v) = non_finite v.
Proof. apply trigger_page. Qed.

Lemma non_finite_rotate (pos : ExtendedPosition) (v : Viewer) :
  non_finite (rotate pos v) = non_finite v.
Proof. apply rotate_page. Qed.

(** ** Stopping the drivers *)

Ltac open_viewer v :=
  let c := fresh "c" in
  let p := fresh "p" in
  destruct v as [c p ? ? ? ?]; destruct p; simpl in *.

Lemma stopAutorotate_spec (v : Viewer) :
  autorotate_cb (prop (stopAutorotate v)) = None
  /\ start_timeout (prop (stopAutorotate v)) = None
  /\ orientation_cb (prop (stopAutorotate v)) = orientation_cb (prop v)
  /\ animation_promise (prop (stopAutorotate v)) = animation_promise (prop v)
  /\ loading_promise (prop (stopAutorotate v)) = loading_promise (prop v)
  /\ position (prop (stopAutorotate v)) = position (prop v)
  /\ needsUpdate (prop (stopAutorotate v)) = needsUpdate (prop v)
  /\ moving (prop (stopAutorotate v)) = moving (prop v)
  /\ config (stopAutorotate v) = config v
  /\ (exists evs, triggered (stopAutorotate v) = triggered v ++ evs).
Proof.
  unfold stopAutorotate, isAutorotateEnabled.
  open_viewer v.
  destruct start_timeout0, autorotate_cb0; simpl;
    repeat split; try reflexivity;
    first [exists [autorotate false]; reflexivity
          | exists []; rewrite app_nil_r; reflexivity].
Qed.

Lemma stopAnimation_spec (v : Viewer) :
  animation_promise (prop (stopAnimation v)) = None
  /\ autorotate_cb (prop (stopAnimation v)) = autorotate_cb (prop v)
  /\ orientation_cb (prop (stopAnimation v)) = orientation_cb (prop v)
  /\ loading_promise (prop (stopAnimation v)) = loading_promise (prop v)
  /\ position (prop (stopAnimation v)) = position (prop v)
  /\ needsUpdate (prop (stopAnimation v)) = needsUpdate (prop v)
  /\ config (stopAnimation v) = config v
  /\ triggered (stopAnimation v) = triggered v.
Proof.
  unfold stopAnimation, settle.
  open_viewer v.
  destruct animation_promise0 as [a|]; simpl; [|repeat split; reflexivity].
  destruct (running a), (onTick a); simpl; repeat split; reflexivity.
Qed.

Lemma stopGyroscopeControl_spec (v : Viewer) :
  orientation_cb (prop (stopGyroscopeControl v)) = None
  /\ autorotate_cb (prop (stopGyroscopeControl v)) = autorotate_cb (prop v)
  /\ animation_promise (prop (stopGyroscopeControl v)) = animation_promise (prop v)
  /\ loading_promise (prop (stopGyroscopeControl v)) = loading_promise (prop v)
  /\ position (prop (stopGyroscopeControl v)) = position (prop v)
  /\ needsUpdate (prop (stopGyroscopeControl v)) = needsUpdate (prop v)
  /\ moving (prop (stopGyroscopeControl v)) = moving (prop v)
  /\ config (stopGyroscopeControl v) = config v
  /\ (exists evs, triggered (stopGyroscopeControl v) = triggered v ++ evs).
Proof.
  unfold stopGyroscopeControl, isGyroscopeEnabled.
  open_viewer v.
  destruct orientation_cb0; simpl;
    repeat split; try reflexivity;
    first [exists [gyroscope_updated false]; reflexivity
          | exists []; rewrite app_nil_r; reflexivity].
Qed.

Lemma _stopAll_spec (v : Viewer) :
  autorotate_cb (prop (_stopAll v)) = None
  /\ orientation_cb (prop (_stopAll v)) = None
  /\ animation_promise (prop (_stopAll v)) = None
  /\ loading_promise (prop (_stopAll v)) = loading_promise (prop v)
  /\ position (prop (_stopAll v)) = position (prop v)
  /\ needsUpdate (prop (_stopAll v)) = needsUpdate (prop v)
  /\ config (_stopAll v) = config v
  /\ (exists evs, triggered (_stopAll v) = triggered v ++ evs).
Proof.
  unfold _stopAll.
  destruct (stopAutorotate_spec v) as (A1 & _ & A3 & A4 & A5 & A6 & A7 & _ & A9 & (e1 & A10)).
  destruct (stopAnimation_spec (stopAutorotate v)) as (B1 & B2 & B3 & B4 & B5 & B6 & B7 & B8).
  destruct (stopGyroscopeControl_spec (stopAnimation (stopAutorotate v)))
    as (C1 & C2 & C3 & C4 & C5 & C6 & _ & C8 & (e3 & C9)).
  repeat split; try congruence.
  exists (e1 ++ e3). rewrite C9, B8, A10, app_assoc. reflexivity.
Qed.

(** ** Programmatic rotation *)

(** C10: when the duration is falsy, or the cleaned target is closer to the
    current position than [ANGLE_THRESHOLD] in both longitude and latitude,
    [animate] rotates at once to the cleaned and range-constrained target,
    returns a resolved promise and leaves no animation registered. *)
Theorem animate_short_circuits (pos : ExtendedPosition) (dur : value) (v : Viewer) :
  truthy_value dur = false
  \/ (Math_abs (longitude (cleanPosition pos) - longitude (position (prop v)))
        < ANGLE_THRESHOLD
      /\ Math_abs (latitude (cleanPosition pos) - latitude (position (prop v)))
        < ANGLE_THRESHOLD) ->
  animate pos dur v = (D_resolved, rotate (cleaned pos) (_stopAll v))
  /\ position (prop (snd (animate pos dur v)))
     = fst (applyRanges (config v) (cleanPosition (cleaned pos)))
  /\ animation_promise (prop (snd (animate pos dur v))) = None
  /\ running_animation (snd (animate pos dur v)) = None.
Proof.
  intros H.
  destruct (_stopAll_spec v) as (_ & _ & N & _ & P & _ & C & _).
  assert (E : animate pos dur v = (D_resolved, rotate (cleaned pos) (_stopAll v))).
  { unfold animate. rewrite P.
    destruct H as [F | [L1 L2]].
    - rewrite F. reflexivity.
    - apply ltb_lt in L1, L2. rewrite L1, L2.
      rewrite orb_true_r. reflexivity. }
  rewrite E. simpl.
  unfold running_animation.
  rewrite prop_rotate. simpl. unfold constrained. rewrite C, N.
  repeat split; reflexivity.
Qed.

(** ** Loading a panorama *)

(** C4: while the promise of an earlier [setPanorama] is unsettled, a call
    of [setPanorama] throws "Loading already in progress" and leaves the
    viewer exactly as it found it; a call that was accepted leaves its
    promise registered, so that the very next call is refused. *)
Theorem setPanorama_refuses_while_loading
    (path : string) (pos : option ExtendedPosition) (with_transition : bool)
    (v : Viewer) :
  (loading_promise (prop v) <> None ->
   setPanorama path pos with_transition v = thrown "Loading already in progress" v)
  /\ (forall p v',
        setPanorama path pos with_transition v = returned p v' ->
        loading_promise (prop v') <> None
        /\ forall path' pos' with_transition',
             setPanorama path' pos' with_transition' v'
             = thrown "Loading already in progress" v').
Proof.
  assert (R : forall path pos with_transition v,
             loading_promise (prop v) <> None ->
             setPanorama path pos with_transition v
             = thrown "Loading already in progress" v).
  { clear. intros path pos tr v H. unfold setPanorama.
    destruct (loading_promise (prop v)); [reflexivity | congruence]. }
  split; [apply R|].
  intros p v' H.
  assert (L : loading_promise (prop v') <> None).
  { unfold setPanorama in H.
    destruct (loading_promise (prop v)); [discriminate|].
    destruct (with_transition && isCubemap (prop v))%bool; [discriminate|].
    inversion H; subst. simpl. discriminate. }
  split; [exact L|].
  intros. apply R. exact L.
Qed.

(** ** The mouse history *)

Lemma kept_refl {A : Type} (l : list A) : kept l l.
Proof. induction l; constructor; assumption. Qed.

Lemma kept_trans {A : Type} (l1 l2 l3 : list A) :
  kept l1 l2 -> kept l2 l3 -> kept l1 l3.
Proof.
  intros H12 H23. revert l1 H12.
  induction H23; intros l1 H12.
  - exact H12.
  - constructor. apply IHkept. exact H12.
  - inversion H12; subst.
    + constructor. apply IHkept. assumption.
    + apply kept_keep. apply IHkept. assumption.
Qed.

Lemma kept_Forall {A : Type} (P : A -> Prop) (l' l : list A) :
  kept l' l -> Forall P l -> Forall P l'.
Proof.
  induction 1; intros F.
  - constructor.
  - inversion F; subst. auto.
  - inversion F; subst. constructor; auto.
Qed.

Lemma kept_splice_1 {A : Type} (l : list A) (i : nat) : kept (splice l i 1) l.
Proof.
  unfold splice. revert i. induction l as [|x l IH]; intros i.
  - destruct i; simpl; constructor.
  - destruct i; simpl.
    + constructor. apply kept_refl.
    + apply kept_keep. apply IH.
Qed.

Lemma splice_1_length {A : Type} (l : list A) (i : nat) :
  (i < List.length l)%nat -> List.length (splice l i 1) = pred (List.length l).
Proof.
  unfold splice. intros L.
  rewrite length_app, length_firstn, length_skipn. lia.
Qed.

Lemma splice_1_head {A : Type} (l : list A) (i : nat) :
  (1 <= i)%nat -> hd_error (splice l i 1) = hd_error l.
Proof.
  unfold splice. intros L. destruct l; destruct i; simpl; try reflexivity; lia.
Qed.

Lemma history_0_head (h h' : list (list number)) (i : nat) :
  hd_error h' = hd_error h -> history_0 h' i = history_0 h i.
Proof.
  destruct h, h'; simpl; intros E; try reflexivity; try discriminate.
  inversion E. reflexivity.
Qed.

Lemma oldest_first_kept (h' h : list (list number)) :
  kept h' h -> oldest_first h -> oldest_first h'.
Proof.
  induction 1; intros O.
  - constructor.
  - inversion O; subst. auto.
  - inversion O; subst. constructor; [|auto].
    eapply kept_Forall; eassumption.
Qed.

Lemma oldest_first_snoc (h : list (list number)) (s : list number) :
  oldest_first h ->
  Forall (fun s' => sample_time s' <= sample_time s) h ->
  oldest_first (h ++ [s]).
Proof.
  induction 1 as [|s0 h F O IH]; intros L; simpl.
  - constructor; constructor.
  - inversion L; subst. constructor.
    + apply Forall_app. split; [exact F|]. constructor; [assumption|constructor].
    + apply IH. assumption.
Qed.

Section History.

Hypothesis window_nonneg : 0 <= INERTIA_WINDOW.

Lemma pause_longer_same (x : option number) :
  pause_longer x x (INERTIA_WINDOW / 10) = false.
Proof.
  destruct x as [p|]; simpl; [|reflexivity].
  apply andb_false_intro2. unfold gtb. apply ltb_ge.
  assert (p - p == 0) as -> by ring.
  apply Qle_shift_div_l; lra.
Qed.

(** Past the first sample the loop compares fields of that same first
    sample: it drops or skips one sample per iteration and the first one
    stays where it is. *)
Lemma loop_after_first (now : number) (fuel : nat) :
  forall (h : list (list number)) (i : nat),
    (1 <= i)%nat ->
    (List.length h - i <= fuel)%nat ->
    exists h', logMouseMove_loop fuel now h i (history_0 h i) = Some h'
               /\ hd_error h' = hd_error h
               /\ kept h' h.
Proof.
  induction fuel as [|fuel IH]; intros h i Hi Hf.
  - simpl. destruct (Nat.ltb i (List.length h)) eqn:E.
    + apply Nat.ltb_lt in E. lia.
    + exists h. repeat split. apply kept_refl.
  - simpl. destruct (Nat.ltb i (List.length h)) eqn:E.
    + apply Nat.ltb_lt in E.
      destruct (ltb_undef (history_0 h i) (now - INERTIA_WINDOW)) eqn:D.
      * destruct (IH (splice h i 1) i Hi) as (h' & R & Hd & K).
        { rewrite splice_1_length by assumption. lia. }
        rewrite (history_0_head h (splice h i 1) i) in R
          by (apply splice_1_head; assumption).
        exists h'. split; [exact R|]. split.
        -- rewrite Hd. apply splice_1_head. assumption.
        -- eapply kept_trans; [exact K | apply kept_splice_1].
      * rewrite pause_longer_same.
        destruct (IH h (S i)) as (h' & R & Hd & K); [lia | lia |].
        exists h'. auto.
    + exists h. repeat split. apply kept_refl.
Qed.

(** From the start of the loop: stale samples at the front go one by one,
    then the first fresh sample stays at the front. *)
Lemma loop_from_start (now : number) (fuel : nat) :
  forall h : list (list number),
    Forall is_sample h ->
    (List.length h <= fuel)%nat ->
    exists h', logMouseMove_loop fuel now h 0 None = Some h'
               /\ kept h' h
               /\ match h' with
                  | [] => True
                  | s :: _ => now - INERTIA_WINDOW <= sample_time s
                  end.
Proof.
  induction fuel as [|fuel IH]; intros h S Hf.
  - destruct h; simpl in *; [|lia].
    exists []. repeat split. constructor.
  - destruct h as [|s h].
    + exists []. repeat split. constructor.
    + cbn [logMouseMove_loop List.length Nat.ltb Nat.leb].
      inversion S as [|? ? (t & x & y & Es) S']; subst.
      cbn [history_0 nth_error ltb_undef].
      destruct (ltb t (now - INERTIA_WINDOW)) eqn:D.
      * unfold splice. cbn [firstn skipn app Nat.add].
        destruct (IH h S') as (h' & R & K & F); [simpl in Hf; lia|].
        exists h'. split; [exact R|]. split; [|exact F].
        constructor. exact K.
      * cbn [pause_longer].
        destruct (loop_after_first now fuel ([t; x; y] :: h) 1) as (h' & R & Hd & K).
        { lia. } { simpl in *. lia. }
        exists h'. split; [exact R|]. split; [exact K|].
        destruct h' as [|s' h']; [exact I|].
        simpl in Hd. inversion Hd; subst.
        apply ltb_ge in D. exact D.
Qed.

Lemma _logMouseMove_spec (evt : PointerEvt) (now : number) (v : Viewer) :
  oldest_first (mouse_history (prop v)) ->
  Forall (fun s => is_sample s /\ sample_time s <= now) (mouse_history (prop v)) ->
  exists h', _logMouseMove evt now v = Some (with_prop (set_mouse_history h') v)
             /\ within_window now h'
             /\ oldest_first h'.
Proof.
  intros O F. unfold _logMouseMove.
  set (h := mouse_history (prop v) ++ [[now; clientX evt; clientY evt]]).
  assert (Fh : Forall (fun s => is_sample s /\ sample_time s <= now) h).
  { apply Forall_app. split; [exact F|].
    constructor; [|constructor]. split.
    - exists now, (clientX evt), (clientY evt). reflexivity.
    - unfold sample_time. simpl. apply Qle_refl. }
  assert (Oh : oldest_first h).
  { apply oldest_first_snoc; [exact O|].
    eapply Forall_impl; [|exact F]. simpl. intros s [_ L]. exact L. }
  destruct (loop_from_start now (logMouseMove_fuel h) h) as (h' & R & K & Hd).
  { eapply Forall_impl; [|exact Fh]. simpl. intros s [Sa _]. exact Sa. }
  { unfold logMouseMove_fuel. lia. }
  rewrite R. exists h'. split; [reflexivity|].
  assert (Fh' := kept_Forall _ _ _ K Fh).
  assert (Oh' := oldest_first_kept _ _ K Oh).
  split; [|exact Oh'].
  unfold within_window.
  destruct h' as [|s h']; [constructor|].
  inversion Oh' as [|? ? Fs _]; subst.
  inversion Fh' as [|? ? [Ss Ls] Fh'']; subst.
  constructor; [auto|].
  rewrite Forall_forall in *. intros s' In'.
  destruct (Fh'' s' In') as [Ss' Ls'].
  specialize (Fs s' In'). simpl in Fs.
  repeat split; auto. lra.
Qed.

(** C7: the mouse history is a sequence of samples [[t; x; y]], oldest
    first; after every call of [_logMouseMove] (which, the inertia window
    being no negative span, always completes) each sample kept lies within
    the inertia window that ends at the current time; and [_startMove]
    leaves in the history nothing but the sample of the pointer-down
    itself. *)
Theorem mouse_history_stays_within_window
    (evt : PointerEvt) (now : number) (v : Viewer) :
  (oldest_first (mouse_history (prop v)) ->
   Forall (fun s => is_sample s /\ sample_time s <= now) (mouse_history (prop v)) ->
   exists v', _logMouseMove evt now v = Some v'
              /\ within_window now (mouse_history (prop v'))
              /\ oldest_first (mouse_history (prop v')))
  /\ (exists v', _startMove evt now v = Some v'
                 /\ mouse_history (prop v') = [[now; clientX evt; clientY evt]]).
Proof.
  split.
  - intros O F.
    destruct (_logMouseMove_spec evt now v O F) as (h' & R & W & O').
    eexists. split; [exact R|]. simpl. auto.
  - unfold _startMove. cbv zeta.
    match goal with
    | |- context [_logMouseMove evt now ?w0] => set (w := w0)
    end.
    assert (D : ltb now (now - INERTIA_WINDOW) = false) by (apply ltb_ge; lra).
    exists (with_prop (set_mouse_history [[now; clientX evt; clientY evt]]) w).
    split; [|reflexivity].
    unfold _logMouseMove.
    change (mouse_history (prop w)) with (@nil (list number)).
    cbn [app logMouseMove_fuel List.length Nat.mul Nat.add logMouseMove_loop
         Nat.ltb Nat.leb history_0 nth_error ltb_undef pause_longer].
    rewrite D. reflexivity.
Qed.

End History.

(** ** Autorotation *)

(** C6: while autorotation is registered, the before-render tick calls
    [rotate] with the longitude moved by the configured speed times the
    elapsed time (in seconds: [elapsed / 1000]; no time has elapsed at the
    first tick) and the latitude brought one two-hundredth closer to the
    resting latitude, so that the position stored is that target cleaned and
    constrained; a [_side-reached] notification for "left" or "right"
    received meanwhile flips the sign of the autorotation speed, one for
    "top" or "bottom" leaves the configuration alone. *)
Theorem autorotate_tick_and_bounce
    (cb : AutorotateCb) (timestamp : number) (device : number -> Vector3)
    (v : Viewer) :
  autorotate_cb (prop v) = Some cb ->
  gyroscope_exclusive v ->
  let elapsed := match last cb with None => 0 | Some l => timestamp - l end in
  let lat := latitude (position (prop v)) in
  let target :=
    {| longitude := longitude (position (prop v))
                    + anim_speed (config v) * elapsed / 1000;
       latitude := lat - (lat - of_nullable (anim_lat (config v))) / 200 |} in
  before_render timestamp device v
  = rotate (spherical target)
      (with_prop (set_autorotate_cb (Some {| last := Some timestamp |})) v)
  /\ position (prop (before_render timestamp device v))
     = fst (applyRanges (config v) (cleanPosition (spherical target)))
  /\ longitude target
     == longitude (position (prop v)) + anim_speed (config v) * (elapsed / 1000)
  /\ latitude target - of_nullable (anim_lat (config v))
     == (199 # 200) * (lat - of_nullable (anim_lat (config v)))
  /\ (forall side, side = "left" \/ side = "right" ->
        anim_speed (config (trigger (_side_reached side) v))
        = - anim_speed (config v))
  /\ (forall side, side = "top" \/ side = "bottom" ->
        config (trigger (_side_reached side) v) = config v).
Proof.
  intros A G elapsed lat target.
  assert (O : orientation_cb (prop v) = None).
  { destruct (orientation_cb (prop v)) eqn:E; [|reflexivity].
    destruct G as [G _]; [unfold isGyroscopeEnabled; rewrite E; reflexivity|].
    congruence. }
  assert (E : before_render timestamp device v
              = rotate (spherical target)
                  (with_prop (set_autorotate_cb (Some {| last := Some timestamp |})) v)).
  { unfold before_render. rewrite A. cbv zeta.
    unfold autorotateUpdate at 1. cbv zeta.
    rewrite prop_rotate. simpl. rewrite O.
    unfold autorotateUpdate. reflexivity. }
  split; [exact E|].
  split; [rewrite E, prop_rotate; reflexivity|].
  split; [simpl; field|].
  split; [simpl; field|].
  split.
  - intros side S. simpl. unfold on_side_reached, isAutorotateEnabled. simpl.
    rewrite A. simpl. destruct S; subst; reflexivity.
  - intros side S. simpl. unfold on_side_reached, isAutorotateEnabled. simpl.
    rewrite A. simpl. destruct S; subst; simpl; destruct v; reflexivity.
Qed.

(** ** Click and double click *)

Lemma elapse_before_due (now due : number) (v : Viewer) :
  dblclick_timeout (prop v) = Some due -> now < due -> elapse now v = v.
Proof.
  intros T L. unfold elapse. rewrite T.
  destruct (Qle_bool due now) eqn:E; [|reflexivity].
  apply Qle_bool_iff in E. lra.
Qed.

Lemma elapse_after_due (now due : number) (v : Viewer) :
  dblclick_timeout (prop v) = Some due -> due <= now ->
  elapse now v = dblclick_expired v.
Proof.
  intros T L. unfold elapse. rewrite T.
  apply Qle_bool_iff in L. rewrite L. reflexivity.
Qed.

Lemma elapse_idle (now : number) (v : Viewer) :
  dblclick_timeout (prop v) = None -> elapse now v = v.
Proof. intros T. unfold elapse. rewrite T. reflexivity. Qed.

(** Two clicks whose pointer rays meet the sphere. *)
Lemma two_clicks_on_the_sphere
    (e1 e2 : PointerEvt) (t1 t2 : number) (d1 : ClickData.t) (v : Viewer) :
  dblclick_timeout (prop v) = None ->
  click_data e1 v = Some d1 ->
  exists v1,
    click_at e1 t1 v = Some v1
    /\ triggered v1 = triggered v ++ [click d1]
    /\ forall d2,
         click_data e2 (elapse t2 v1) = Some d2 ->
         exists v2,
           click_at e2 t2 v1 = Some v2
           /\ (t2 < t1 + DBLCLICK_DELAY ->
               Math_abs (clientX e1 - clientX e2) < MOVE_THRESHOLD ->
               Math_abs (clientY e1 - clientY e2) < MOVE_THRESHOLD ->
               triggered v2 = triggered v ++ [click d1; dblclick d1])
           /\ (t1 + DBLCLICK_DELAY < t2 ->
               triggered v2 = triggered v ++ [click d1; click d2])
           /\ (t2 < t1 + DBLCLICK_DELAY ->
               MOVE_THRESHOLD <= Math_abs (clientX e1 - clientX e2)
               \/ MOVE_THRESHOLD <= Math_abs (clientY e1 - clientY e2) ->
               triggered v2 = triggered v ++ [click d1]).
Proof.
  intros T0 D1.
  assert (X1 : ClickData.client_x d1 = clientX e1 /\ ClickData.client_y d1 = clientY e1).
  { unfold click_data in D1.
    destruct (viewerCoordsToVector3 _ _ _); [|discriminate].
    inversion D1. split; reflexivity. }
  destruct X1 as [X1 Y1].
  unfold click_at at 1. rewrite (elapse_idle _ _ T0).
  unfold _click at 1. rewrite D1, T0. cbv zeta.
  eexists. split; [reflexivity|].
  split; [reflexivity|].
  intros d2 D2.
  assert (X2 : ClickData.client_x d2 = clientX e2 /\ ClickData.client_y d2 = clientY e2).
  { unfold click_data in D2.
    destruct (viewerCoordsToVector3 _ _ _); [|discriminate].
    inversion D2. split; reflexivity. }
  destruct X2 as [X2 Y2].
  match goal with
  | |- context [click_at e2 t2 ?w] => set (v1 := w) in *
  end.
  assert (T1 : dblclick_timeout (prop v1) = Some (t1 + DBLCLICK_DELAY)) by reflexivity.
  assert (Dd : dblclick_data (prop v1) = Some d1) by reflexivity.
  assert (Tr : triggered v1 = triggered v ++ [click d1]) by reflexivity.
  destruct (Qlt_le_dec t2 (t1 + DBLCLICK_DELAY)) as [In | Out].
  - (* the timer is still pending *)
    assert (El : elapse t2 v1 = v1) by (eapply elapse_before_due; eassumption).
    unfold click_at. rewrite El in *.
    unfold _click. rewrite D2, T1, Dd. cbv zeta.
    unfold near. rewrite X1, Y1, X2, Y2.
    destruct (ltb (Math_abs (clientX e1 - clientX e2)) MOVE_THRESHOLD) eqn:Lx;
      destruct (ltb (Math_abs (clientY e1 - clientY e2)) MOVE_THRESHOLD) eqn:Ly;
      cbn [andb]; eexists; (split; [reflexivity|]);
      reflect_ltb; cbn [triggered with_prop trigger emit];
      rewrite ?Tr, <- ?app_assoc;
      (split; [|split]); intros; try reflexivity; try lra;
      match goal with H : _ \/ _ |- _ => destruct H; lra end.
  - (* the timer has fired *)
    assert (El : elapse t2 v1 = dblclick_expired v1)
      by (eapply elapse_after_due; eassumption).
    unfold click_at. rewrite El in *.
    unfold _click. rewrite D2. cbn [dblclick_expired with_prop prop set_dblclick_data
                                     set_dblclick_timeout dblclick_timeout].
    cbv zeta. eexists. split; [reflexivity|].
    cbn [triggered with_prop trigger emit dblclick_expired].
    rewrite ?Tr, <- ?app_assoc.
    (split; [|split]); intros; try reflexivity; lra.
Qed.

Lemma triggered_elapse (now : number) (v : Viewer) :
  triggered (elapse now v) = triggered v.
Proof.
  unfold elapse. destruct (dblclick_timeout (prop v)); [|reflexivity].
  destruct (Qle_bool _ _); reflexivity.
Qed.

(** C5, as the code has it: of two pointer-ups classified as clicks whose
    pointer rays meet the sphere, the first one, met with no double-click
    timer pending, emits [click]; a second one inside the double-click
    delay and closer than [MOVE_THRESHOLD] on both axes emits [dblclick]
    with the data of the first click and nothing else; a second one after
    the delay emits a [click] of its own; a second one inside the delay but
    [MOVE_THRESHOLD] or more away on some axis emits nothing at all.  A
    pointer-up classified as a click whose ray meets no point of the
    sphere, be it the first or the second, emits nothing and leaves the
    viewer, its double-click timer included, as it is. *)
Theorem click_then_second_click
    (e1 e2 : PointerEvt) (t1 t2 : number) (v : Viewer) :
  dblclick_timeout (prop v) = None ->
  (click_data e1 v = None -> click_at e1 t1 v = Some v)
  /\ (forall d1,
        click_data e1 v = Some d1 ->
        exists v1,
          click_at e1 t1 v = Some v1
          /\ triggered v1 = triggered v ++ [click d1]
          /\ (click_data e2 (elapse t2 v1) = None ->
              click_at e2 t2 v1 = Some (elapse t2 v1)
              /\ triggered (elapse t2 v1) = triggered v ++ [click d1])
          /\ forall d2,
               click_data e2 (elapse t2 v1) = Some d2 ->
               exists v2,
                 click_at e2 t2 v1 = Some v2
                 /\ (t2 < t1 + DBLCLICK_DELAY ->
                     Math_abs (clientX e1 - clientX e2) < MOVE_THRESHOLD ->
                     Math_abs (clientY e1 - clientY e2) < MOVE_THRESHOLD ->
                     triggered v2 = triggered v ++ [click d1; dblclick d1])
                 /\ (t1 + DBLCLICK_DELAY < t2 ->
                     triggered v2 = triggered v ++ [click d1; click d2])
                 /\ (t2 < t1 + DBLCLICK_DELAY ->
                     MOVE_THRESHOLD <= Math_abs (clientX e1 - clientX e2)
                     \/ MOVE_THRESHOLD <= Math_abs (clientY e1 - clientY e2) ->
                     triggered v2 = triggered v ++ [click d1])).
Proof.
  intros T0. split.
  - intros D1. unfold click_at. rewrite (elapse_idle _ _ T0).
    unfold _click. rewrite D1. reflexivity.
  - intros d1 D1.
    destruct (two_clicks_on_the_sphere e1 e2 t1 t2 d1 v T0 D1) as (v1 & C1 & Tr & H).
    exists v1. split; [exact C1|]. split; [exact Tr|]. split; [|exact H].
    intros D2. split.
    + unfold click_at, _click. rewrite D2. reflexivity.
    + rewrite triggered_elapse. exact Tr.
Qed.

(** ** Every write of the position goes through [rotate], but one *)

Lemma same_options_refl (c : Config) : same_options c c.
Proof. reflexivity. Qed.

Lemma same_options_trans (c1 c2 c3 : Config) :
  same_options c1 c2 -> same_options c2 c3 -> same_options c1 c3.
Proof. unfold same_options. congruence. Qed.

Lemma same_options_set_anim_speed (x : number) (c : Config) :
  same_options c (set_anim_speed x c).
Proof. destruct c; reflexivity. Qed.

Lemma same_options_set_panorama (x : option string) (c : Config) :
  same_options c (set_panorama x c).
Proof. destruct c; reflexivity. Qed.

Lemma rotated_to_same_options (c1 c2 : Config) (p : Position) :
  same_options c1 c2 -> rotated_to c2 p -> rotated_to c1 p.
Proof.
  intros S (pos & c & S' & E). exists pos, c.
  split; [eapply same_options_trans; eassumption | exact E].
Qed.

Lemma tracked_refl (v : Viewer) : tracked v v.
Proof.
  exists []. rewrite app_nil_r.
  repeat split; auto using same_options_refl.
Qed.

Lemma tracked_trans (v1 v2 v3 : Viewer) :
  tracked v1 v2 -> tracked v2 v3 -> tracked v1 v3.
Proof.
  intros (e1 & T1 & N1 & C1 & F1 & P1) (e2 & T2 & N2 & C2 & F2 & P2).
  exists (e1 ++ e2). split; [rewrite T2, T1, app_assoc; reflexivity|].
  split; [auto|].
  split; [eapply same_options_trans; eassumption|].
  split; [auto|].
  destruct P2 as [P2 | (R2 & D2 & I2)].
  - destruct P1 as [P1 | (R1 & D1 & I1)].
    + left. congruence.
    + right. split; [rewrite P2; exact R1|]. split; [auto|].
      apply in_or_app. left.
      unfold getPosition in *. rewrite P2. exact I1.
  - right. split; [eapply rotated_to_same_options; eassumption|].
    split; [exact D2|]. apply in_or_app. right. exact I2.
Qed.

Lemma tracked_with_prop (f : Props -> Props) (v : Viewer) :
  (forall p, position (f p) = position p) ->
  (forall p, needsUpdate p = true -> needsUpdate (f p) = true) ->
  tracked v (with_prop f v).
Proof.
  intros P N. exists []. simpl. rewrite app_nil_r.
  repeat split; auto using same_options_refl.
Qed.

Lemma tracked_with_config (f : Config -> Config) (v : Viewer) :
  (forall c, same_options c (f c)) ->
  tracked v (with_config f v).
Proof.
  intros S. exists []. simpl. rewrite app_nil_r.
  repeat split; auto.
Qed.

Lemma tracked_set_stereoEffect (b : bool) (v : Viewer) :
  tracked v (set_stereoEffect b v).
Proof.
  exists []. simpl. rewrite app_nil_r.
  repeat split; auto using same_options_refl.
Qed.

Lemma tracked_set_scene (b : bool) (v : Viewer) : tracked v (set_scene b v).
Proof.
  exists []. simpl. rewrite app_nil_r.
  repeat split; auto using same_options_refl.
Qed.

Lemma tracked_set_canvas_container (b : bool) (v : Viewer) :
  tracked v (set_canvas_container b v).
Proof.
  exists []. simpl. rewrite app_nil_r.
  repeat split; auto using same_options_refl.
Qed.

Lemma tracked_set_notification_visible (b : bool) (v : Viewer) :
  tracked v (set_notification_visible b v).
Proof.
  exists []. simpl. rewrite app_nil_r.
  repeat split; auto using same_options_refl.
Qed.

Lemma tracked_dividing_by (y : number) (v : Viewer) :
  tracked v (dividing_by y v).
Proof.
  unfold dividing_by. exists []. rewrite app_nil_r.
  destruct (eqb y 0); simpl; repeat split; auto using same_options_refl.
Qed.

Lemma tracked_console_warn (msg : string) (v : Viewer) :
  tracked v (console_warn msg v).
Proof.
  exists []. simpl. rewrite app_nil_r.
  repeat split; auto using same_options_refl.
Qed.

Lemma tracked_trigger (e : Event) (v : Viewer) : tracked v (trigger e v).
Proof.
  exists [e]. rewrite triggered_trigger, prop_trigger, non_finite_trigger.
  repeat split; auto.
  rewrite config_trigger. apply same_options_set_anim_speed.
Qed.

Lemma tracked_reach (sides : list string) (v : Viewer) : tracked v (reach sides v).
Proof.
  destruct (reach_spec sides v) as (P & T & _ & _ & _ & C & _).
  destruct (reach_page sides v) as (_ & _ & F).
  exists (map _side_reached sides). rewrite P, T, F.
  repeat split; auto.
  rewrite C. apply same_options_set_anim_speed.
Qed.

Lemma tracked_rotate (pos : ExtendedPosition) (v : Viewer) :
  tracked v (rotate pos v).
Proof.
  eexists. split; [apply triggered_rotate|].
  rewrite non_finite_rotate, prop_rotate. simpl. split; [auto|].
  split; [rewrite config_rotate; apply same_options_set_anim_speed|].
  split; [auto|].
  right. split; [|split; [reflexivity|]].
  - exists pos, (config v). split; [apply same_options_refl | reflexivity].
  - apply in_or_app. right. left. reflexivity.
Qed.

Lemma tracked_fired (v v' : Viewer) : tracked v v' -> through_rotate v v'.
Proof.
  intros (evs & T & _ & _ & _ & P). unfold through_rotate, fired.
  rewrite T, skipn_app, skipn_all, Nat.sub_diag. simpl.
  exact P.
Qed.

Create HintDb tracked.
#[local] Hint Resolve same_options_set_anim_speed same_options_set_panorama
  tracked_with_config tracked_set_stereoEffect tracked_set_scene
  tracked_set_canvas_container tracked_set_notification_visible
  tracked_dividing_by
  tracked_console_warn tracked_trigger tracked_reach tracked_rotate : tracked.

(** Peels the outermost call off the viewer on the right: known calls are
    closed with the hints, record updates by computing the two fields,
    conditionals by cases. *)
Ltac track :=
  cbv zeta;
  lazymatch goal with
  | |- tracked ?v ?v => apply tracked_refl
  | |- tracked ?v (with_prop ?f ?w) =>
      apply (tracked_trans v w);
      [track
      | apply tracked_with_prop;
        [ intros ?; reflexivity
        | let H := fresh in intros ? H; first [exact H | reflexivity] ]]
  | |- tracked ?v (if ?b then _ else _) => destruct b eqn:?; track
  | |- tracked ?v (match ?x with _ => _ end) => destruct x eqn:?; track
  | |- tracked ?v (viewer_of (if ?b then _ else _)) => destruct b eqn:?; track
  | |- tracked ?v (viewer_of (match ?x with _ => _ end)) =>
      destruct x eqn:?; track
  | |- tracked ?v (viewer_of (returned _ _)) => cbn [viewer_of]; track
  | |- tracked ?v (viewer_of (thrown _ _)) => cbn [viewer_of]; track
  | |- tracked ?v (?f ?w) =>
      apply (tracked_trans v w); [track | solve [auto with tracked nocore]]
  end.

Lemma tracked_zoom (level : number) (v : Viewer) : tracked v (zoom level v).
Proof. unfold zoom, needsUpdate_. track. Qed.
#[local] Hint Resolve tracked_zoom : tracked.

Lemma tracked_zoomIn (v : Viewer) : tracked v (zoomIn v).
Proof. unfold zoomIn. track. Qed.

Lemma tracked_zoomOut (v : Viewer) : tracked v (zoomOut v).
Proof. unfold zoomOut. track. Qed.

Lemma tracked_stopAutorotate (v : Viewer) : tracked v (stopAutorotate v).
Proof. unfold stopAutorotate. track. Qed.

Lemma tracked_stopAnimation (v : Viewer) : tracked v (stopAnimation v).
Proof. unfold stopAnimation, settle. track. Qed.

Lemma tracked_stopGyroscopeControl (v : Viewer) :
  tracked v (stopGyroscopeControl v).
Proof. unfold stopGyroscopeControl. track. Qed.
#[local] Hint Resolve tracked_zoomIn tracked_zoomOut tracked_stopAutorotate
  tracked_stopAnimation tracked_stopGyroscopeControl : tracked.

Lemma tracked__stopAll (v : Viewer) : tracked v (_stopAll v).
Proof. unfold _stopAll. track. Qed.
#[local] Hint Resolve tracked__stopAll : tracked.

Lemma tracked_startAutorotate (v : Viewer) : tracked v (startAutorotate v).
Proof. unfold startAutorotate. track. Qed.
#[local] Hint Resolve tracked_startAutorotate : tracked.

Lemma tracked_toggleAutorotate (v : Viewer) : tracked v (toggleAutorotate v).
Proof. unfold toggleAutorotate. track. Qed.

Lemma tracked_autorotateUpdate (cb : AutorotateCb) (timestamp : number) (v : Viewer) :
  tracked v (autorotateUpdate cb timestamp v).
Proof. unfold autorotateUpdate. track. Qed.

Lemma tracked_startGyroscopeControl (supported : bool) (direction : Vector3)
    (v : Viewer) :
  tracked v (viewer_of (startGyroscopeControl supported direction v)).
Proof. unfold startGyroscopeControl. track. Qed.

Lemma tracked_toggleGyroscopeControl (supported : bool) (direction : Vector3)
    (v : Viewer) :
  tracked v (viewer_of (toggleGyroscopeControl supported direction v)).
Proof.
  unfold toggleGyroscopeControl.
  destruct (isGyroscopeEnabled v); [cbn [viewer_of]; track|].
  pose proof (tracked_startGyroscopeControl supported direction v) as H.
  destruct (startGyroscopeControl supported direction v); exact H.
Qed.

Lemma tracked_startNoSleep (v : Viewer) : tracked v (startNoSleep v).
Proof. unfold startNoSleep. track. Qed.

Lemma tracked_showNotification (v : Viewer) : tracked v (showNotification v).
Proof. unfold showNotification. track. Qed.

Lemma tracked_hideNotification (v : Viewer) : tracked v (hideNotification v).
Proof. unfold hideNotification. track. Qed.
#[local] Hint Resolve tracked_startNoSleep tracked_showNotification
  tracked_hideNotification : tracked.

Lemma tracked_startStereoView (supported : bool) (direction : Vector3)
    (v : Viewer) :
  tracked v (viewer_of (startStereoView supported direction v)).
Proof.
  unfold startStereoView.
  destruct (has_DeviceOrientationControls && has_StereoEffect)%bool;
    [|apply tracked_refl].
  apply (tracked_trans v (startNoSleep v)); [apply tracked_startNoSleep|].
  pose proof (tracked_startGyroscopeControl supported direction (startNoSleep v)) as H.
  destruct (startGyroscopeControl supported direction (startNoSleep v)) as [p w|e w];
    cbn [viewer_of] in *; [|exact H].
  destruct p; cbn [viewer_of]; try exact H.
  unfold needsUpdate_. eapply tracked_trans; [exact H|]. track.
Qed.

Lemma tracked_stopStereoView (v : Viewer) : tracked v (stopStereoView v).
Proof. unfold stopStereoView, needsUpdate_. track. Qed.
#[local] Hint Resolve tracked_stopStereoView : tracked.

Lemma tracked_animate (pos : ExtendedPosition) (dur : value) (v : Viewer) :
  tracked v (snd (animate pos dur v)).
Proof.
  unfold animate. cbv zeta.
  destruct (negb (truthy_value dur) || _)%bool; cbn [snd].
  - track.
  - destruct (applyRanges _ _) as [target sides]. cbn [snd]. track.
Qed.

Lemma tracked_setPanorama (path : string) (pos : option ExtendedPosition)
    (with_transition : bool) (v : Viewer) :
  tracked v (viewer_of (setPanorama path pos with_transition v)).
Proof. unfold setPanorama. track. Qed.

Lemma tracked__setTexture (v : Viewer) : tracked v (_setTexture v).
Proof. unfold _setTexture. track. Qed.
#[local] Hint Resolve tracked__setTexture : tracked.

Lemma tracked_panoramaLoaded (ok : bool) (v : Viewer) :
  tracked v (panoramaLoaded ok v).
Proof. unfold panoramaLoaded. track. Qed.

Lemma tracked__onResize (clientWidth clientHeight : number) (v : Viewer) :
  tracked v (_onResize clientWidth clientHeight v).
Proof. unfold _onResize, needsUpdate_. track. Qed.

Lemma tracked__onKeyDown (key : string) (v : Viewer) :
  tracked v (_onKeyDown key v).
Proof. unfold _onKeyDown. track. Qed.

Lemma tracked__onMouseWheel (spinY : number) (v : Viewer) :
  tracked v (_onMouseWheel spinY v).
Proof. unfold _onMouseWheel. track. Qed.

Lemma tracked__startZoom (t0 t1 : PointerEvt) (v : Viewer) :
  tracked v (_startZoom t0 t1 v).
Proof. unfold _startZoom. track. Qed.

Lemma tracked__zoom (t0 t1 : PointerEvt) (v : Viewer) :
  tracked v (_zoom t0 t1 v).
Proof. unfold _zoom. track. Qed.

Lemma tracked__moveAbsolute (evt : PointerEvt) (v : Viewer) :
  tracked v (_moveAbsolute evt v).
Proof. unfold _moveAbsolute. track. Qed.

Lemma tracked_animation_done (v : Viewer) : tracked v (animation_done v).
Proof. unfold animation_done, settle. track. Qed.

Lemma tracked_dblclick_expired (v : Viewer) : tracked v (dblclick_expired v).
Proof. unfold dblclick_expired. track. Qed.
#[local] Hint Resolve tracked__startZoom tracked__zoom tracked__moveAbsolute
  tracked_dblclick_expired : tracked.

Lemma tracked_completed_trans (v w : Viewer) (o : option Viewer) :
  tracked v w -> when_completed tracked w o -> when_completed tracked v o.
Proof.
  destruct o; simpl; [|auto]. apply tracked_trans.
Qed.

(** The same peeling for handlers in the option monad. *)
Ltac track_opt :=
  cbv zeta;
  lazymatch goal with
  | |- when_completed tracked ?v (Some ?w) => cbn [when_completed]; track
  | |- when_completed tracked ?v None => exact I
  | |- when_completed tracked ?v (if ?b then _ else _) =>
      destruct b eqn:?; track_opt
  | |- when_completed tracked ?v (match ?o with _ => _ end) =>
      lazymatch type of o with
      | option Viewer =>
          let T := fresh "T" in
          assert (T : when_completed tracked v o) by track_opt;
          destruct o eqn:?;
          [ cbn [when_completed] in T;
            eapply tracked_completed_trans; [exact T | track_opt]
          | exact I ]
      | _ => destruct o eqn:?; track_opt
      end
  | |- when_completed tracked ?v (?f ?w) =>
      apply (tracked_completed_trans v w);
      [track | solve [auto with tracked nocore]]
  end.

Lemma tracked__logMouseMove (evt : PointerEvt) (now : number) (v : Viewer) :
  when_completed tracked v (_logMouseMove evt now v).
Proof. unfold _logMouseMove. track_opt. Qed.
#[local] Hint Resolve tracked__logMouseMove : tracked.

Lemma tracked__startMove (evt : PointerEvt) (now : number) (v : Viewer) :
  when_completed tracked v (_startMove evt now v).
Proof. unfold _startMove. track_opt. Qed.

Lemma tracked__click (evt : PointerEvt) (now : number) (v : Viewer) :
  when_completed tracked v (_click evt now v).
Proof. unfold _click. track_opt. Qed.

Lemma tracked__move (evt : PointerEvt) (log : bool) (now : number) (v : Viewer) :
  when_completed tracked v (_move evt log now v).
Proof. unfold _move. track_opt. Qed.

Lemma tracked__stopMoveInertia (evt : PointerEvt) (v : Viewer) :
  when_completed tracked v (_stopMoveInertia evt v).
Proof. unfold _stopMoveInertia. track_opt. Qed.
#[local] Hint Resolve tracked__startMove tracked__click tracked__move
  tracked__stopMoveInertia : tracked.

Lemma tracked__stopMove (evt : PointerEvt) (now : number) (v : Viewer) :
  when_completed tracked v (_stopMove evt now v).
Proof. unfold _stopMove. track_opt. Qed.
#[local] Hint Resolve tracked__stopMove : tracked.

Lemma tracked_animation_tick (a b : number) (v : Viewer) :
  when_completed tracked v (animation_tick a b v).
Proof. unfold animation_tick. track_opt. Qed.

Lemma tracked_step (op : Op) (v : Viewer) :
  ~ runs_orientation_hook op v -> when_completed tracked v (step op v).
Proof.
  intros G. destruct op; cbn [step when_completed].
  - apply tracked_rotate.
  - apply tracked_animate.
  - apply tracked_stopAnimation.
  - apply tracked_zoom.
  - apply tracked_zoomIn.
  - apply tracked_zoomOut.
  - apply tracked_startAutorotate.
  - apply tracked_stopAutorotate.
  - apply tracked_toggleAutorotate.
  - apply tracked_startGyroscopeControl.
  - apply tracked_stopGyroscopeControl.
  - apply tracked_toggleGyroscopeControl.
  - apply tracked_startStereoView.
  - apply tracked_stopStereoView.
  - apply tracked_setPanorama.
  - apply tracked_panoramaLoaded.
  - apply tracked__onResize.
  - apply tracked__onKeyDown.
  - unfold _onMouseDown. apply tracked__startMove.
  - unfold _onMouseUp. track_opt.
  - unfold _onMouseMove. track_opt.
  - unfold _onTouchStart. track_opt.
  - unfold _onTouchEnd. apply tracked__stopMove.
  - unfold _onTouchMove. track_opt.
  - apply tracked__onMouseWheel.
  - (* before-render without the gyroscope hook *)
    simpl in G. unfold before_render.
    destruct (autorotate_cb (prop v)) as [cb|] eqn:A.
    + pose proof (tracked_autorotateUpdate cb timestamp v) as T.
      destruct (orientation_cb (prop (autorotateUpdate cb timestamp v))) eqn:O;
        [|exact T].
      exfalso. apply G. unfold isGyroscopeEnabled.
      unfold autorotateUpdate in O. rewrite prop_rotate in O. simpl in O.
      rewrite O. reflexivity.
    + destruct (orientation_cb (prop v)) eqn:O; [|apply tracked_refl].
      exfalso. apply G. unfold isGyroscopeEnabled. rewrite O. reflexivity.
  - apply tracked_animation_tick.
  - apply tracked_animation_done.
  - track.
  - track.
  - apply tracked_hideNotification.
Qed.

(** C2, as the code has it: whatever the public API, the input handlers,
    the autorotation hook, the animation ticks and the timers do to the
    stored position, they do through [rotate] (the position stored is an
    argument of [rotate], cleaned and constrained to the ranges of the
    options, the dirty flag is set and a [position-updated] event announces
    the position stored); the one exception is the before-render hook of
    the gyroscope, which writes the two position fields itself from the
    orientation of the device, with no range applied, sets the dirty flag
    and announces nothing. *)
Theorem position_written_through_rotate_but_by_gyroscope
    (timestamp : number) (device : number -> Vector3) (v : Viewer) :
  (forall op v',
     step op v = Some v' -> ~ runs_orientation_hook op v -> through_rotate v v')
  /\ (isGyroscopeEnabled v = true ->
      autorotate_cb (prop v) = None ->
      let v' := before_render timestamp device v in
      let coords := vector3ToSphericalCoords
                      (multiplyScalar (device (gyro_alpha_offset (prop v)))
                                      SPHERE_RADIUS) in
      step (op_before_render timestamp device) v = Some v'
      /\ position (prop v')
         = {| longitude := longitude coords; latitude := latitude coords |}
      /\ needsUpdate (prop v') = true
      /\ triggered v' = triggered v).
Proof.
  split.
  - intros op v' S G. apply tracked_fired.
    pose proof (tracked_step op v G) as T. rewrite S in T. exact T.
  - intros G A. unfold isGyroscopeEnabled in G.
    cbn [step]. unfold before_render. rewrite A.
    destruct (orientation_cb (prop v)); [|discriminate].
    repeat split; reflexivity.
Qed.

(** ** Navigation drivers exclude one another only in part *)

Lemma calm_refl (v : Viewer) : calm v v.
Proof. unfold calm. auto. Qed.

Lemma calm_trans (v1 v2 v3 : Viewer) : calm v1 v2 -> calm v2 v3 -> calm v1 v3.
Proof. unfold calm. intros (G1 & A1 & N1) (G2 & A2 & N2). auto. Qed.

Lemma calm_with_prop (f : Props -> Props) (v : Viewer) :
  (forall p, isSome (orientation_cb (f p)) = true -> isSome (orientation_cb p) = true) ->
  (forall p, autorotate_cb p = None -> autorotate_cb (f p) = None) ->
  (forall p, animation_promise p = None -> animation_promise (f p) = None) ->
  calm v (with_prop f v).
Proof. unfold calm, isGyroscopeEnabled. simpl. auto. Qed.

Lemma calm_same_prop (v v' : Viewer) : prop v' = prop v -> calm v v'.
Proof. unfold calm, isGyroscopeEnabled. intros ->. auto. Qed.

Lemma calm_with_config (f : Config -> Config) (v : Viewer) : calm v (with_config f v).
Proof. apply calm_same_prop. reflexivity. Qed.

Lemma calm_set_stereoEffect (b : bool) (v : Viewer) : calm v (set_stereoEffect b v).
Proof. apply calm_same_prop. reflexivity. Qed.

Lemma calm_console_warn (msg : string) (v : Viewer) : calm v (console_warn msg v).
Proof. apply calm_same_prop. reflexivity. Qed.

Lemma calm_trigger (e : Event) (v : Viewer) : calm v (trigger e v).
Proof. apply calm_same_prop. apply prop_trigger. Qed.

Lemma calm_reach (sides : list string) (v : Viewer) : calm v (reach sides v).
Proof. apply calm_same_prop. apply reach_spec. Qed.

Lemma calm_rotate (pos : ExtendedPosition) (v : Viewer) : calm v (rotate pos v).
Proof.
  unfold calm, isGyroscopeEnabled. rewrite prop_rotate. simpl. auto.
Qed.

Lemma calm_set_scene (b : bool) (v : Viewer) : calm v (set_scene b v).
Proof. apply calm_same_prop. reflexivity. Qed.

Lemma calm_set_canvas_container (b : bool) (v : Viewer) :
  calm v (set_canvas_container b v).
Proof. apply calm_same_prop. reflexivity. Qed.

Lemma calm_set_notification_visible (b : bool) (v : Viewer) :
  calm v (set_notification_visible b v).
Proof. apply calm_same_prop. reflexivity. Qed.

Lemma calm_dividing_by (y : number) (v : Viewer) : calm v (dividing_by y v).
Proof.
  apply calm_same_prop. unfold dividing_by. destruct (eqb y 0); reflexivity.
Qed.

Lemma calm__setTexture (v : Viewer) : calm v (_setTexture v).
Proof. apply calm_same_prop. reflexivity. Qed.

Lemma calm_startNoSleep (v : Viewer) : calm v (startNoSleep v).
Proof.
  apply calm_same_prop. unfold startNoSleep. destruct (negb has_NoSleep); reflexivity.
Qed.

Lemma calm_showNotification (v : Viewer) : calm v (showNotification v).
Proof. apply calm_same_prop. unfold showNotification. rewrite prop_trigger. reflexivity. Qed.

Lemma calm_hideNotification (v : Viewer) : calm v (hideNotification v).
Proof.
  apply calm_same_prop. unfold hideNotification.
  destruct (notification_visible v); [rewrite prop_trigger|]; reflexivity.
Qed.

Create HintDb calm.
#[local] Hint Resolve calm_with_config calm_set_stereoEffect calm_console_warn
  calm_set_scene calm_set_canvas_container calm_set_notification_visible
  calm_dividing_by calm__setTexture calm_startNoSleep calm_showNotification
  calm_hideNotification
  calm_trigger calm_reach calm_rotate : calm.

Ltac soothe :=
  cbv zeta;
  lazymatch goal with
  | |- calm ?v ?v => apply calm_refl
  | |- calm ?v (with_prop ?f ?w) =>
      apply (calm_trans v w);
      [soothe
      | apply calm_with_prop;
        let H := fresh in
        intros ? H; first [exact H | reflexivity | discriminate H]]
  | |- calm ?v (if ?b then _ else _) => destruct b eqn:?; soothe
  | |- calm ?v (match ?x with _ => _ end) => destruct x eqn:?; soothe
  | |- calm ?v (viewer_of (if ?b then _ else _)) => destruct b eqn:?; soothe
  | |- calm ?v (viewer_of (match ?x with _ => _ end)) => destruct x eqn:?; soothe
  | |- calm ?v (viewer_of (returned _ _)) => cbn [viewer_of]; soothe
  | |- calm ?v (viewer_of (thrown _ _)) => cbn [viewer_of]; soothe
  | |- calm ?v (?f ?w) =>
      apply (calm_trans v w); [soothe | solve [auto with calm nocore]]
  end.

Lemma calm_completed_trans (v w : Viewer) (o : option Viewer) :
  calm v w -> when_completed calm w o -> when_completed calm v o.
Proof.
  destruct o; simpl; [|auto]. apply calm_trans.
Qed.

Ltac soothe_opt :=
  cbv zeta;
  lazymatch goal with
  | |- when_completed calm ?v (Some ?w) => cbn [when_completed]; soothe
  | |- when_completed calm ?v None => exact I
  | |- when_completed calm ?v (if ?b then _ else _) =>
      destruct b eqn:?; soothe_opt
  | |- when_completed calm ?v (match ?o with _ => _ end) =>
      lazymatch type of o with
      | option Viewer =>
          let T := fresh "T" in
          assert (T : when_completed calm v o) by soothe_opt;
          destruct o eqn:?;
          [ cbn [when_completed] in T;
            eapply calm_completed_trans; [exact T | soothe_opt]
          | exact I ]
      | _ => destruct o eqn:?; soothe_opt
      end
  | |- when_completed calm ?v (?f ?w) =>
      apply (calm_completed_trans v w);
      [soothe | solve [auto with calm nocore]]
  end.

Lemma calm_zoom (level : number) (v : Viewer) : calm v (zoom level v).
Proof. unfold zoom, needsUpdate_. soothe. Qed.
#[local] Hint Resolve calm_zoom : calm.

Lemma calm_zoomIn (v : Viewer) : calm v (zoomIn v).
Proof. unfold zoomIn. soothe. Qed.

Lemma calm_zoomOut (v : Viewer) : calm v (zoomOut v).
Proof. unfold zoomOut. soothe. Qed.

Lemma calm_stopAutorotate (v : Viewer) : calm v (stopAutorotate v).
Proof. unfold stopAutorotate. soothe. Qed.

Lemma calm_stopAnimation (v : Viewer) : calm v (stopAnimation v).
Proof. unfold stopAnimation, settle. soothe. Qed.

Lemma calm_stopGyroscopeControl (v : Viewer) : calm v (stopGyroscopeControl v).
Proof. unfold stopGyroscopeControl. soothe. Qed.
#[local] Hint Resolve calm_zoomIn calm_zoomOut calm_stopAutorotate
  calm_stopAnimation calm_stopGyroscopeControl : calm.

Lemma calm__stopAll (v : Viewer) : calm v (_stopAll v).
Proof. unfold _stopAll. soothe. Qed.

Lemma calm_stopStereoView (v : Viewer) : calm v (stopStereoView v).
Proof. unfold stopStereoView, needsUpdate_. soothe. Qed.
#[local] Hint Resolve calm__stopAll calm_stopStereoView : calm.

Lemma calm_setPanorama (path : string) (pos : option ExtendedPosition)
    (with_transition : bool) (v : Viewer) :
  calm v (viewer_of (setPanorama path pos with_transition v)).
Proof. unfold setPanorama. soothe. Qed.

Lemma calm_panoramaLoaded (ok : bool) (v : Viewer) : calm v (panoramaLoaded ok v).
Proof. unfold panoramaLoaded. soothe. Qed.

Lemma calm__onResize (clientWidth clientHeight : number) (v : Viewer) :
  calm v (_onResize clientWidth clientHeight v).
Proof. unfold _onResize, needsUpdate_. soothe. Qed.

Lemma calm__onKeyDown (key : string) (v : Viewer) : calm v (_onKeyDown key v).
Proof. unfold _onKeyDown. soothe. Qed.

Lemma calm__onMouseWheel (spinY : number) (v : Viewer) :
  calm v (_onMouseWheel spinY v).
Proof. unfold _onMouseWheel. soothe. Qed.

Lemma calm__startZoom (t0 t1 : PointerEvt) (v : Viewer) : calm v (_startZoom t0 t1 v).
Proof. unfold _startZoom. soothe. Qed.

Lemma calm__zoom (t0 t1 : PointerEvt) (v : Viewer) : calm v (_zoom t0 t1 v).
Proof. unfold _zoom. soothe. Qed.

Lemma calm__moveAbsolute (evt : PointerEvt) (v : Viewer) : calm v (_moveAbsolute evt v).
Proof. unfold _moveAbsolute. soothe. Qed.

Lemma calm_dblclick_expired (v : Viewer) : calm v (dblclick_expired v).
Proof. unfold dblclick_expired. soothe. Qed.

Lemma calm_orientationUpdate_call (device : number -> Vector3) (v : Viewer) :
  calm v (orientationUpdate_call device v).
Proof. unfold orientationUpdate_call, needsUpdate_. soothe. Qed.
#[local] Hint Resolve calm__startZoom calm__zoom calm__moveAbsolute
  calm_dblclick_expired : calm.

Lemma calm__logMouseMove (evt : PointerEvt) (now : number) (v : Viewer) :
  when_completed calm v (_logMouseMove evt now v).
Proof. unfold _logMouseMove. soothe_opt. Qed.
#[local] Hint Resolve calm__logMouseMove : calm.

Lemma calm__startMove (evt : PointerEvt) (now : number) (v : Viewer) :
  when_completed calm v (_startMove evt now v).
Proof. unfold _startMove. soothe_opt. Qed.

Lemma calm__click (evt : PointerEvt) (now : number) (v : Viewer) :
  when_completed calm v (_click evt now v).
Proof. unfold _click. soothe_opt. Qed.

Lemma calm__move (evt : PointerEvt) (log : bool) (now : number) (v : Viewer) :
  when_completed calm v (_move evt log now v).
Proof. unfold _move. soothe_opt. Qed.
#[local] Hint Resolve calm__startMove calm__click calm__move : calm.

Lemma exclusive_calm (v v' : Viewer) :
  calm v v' -> gyroscope_exclusive v -> gyroscope_exclusive v'.
Proof.
  unfold calm, gyroscope_exclusive.
  intros (G & A & N) E G'. destruct (E (G G')). auto.
Qed.

Lemma exclusive_off (v : Viewer) :
  orientation_cb (prop v) = None -> gyroscope_exclusive v.
Proof.
  unfold gyroscope_exclusive, isGyroscopeEnabled. intros ->. discriminate.
Qed.

Lemma off_of_exclusive (v : Viewer) :
  gyroscope_exclusive v ->
  autorotate_cb (prop v) <> None \/ animation_promise (prop v) <> None ->
  orientation_cb (prop v) = None.
Proof.
  unfold gyroscope_exclusive, isGyroscopeEnabled. intros E H.
  destruct (orientation_cb (prop v)); [|reflexivity].
  destruct E as [A N]; [reflexivity|]. destruct H; contradiction.
Qed.

Lemma startAutorotate_spec (v : Viewer) :
  isAutorotateEnabled (startAutorotate v) = true
  /\ orientation_cb (prop (startAutorotate v)) = None
  /\ animation_promise (prop (startAutorotate v)) = None.
Proof.
  destruct (_stopAll_spec v) as (_ & O & N & _).
  unfold startAutorotate, isAutorotateEnabled. cbv zeta.
  rewrite prop_trigger. simpl. auto.
Qed.

Lemma startGyroscopeControl_spec (direction : Vector3) (v : Viewer) :
  has_DeviceOrientationControls = true ->
  let v' := viewer_of (startGyroscopeControl true direction v) in
  isGyroscopeEnabled v' = true
  /\ autorotate_cb (prop v') = None
  /\ animation_promise (prop v') = None.
Proof.
  intros H. destruct (_stopAll_spec v) as (A & _ & N & _).
  unfold startGyroscopeControl, isGyroscopeEnabled. rewrite H. cbv zeta.
  cbn [viewer_of]. rewrite prop_trigger. simpl. auto.
Qed.

Lemma animate_spec (pos : ExtendedPosition) (dur : value) (v : Viewer) :
  autorotate_cb (prop (snd (animate pos dur v))) = None
  /\ orientation_cb (prop (snd (animate pos dur v))) = None.
Proof.
  destruct (_stopAll_spec v) as (A & O & _).
  unfold animate. cbv zeta.
  destruct (negb (truthy_value dur) || _)%bool; cbn [snd].
  - rewrite prop_rotate. simpl. auto.
  - destruct (applyRanges _ _) as [target sides]. cbn [snd].
    simpl. destruct (reach_spec sides (_stopAll v)) as (P & _).
    rewrite P. auto.
Qed.

Lemma _startMove_spec (evt : PointerEvt) (now : number) (v v' : Viewer) :
  _startMove evt now v = Some v' ->
  moving (prop v') = true
  /\ autorotate_cb (prop v') = None
  /\ animation_promise (prop v') = None
  /\ orientation_cb (prop v') = orientation_cb (prop v).
Proof.
  unfold _startMove, _logMouseMove. cbv zeta.
  destruct (stopAutorotate_spec v) as (A1 & _ & A3 & _).
  destruct (stopAnimation_spec (stopAutorotate v)) as (B1 & B2 & B3 & _).
  destruct (logMouseMove_loop _ _ _ _ _); [|discriminate].
  intros E. inversion E; subst; clear E. simpl.
  repeat split; congruence.
Qed.

Lemma exclusive_startGyroscopeControl (supported : bool) (direction : Vector3)
    (v : Viewer) :
  gyroscope_exclusive v ->
  gyroscope_exclusive (viewer_of (startGyroscopeControl supported direction v)).
Proof.
  intros E.
  destruct has_DeviceOrientationControls eqn:H.
  - destruct supported.
    + intros _. apply startGyroscopeControl_spec. exact H.
    + unfold startGyroscopeControl. rewrite H. cbn [viewer_of].
      eapply exclusive_calm; [|exact E]. soothe.
  - unfold startGyroscopeControl. rewrite H. exact E.
Qed.

Lemma exclusive__stopMove (evt : PointerEvt) (now : number) (v : Viewer) :
  gyroscope_exclusive v ->
  when_completed (fun _ v' => gyroscope_exclusive v') v (_stopMove evt now v).
Proof.
  intros E. unfold _stopMove.
  destruct (in_hud evt); cbn [negb]; [|exact E].
  destruct (moving (prop v)).
  2: { cbn [when_completed]. eapply exclusive_calm; [|exact E]. soothe. }
  destruct (ltb _ _ && ltb _ _)%bool.
  - pose proof (calm__click evt now v) as C.
    destruct (_click evt now v) as [w|]; [|exact I].
    cbn [when_completed] in *.
    eapply exclusive_calm; [|exact E].
    eapply calm_trans; [exact C|]. soothe.
  - destruct (move_inertia (config v) && negb (isGyroscopeEnabled v))%bool eqn:M.
    + apply andb_prop in M. destruct M as [_ M].
      apply negb_true_iff in M.
      pose proof (calm__logMouseMove evt now v) as C.
      destruct (_logMouseMove evt now v) as [w|]; [|exact I].
      cbn [when_completed] in C.
      assert (Ow : orientation_cb (prop w) = None).
      { destruct C as (C & _). unfold isGyroscopeEnabled in *.
        destruct (orientation_cb (prop w)); [|reflexivity].
        rewrite C in M by reflexivity. discriminate. }
      unfold _stopMoveInertia.
      destruct (history_0 _ 1); [|exact I].
      destruct (history_0 _ 2); [|exact I].
      cbn [when_completed]. apply exclusive_off. exact Ow.
    + cbn [when_completed]. eapply exclusive_calm; [|exact E]. soothe.
Qed.

Lemma exclusive_before_render (timestamp : number) (device : number -> Vector3)
    (v : Viewer) :
  gyroscope_exclusive v -> gyroscope_exclusive (before_render timestamp device v).
Proof.
  intros E. unfold before_render.
  destruct (autorotate_cb (prop v)) as [cb|] eqn:A.
  - assert (O : orientation_cb (prop v) = None).
    { apply off_of_exclusive; [exact E|]. left. congruence. }
    assert (O' : orientation_cb (prop (autorotateUpdate cb timestamp v)) = None).
    { unfold autorotateUpdate. rewrite prop_rotate. exact O. }
    rewrite O'. apply exclusive_off. exact O'.
  - eapply exclusive_calm; [|exact E].
    destruct (orientation_cb (prop v)); [|apply calm_refl].
    apply calm_orientationUpdate_call.
Qed.

Lemma exclusive_animation_done (v : Viewer) :
  gyroscope_exclusive v -> gyroscope_exclusive (animation_done v).
Proof.
  intros E. unfold animation_done.
  destruct (animation_promise (prop v)) as [anim|] eqn:N; [|exact E].
  destruct (running anim); [|exact E].
  apply exclusive_off.
  assert (O : orientation_cb (prop v) = None).
  { apply off_of_exclusive; [exact E|]. right. congruence. }
  unfold settle. destruct (onTick anim); exact O.
Qed.

Lemma exclusive_step (op : Op) (v : Viewer) :
  gyroscope_exclusive v ->
  when_completed (fun _ v' => gyroscope_exclusive v') v (step op v).
Proof.
  intros E.
  assert (K : forall v', calm v v' -> gyroscope_exclusive v')
    by (intros v' C; exact (exclusive_calm v v' C E)).
  assert (Ko : forall o, when_completed calm v o ->
                         when_completed (fun _ v' => gyroscope_exclusive v') v o).
  { intros [w|] C; [apply K; exact C | exact I]. }
  destruct op; cbn [step when_completed].
  - apply K, calm_rotate.
  - apply exclusive_off, animate_spec.
  - apply K, calm_stopAnimation.
  - apply K, calm_zoom.
  - apply K, calm_zoomIn.
  - apply K, calm_zoomOut.
  - apply exclusive_off, startAutorotate_spec.
  - apply K, calm_stopAutorotate.
  - unfold toggleAutorotate. destruct (isAutorotateEnabled v).
    + apply K, calm_stopAutorotate.
    + apply exclusive_off, startAutorotate_spec.
  - apply exclusive_startGyroscopeControl, E.
  - apply K, calm_stopGyroscopeControl.
  - unfold toggleGyroscopeControl. destruct (isGyroscopeEnabled v).
    + apply K. cbn [viewer_of]. apply calm_stopGyroscopeControl.
    + pose proof (exclusive_startGyroscopeControl supported direction v E) as H.
      destruct (startGyroscopeControl supported direction v); exact H.
  - unfold startStereoView.
    destruct (has_DeviceOrientationControls && has_StereoEffect)%bool; [|exact E].
    assert (E' : gyroscope_exclusive (startNoSleep v))
      by (apply K, calm_startNoSleep).
    pose proof (exclusive_startGyroscopeControl supported direction
                  (startNoSleep v) E') as H.
    destruct (startGyroscopeControl supported direction (startNoSleep v))
      as [p w|e w]; cbn [viewer_of] in *; [|exact H].
    destruct p; cbn [viewer_of]; exact H.
  - apply K, calm_stopStereoView.
  - apply K, calm_setPanorama.
  - apply K, calm_panoramaLoaded.
  - apply K, calm__onResize.
  - apply K, calm__onKeyDown.
  - apply Ko. unfold _onMouseDown. apply calm__startMove.
  - unfold _onMouseUp.
    pose proof (exclusive__stopMove evt now v E) as H.
    destruct (_stopMove evt now v) as [w|]; [|exact I].
    cbn [when_completed] in *.
    eapply exclusive_calm; [|exact H]. soothe.
  - apply Ko. unfold _onMouseMove. soothe_opt.
  - apply Ko. unfold _onTouchStart. soothe_opt.
  - unfold _onTouchEnd. apply exclusive__stopMove, E.
  - apply Ko. unfold _onTouchMove. soothe_opt.
  - apply K, calm__onMouseWheel.
  - apply exclusive_before_render, E.
  - apply Ko. unfold animation_tick. soothe_opt.
  - apply exclusive_animation_done, E.
  - apply K. soothe.
  - destruct (start_timeout (prop v)); [|exact E].
    apply exclusive_off, startAutorotate_spec.
  - apply K, calm_hideNotification.
Qed.

Lemma exclusive_run (ops : list Op) :
  forall v v', gyroscope_exclusive v -> run ops v = Some v' -> gyroscope_exclusive v'.
Proof.
  induction ops as [|op ops IH]; intros v v' E R; simpl in R.
  - inversion R; subst. exact E.
  - pose proof (exclusive_step op v E) as S.
    destruct (step op v) as [w|]; [|discriminate].
    apply (IH w); assumption.
Qed.

(** C3, as the code has it: [startAutorotate], [startGyroscopeControl] and
    [animate] each begin by stopping autorotation, the registered animation
    and gyroscope control, so that each leaves itself as the only one of
    the three; the start of a manual drag stops autorotation and the
    registered animation but leaves gyroscope control registered; and in
    every state reached from one where it holds, gyroscope control is
    registered together with neither autorotation nor an animation. *)
Theorem gyroscope_excludes_autorotate_and_animation :
  (forall ops v v',
     gyroscope_exclusive v -> run ops v = Some v' -> gyroscope_exclusive v')
  /\ (forall v,
        isAutorotateEnabled (startAutorotate v) = true
        /\ orientation_cb (prop (startAutorotate v)) = None
        /\ animation_promise (prop (startAutorotate v)) = None)
  /\ (forall direction v,
        has_DeviceOrientationControls = true ->
        let v' := viewer_of (startGyroscopeControl true direction v) in
        isGyroscopeEnabled v' = true
        /\ autorotate_cb (prop v') = None
        /\ animation_promise (prop v') = None)
  /\ (forall pos dur v,
        autorotate_cb (prop (snd (animate pos dur v))) = None
        /\ orientation_cb (prop (snd (animate pos dur v))) = None)
  /\ (forall evt now v v',
        _startMove evt now v = Some v' ->
        moving (prop v') = true
        /\ autorotate_cb (prop v') = None
        /\ animation_promise (prop v') = None
        /\ orientation_cb (prop v') = orientation_cb (prop v)).
Proof.
  split; [intros ops v v'; apply exclusive_run|].
  split; [apply startAutorotate_spec|].
  split; [apply startGyroscopeControl_spec|].
  split; [apply animate_spec|].
  apply _startMove_spec.
Qed.

(** ** The constructor *)

(** What each correction of the constructor writes. *)
Lemma check_longitude_range_spec (v : Viewer) :
  prop (check_longitude_range v) = prop v
  /\ triggered (check_longitude_range v) = triggered v
  /\ console (check_longitude_range v)
     = console v ++ longitude_range_warning (config v)
  /\ config (check_longitude_range v)
     = set_longitude_range
         match longitude_range (config v) with
         | Some r => if negb (Nat.eqb (List.length r) 2) then None else Some r
         | None => None
         end (config v).
Proof.
  destruct v as [c p s cc st nv nf t co]. destruct c.
  unfold check_longitude_range, longitude_range_warning.
  cbn [config longitude_range].
  destruct longitude_range0 as [r|]; [destruct (negb _)|];
    cbn [console console_warn with_config]; rewrite ?app_nil_r;
    repeat split; reflexivity.
Qed.

Lemma check_latitude_range_spec (v : Viewer) :
  prop (check_latitude_range v) = prop v
  /\ triggered (check_latitude_range v) = triggered v
  /\ console (check_latitude_range v)
     = console v ++ latitude_range_warning (config v)
  /\ config (check_latitude_range v)
     = set_latitude_range (corrected_latitude_range (config v)) (config v).
Proof.
  destruct v as [c p s cc st nv nf t co]. destruct c.
  unfold check_latitude_range, corrected_latitude_range, latitude_range_warning.
  cbn [config latitude_range tilt_up_max tilt_down_max].
  destruct latitude_range0 as [r|].
  - destruct (negb _);
      [cbn [console console_warn with_config]; repeat split; reflexivity|].
    destruct r as [|r0 [|r1 [|r2 r]]];
      try (cbn [console]; rewrite ?app_nil_r; repeat split; reflexivity).
    destruct (gtb r0 r1); cbn [console console_warn with_config];
      rewrite ?app_nil_r; repeat split; reflexivity.
  - destruct (isSome tilt_up_max0 || isSome tilt_down_max0)%bool;
      cbn [console console_warn with_config]; rewrite ?app_nil_r;
      repeat split; reflexivity.
Qed.

Lemma check_fov_order_spec (v : Viewer) :
  prop (check_fov_order v) = prop v
  /\ triggered (check_fov_order v) = triggered v
  /\ console (check_fov_order v) = console v ++ fov_warning (config v)
  /\ config (check_fov_order v)
     = set_min_fov (if ltb (max_fov (config v)) (min_fov (config v))
                    then max_fov (config v) else min_fov (config v))
         (set_max_fov (if ltb (max_fov (config v)) (min_fov (config v))
                       then min_fov (config v) else max_fov (config v))
            (config v)).
Proof.
  destruct v as [c p s cc st nv nf t co]. destruct c.
  unfold check_fov_order, fov_warning. cbn [config min_fov max_fov].
  destruct (ltb max_fov0 min_fov0); cbn [console console_warn with_config];
    rewrite ?app_nil_r; repeat split; reflexivity.
Qed.

Lemma check_cache_texture_spec (v : Viewer) :
  prop (check_cache_texture v) = prop v
  /\ triggered (check_cache_texture v) = triggered v
  /\ console (check_cache_texture v) = console v ++ cache_texture_warning (config v)
  /\ config (check_cache_texture v)
     = set_cache_texture (corrected_cache_texture (config v)) (config v).
Proof.
  destruct v as [c p s cc st nv nf t co]. destruct c.
  unfold check_cache_texture, corrected_cache_texture, cache_texture_warning.
  cbn [config cache_texture].
  destruct (truthy cache_texture0 && _)%bool; cbn [console console_warn with_config];
    rewrite ?app_nil_r; repeat split; reflexivity.
Qed.

Lemma bound_fov_spec (v : Viewer) :
  prop (bound_fov v) = prop v
  /\ triggered (bound_fov v) = triggered v
  /\ console (bound_fov v) = console v
  /\ config (bound_fov v)
     = set_max_fov (PSVUtils.bound (max_fov (config v)) 1 179)
         (set_min_fov (PSVUtils.bound (min_fov (config v)) 1 179) (config v)).
Proof.
  destruct v as [c p s cc st nv nf t co]. destruct c. repeat split; reflexivity.
Qed.

Lemma check_config_spec (v : Viewer) :
  let c := config v in
  let c' := config (check_config v) in
  let inverted := ltb (max_fov c) (min_fov c) in
  prop (check_config v) = prop v
  /\ triggered (check_config v) = triggered v
  /\ console (check_config v)
     = console v ++ longitude_range_warning c ++ latitude_range_warning c
       ++ fov_warning c ++ cache_texture_warning c
  /\ longitude_range c'
     = match longitude_range c with
       | Some r => if negb (Nat.eqb (List.length r) 2) then None else Some r
       | None => None
       end
  /\ latitude_range c' = corrected_latitude_range c
  /\ min_fov c' = PSVUtils.bound (if inverted then max_fov c else min_fov c) 1 179
  /\ max_fov c' = PSVUtils.bound (if inverted then min_fov c else max_fov c) 1 179
  /\ cache_texture c' = corrected_cache_texture c
  /\ default_fov c' = default_fov c
  /\ panorama c' = panorama c.
Proof.
  unfold check_config. cbv zeta.
  set (v1 := check_longitude_range v).
  set (v2 := check_latitude_range v1).
  set (v3 := check_fov_order v2).
  set (v4 := check_cache_texture v3).
  destruct (check_longitude_range_spec v) as (P1 & T1 & W1 & C1).
  fold v1 in P1, T1, W1, C1.
  destruct (check_latitude_range_spec v1) as (P2 & T2 & W2 & C2).
  fold v2 in P2, T2, W2, C2.
  destruct (check_fov_order_spec v2) as (P3 & T3 & W3 & C3).
  fold v3 in P3, T3, W3, C3.
  destruct (check_cache_texture_spec v3) as (P4 & T4 & W4 & C4).
  fold v4 in P4, T4, W4, C4.
  destruct (bound_fov_spec v4) as (P5 & T5 & W5 & C5).
  clearbody v4 v3 v2 v1.
  rewrite P5, P4, P3, P2, P1, T5, T4, T3, T2, T1, W5, W4, W3, W2, W1.
  rewrite C5, C4, C3, C2, C1. rewrite <- !app_assoc.
  unfold corrected_cache_texture, corrected_latitude_range, cache_texture_warning,
    fov_warning, latitude_range_warning, longitude_range_warning.
  destruct (config v). repeat split; reflexivity.
Qed.

Lemma set_default_fov__spec (v : Viewer) :
  prop (set_default_fov_ v) = prop v
  /\ triggered (set_default_fov_ v) = triggered v
  /\ console (set_default_fov_ v) = console v
  /\ config (set_default_fov_ v)
     = set_default_fov
         (Some match default_fov (config v) with
               | None => max_fov (config v) / 2 + min_fov (config v) / 2
               | Some d => PSVUtils.bound d (min_fov (config v)) (max_fov (config v))
               end) (config v).
Proof.
  destruct v as [c p s cc st nv nf t co]. destruct c.
  unfold set_default_fov_. cbn [config default_fov].
  destruct default_fov0; repeat split; reflexivity.
Qed.

Lemma parse_config_spec (v : Viewer) :
  prop (parse_config v) = prop v
  /\ triggered (parse_config v) = triggered v
  /\ console (parse_config v) = console v
  /\ min_fov (config (parse_config v)) = min_fov (config v)
  /\ max_fov (config (parse_config v)) = max_fov (config v)
  /\ default_fov (config (parse_config v)) = default_fov (config v)
  /\ cache_texture (config (parse_config v)) = cache_texture (config v)
  /\ panorama (config (parse_config v)) = panorama (config v)
  /\ longitude_range (config (parse_config v))
     = option_map (map (fun angle => parseAngle angle false))
         (longitude_range (config v))
  /\ latitude_range (config (parse_config v))
     = option_map (map (fun angle => parseAngle angle true))
         (latitude_range (config v)).
Proof.
  destruct v as [c p s cc st nv nf t co]. destruct c.
  unfold parse_config.
  destruct anim_lat0, longitude_range0, latitude_range0; repeat split; reflexivity.
Qed.

Lemma zoom_spec (level : number) (v : Viewer) :
  config (zoom level v) = config v
  /\ console (zoom level v) = console v
  /\ autorotate_cb (prop (zoom level v)) = autorotate_cb (prop v)
  /\ loading_promise (prop (zoom level v)) = loading_promise (prop v)
  /\ triggered (zoom level v) = triggered v ++ [zoom_updated (zoom_lvl (prop (zoom level v)))].
Proof. repeat split; reflexivity. Qed.

Lemma _onResize_spec (clientWidth clientHeight : number) (v : Viewer) :
  config (_onResize clientWidth clientHeight v) = config v
  /\ console (_onResize clientWidth clientHeight v) = console v
  /\ autorotate_cb (prop (_onResize clientWidth clientHeight v)) = autorotate_cb (prop v)
  /\ loading_promise (prop (_onResize clientWidth clientHeight v))
     = loading_promise (prop v).
Proof.
  unfold _onResize, dividing_by.
  destruct (negb _ || negb _)%bool; [destruct (eqb _ 0)|];
    repeat split; reflexivity.
Qed.

Lemma apply_default_zoom_spec (v : Viewer) :
  config (apply_default_zoom v) = config v
  /\ console (apply_default_zoom v) = console v
  /\ autorotate_cb (prop (apply_default_zoom v)) = autorotate_cb (prop v)
  /\ orientation_cb (prop (apply_default_zoom v)) = orientation_cb (prop v)
  /\ loading_promise (prop (apply_default_zoom v)) = loading_promise (prop v).
Proof.
  unfold apply_default_zoom, dividing_by.
  destruct (eqb _ 0); repeat split; reflexivity.
Qed.

Lemma apply_move_speed_spec (v : Viewer) :
  config (apply_move_speed v) = config v
  /\ console (apply_move_speed v) = console v
  /\ autorotate_cb (prop (apply_move_speed v)) = autorotate_cb (prop v)
  /\ orientation_cb (prop (apply_move_speed v)) = orientation_cb (prop v)
  /\ loading_promise (prop (apply_move_speed v)) = loading_promise (prop v)
  /\ zoom_lvl (prop (apply_move_speed v)) = zoom_lvl (prop v)
  /\ vFov (prop (apply_move_speed v)) = vFov (prop v).
Proof. repeat split; reflexivity. Qed.

Lemma apply_default_position_spec (v : Viewer) :
  autorotate_cb (prop v) = None ->
  config (apply_default_position v) = config v
  /\ console (apply_default_position v) = console v
  /\ orientation_cb (prop (apply_default_position v)) = orientation_cb (prop v)
  /\ loading_promise (prop (apply_default_position v)) = loading_promise (prop v)
  /\ zoom_lvl (prop (apply_default_position v)) = zoom_lvl (prop v)
  /\ vFov (prop (apply_default_position v)) = vFov (prop v).
Proof.
  intros A. unfold apply_default_position.
  match goal with
  | |- context [rotate ?p v] =>
      destruct (rotate_spec p v) as (Pr & _ & _ & _ & Co & _ & Ci)
  end.
  rewrite Pr, Co, Ci; [repeat split; reflexivity|].
  unfold isAutorotateEnabled. rewrite A. reflexivity.
Qed.

Lemma configure_prop (v : Viewer) : prop (configure v) = prop v.
Proof.
  unfold configure. cbv zeta.
  destruct (parse_config_spec (set_default_fov_ (check_config v))) as (P1 & _).
  destruct (set_default_fov__spec (check_config v)) as (P2 & _).
  destruct (check_config_spec v) as (P3 & _).
  rewrite P1, P2, P3. reflexivity.
Qed.

(** The viewer the constructor assembles before it starts the first load. *)
Lemma PanoSphereViewer_unfold (options : Config) (clientWidth clientHeight : number) :
  can_construct options = true ->
  PanoSphereViewer options clientWidth clientHeight
  = let v := apply_default_position
               (apply_move_speed
                  (apply_default_zoom
                     (_onResize clientWidth clientHeight (configure (blank options))))) in
    match configured_panorama (config v) with
    | Some path =>
        match setPanorama path None false v with
        | returned _ v => inr v
        | thrown e _ => inl (psv_error e)
        end
    | None => inr v
    end.
Proof.
  intros Pre.
  unfold can_construct in Pre.
  apply andb_prop in Pre. destruct Pre as [Pre R].
  apply andb_prop in Pre. destruct Pre as [Pre Cv].
  apply andb_prop in Pre. destruct Pre as [Ct Pa].
  unfold PanoSphereViewer. rewrite Ct, Cv, Pa.
  destruct isWebGLSupported, (webgl options), has_CanvasRenderer_Projector;
    try discriminate R; reflexivity.
Qed.

Lemma first_steps_spec (clientWidth clientHeight : number) (c : Viewer) :
  prop c = initial_prop ->
  let s := _onResize clientWidth clientHeight c in
  let r := apply_default_position (apply_move_speed (apply_default_zoom s)) in
  config s = config c
  /\ config r = config c
  /\ console r = console c
  /\ zoom_lvl (prop r) = zoom_lvl (prop (apply_default_zoom s))
  /\ vFov (prop r) = vFov (prop (apply_default_zoom s))
  /\ loading_promise (prop r) = None
  /\ orientation_cb (prop r) = None.
Proof.
  intros Pc s r.
  destruct (_onResize_spec clientWidth clientHeight c) as (C1 & Co1 & A1 & L1).
  fold s in C1, Co1, A1, L1.
  assert (Os : orientation_cb (prop s) = None).
  { pose proof (calm__onResize clientWidth clientHeight c) as (G & _).
    fold s in G. unfold isGyroscopeEnabled in G. rewrite Pc in G.
    destruct (orientation_cb (prop s)); [|reflexivity].
    specialize (G eq_refl). discriminate. }
  rewrite Pc in A1, L1. cbn [autorotate_cb loading_promise initial_prop] in A1, L1.
  clearbody s.
  destruct (apply_default_zoom_spec s) as (C2 & Co2 & A2 & O2 & L2).
  set (z := apply_default_zoom s) in *. clearbody z.
  destruct (apply_move_speed_spec z) as (C3 & Co3 & A3 & O3 & L3 & Z3 & V3).
  set (m := apply_move_speed z) in *. clearbody m.
  destruct (apply_default_position_spec m) as (C4 & Co4 & O4 & L4 & Z4 & V4).
  { congruence. }
  fold r in C4, Co4, O4, L4, Z4, V4. clearbody r.
  repeat split; congruence.
Qed.

(** The constructor, once its requirements are met, returns the viewer
    obtained from the configured instance by the first resize, the default
    zoom, the default rotation and the start of the first load. *)
Lemma PanoSphereViewer_builds (options : Config) (clientWidth clientHeight : number) :
  can_construct options = true ->
  let c := configure (blank options) in
  let s := _onResize clientWidth clientHeight c in
  config s = config c
  /\ exists v,
    PanoSphereViewer options clientWidth clientHeight = inr v
    /\ zoom_lvl (prop v) = zoom_lvl (prop (apply_default_zoom s))
    /\ vFov (prop v) = vFov (prop (apply_default_zoom s))
    /\ min_fov (config v) = min_fov (config c)
    /\ max_fov (config v) = max_fov (config c)
    /\ default_fov (config v) = default_fov (config c)
    /\ cache_texture (config v) = cache_texture (config c)
    /\ longitude_range (config v) = longitude_range (config c)
    /\ latitude_range (config v) = latitude_range (config c)
    /\ console v = console c
    /\ orientation_cb (prop v) = None.
Proof.
  intros Pre c s.
  rewrite (PanoSphereViewer_unfold _ _ _ Pre). fold c. fold s.
  destruct (first_steps_spec clientWidth clientHeight c (configure_prop _))
    as (Cs & Cr & Cor & Z & V & L & O).
  fold s in Cs, Cr, Cor, Z, V, L, O.
  split; [exact Cs|].
  generalize dependent (apply_default_zoom s). intros z.
  generalize (apply_default_position (apply_move_speed z)). intros r.
  clearbody s c. intros Cr Cor Z V L O. cbv zeta.
  destruct (configured_panorama (config r)) as [path|] eqn:Pa.
  - unfold setPanorama. rewrite L. cbn [andb].
    eexists. split; [reflexivity|].
    cbn [prop config console with_prop with_config zoom_lvl vFov orientation_cb
         set_loading_promise].
    rewrite Cr. destruct (config c).
    repeat split; try reflexivity; congruence.
  - exists r. split; [reflexivity|].
    repeat split; congruence.
Qed.

Lemma configure_spec (v : Viewer) :
  let c := config (check_config v) in
  let c' := config (configure v) in
  console (configure v) = console (check_config v)
  /\ min_fov c' = min_fov c
  /\ max_fov c' = max_fov c
  /\ cache_texture c' = cache_texture c
  /\ longitude_range c'
     = option_map (map (fun angle => parseAngle angle false)) (longitude_range c)
  /\ latitude_range c'
     = option_map (map (fun angle => parseAngle angle true)) (latitude_range c)
  /\ default_fov c'
     = Some match default_fov c with
            | None => max_fov c / 2 + min_fov c / 2
            | Some d => PSVUtils.bound d (min_fov c) (max_fov c)
            end.
Proof.
  unfold configure. cbv zeta.
  generalize (check_config v). intros w.
  destruct (parse_config_spec (set_default_fov_ w))
    as (_ & _ & W1 & Mn & Mx & D & Ca & _ & Lo & La).
  destruct (set_default_fov__spec w) as (_ & _ & W2 & C2).
  rewrite W1, Mn, Mx, D, Ca, Lo, La, W2, C2.
  generalize (config w). intros c.
  repeat split; reflexivity.
Qed.

(** C8: whatever the ranges, the fields of view and the cache size of the
    options are, the constructor (given a container, canvas support and a
    renderer) returns a viewer and throws nothing; a [longitude_range] or
    [latitude_range] that has not exactly two elements has become [null], an
    inverted [latitude_range] has been put in ascending order, inverted
    [min_fov] and [max_fov] have been swapped (in every case
    [min_fov <= max_fov] and both lie in [1, 179] afterwards), a cache size
    that is not an integer or is negative has been replaced by the default;
    and each of these corrections has left its warning on the console. *)
Theorem constructor_corrects_configuration
    (options : Config) (clientWidth clientHeight : number) :
  can_construct options = true ->
  let c := config (check_config (blank options)) in
  exists v,
    PanoSphereViewer options clientWidth clientHeight = inr v
    /\ (forall r, longitude_range options = Some r -> List.length r <> 2%nat ->
          longitude_range c = None /\ longitude_range (config v) = None
          /\ In "PanoSphereViewer: longitude_range must have exactly two elements."
               (console v))
    /\ (forall r, latitude_range options = Some r -> List.length r <> 2%nat ->
          latitude_range c = None /\ latitude_range (config v) = None
          /\ In "PanoSphereViewer: latitude_range must have exactly two elements."
               (console v))
    /\ (forall r0 r1, latitude_range options = Some [r0; r1] -> r1 < r0 ->
          latitude_range c = Some [r1; r0]
          /\ In "PanoSphereViewer: latitude_range values must be ordered." (console v))
    /\ (max_fov options < min_fov options ->
          min_fov (config v) = PSVUtils.bound (max_fov options) 1 179
          /\ max_fov (config v) = PSVUtils.bound (min_fov options) 1 179
          /\ In "PanoSphereViewer: max_fov cannot be lower than min_fov." (console v))
    /\ (min_fov (config v) <= max_fov (config v)
        /\ 1 <= min_fov (config v) /\ min_fov (config v) <= 179
        /\ 1 <= max_fov (config v) /\ max_fov (config v) <= 179)
    /\ (PSVUtils.isInteger (cache_texture options) = false
        \/ cache_texture options < 0 ->
          cache_texture (config v) = DEFAULTS_cache_texture
          /\ In "PanoSphereViewer: invalid value for cache_texture" (console v)).
Proof.
  intros Pre c.
  destruct (PanoSphereViewer_builds options clientWidth clientHeight Pre)
    as (_ & v & E & _ & _ & Mn & Mx & _ & Ca & Lo & La & W & _).
  destruct (configure_spec (blank options))
    as (W' & Mn' & Mx' & Ca' & Lo' & La' & _).
  destruct (check_config_spec (blank options))
    as (_ & _ & W'' & Lo'' & La'' & Mn'' & Mx'' & Ca'' & _).
  cbv zeta in *. fold c in Mn', Mx', Ca', Lo', La', Lo'', La'', Mn'', Mx'', Ca''.
  rewrite Mn', Mn'' in Mn. rewrite Mx', Mx'' in Mx. rewrite Ca', Ca'' in Ca.
  rewrite Lo' in Lo. rewrite La' in La. rewrite W', W'' in W.
  cbn [config blank console app] in *.
  exists v. split; [exact E|].
  split; [|split; [|split; [|split; [|split]]]].
  - intros r Hr Len. rewrite Lo, Lo'', W. unfold longitude_range_warning.
    rewrite Hr. apply Nat.eqb_neq in Len. rewrite Len. cbn [negb option_map].
    repeat split. apply in_or_app. left. left. reflexivity.
  - intros r Hr Len. rewrite La, La'', W.
    unfold corrected_latitude_range, latitude_range_warning.
    rewrite Hr. apply Nat.eqb_neq in Len. rewrite Len. cbn [negb option_map].
    repeat split. apply in_or_app. right. apply in_or_app. left. left. reflexivity.
  - intros r0 r1 Hr Inv. rewrite La'', W.
    unfold corrected_latitude_range, latitude_range_warning.
    rewrite Hr. cbn [List.length Nat.eqb negb].
    assert (G : gtb r0 r1 = true) by (unfold gtb; apply ltb_lt; exact Inv).
    rewrite G. split; [reflexivity|].
    apply in_or_app. right. apply in_or_app. left. left. reflexivity.
  - intros Inv. apply ltb_lt in Inv. rewrite Mn, Mx, W. unfold fov_warning.
    rewrite Inv. repeat split.
    apply in_or_app. right. apply in_or_app. right.
    apply in_or_app. left. left. reflexivity.
  - rewrite Mn, Mx.
    assert (B : (1 : Q) <= 179) by lra.
    destruct (ltb (max_fov options) (min_fov options)) eqn:Inv; reflect_ltb.
    + split; [apply bound_mono; lra|].
      split; [apply bound_range; exact B|].
      split; [apply bound_range; exact B|].
      split; apply bound_range; exact B.
    + split; [apply bound_mono; lra|].
      split; [apply bound_range; exact B|].
      split; [apply bound_range; exact B|].
      split; apply bound_range; exact B.
  - intros Bad. rewrite Ca, W.
    unfold corrected_cache_texture, cache_texture_warning.
    assert (T : (truthy (cache_texture options)
                 && (negb (PSVUtils.isInteger (cache_texture options))
                     || ltb (cache_texture options) 0))%bool = true).
    { apply andb_true_intro. split.
      - unfold truthy. apply negb_true_iff.
        destruct (Qeq_bool (cache_texture options) 0) eqn:Z; [|reflexivity].
        apply Qeq_bool_eq in Z. exfalso.
        destruct Bad as [NI | Neg]; [|lra].
        unfold PSVUtils.isInteger in NI. apply Qeq_bool_neq in NI.
        apply NI. rewrite (Qfloor_comp _ _ Z). rewrite Z. reflexivity.
      - destruct Bad as [NI | Neg].
        + rewrite NI. reflexivity.
        + apply ltb_lt in Neg. rewrite Neg. apply orb_true_r. }
    rewrite T. split; [reflexivity|].
    apply in_or_app. right. apply in_or_app. right.
    apply in_or_app. right. left. reflexivity.
Qed.

(** ** The default zoom level *)

Lemma Qfloor_unique (x : Q) (z : Z) :
  inject_Z z <= x -> x < inject_Z (z + 1) -> Qfloor x = z.
Proof.
  intros L U.
  assert (L' : (z <= Qfloor x)%Z).
  { rewrite <- (Qfloor_Z z). apply Qfloor_resp_le. exact L. }
  assert (U' : (Qfloor x < z + 1)%Z).
  { rewrite Zlt_Qlt. eapply Qle_lt_trans; [apply Qfloor_le | exact U]. }
  lia.
Qed.

Lemma Math_round_integer (z : Z) (x : Q) :
  x == inject_Z z -> Math_round x = inject_Z z.
Proof.
  intros E. unfold Math_round. f_equal.
  apply Qfloor_unique.
  - rewrite E. lra.
  - rewrite E, inject_Z_plus. change (inject_Z 1) with 1. lra.
Qed.


Lemma apply_default_zoom_level (v : Viewer) :
  let tempZoom :=
    Math_round ((of_nullable (default_fov (config v)) - min_fov (config v))
                / (max_fov (config v) - min_fov (config v)) * 100) in
  zoom_lvl (prop (apply_default_zoom v))
  = PSVUtils.bound (Math_round (tempZoom - 2 * (tempZoom - 50))) 0 100
  /\ vFov (prop (apply_default_zoom v))
     = max_fov (config v)
       + zoom_lvl (prop (apply_default_zoom v)) / 100
         * (min_fov (config v) - max_fov (config v)).
Proof.
  unfold apply_default_zoom, dividing_by.
  destruct (eqb _ 0); split; reflexivity.
Qed.


End Facts.
(** * Concrete runs *)

(** The gyroscope hook moves the camera of [gyroscope_viewer] and no
    [position-updated] event is fired: the position is not written through
    [rotate] alone, as C2 would have it. *)
Lemma gyroscope_hook_writes_position_unannounced :
  ~ (forall op v v',
       step (ext := plain_externals) op v = Some v' ->
       through_rotate (ext := plain_externals) v v').
Proof.
  intros H.
  specialize (H (op_before_render 0 device_reading) gyroscope_viewer _ eq_refl).
  destruct H as [P | (_ & _ & I)].
  - vm_compute in P. discriminate P.
  - vm_compute in I. exact I.
Defined.

(** After gyroscope control has started, a pointer-down starts a drag and
    gyroscope control stays registered: two drivers are active, not at most
    one, as C3 would have it. *)
Lemma drag_and_gyroscope_active_together :
  ~ (forall ops v,
       run (ext := plain_externals) ops sample_viewer = Some v ->
       (List.length (active_drivers v) <= 1)%nat).
Proof.
  intros H.
  specialize (H [op_startGyroscopeControl true ahead;
                 op_mousedown (pointer 10 10) 1000]).
  destruct (run (ext := plain_externals)
              [op_startGyroscopeControl true ahead;
               op_mousedown (pointer 10 10) 1000] sample_viewer) as [w|] eqn:R.
  - specialize (H w eq_refl). vm_compute in R. inversion R; subst; clear R.
    vm_compute in H. lia.
  - vm_compute in R. discriminate R.
Defined.

(** A second click 100 ms after the first and 50 pixels away emits no
    event: the trace holds the first [click] only, not two independent
    clicks, as C5 would have it. *)
Lemma second_click_far_inside_delay_is_dropped :
  ~ (forall e1 e2 t1 t2 d1 d2 v v1 v2,
       dblclick_timeout (prop v) = None ->
       click_data (ext := plain_externals) e1 v = Some d1 ->
       click_at (ext := plain_externals) e1 t1 v = Some v1 ->
       click_data (ext := plain_externals) e2 (elapse t2 v1) = Some d2 ->
       click_at (ext := plain_externals) e2 t2 v1 = Some v2 ->
       t2 < t1 + DBLCLICK_DELAY (Externals := plain_externals) ->
       MOVE_THRESHOLD (Externals := plain_externals)
         <= Math_abs (clientX e1 - clientX e2)
       \/ MOVE_THRESHOLD (Externals := plain_externals)
         <= Math_abs (clientY e1 - clientY e2) ->
       triggered v2 = triggered v ++ [click d1; click d2]).
Proof.
  intros H.
  pose (e1 := pointer 10 10). pose (e2 := pointer 60 10).
  destruct (click_data (ext := plain_externals) e1 sample_viewer) as [d1|] eqn:D1;
    [|vm_compute in D1; discriminate D1].
  destruct (click_at (ext := plain_externals) e1 1000 sample_viewer) as [v1|] eqn:C1;
    [|vm_compute in C1; discriminate C1].
  destruct (click_data (ext := plain_externals) e2 (elapse 1100 v1)) as [d2|] eqn:D2;
    [|vm_compute in C1; inversion C1; subst; vm_compute in D2; discriminate D2].
  destruct (click_at (ext := plain_externals) e2 1100 v1) as [v2|] eqn:C2;
    [|vm_compute in C1; inversion C1; subst; vm_compute in C2; discriminate C2].
  specialize (H e1 e2 1000 1100 d1 d2 sample_viewer v1 v2 eq_refl D1 C1 D2 C2).
  assert (L : 1100 < 1000 + DBLCLICK_DELAY (Externals := plain_externals))
    by (vm_compute; reflexivity).
  assert (F : MOVE_THRESHOLD (Externals := plain_externals)
                <= Math_abs (clientX e1 - clientX e2)
              \/ MOVE_THRESHOLD (Externals := plain_externals)
                <= Math_abs (clientY e1 - clientY e2))
    by (left; vm_compute; discriminate).
  specialize (H L F).
  vm_compute in C1. inversion C1; subst; clear C1.
  vm_compute in C2. inversion C2; subst; clear C2.
  vm_compute in D1. inversion D1; subst; clear D1.
  vm_compute in D2. inversion D2; subst; clear D2.
  vm_compute in H. discriminate H.
Defined.


(** A key press on [sample_viewer] moves the camera through [rotate]; the
    gyroscope hook on [gyroscope_viewer] stores the device's direction. *)
Lemma position_written_through_rotate_but_by_gyroscope_witness :
  (step (ext := plain_externals) (op_keydown "ArrowRight") sample_viewer
   = Some (_onKeyDown (ext := plain_externals) "ArrowRight" sample_viewer)
   /\ ~ runs_orientation_hook (op_keydown "ArrowRight") sample_viewer
   /\ through_rotate (ext := plain_externals) sample_viewer
        (_onKeyDown (ext := plain_externals) "ArrowRight" sample_viewer))
  /\ (isGyroscopeEnabled gyroscope_viewer = true
      /\ autorotate_cb (prop gyroscope_viewer) = None
      /\ triggered (before_render (ext := plain_externals) 0 device_reading
                      gyroscope_viewer)
         = triggered gyroscope_viewer).
Proof.
  split.
  - split; [reflexivity|]. split; [simpl; tauto|].
    destruct (position_written_through_rotate_but_by_gyroscope
                (ext := plain_externals) 0 device_reading sample_viewer) as [H _].
    apply (H (op_keydown "ArrowRight")); [reflexivity | simpl; tauto].
  - split; [reflexivity|]. split; [reflexivity|].
    destruct (position_written_through_rotate_but_by_gyroscope
                (ext := plain_externals) 0 device_reading gyroscope_viewer) as [_ H].
    destruct (H eq_refl eq_refl) as (_ & _ & _ & T). exact T.
Defined.

(** Gyroscope control stays alone through a drag on [gyroscope_viewer]. *)
Lemma gyroscope_excludes_autorotate_and_animation_witness :
  gyroscope_exclusive sample_viewer
  /\ run (ext := plain_externals)
       [op_startGyroscopeControl true ahead; op_mousedown (pointer 10 10) 1000]
       sample_viewer = Some
         (match step (ext := plain_externals) (op_mousedown (pointer 10 10) 1000)
                  gyroscope_viewer with
          | Some v => v
          | None => sample_viewer
          end)
  /\ gyroscope_exclusive
       (match step (ext := plain_externals) (op_mousedown (pointer 10 10) 1000)
                gyroscope_viewer with
        | Some v => v
        | None => sample_viewer
        end)
  /\ has_DeviceOrientationControls (Externals := plain_externals) = true
  /\ isGyroscopeEnabled gyroscope_viewer = true
  /\ _startMove (ext := plain_externals) (pointer 10 10) 1000 sample_viewer
     = Some dragging_viewer
  /\ moving (prop dragging_viewer) = true.
Proof.
  assert (E : gyroscope_exclusive sample_viewer).
  { intros G. vm_compute in G. discriminate G. }
  assert (R : run (ext := plain_externals)
                [op_startGyroscopeControl true ahead; op_mousedown (pointer 10 10) 1000]
                sample_viewer
              = Some
                  (match step (ext := plain_externals)
                           (op_mousedown (pointer 10 10) 1000) gyroscope_viewer with
                   | Some v => v
                   | None => sample_viewer
                   end)) by (vm_compute; reflexivity).
  assert (S : _startMove (ext := plain_externals) (pointer 10 10) 1000 sample_viewer
              = Some dragging_viewer) by (vm_compute; reflexivity).
  destruct (gyroscope_excludes_autorotate_and_animation (ext := plain_externals))
    as (Hrun & _ & Hgyro & _ & Hdrag).
  split; [exact E|]. split; [exact R|].
  split; [exact (Hrun _ _ _ E R)|].
  split; [reflexivity|].
  split; [exact (proj1 (Hgyro ahead sample_viewer eq_refl))|].
  split; [exact S|].
  exact (proj1 (Hdrag _ _ _ _ S)).
Defined.

(** While [loading_viewer] loads, a second [setPanorama] is refused. *)
Lemma setPanorama_refuses_while_loading_witness :
  loading_promise (prop loading_viewer) <> None
  /\ setPanorama (ext := plain_externals) "other.jpg" None false loading_viewer
     = thrown "Loading already in progress" loading_viewer
  /\ setPanorama (ext := plain_externals) "pano.jpg" None false sample_viewer
     = returned (loading_handle {| load_position := None; load_transition := false |})
         loading_viewer.
Proof.
  assert (L : loading_promise (prop loading_viewer) <> None)
    by (vm_compute; discriminate).
  assert (S : setPanorama (ext := plain_externals) "pano.jpg" None false sample_viewer
              = returned
                  (loading_handle {| load_position := None; load_transition := false |})
                  loading_viewer) by (vm_compute; reflexivity).
  split; [exact L|]. split; [|exact S].
  destruct (setPanorama_refuses_while_loading (ext := plain_externals)
              "other.jpg" None false loading_viewer) as [H _].
  exact (H L).
Defined.

(** Two clicks at (10, 10), 100 ms apart: [click], then [dblclick]. *)
Lemma click_then_second_click_witness :
  dblclick_timeout (prop sample_viewer) = None
  /\ click_data (ext := plain_externals) (pointer 10 10) sample_viewer <> None
  /\ exists v1 v2 d1,
       click_at (ext := plain_externals) (pointer 10 10) 1000 sample_viewer = Some v1
       /\ click_at (ext := plain_externals) (pointer 10 10) 1100 v1 = Some v2
       /\ 1100 < 1000 + DBLCLICK_DELAY (Externals := plain_externals)
       /\ Math_abs (10 - 10) < MOVE_THRESHOLD (Externals := plain_externals)
       /\ triggered v2 = triggered sample_viewer ++ [click d1; dblclick d1].
Proof.
  split; [reflexivity|]. split; [vm_compute; discriminate|].
  destruct (click_data (ext := plain_externals) (pointer 10 10) sample_viewer)
    as [d1|] eqn:D1; [|vm_compute in D1; discriminate D1].
  destruct (click_then_second_click (ext := plain_externals)
              (pointer 10 10) (pointer 10 10) 1000 1100 sample_viewer eq_refl)
    as (_ & Hit).
  destruct (Hit d1 D1) as (v1 & C1 & T1 & _ & H).
  destruct (click_data (ext := plain_externals) (pointer 10 10) (elapse 1100 v1))
    as [d2|] eqn:D2.
  2:{ vm_compute in C1. inversion C1; subst. vm_compute in D2. discriminate D2. }
  destruct (H d2 eq_refl) as (v2 & C2 & Hdbl & _ & _).
  assert (L : 1100 < 1000 + DBLCLICK_DELAY (Externals := plain_externals))
    by (vm_compute; reflexivity).
  assert (M : Math_abs (10 - 10) < MOVE_THRESHOLD (Externals := plain_externals))
    by (vm_compute; reflexivity).
  exists v1, v2, d1.
  split; [exact C1|]. split; [exact C2|]. split; [exact L|]. split; [exact M|].
  exact (Hdbl L M M).
Defined.

(** The first autorotation tick on [autorotating_viewer]. *)
Lemma autorotate_tick_and_bounce_witness :
  autorotate_cb (prop autorotating_viewer) = Some {| last := None |}
  /\ gyroscope_exclusive autorotating_viewer
  /\ anim_speed (config (trigger (_side_reached "left") autorotating_viewer))
     = - anim_speed (config autorotating_viewer)
  /\ config (trigger (_side_reached "top") autorotating_viewer)
     = config autorotating_viewer.
Proof.
  assert (E : gyroscope_exclusive autorotating_viewer).
  { intros G. vm_compute in G. discriminate G. }
  destruct (autorotate_tick_and_bounce (ext := plain_externals)
              {| last := None |} 16 device_reading autorotating_viewer eq_refl E)
    as (_ & _ & _ & _ & Hside & Htop).
  split; [reflexivity|]. split; [exact E|].
  split; [apply Hside; left; reflexivity | apply Htop; left; reflexivity].
Defined.

(** Logging a move 16 ms into the drag of [dragging_viewer]. *)
Lemma mouse_history_stays_within_window_witness :
  0 <= INERTIA_WINDOW (Externals := plain_externals)
  /\ oldest_first (mouse_history (prop dragging_viewer))
  /\ Forall (fun s => is_sample s /\ sample_time s <= 1016)
       (mouse_history (prop dragging_viewer))
  /\ exists v',
       _logMouseMove (ext := plain_externals) (pointer 12 10) 1016 dragging_viewer
       = Some v'
       /\ within_window (ext := plain_externals) 1016 (mouse_history (prop v')).
Proof.
  assert (W : 0 <= INERTIA_WINDOW (Externals := plain_externals))
    by (vm_compute; discriminate).
  assert (O : oldest_first (mouse_history (prop dragging_viewer))).
  { vm_compute. constructor; constructor. }
  assert (F : Forall (fun s => is_sample s /\ sample_time s <= 1016)
                (mouse_history (prop dragging_viewer))).
  { vm_compute. constructor; [|constructor]. split.
    - eexists _, _, _. reflexivity.
    - discriminate. }
  destruct (mouse_history_stays_within_window (ext := plain_externals) W
              (pointer 12 10) 1016 dragging_viewer) as [H _].
  destruct (H O F) as (v' & L & Wn & _).
  split; [exact W|]. split; [exact O|]. split; [exact F|].
  exists v'. split; [exact L | exact Wn].
Defined.

(** The constructor on [faulty_options]. *)
Lemma constructor_corrects_configuration_witness :
  can_construct (ext := plain_externals) faulty_options = true
  /\ exists v,
       PanoSphereViewer (ext := plain_externals) faulty_options 800 600 = inr v
       /\ longitude_range (config v) = None
       /\ min_fov (config v) <= max_fov (config v)
       /\ cache_texture (config v) = DEFAULTS_cache_texture (Externals := plain_externals).
Proof.
  assert (P : can_construct (ext := plain_externals) faulty_options = true)
    by reflexivity.
  destruct (constructor_corrects_configuration (ext := plain_externals)
              faulty_options 800 600 P)
    as (v & E & Hlon & _ & _ & _ & (Hfov & _) & Hcache).
  split; [exact P|]. exists v. split; [exact E|].
  split.
  - apply (Hlon [1]); [reflexivity | simpl; lia].
  - split; [exact Hfov|]. apply Hcache. left. reflexivity.
Defined.


(** [animate] without a duration on [sample_viewer]. *)
Lemma animate_short_circuits_witness :
  truthy_value undefined = false
  /\ fst (animate (ext := plain_externals)
            (spherical {| longitude := 1; latitude := 1 # 2 |}) undefined sample_viewer)
     = D_resolved
  /\ animation_promise
       (prop (snd (animate (ext := plain_externals)
                     (spherical {| longitude := 1; latitude := 1 # 2 |})
                     undefined sample_viewer))) = None.
Proof.
  destruct (animate_short_circuits (ext := plain_externals)
              (spherical {| longitude := 1; latitude := 1 # 2 |}) undefined
              sample_viewer (or_introl eq_refl)) as (E & _ & N & _).
  split; [reflexivity|]. split; [rewrite E; reflexivity | exact N].
Defined.
(** * Further properties of the code *)

(** ** Markers *)

Lemma lookup_set_same {A : Type} (key : string) (x : A) (o : list (string * A)) :
  PSVMarker.lookup (PSVMarker.set key x o) key = Some x.
Proof.
  induction o as [|[k y] o IH]; simpl.
  - rewrite String.eqb_refl. reflexivity.
  - destruct (String.eqb k key) eqn:E; simpl; rewrite E; auto.
Qed.

Lemma lookup_set_other {A : Type} (key key' : string) (x : A) (o : list (string * A)) :
  key <> key' ->
  PSVMarker.lookup (PSVMarker.set key x o) key' = PSVMarker.lookup o key'.
Proof.
  intros N. induction o as [|[k y] o IH]; simpl.
  - destruct (String.eqb key key') eqn:E; [|reflexivity].
    apply String.eqb_eq in E. contradiction.
  - destruct (String.eqb k key) eqn:E; simpl.
    + apply String.eqb_eq in E. subst k.
      destruct (String.eqb key key') eqn:E'; [|reflexivity].
      apply String.eqb_eq in E'. contradiction.
    + destruct (String.eqb k key'); auto.
Qed.

Lemma set_same {A : Type} (key : string) (x : A) (o : list (string * A)) :
  PSVMarker.lookup o key = Some x -> PSVMarker.set key x o = o.
Proof.
  induction o as [|[k y] o IH]; simpl; [discriminate|].
  destruct (String.eqb k key) eqn:E.
  - intros [= ->]. reflexivity.
  - intros L. rewrite (IH L). reflexivity.
Qed.

Lemma filter_none {A : Type} (f : A -> bool) (l : list A) :
  filter f l = [] <-> forall x, In x l -> f x = false.
Proof.
  induction l as [|a l IH]; simpl.
  - split; [intros _ x []|reflexivity].
  - destruct (f a) eqn:E.
    + split; [discriminate|]. intros H. rewrite (H a) in E; [discriminate|auto].
    + rewrite IH. split.
      * intros H x [<-|I]; auto.
      * intros H x I. auto.
Qed.

Lemma filter_one {A : Type} (f : A -> bool) (l : list A) (t : A) :
  NoDup l ->
  filter f l = [t]
  <-> In t l /\ f t = true /\ forall x, In x l -> f x = true -> x = t.
Proof.
  intros N. induction N as [|a l Na N IH]; simpl.
  - split; [discriminate|]. intros [[] _].
  - destruct (f a) eqn:E.
    + split.
      * intros [= -> F]. split; [auto|]. split; [exact E|].
        intros x [<-|I] Fx; [reflexivity|].
        apply filter_none with (x := x) in F; [congruence|exact I].
      * intros (_ & Ft & U). rewrite (U a (or_introl eq_refl) E). f_equal.
        apply filter_none. intros x I.
        destruct (f x) eqn:Fx; [|reflexivity].
        pose proof (U x (or_intror I) Fx) as ->.
        pose proof (U a (or_introl eq_refl) E) as ->. contradiction.
    + rewrite IH. split.
      * intros (I & Ft & U). split; [auto|]. split; [exact Ft|].
        intros x [<-|Ix] Fx; [congruence|auto].
      * intros ([->|I] & Ft & U); [congruence|]. auto.
Qed.

Lemma types_NoDup : NoDup PSVMarker.types.
Proof.
  unfold PSVMarker.types.
  repeat (constructor; [simpl; intuition discriminate|]). constructor.
Qed.

(** X1: [PSVMarker.getType] answers a type exactly when that type is the
    only one of the six content properties that is truthy in the
    descriptor; it answers [undefined] exactly when none is truthy and
    [allowNone] is set; and it throws exactly when none is truthy and
    [allowNone] is not set, or when two different ones are truthy. *)
Theorem getType_answers_the_only_content
    (properties : PSVMarker.object) (allowNone : bool) :
  let content t := PSVMarker.truthy (PSVMarker.get properties t) in
  (forall t,
     PSVMarker.getType properties allowNone = inr (Some t)
     <-> In t PSVMarker.types /\ content t = true
         /\ forall t', In t' PSVMarker.types -> content t' = true -> t' = t)
  /\ (PSVMarker.getType properties allowNone = inr None
      <-> allowNone = true
          /\ forall t, In t PSVMarker.types -> content t = false)
  /\ ((exists e, PSVMarker.getType properties allowNone = inl e)
      <-> (allowNone = false
           /\ forall t, In t PSVMarker.types -> content t = false)
          \/ exists t t', In t PSVMarker.types /\ In t' PSVMarker.types
                          /\ t <> t' /\ content t = true /\ content t' = true).
Proof.
  intros content. unfold PSVMarker.getType.
  fold content.
  pose proof (filter_none content PSVMarker.types) as F0.
  pose proof (fun t => filter_one content PSVMarker.types t types_NoDup) as F1.
  destruct (filter content PSVMarker.types) as [|a [|b found]] eqn:F.
  - (* nothing found *)
    assert (Z : forall t, In t PSVMarker.types -> content t = false)
      by (apply F0; reflexivity).
    cbn [List.length Nat.eqb andb Nat.ltb Nat.leb hd_error].
    split; [|split].
    + intros t. destruct allowNone; cbn [negb]; split; try discriminate;
        intros (I & C & _); rewrite (Z t I) in C; discriminate.
    + destruct allowNone; cbn [negb]; split; try discriminate; auto.
      intros [? _]. discriminate.
    + destruct allowNone; cbn [negb]; split.
      * intros [e E]. discriminate.
      * intros [[? _]|(t & t' & I & _ & _ & C & _)]; [discriminate|].
        rewrite (Z t I) in C. discriminate.
      * intros _. left. auto.
      * intros _. eexists. reflexivity.
  - (* one found *)
    destruct (proj1 (F1 a) eq_refl) as (Ia & Ca & Ua).
    cbn [List.length Nat.eqb andb Nat.ltb Nat.leb hd_error].
    split; [|split].
    + intros t. split.
      * intros [= <-]. auto.
      * intros (I & C & U). rewrite (Ua t I C). reflexivity.
    + split; [discriminate|]. intros [_ Z]. rewrite (Z a Ia) in Ca. discriminate.
    + split.
      * intros [e E]. discriminate.
      * intros [[_ Z]|(t & t' & I & I' & N & C & C')].
        -- rewrite (Z a Ia) in Ca. discriminate.
        -- pose proof (Ua t I C). pose proof (Ua t' I' C'). congruence.
  - (* several found *)
    assert (Ia : In a PSVMarker.types /\ content a = true).
    { apply (filter_In content). rewrite F. simpl. auto. }
    assert (Ib : In b PSVMarker.types /\ content b = true).
    { apply (filter_In content). rewrite F. simpl. auto. }
    assert (N : a <> b).
    { intros <-. pose proof (NoDup_filter content types_NoDup) as D.
      rewrite F in D. inversion D; subst. simpl in *. tauto. }
    cbn [List.length Nat.eqb andb Nat.ltb Nat.leb].
    split; [|split].
    + intros t. split; [discriminate|].
      intros (_ & _ & U).
      pose proof (U a (proj1 Ia) (proj2 Ia)).
      pose proof (U b (proj1 Ib) (proj2 Ib)). congruence.
    + split; [discriminate|]. intros [_ Z].
      rewrite (Z a (proj1 Ia)) in Ia. destruct Ia. discriminate.
    + split.
      * intros _. right. exists a, b. tauto.
      * intros _. eexists. reflexivity.
Qed.

Lemma getType_Some (properties : PSVMarker.object) (allowNone : bool) (t : string) :
  PSVMarker.getType properties allowNone = inr (Some t)
  <-> filter (fun type => PSVMarker.truthy (PSVMarker.get properties type))
        PSVMarker.types = [t].
Proof.
  unfold PSVMarker.getType.
  destruct (filter _ PSVMarker.types) as [|a [|b found]];
    cbn [List.length Nat.eqb andb Nat.ltb Nat.leb hd_error].
  - destruct allowNone; cbn [negb]; split; discriminate.
  - split; [intros [= ->]|intros [= ->]]; reflexivity.
  - split; discriminate.
Qed.

Lemma getType_None (properties : PSVMarker.object) :
  PSVMarker.getType properties true = inr None
  <-> filter (fun type => PSVMarker.truthy (PSVMarker.get properties type))
        PSVMarker.types = [].
Proof.
  unfold PSVMarker.getType.
  destruct (filter _ PSVMarker.types) as [|a [|b found]];
    cbn [List.length Nat.eqb andb Nat.ltb Nat.leb hd_error negb].
  - split; reflexivity.
  - split; discriminate.
  - split; discriminate.
Qed.

Lemma getType_only (properties : PSVMarker.object) (allowNone : bool) (t : string) :
  PSVMarker.getType properties allowNone = inr (Some t)
  <-> In t PSVMarker.types
      /\ PSVMarker.truthy (PSVMarker.get properties t) = true
      /\ forall t', In t' PSVMarker.types ->
                    PSVMarker.truthy (PSVMarker.get properties t') = true -> t' = t.
Proof.
  rewrite getType_Some.
  apply (filter_one (fun type => PSVMarker.truthy (PSVMarker.get properties type))
           PSVMarker.types t types_NoDup).
Qed.

Lemma getType_nothing (properties : PSVMarker.object) :
  PSVMarker.getType properties true = inr None
  <-> forall t, In t PSVMarker.types ->
                PSVMarker.truthy (PSVMarker.get properties t) = false.
Proof.
  rewrite getType_None.
  apply (filter_none (fun type => PSVMarker.truthy (PSVMarker.get properties type))).
Qed.

(** X2: the checks that open the constructor of a marker pass with type
    [t] exactly when the descriptor has a truthy [id], [t] is the only
    content property that is truthy, an image has a truthy [width] and
    [height], and an image or an HTML marker has its own [x] and [y] or
    its own [latitude] and [longitude]; a shape needs neither size nor
    position.  They never pass without a type. *)
Theorem marker_checks_pass_exactly_when (properties : PSVMarker.object) :
  let content t := PSVMarker.truthy (PSVMarker.get properties t) in
  let has key := PSVMarker.hasOwnProperty properties key in
  (forall t,
     PSVMarker.check_properties properties = inr (Some t)
     <-> content "id" = true
         /\ (In t PSVMarker.types /\ content t = true
             /\ forall t', In t' PSVMarker.types -> content t' = true -> t' = t)
         /\ (t = "image" -> content "width" = true /\ content "height" = true)
         /\ (t = "image" \/ t = "html" ->
             (has "x" = true /\ has "y" = true)
             \/ (has "latitude" = true /\ has "longitude" = true)))
  /\ PSVMarker.check_properties properties <> inr None.
Proof.
  intros content has.
  assert (Ii : In "image" PSVMarker.types) by (simpl; auto).
  assert (Ih : In "html" PSVMarker.types) by (simpl; auto 6).
  split.
  - intros t. unfold PSVMarker.check_properties.
    repeat match goal with
           | |- context [PSVMarker.truthy (PSVMarker.get properties ?k)] =>
               change (PSVMarker.truthy (PSVMarker.get properties k)) with (content k)
           | |- context [PSVMarker.hasOwnProperty properties ?k] =>
               change (PSVMarker.hasOwnProperty properties k) with (has k)
           end.
    assert (G : PSVMarker.getType properties false = inr (Some t)
                <-> In t PSVMarker.types /\ content t = true
                    /\ forall t', In t' PSVMarker.types -> content t' = true -> t' = t)
      by apply getType_only.
    rewrite <- G. clear G.
    assert (O : forall u, PSVMarker.getType properties false = inr (Some u) ->
                          content u = true)
      by (intros u E; apply getType_only in E; apply E).
    assert (U : forall u, PSVMarker.getType properties false = inr (Some u) ->
                          forall t', In t' PSVMarker.types -> content t' = true -> t' = u)
      by (intros u E; apply getType_only in E; apply E).
    destruct (content "id") eqn:Cid; cbn [negb];
      [|split; [discriminate | intros [? _]; discriminate]].
    split.
    + intros E.
      destruct (content "image"
                && (negb (content "width") || negb (content "height")))%bool eqn:G2;
        [discriminate|].
      destruct ((content "image" || content "html")
                && ((negb (has "x") || negb (has "y"))
                    && (negb (has "latitude") || negb (has "longitude"))))%bool eqn:G3;
        [discriminate|].
      pose proof (O _ E) as Ct.
      split; [reflexivity|]. split; [exact E|]. split.
      * intros ->. rewrite Ct in G2. cbn [andb] in G2.
        destruct (content "width"), (content "height");
          cbn [negb orb] in G2; try discriminate G2. auto.
      * intros T.
        assert (C : (content "image" || content "html")%bool = true)
          by (destruct T as [-> | ->]; rewrite Ct; auto with bool).
        rewrite C in G3. cbn [andb] in G3.
        destruct (has "x"), (has "y"), (has "latitude"), (has "longitude");
          cbn [negb andb orb] in G3; try discriminate G3; tauto.
    + intros (_ & G & Size & Pos).
      specialize (U _ G).
      destruct (content "image") eqn:Cimg; cbn [andb orb].
      * pose proof (U _ Ii Cimg) as T. symmetry in T.
        destruct (Size T) as [-> ->]. cbn [negb orb].
        destruct (Pos (or_introl T)) as [[-> ->]|[-> ->]];
          cbn [negb andb orb]; rewrite ?andb_false_r; exact G.
      * destruct (content "html") eqn:Chtml; cbn [andb]; [|exact G].
        pose proof (U _ Ih Chtml) as T. symmetry in T.
        destruct (Pos (or_intror T)) as [[-> ->]|[-> ->]];
          cbn [negb andb orb]; rewrite ?andb_false_r; exact G.
  - unfold PSVMarker.check_properties.
    destruct (negb _); [discriminate|].
    destruct (_ && _)%bool; [discriminate|].
    destruct (_ && _)%bool; [discriminate|].
    unfold PSVMarker.getType.
    destruct (filter _ PSVMarker.types) as [|a [|b found]];
      cbn [List.length Nat.eqb andb Nat.ltb Nat.leb hd_error negb]; discriminate.
Qed.

(** X3: [update] refuses to change the type of a marker.  For a marker of
    type [type], the check that opens [update] passes exactly when the new
    properties name no content at all or name the content of that type and
    no other; new properties whose only content is of another type are
    refused with "cannot change marker type"; and the properties a marker
    was constructed from always pass, so that the call of [update] in the
    constructor does not throw there. *)
Theorem marker_update_keeps_type (type : string) (properties : PSVMarker.object) :
  let content t := PSVMarker.truthy (PSVMarker.get properties t) in
  let only t := In t PSVMarker.types /\ content t = true
                /\ forall t', In t' PSVMarker.types -> content t' = true -> t' = t in
  (PSVMarker.check_update (Some type) properties = inr tt
   <-> (forall t, In t PSVMarker.types -> content t = false) \/ only type)
  /\ (forall t, only t -> t <> type ->
        PSVMarker.check_update (Some type) properties = inl "cannot change marker type")
  /\ (PSVMarker.check_properties properties = inr (Some type) ->
      PSVMarker.check_update (Some type) properties = inr tt).
Proof.
  intros content only.
  assert (P : PSVMarker.check_update (Some type) properties = inr tt
              <-> (forall t, In t PSVMarker.types -> content t = false) \/ only type).
  { assert (G1 : PSVMarker.getType properties true = inr (Some type) <-> only type)
      by apply getType_only.
    assert (G0 : PSVMarker.getType properties true = inr None
                 <-> forall t, In t PSVMarker.types -> content t = false)
      by apply getType_nothing.
    rewrite <- G1, <- G0. clear G0 G1.
    unfold PSVMarker.check_update.
    destruct (PSVMarker.getType properties true) as [e|[t|]];
      cbn [isSome PSVMarker.same_type andb negb].
    - split; [discriminate|]. intros [|]; discriminate.
    - destruct (String.eqb t type) eqn:E; cbn [negb].
      + apply String.eqb_eq in E. subst t. split; auto.
      + split; [discriminate|]. intros [|[= ->]]; [discriminate|].
        rewrite String.eqb_refl in E. discriminate.
    - split; auto. }
  split; [exact P|]. split.
  - intros t O N.
    apply (getType_only properties true t) in O.
    unfold PSVMarker.check_update. rewrite O.
    cbn [isSome PSVMarker.same_type andb].
    destruct (String.eqb t type) eqn:E; [|reflexivity].
    apply String.eqb_eq in E. contradiction.
  - intros C. apply P. right.
    apply (getType_only properties false type).
    unfold PSVMarker.check_properties in C.
    destruct (negb _); [discriminate|].
    destruct (_ && _)%bool; [discriminate|].
    destruct (_ && _)%bool; [discriminate|].
    exact C.
Qed.

Lemma field_set_same (key : string) (x : PSVMarker.primitive)
    (o : list (string * PSVMarker.primitive)) :
  PSVMarker.field (PSVMarker.set key x o) key = x.
Proof. unfold PSVMarker.field. rewrite lookup_set_same. reflexivity. Qed.

Lemma field_set_other (key key' : string) (x : PSVMarker.primitive)
    (o : list (string * PSVMarker.primitive)) :
  key <> key' ->
  PSVMarker.field (PSVMarker.set key x o) key' = PSVMarker.field o key'.
Proof.
  intros N. unfold PSVMarker.field. rewrite lookup_set_other by exact N. reflexivity.
Qed.

(** Setting again what a property holds already changes nothing. *)
Lemma set_set_same {A : Type} (key : string) (x : A) (o : list (string * A)) :
  PSVMarker.set key x (PSVMarker.set key x o) = PSVMarker.set key x o.
Proof. apply set_same, lookup_set_same. Qed.

(** The definition of a shape, once rewritten, is rewritten to itself, and
    its centre or corner is where the [switch] puts it. *)
Lemma shape_definition_settles (type : string) (_def d : PSVMarker.jsval) :
  PSVMarker.shape_definition type _def = Some d ->
  PSVMarker.shape_definition type d = Some d
  /\ (type = "rect" ->
      exists o, d = PSVMarker.js_object o
                /\ PSVMarker.field o "x" = PSVMarker.p_number 0
                /\ PSVMarker.field o "y" = PSVMarker.p_number 0)
  /\ (type = "circle" ->
      exists o, d = PSVMarker.js_object o
                /\ PSVMarker.field o "cx" = PSVMarker.field o "r"
                /\ PSVMarker.field o "cy" = PSVMarker.field o "r")
  /\ (type = "ellipse" ->
      exists o, d = PSVMarker.js_object o
                /\ PSVMarker.field o "cx" = PSVMarker.field o "rx"
                /\ PSVMarker.field o "cy" = PSVMarker.field o "ry")
  /\ (type = "path" ->
      forall s, _def = PSVMarker.js (PSVMarker.p_string s) ->
                d = PSVMarker.js_object [("d", PSVMarker.p_string s)]).
Proof.
  unfold PSVMarker.shape_definition.
  destruct (String.eqb type "rect") eqn:Er;
    [|destruct (String.eqb type "circle") eqn:Ec;
      [|destruct (String.eqb type "ellipse") eqn:Ee;
        [|destruct (String.eqb type "path") eqn:Ep]]].
  - (* rect *)
    apply String.eqb_eq in Er. subst type. intros D.
    assert (R : exists o, d = PSVMarker.js_object o
                          /\ PSVMarker.field o "x" = PSVMarker.p_number 0
                          /\ PSVMarker.field o "y" = PSVMarker.p_number 0
                          /\ PSVMarker.set "y" (PSVMarker.p_number 0) o = o
                          /\ PSVMarker.set "x" (PSVMarker.p_number 0) o = o).
    { destruct _def as [[| |n|]|a|o]; try discriminate D; inversion D; subst d;
        eexists; (split; [reflexivity|]);
        try (repeat split; reflexivity).
      split; [apply field_set_same|].
      split; [rewrite field_set_other by discriminate; apply field_set_same|].
      split; apply set_same.
      - rewrite lookup_set_other by discriminate. apply lookup_set_same.
      - apply lookup_set_same. }
    destruct R as (o & -> & X & Y & Sy & Sx).
    split; [rewrite Sy, Sx; reflexivity|].
    split; [intros _; exists o; auto|].
    repeat split; discriminate.
  - (* circle *)
    apply String.eqb_eq in Ec. subst type. intros D.
    assert (R : exists o, d = PSVMarker.js_object o
                          /\ PSVMarker.field o "cx" = PSVMarker.field o "r"
                          /\ PSVMarker.field o "cy" = PSVMarker.field o "r"
                          /\ PSVMarker.set "cy" (PSVMarker.field o "r") o = o
                          /\ PSVMarker.set "cx" (PSVMarker.field o "r") o = o).
    { destruct _def as [[| |n|]|a|o]; try discriminate D; inversion D; subst d;
        eexists; (split; [reflexivity|]);
        try (repeat split; reflexivity).
      assert (Fr : PSVMarker.field
                     (PSVMarker.set "cx" (PSVMarker.field o "r")
                        (PSVMarker.set "cy" (PSVMarker.field o "r") o)) "r"
                   = PSVMarker.field o "r")
        by (rewrite !field_set_other by discriminate; reflexivity).
      rewrite Fr.
      split; [apply field_set_same|].
      split; [rewrite field_set_other by discriminate; apply field_set_same|].
      split; apply set_same.
      - rewrite lookup_set_other by discriminate. apply lookup_set_same.
      - apply lookup_set_same. }
    destruct R as (o & -> & X & Y & Sy & Sx).
    split; [rewrite Sy, Sx; reflexivity|].
    split; [discriminate|].
    split; [intros _; exists o; auto|].
    repeat split; discriminate.
  - (* ellipse *)
    apply String.eqb_eq in Ee. subst type. intros D.
    assert (R : exists o, d = PSVMarker.js_object o
                          /\ PSVMarker.field o "cx" = PSVMarker.field o "rx"
                          /\ PSVMarker.field o "cy" = PSVMarker.field o "ry"
                          /\ PSVMarker.set "cx" (PSVMarker.field o "rx") o = o
                          /\ PSVMarker.set "cy" (PSVMarker.field o "ry") o = o).
    { destruct _def as [[| |n|]|a|o]; try discriminate D; inversion D; subst d;
        eexists; (split; [reflexivity|]);
        try (repeat split; reflexivity).
      assert (Fy : PSVMarker.field (PSVMarker.set "cx" (PSVMarker.field o "rx") o) "ry"
                   = PSVMarker.field o "ry")
        by (rewrite field_set_other by discriminate; reflexivity).
      rewrite Fy.
      assert (Fx : PSVMarker.field
                     (PSVMarker.set "cy" (PSVMarker.field o "ry")
                        (PSVMarker.set "cx" (PSVMarker.field o "rx") o)) "rx"
                   = PSVMarker.field o "rx")
        by (rewrite !field_set_other by discriminate; reflexivity).
      rewrite Fx.
      assert (Fy' : PSVMarker.field
                      (PSVMarker.set "cy" (PSVMarker.field o "ry")
                         (PSVMarker.set "cx" (PSVMarker.field o "rx") o)) "ry"
                    = PSVMarker.field o "ry")
        by (rewrite !field_set_other by discriminate; reflexivity).
      rewrite Fy'.
      split; [rewrite field_set_other by discriminate; apply field_set_same|].
      split; [apply field_set_same|].
      split; apply set_same.
      - rewrite lookup_set_other by discriminate. apply lookup_set_same.
      - apply lookup_set_same. }
    destruct R as (o & -> & X & Y & Sx & Sy).
    split; [rewrite Sx, Sy; reflexivity|].
    split; [discriminate|]. split; [discriminate|].
    split; [intros _; exists o; auto|].
    discriminate.
  - (* path *)
    apply String.eqb_eq in Ep. subst type. intros D.
    destruct _def as [[| |n|s]|a|o]; try discriminate D; inversion D; subst d.
    + split; [reflexivity|].
      repeat split; try discriminate. intros _ s' [= <-]. reflexivity.
    + split; [reflexivity|].
      repeat split; try discriminate.
    + split; [reflexivity|].
      repeat split; try discriminate.
  - intros [= <-]. split; [reflexivity|].
    apply String.eqb_neq in Er, Ec, Ee, Ep.
    repeat split; intros; contradiction.
Qed.

Lemma get_set_same (key : string) (x : PSVMarker.jsval) (o : PSVMarker.object) :
  PSVMarker.get (PSVMarker.set key x o) key = x.
Proof. unfold PSVMarker.get. rewrite lookup_set_same. reflexivity. Qed.

(** X4: [_updateSvg] leaves the definition of a shape settled: applied
    once more to the marker it has rewritten, it changes nothing, so that a
    marker can be updated again and again.  It touches no other property of
    the marker.  Whatever form the definition had (a number, an array, an
    object), a rectangle ends with [x] and [y] at 0, a circle with [cx] and
    [cy] equal to [r], an ellipse with [cx] equal to [rx] and [cy] equal to
    [ry]. *)
Theorem updated_shape_is_settled (type : string) (marker marker' : PSVMarker.object) :
  PSVMarker._updateSvg_def type marker = Some marker' ->
  PSVMarker._updateSvg_def type marker' = Some marker'
  /\ (forall key, key <> type ->
        PSVMarker.get marker' key = PSVMarker.get marker key)
  /\ (type = "rect" ->
      exists o, PSVMarker.get marker' type = PSVMarker.js_object o
                /\ PSVMarker.field o "x" = PSVMarker.p_number 0
                /\ PSVMarker.field o "y" = PSVMarker.p_number 0)
  /\ (type = "circle" ->
      exists o, PSVMarker.get marker' type = PSVMarker.js_object o
                /\ PSVMarker.field o "cx" = PSVMarker.field o "r"
                /\ PSVMarker.field o "cy" = PSVMarker.field o "r")
  /\ (type = "ellipse" ->
      exists o, PSVMarker.get marker' type = PSVMarker.js_object o
                /\ PSVMarker.field o "cx" = PSVMarker.field o "rx"
                /\ PSVMarker.field o "cy" = PSVMarker.field o "ry").
Proof.
  unfold PSVMarker._updateSvg_def.
  destruct (PSVMarker.shape_definition type (PSVMarker.get marker type)) as [d|] eqn:D;
    [|discriminate].
  intros [= <-].
  destruct (shape_definition_settles type _ d D) as (Again & Rect & Circle & Ellipse & _).
  rewrite get_set_same, Again.
  split; [rewrite set_set_same; reflexivity|].
  split.
  - intros key N. unfold PSVMarker.get.
    rewrite lookup_set_other by congruence. reflexivity.
  - repeat split; assumption.
Qed.

(** ** The panorama cache *)

Lemma remove_first_same (p : string) (c : PanoramaCache.cache) :
  filter (fun entry => String.eqb (CacheItem.panorama entry) p)
    (PanoramaCache.remove_first p c)
  = tl (filter (fun entry => String.eqb (CacheItem.panorama entry) p) c).
Proof.
  induction c as [|entry c IH]; simpl; [reflexivity|].
  destruct (String.eqb (CacheItem.panorama entry) p) eqn:E; simpl.
  - reflexivity.
  - rewrite E. exact IH.
Qed.

Lemma remove_first_other (p q : string) (c : PanoramaCache.cache) :
  q <> p ->
  filter (fun entry => String.eqb (CacheItem.panorama entry) q)
    (PanoramaCache.remove_first p c)
  = filter (fun entry => String.eqb (CacheItem.panorama entry) q) c.
Proof.
  intros N. induction c as [|entry c IH]; simpl; [reflexivity|].
  destruct (String.eqb (CacheItem.panorama entry) p) eqn:E; simpl.
  - apply String.eqb_eq in E.
    destruct (String.eqb (CacheItem.panorama entry) q) eqn:E'; [|reflexivity].
    apply String.eqb_eq in E'. congruence.
  - rewrite IH. reflexivity.
Qed.

(** X5: with the cache enabled, [clearPanoramaCache] of a panorama removes
    the first entry of that panorama and no other: a query for the same
    panorama then answers the entry that was second (nothing, when each
    panorama is cached once), a query for any other panorama answers what
    it answered before, and the cache is shorter by one entry when it held
    the panorama and unchanged when it did not.  Called without a panorama,
    or with the empty string for one, it empties the cache.  With the
    cache disabled ([cache_texture] is 0) the three cache methods throw,
    each with its own message. *)
Theorem clearPanoramaCache_removes_first_entry_only
    (p : string) (v : Viewer) (c : PanoramaCache.cache) :
  let held := filter (fun entry => String.eqb (CacheItem.panorama entry) p) c in
  (truthy (cache_texture (config v)) = true ->
   (p <> "" ->
    exists c',
      PanoramaCache.clearPanoramaCache (Some p) v c = inr c'
      /\ PanoramaCache.getPanoramaCache p v c = inr (hd_error held)
      /\ PanoramaCache.getPanoramaCache p v c' = inr (hd_error (tl held))
      /\ (forall q, q <> p ->
            PanoramaCache.getPanoramaCache q v c' = PanoramaCache.getPanoramaCache q v c)
      /\ (held = [] -> c' = c)
      /\ (held <> [] -> S (List.length c') = List.length c))
   /\ PanoramaCache.clearPanoramaCache None v c = inr []
   /\ PanoramaCache.clearPanoramaCache (Some "") v c = inr []
   /\ (forall q, PanoramaCache.getPanoramaCache q v [] = inr None))
  /\ (truthy (cache_texture (config v)) = false ->
      (forall (T : Type) (_loadTexture : string -> T),
         PanoramaCache.preloadPanorama _loadTexture p v
         = inl "Cannot preload panorama, cache_texture is disabled")
      /\ (forall q, PanoramaCache.clearPanoramaCache q v c
                    = inl "Cannot clear cache, cache_texture is disabled")
      /\ PanoramaCache.getPanoramaCache p v c
         = inl "Cannot query cache, cache_texture is disabled").
Proof.
  intros held.
  unfold PanoramaCache.clearPanoramaCache, PanoramaCache.getPanoramaCache,
    PanoramaCache.preloadPanorama.
  split; intros ->; cbn [negb]; [|repeat split; reflexivity].
  split; [|repeat split; reflexivity].
  intros N.
  destruct (String.eqb p "") eqn:E; [apply String.eqb_eq in E; contradiction|].
  cbn [negb]. eexists. split; [reflexivity|].
  split; [reflexivity|].
  split; [rewrite remove_first_same; reflexivity|].
  split; [intros q Nq; rewrite remove_first_other by exact Nq; reflexivity|].
  subst held. clear. split.
  - induction c as [|entry c IH]; simpl; [reflexivity|].
    destruct (String.eqb (CacheItem.panorama entry) p); [discriminate|].
    intros H. rewrite (IH H). reflexivity.
  - induction c as [|entry c IH]; simpl; [congruence|].
    destruct (String.eqb (CacheItem.panorama entry) p); [reflexivity|].
    intros H. simpl. rewrite (IH H). reflexivity.
Qed.

(** ** The notification banner *)

Lemma hide_hidden (n : PSVNotification.t) :
  PSVNotification.visible n = false -> PSVNotification.hideNotification n = n.
Proof.
  intros H. unfold PSVNotification.hideNotification,
    PSVNotification.isNotificationVisible. rewrite H. reflexivity.
Qed.

Lemma Qle_bool_false (x y : Q) : y < x -> Qle_bool x y = false.
Proof.
  intros L. destruct (Qle_bool x y) eqn:E; [|reflexivity].
  apply Qle_bool_iff in E. exfalso. apply (Qlt_not_le _ _ L E).
Qed.

Lemma Qle_bool_true (x y : Q) : x <= y -> Qle_bool x y = true.
Proof. apply Qle_bool_iff. Qed.

Lemma truthy_positive (x : number) : 0 < x -> truthy x = true.
Proof.
  intros L. unfold truthy. destruct (Qeq_bool x 0) eqn:E; [|reflexivity].
  apply Qeq_bool_iff in E. rewrite E in L. exfalso. apply (Qlt_irrefl _ L).
Qed.

(** X6: the timer of a notification is not cancelled when another
    notification is shown.  When a second notification is shown while the
    timer of the first is pending, that timer hides the second notification
    when it comes due, before the timeout of the second has passed; the
    timer of the second then finds the banner hidden and triggers nothing.
    In all, the viewer sees two [show-notification] events and one
    [hide-notification] event. *)
Theorem earlier_timer_hides_later_notification
    (c1 c2 : PSVNotification.Config) (t1 t2 t t' : number) (n : PSVNotification.t) :
  PSVNotification.timers n = [] ->
  0 < PSVNotification.timeout c1 ->
  0 < PSVNotification.timeout c2 ->
  t1 <= t2 -> t2 < t1 + PSVNotification.timeout c1 ->
  t1 + PSVNotification.timeout c1 <= t -> t < t2 + PSVNotification.timeout c2 ->
  t2 + PSVNotification.timeout c2 <= t' ->
  let n2 := PSVNotification.showNotification c2 t2
              (PSVNotification.elapse t2 (PSVNotification.showNotification c1 t1 n)) in
  let n3 := PSVNotification.elapse t n2 in
  let n4 := PSVNotification.elapse t' n3 in
  (PSVNotification.visible n2 = true
   /\ PSVNotification.content n2 = PSVNotification.config_content c2)
  /\ (PSVNotification.visible n3 = false
      /\ PSVNotification.content n3 = PSVNotification.config_content c2
      /\ PSVNotification.timers n3 = [t2 + PSVNotification.timeout c2])
  /\ (PSVNotification.visible n4 = false
      /\ PSVNotification.timers n4 = []
      /\ PSVNotification.fired n4
         = PSVNotification.fired n
           ++ ["show-notification"; "show-notification"; "hide-notification"]).
Proof.
  intros T0 P1 P2 L12 L21 Lt1 Lt2 Lt'.
  unfold PSVNotification.showNotification, PSVNotification.elapse.
  rewrite (truthy_positive _ P1), (truthy_positive _ P2), T0.
  cbn [PSVNotification.timers PSVNotification.content PSVNotification.visible
       PSVNotification.fired app PSVNotification.due_timers
       PSVNotification.pending_timers].
  rewrite (Qle_bool_false (t1 + PSVNotification.timeout c1) t2 L21).
  cbn [fold_left app PSVNotification.timers PSVNotification.content
       PSVNotification.visible PSVNotification.fired
       PSVNotification.due_timers PSVNotification.pending_timers].
  rewrite (Qle_bool_true (t1 + PSVNotification.timeout c1) t Lt1).
  rewrite (Qle_bool_false (t2 + PSVNotification.timeout c2) t Lt2).
  cbn [fold_left app PSVNotification.timers PSVNotification.content
       PSVNotification.visible PSVNotification.fired
       PSVNotification.hideNotification PSVNotification.isNotificationVisible
       PSVNotification.due_timers PSVNotification.pending_timers].
  rewrite (Qle_bool_true (t2 + PSVNotification.timeout c2) t' Lt').
  cbn [fold_left app PSVNotification.timers PSVNotification.content
       PSVNotification.visible PSVNotification.fired
       PSVNotification.hideNotification PSVNotification.isNotificationVisible
       PSVNotification.due_timers PSVNotification.pending_timers].
  rewrite <- !app_assoc. cbn [app].
  repeat split; reflexivity.
Qed.

(** ** Event listeners *)

Lemma Target_eqb_eq (a b : Listeners.Target) :
  Listeners.Target_eqb a b = true <-> a = b.
Proof. destruct a, b; simpl; split; congruence. Qed.

Lemma same_listener_eq (a b : Listeners.Target * string) :
  Listeners.same_listener a b = true <-> a = b.
Proof.
  destruct a as [ta sa], b as [tb sb]. unfold Listeners.same_listener. simpl.
  rewrite andb_true_iff, Target_eqb_eq, String.eqb_eq.
  split; [intros [-> ->]; reflexivity | intros [= -> ->]; auto].
Qed.

Lemma In_addEventListener (target : Listeners.Target) (type : string)
    (h : Listeners.Host) (l : Listeners.Target * string) :
  In l (Listeners.listeners (Listeners.addEventListener target type h))
  <-> In l (Listeners.listeners h) \/ l = (target, type).
Proof.
  unfold Listeners.addEventListener. cbn [Listeners.listeners].
  destruct (existsb _ (Listeners.listeners h)) eqn:E.
  - split; [auto|]. intros [I| ->]; [exact I|].
    apply existsb_exists in E. destruct E as (x & I & S).
    apply same_listener_eq in S. subst x. exact I.
  - rewrite in_app_iff. simpl. intuition congruence.
Qed.

Lemma In_removeEventListener (target : Listeners.Target) (type : string)
    (h : Listeners.Host) (l : Listeners.Target * string) :
  In l (Listeners.listeners (Listeners.removeEventListener target type h))
  <-> In l (Listeners.listeners h) /\ l <> (target, type).
Proof.
  unfold Listeners.removeEventListener. cbn [Listeners.listeners].
  rewrite filter_In, negb_true_iff.
  split; intros [I N]; (split; [exact I|]).
  - intros ->. rewrite (proj2 (same_listener_eq _ _) eq_refl) in N. discriminate.
  - destruct (Listeners.same_listener (target, type) l) eqn:E; [|reflexivity].
    apply same_listener_eq in E. congruence.
Qed.

(** The listeners [_bindEvents] registers. *)
Lemma In__bindEvents (s : Listeners.Settings) (h : Listeners.Host)
    (l : Listeners.Target * string) :
  In l (Listeners.listeners (Listeners._bindEvents s h))
  <-> In l (Listeners.listeners h)
      \/ l = (Listeners.window, "resize")
      \/ (Listeners.mousemove s = true
          /\ ((Listeners.hover s = true
               /\ (l = (Listeners.hud_container, "mouseenter")
                   \/ l = (Listeners.hud_container, "mouseleave")))
              \/ (Listeners.hover s = false
                  /\ (l = (Listeners.hud_container, "mousedown")
                      \/ l = (Listeners.window, "mouseup")))
              \/ l = (Listeners.hud_container, "touchstart")
              \/ l = (Listeners.window, "touchend")
              \/ l = (Listeners.hud_container, "mousemove")
              \/ l = (Listeners.hud_container, "touchmove")))
      \/ Listeners.fullscreenEvent s = Some (snd l) /\ fst l = Listeners.document
      \/ (Listeners.mousewheel s = true
          /\ l = (Listeners.hud_container, Listeners.mouseWheelEvent s)).
Proof.
  unfold Listeners._bindEvents. cbv zeta. cbn [Listeners.listeners].
  destruct (Listeners.mousewheel s), (Listeners.fullscreenEvent s) as [e|],
    (Listeners.mousemove s), (Listeners.hover s);
    rewrite ?In_addEventListener; cbn [Listeners.listeners];
    rewrite ?In_addEventListener;
    destruct l as [tl sl]; cbn [fst snd];
    intuition (try congruence; try discriminate);
    try (match goal with H : (_, _) = (_, _) |- _ => inversion H; subst end; auto 12).
Qed.

(** The listeners [_unbindEvents] leaves. *)
Lemma In__unbindEvents (s : Listeners.Settings) (h : Listeners.Host)
    (l : Listeners.Target * string) :
  In l (Listeners.listeners (Listeners._unbindEvents s h))
  <-> In l (Listeners.listeners h)
      /\ l <> (Listeners.window, "resize")
      /\ (Listeners.mousemove s = true ->
          l <> (Listeners.hud_container, "mousedown")
          /\ l <> (Listeners.hud_container, "mouseenter")
          /\ l <> (Listeners.hud_container, "touchstart")
          /\ l <> (Listeners.window, "mouseup")
          /\ l <> (Listeners.window, "touchend")
          /\ l <> (Listeners.hud_container, "mouseleave")
          /\ l <> (Listeners.hud_container, "mousemove")
          /\ l <> (Listeners.hud_container, "touchmove"))
      /\ (forall e, Listeners.fullscreenEvent s = Some e -> l <> (Listeners.document, e))
      /\ (Listeners.mousewheel s = true ->
          l <> (Listeners.hud_container, Listeners.mouseWheelEvent s)).
Proof.
  unfold Listeners._unbindEvents. cbv zeta. cbn [Listeners.listeners].
  destruct (Listeners.mousewheel s), (Listeners.fullscreenEvent s) as [e|],
    (Listeners.mousemove s);
    rewrite ?In_removeEventListener;
    intuition (try congruence; try discriminate).
  all: try (match goal with H : forall e, Some _ = Some e -> _ |- _ =>
              apply (H _ eq_refl); assumption end).
Qed.

Lemma act_keeps_listeners_of_viewer (s : Listeners.Settings) (a : Listeners.Action)
    (h : Listeners.Host) :
  Forall (listener_of_viewer s) (Listeners.listeners h) ->
  Forall (listener_of_viewer s) (Listeners.listeners (Listeners.act s a h)).
Proof.
  intros F. rewrite Forall_forall in *. intros l.
  assert (K : listener_of_viewer s (Listeners.window, "keydown")).
  { unfold listener_of_viewer, Listeners.startKeyboardControl.
    apply In_addEventListener. right. reflexivity. }
  destruct a as [| |enabled]; cbn [Listeners.act].
  - unfold Listeners.startKeyboardControl. rewrite In_addEventListener.
    intros [I| ->]; auto.
  - unfold Listeners.stopKeyboardControl. rewrite In_removeEventListener.
    intros [I _]. auto.
  - unfold Listeners._fullscreenToggled. cbn [Listeners.listeners].
    destruct (Listeners.keyboard s); [destruct enabled|]; auto.
    + unfold Listeners.startKeyboardControl. rewrite In_addEventListener.
      intros [I| ->]; auto.
    + unfold Listeners.stopKeyboardControl. rewrite In_removeEventListener.
      intros [I _]. auto.
Qed.

(** X7: [destroy] leaves no listener of the viewer behind.  Whatever the
    settings are, and however often keyboard control was started or
    stopped and the fullscreen mode toggled since [_bindEvents] ran, once
    [destroy] has called [stopKeyboardControl] and [_unbindEvents] a host
    that held no listener before the viewer was built holds none, and no
    handler stays attached to [_side-reached]. *)
Theorem destroy_leaves_no_listener
    (s : Listeners.Settings) (actions : list Listeners.Action) (h0 : Listeners.Host) :
  Listeners.listeners h0 = [] ->
  let h := fold_left (fun h a => Listeners.act s a h) actions
             (Listeners._bindEvents s h0) in
  Listeners.listeners (Listeners.destroy s h) = []
  /\ Listeners.side_reached_handlers (Listeners.destroy s h) = 0%nat.
Proof.
  intros E h. split; [|reflexivity].
  assert (F : Forall (listener_of_viewer s) (Listeners.listeners h)).
  { assert (B : Forall (listener_of_viewer s)
                  (Listeners.listeners (Listeners._bindEvents s h0))).
    { rewrite Forall_forall. intros l I.
      unfold listener_of_viewer, Listeners.startKeyboardControl.
      apply In_addEventListener. left.
      apply In__bindEvents. apply In__bindEvents in I.
      rewrite E in I. cbn [Listeners.listeners]. exact I. }
    subst h. revert B. generalize (Listeners._bindEvents s h0).
    induction actions as [|a actions IH]; intros h1 B; cbn [fold_left].
    - exact B.
    - apply IH. apply act_keeps_listeners_of_viewer. exact B. }
  destruct (Listeners.listeners (Listeners.destroy s h)) as [|l ls] eqn:D;
    [reflexivity|].
  exfalso.
  assert (I : In l (Listeners.listeners (Listeners.destroy s h)))
    by (rewrite D; left; reflexivity).
  unfold Listeners.destroy in I.
  apply In__unbindEvents in I. destruct I as (I & Nr & Nm & Nf & Nw).
  unfold Listeners.stopKeyboardControl in I.
  apply In_removeEventListener in I. destruct I as [I Nk].
  rewrite Forall_forall in F. specialize (F l I).
  unfold listener_of_viewer, Listeners.startKeyboardControl in F.
  apply In_addEventListener in F. destruct F as [F|F]; [|contradiction].
  apply In__bindEvents in F. cbn [Listeners.listeners] in F.
  destruct F as [[]|[F|[(M & F)|[(F & Fd)|(W & F)]]]].
  - contradiction.
  - destruct (Nm M) as (N1 & N2 & N3 & N4 & N5 & N6 & N7 & N8).
    destruct F as [(_ & [F|F])|[(_ & [F|F])|[F|[F|[F|F]]]]]; contradiction.
  - apply (Nf _ F). destruct l as [tl sl]. simpl in *. congruence.
  - apply (Nw W F).
Qed.

(** X8: every event the viewer listens to is dispatched: for each listener
    that [_bindEvents] or [startKeyboardControl] registers, [handleEvent]
    has a case for the type of the event, so that no event the viewer
    receives is dropped by the dispatch; and entering and leaving the HUD
    with the pointer are handled as a button press and release. *)
Theorem every_listener_is_dispatched
    (s : Listeners.Settings) (target : Listeners.Target) (type : string) :
  (listener_of_viewer s (target, type) ->
   exists handler, Listeners.handleEvent s type = Some handler)
  /\ Listeners.handleEvent s "mouseenter" = Listeners.handleEvent s "mousedown"
  /\ Listeners.handleEvent s "mouseleave" = Listeners.handleEvent s "mouseup".
Proof.
  split; [|split; reflexivity].
  unfold listener_of_viewer, Listeners.startKeyboardControl.
  rewrite In_addEventListener, In__bindEvents. cbn [Listeners.listeners fst snd].
  unfold Listeners.handleEvent.
  intros [[[]|[F|[(M & F)|[(F & Fd)|(W & F)]]]]|F].
  - inversion F; subst. eexists; reflexivity.
  - destruct F as [(_ & [F|F])|[(_ & [F|F])|[F|[F|[F|F]]]]];
      inversion F; subst; eexists; reflexivity.
  - rewrite F, String.eqb_refl.
    repeat match goal with
           | |- context [String.eqb type ?k] => destruct (String.eqb type k)
           end; eexists; reflexivity.
  - inversion F; subst. rewrite String.eqb_refl.
    repeat match goal with
           | |- context [if String.eqb ?a ?k then _ else _] =>
               destruct (String.eqb a k)
           | |- context [if match ?o with _ => _ end then _ else _] =>
               destruct o
           end; eexists; reflexivity.
  - inversion F; subst. eexists; reflexivity.
Qed.
(** ** Zoom *)

Section MoreFacts.

Context {ext : Externals}.

Lemma Math_round_mono (x y : number) : x <= y -> Math_round x <= Math_round y.
Proof.
  intros L. unfold Math_round. rewrite <- Zle_Qle.
  apply Qfloor_resp_le. lra.
Qed.

Lemma zoom_level_range (level : number) (v : Viewer) :
  0 <= zoom_lvl (prop (zoom level v)) /\ zoom_lvl (prop (zoom level v)) <= 100.
Proof.
  change (zoom_lvl (prop (zoom level v)))
    with (PSVUtils.bound (Math_round level) 0 100).
  apply bound_range. lra.
Qed.

Lemma zoom_level_step (z : Z) (x : number) (v : Viewer) :
  (0 <= z <= 100)%Z -> x == inject_Z z ->
  zoom_lvl (prop (zoom x v)) = inject_Z z.
Proof.
  intros R E.
  change (zoom_lvl (prop (zoom x v))) with (PSVUtils.bound (Math_round x) 0 100).
  rewrite (Math_round_integer z x E).
  apply bound_id.
  - change 0 with (inject_Z 0). rewrite <- Zle_Qle. lia.
  - change 100 with (inject_Z 100). rewrite <- Zle_Qle. lia.
Qed.

(** X9: whatever the level asked for, [zoom] leaves a vertical field of
    view between the configured [min_fov] and [max_fov] (these being in
    order), and a greater level never gives a lower stored level nor a
    wider field of view: zooming in narrows the view. *)
Theorem zoom_keeps_fov_within_bounds (v : Viewer) (level level' : number) :
  min_fov (config v) <= max_fov (config v) ->
  (min_fov (config v) <= vFov (prop (zoom level v))
   /\ vFov (prop (zoom level v)) <= max_fov (config v))
  /\ (level <= level' ->
      zoom_lvl (prop (zoom level v)) <= zoom_lvl (prop (zoom level' v))
      /\ vFov (prop (zoom level' v)) <= vFov (prop (zoom level v))).
Proof.
  intros O.
  assert (F : forall l, vFov (prop (zoom l v))
                        = max_fov (config v)
                          + PSVUtils.bound (Math_round l) 0 100 / 100
                            * (min_fov (config v) - max_fov (config v)))
    by reflexivity.
  rewrite !F.
  change (zoom_lvl (prop (zoom level v)))
    with (PSVUtils.bound (Math_round level) 0 100).
  change (zoom_lvl (prop (zoom level' v)))
    with (PSVUtils.bound (Math_round level') 0 100).
  assert (R : 0 <= PSVUtils.bound (Math_round level) 0 100 <= 100)
    by (apply bound_range; lra).
  assert (M : level <= level' ->
              PSVUtils.bound (Math_round level) 0 100
              <= PSVUtils.bound (Math_round level') 0 100)
    by (intros Lv; apply bound_mono; [lra | apply Math_round_mono; exact Lv]).
  generalize dependent (PSVUtils.bound (Math_round level') 0 100).
  generalize dependent (PSVUtils.bound (Math_round level) 0 100).
  generalize (min_fov (config v)) (max_fov (config v)) O. clear.
  intros mn mx O k [K0 K1] k' M.
  split.
  - split.
    + assert (E : mx + k / 100 * (mn - mx) - mn == (mx - mn) * ((100 - k) * (1 # 100)))
        by field.
      assert (P : 0 <= (mx - mn) * ((100 - k) * (1 # 100)))
        by (apply Qmult_le_0_compat; lra).
      lra.
    + assert (E : mx - (mx + k / 100 * (mn - mx)) == (mx - mn) * (k * (1 # 100)))
        by field.
      assert (P : 0 <= (mx - mn) * (k * (1 # 100)))
        by (apply Qmult_le_0_compat; lra).
      lra.
  - intros Lv. specialize (M Lv). split; [exact M|].
    assert (E : mx + k / 100 * (mn - mx) - (mx + k' / 100 * (mn - mx))
                == (mx - mn) * ((k' - k) * (1 # 100)))
      by field.
    assert (P : 0 <= (mx - mn) * ((k' - k) * (1 # 100)))
      by (apply Qmult_le_0_compat; lra).
    lra.
Qed.


Lemma ltb_inject_Z (a b : Z) : ltb (inject_Z a) (inject_Z b) = (a <? b)%Z.
Proof.
  destruct (a <? b)%Z eqn:E.
  - apply ltb_lt. rewrite <- Zlt_Qlt. apply Z.ltb_lt. exact E.
  - apply ltb_ge. rewrite <- Zle_Qle. apply Z.ltb_ge. exact E.
Qed.

(** X10: on a viewer whose zoom level is an integer between 0 and 100,
    [zoomIn] does nothing at level 100 and [zoomOut] nothing at level 0:
    the viewer is left as it is and no event is triggered.  Below 100
    [zoomIn] raises the level by exactly one, above 0 [zoomOut] lowers it
    by exactly one, each triggering one [zoom-updated] event with the new
    level; and [zoomOut] after [zoomIn] gives back the level there was,
    unless the level was 100. *)
Theorem zoomIn_zoomOut_step_and_saturate (k : Z) (v : Viewer) :
  zoom_lvl (prop v) = inject_Z k ->
  (0 <= k <= 100)%Z ->
  (k = 100%Z -> zoomIn v = v)
  /\ (k = 0%Z -> zoomOut v = v)
  /\ ((k < 100)%Z ->
      zoom_lvl (prop (zoomIn v)) = inject_Z (k + 1)
      /\ triggered (zoomIn v) = triggered v ++ [zoom_updated (inject_Z (k + 1))]
      /\ zoom_lvl (prop (zoomOut (zoomIn v))) = inject_Z k)
  /\ ((0 < k)%Z ->
      zoom_lvl (prop (zoomOut v)) = inject_Z (k - 1)
      /\ triggered (zoomOut v) = triggered v ++ [zoom_updated (inject_Z (k - 1))]).
Proof.
  intros E R.
  assert (In_ : (k < 100)%Z -> zoomIn v = zoom (inject_Z k + 1) v).
  { intros L. unfold zoomIn. rewrite E.
    change 100 with (inject_Z 100). rewrite ltb_inject_Z.
    apply Z.ltb_lt in L. rewrite L. reflexivity. }
  assert (Out_ : forall w j, zoom_lvl (prop w) = inject_Z j -> (0 < j)%Z ->
                             zoomOut w = zoom (inject_Z j - 1) w).
  { intros w j Ew L. unfold zoomOut, gtb. rewrite Ew.
    change 0 with (inject_Z 0). rewrite ltb_inject_Z.
    apply Z.ltb_lt in L. rewrite L. reflexivity. }
  assert (Up : (k < 100)%Z -> zoom_lvl (prop (zoom (inject_Z k + 1) v)) = inject_Z (k + 1)).
  { intros L. apply zoom_level_step; [lia|].
    rewrite inject_Z_plus. reflexivity. }
  assert (Down : forall w j, (0 < j <= 100)%Z ->
                             zoom_lvl (prop (zoom (inject_Z j - 1) w)) = inject_Z (j - 1)).
  { intros w j L. apply zoom_level_step; [lia|].
    unfold Z.sub. rewrite inject_Z_plus. reflexivity. }
  split; [|split; [|split]].
  - intros ->. unfold zoomIn. rewrite E. reflexivity.
  - intros ->. unfold zoomOut. rewrite E. reflexivity.
  - intros L. rewrite (In_ L). split; [exact (Up L)|].
    split.
    + destruct (zoom_spec (inject_Z k + 1) v) as (_ & _ & _ & _ & T).
      rewrite T, (Up L). reflexivity.
    + rewrite (Out_ _ (k + 1)%Z (Up L)) by lia.
      rewrite Down by lia. f_equal. lia.
  - intros L. rewrite (Out_ v k E L). split; [apply Down; lia|].
    destruct (zoom_spec (inject_Z k - 1) v) as (_ & _ & _ & _ & T).
    rewrite T, Down by lia. reflexivity.
Qed.

(** ** Keyboard and mouse wheel *)

Lemma zoom_keeps_position (level : number) (v : Viewer) :
  position (prop (zoom level v)) = position (prop v).
Proof. reflexivity. Qed.

Lemma rotate_keeps_zoom (pos : ExtendedPosition) (v : Viewer) :
  zoom_lvl (prop (rotate pos v)) = zoom_lvl (prop v)
  /\ vFov (prop (rotate pos v)) = vFov (prop v).
Proof. rewrite prop_rotate. split; reflexivity. Qed.

(** X11: [_onKeyDown] acts on eight keys and on no other: any other key
    leaves the viewer as it is.  The arrow keys rotate and leave the zoom
    level and the field of view alone; [PageUp], [+], [PageDown] and [-]
    zoom (the first two alike, the last two alike) and leave the position
    alone.  The zoom keys are not guarded the way [zoomIn] is: at level 100
    the key [+] still calls [zoom] and triggers [zoom-updated], where
    [zoomIn] does nothing. *)
Theorem keyboard_acts_on_eight_keys (key : string) (v : Viewer) :
  (~ In key ["ArrowUp"; "ArrowDown"; "ArrowRight"; "ArrowLeft";
             "PageUp"; "+"; "PageDown"; "-"] ->
   _onKeyDown key v = v)
  /\ (In key ["ArrowUp"; "ArrowDown"; "ArrowRight"; "ArrowLeft"] ->
      zoom_lvl (prop (_onKeyDown key v)) = zoom_lvl (prop v)
      /\ vFov (prop (_onKeyDown key v)) = vFov (prop v))
  /\ (In key ["PageUp"; "+"; "PageDown"; "-"] ->
      position (prop (_onKeyDown key v)) = position (prop v))
  /\ _onKeyDown "PageUp" v = _onKeyDown "+" v
  /\ _onKeyDown "PageDown" v = _onKeyDown "-" v
  /\ (zoom_lvl (prop v) = 100 ->
      zoomIn v = v
      /\ zoom_lvl (prop (_onKeyDown "+" v)) = 100
      /\ triggered (_onKeyDown "+" v) = triggered v ++ [zoom_updated 100]).
Proof.
  split; [|split; [|split; [|split; [|split]]]].
  - intros N. unfold _onKeyDown.
    assert (E : forall k, In k ["ArrowUp"; "ArrowDown"; "ArrowRight"; "ArrowLeft";
                                "PageUp"; "+"; "PageDown"; "-"] ->
                          String.eqb key k = false).
    { intros k I. destruct (String.eqb key k) eqn:E; [|reflexivity].
      apply String.eqb_eq in E. subst k. contradiction. }
    rewrite !E by (simpl; auto 10). reflexivity.
  - simpl. intros [<-|[<-|[<-|[<-|[]]]]]; unfold _onKeyDown; simpl;
      apply rotate_keeps_zoom.
  - simpl. intros [<-|[<-|[<-|[<-|[]]]]]; reflexivity.
  - reflexivity.
  - reflexivity.
  - intros E. split; [unfold zoomIn; rewrite E; reflexivity|].
    assert (Z : zoom_lvl (prop (zoom (zoom_lvl (prop v) + 1) v)) = 100).
    { change (zoom_lvl (prop (zoom (zoom_lvl (prop v) + 1) v)))
        with (PSVUtils.bound (Math_round (zoom_lvl (prop v) + 1)) 0 100).
      rewrite E. reflexivity. }
    split; [exact Z|].
    change (_onKeyDown "+" v) with (zoom (zoom_lvl (prop v) + 1) v).
    destruct (zoom_spec (zoom_lvl (prop v) + 1) v) as (_ & _ & _ & _ & T).
    rewrite T, Z. reflexivity.
Qed.

(** X12: [_onMouseWheel] does nothing when the wheel has not turned
    ([spinY] is 0).  Otherwise it zooms by five levels for each unit of
    spin, times the configured factor, against the sign of the spin: with
    a positive factor, on a viewer whose level is an integer between 0 and
    100, turning the wheel up ([spinY] negative) never lowers the level and
    turning it down never raises it; and each turn triggers one
    [zoom-updated] event. *)
Theorem wheel_zooms_against_spin (spinY : number) (k : Z) (v : Viewer) :
  zoom_lvl (prop v) = inject_Z k ->
  (0 <= k <= 100)%Z ->
  0 < mousewheel_factor (config v) ->
  (spinY == 0 -> _onMouseWheel spinY v = v)
  /\ (spinY < 0 ->
      zoom_lvl (prop v) <= zoom_lvl (prop (_onMouseWheel spinY v))
      /\ triggered (_onMouseWheel spinY v)
         = triggered v ++ [zoom_updated (zoom_lvl (prop (_onMouseWheel spinY v)))])
  /\ (0 < spinY ->
      zoom_lvl (prop (_onMouseWheel spinY v)) <= zoom_lvl (prop v)
      /\ triggered (_onMouseWheel spinY v)
         = triggered v ++ [zoom_updated (zoom_lvl (prop (_onMouseWheel spinY v)))]).
Proof.
  intros E R F.
  assert (Self : PSVUtils.bound (Math_round (inject_Z k)) 0 100 = inject_Z k).
  { rewrite (Math_round_integer k) by reflexivity. apply bound_id.
    - change 0 with (inject_Z 0). rewrite <- Zle_Qle. lia.
    - change 100 with (inject_Z 100). rewrite <- Zle_Qle. lia. }
  assert (Turn : ~ spinY == 0 ->
                 _onMouseWheel spinY v
                 = zoom (zoom_lvl (prop v) - spinY * 5 * mousewheel_factor (config v)) v).
  { intros N. unfold _onMouseWheel, eqb. cbv zeta.
    destruct (Qeq_bool (spinY * 5) 0) eqn:Q; [|reflexivity].
    apply Qeq_bool_iff in Q. exfalso. apply N. lra. }
  split; [|split].
  - intros Z. unfold _onMouseWheel, eqb. cbv zeta.
    assert (Q : Qeq_bool (spinY * 5) 0 = true) by (apply Qeq_bool_iff; lra).
    rewrite Q. reflexivity.
  - intros L. rewrite Turn by lra.
    split; [|apply zoom_spec].
    change (zoom_lvl (prop (zoom (zoom_lvl (prop v)
                                  - spinY * 5 * mousewheel_factor (config v)) v)))
      with (PSVUtils.bound
              (Math_round (zoom_lvl (prop v)
                           - spinY * 5 * mousewheel_factor (config v))) 0 100).
    rewrite E at 1. rewrite <- Self. rewrite E.
    apply bound_mono; [lra|]. apply Math_round_mono.
    assert (P : 0 <= (- spinY) * mousewheel_factor (config v))
      by (apply Qmult_le_0_compat; lra).
    lra.
  - intros L. rewrite Turn by lra.
    split; [|apply zoom_spec].
    change (zoom_lvl (prop (zoom (zoom_lvl (prop v)
                                  - spinY * 5 * mousewheel_factor (config v)) v)))
      with (PSVUtils.bound
              (Math_round (zoom_lvl (prop v)
                           - spinY * 5 * mousewheel_factor (config v))) 0 100).
    rewrite E at 2. rewrite <- Self. rewrite E.
    apply bound_mono; [lra|]. apply Math_round_mono.
    assert (P : 0 <= spinY * mousewheel_factor (config v))
      by (apply Qmult_le_0_compat; lra).
    lra.
Qed.

End MoreFacts.

Section MoreFacts2.

Context {ext : Externals}.

(** ** Starting and stopping *)

Lemma stopAutorotate_idle (v : Viewer) :
  start_timeout (prop v) = None -> autorotate_cb (prop v) = None ->
  stopAutorotate v = v.
Proof.
  intros T A. unfold stopAutorotate, isAutorotateEnabled.
  rewrite T. cbv zeta. rewrite A. reflexivity.
Qed.

Lemma stopAnimation_idle (v : Viewer) :
  animation_promise (prop v) = None -> stopAnimation v = v.
Proof. intros A. unfold stopAnimation. rewrite A. reflexivity. Qed.

Lemma stopGyroscopeControl_idle (v : Viewer) :
  orientation_cb (prop v) = None -> stopGyroscopeControl v = v.
Proof.
  intros O. unfold stopGyroscopeControl, isGyroscopeEnabled. rewrite O. reflexivity.
Qed.

Lemma stopStereoView_idle (v : Viewer) :
  stereoEffect v = false -> stopStereoView v = v.
Proof. intros S. unfold stopStereoView, isStereoEnabled. rewrite S. reflexivity. Qed.

Lemma stereoEffect_stopStereoView (v : Viewer) :
  stereoEffect (stopStereoView v) = false.
Proof.
  unfold stopStereoView, isStereoEnabled.
  destruct (stereoEffect v) eqn:S; [|exact S].
  cbv zeta. rewrite stereoEffect_trigger.
  unfold stopGyroscopeControl.
  destruct (isGyroscopeEnabled _); [rewrite stereoEffect_trigger|]; reflexivity.
Qed.

(** X13: stopping is idempotent, and stopping what is not running is
    silent.  Each of [stopAutorotate], [stopAnimation],
    [stopGyroscopeControl] and [stopStereoView], called a second time,
    leaves the viewer as the first call left it; and called on a viewer
    where the thing it stops is not active (for [stopAutorotate]: no
    autorotation and no delayed start pending), it leaves the viewer as it
    is, triggering no event. *)
Theorem stopping_twice_is_stopping_once (v : Viewer) :
  (stopAutorotate (stopAutorotate v) = stopAutorotate v
   /\ stopAnimation (stopAnimation v) = stopAnimation v
   /\ stopGyroscopeControl (stopGyroscopeControl v) = stopGyroscopeControl v
   /\ stopStereoView (stopStereoView v) = stopStereoView v)
  /\ (isAutorotateEnabled v = false -> start_timeout (prop v) = None ->
      stopAutorotate v = v)
  /\ (animation_promise (prop v) = None -> stopAnimation v = v)
  /\ (isGyroscopeEnabled v = false -> stopGyroscopeControl v = v)
  /\ (isStereoEnabled v = false -> stopStereoView v = v).
Proof.
  split; [split; [|split; [|split]]|].
  - apply stopAutorotate_idle; apply stopAutorotate_spec.
  - apply stopAnimation_idle, stopAnimation_spec.
  - apply stopGyroscopeControl_idle, stopGyroscopeControl_spec.
  - apply stopStereoView_idle, stereoEffect_stopStereoView.
  - split; [|split; [|split]].
    + unfold isAutorotateEnabled. intros A T. apply stopAutorotate_idle; [exact T|].
      destruct (autorotate_cb (prop v)); [discriminate|reflexivity].
    + apply stopAnimation_idle.
    + unfold isGyroscopeEnabled. intros O. apply stopGyroscopeControl_idle.
      destruct (orientation_cb (prop v)); [discriminate|reflexivity].
    + apply stopStereoView_idle.
Qed.

Lemma triggered__stopAll (v : Viewer) :
  exists evs, triggered (_stopAll v) = triggered v ++ evs.
Proof. apply _stopAll_spec. Qed.

(** X14: [toggleAutorotate] flips autorotation: afterwards autorotation is
    enabled exactly when it was not before, the last event triggered is
    [autorotate] with the new state, and no delayed start is left pending.
    Turning autorotation on this way also turns gyroscope control and any
    animation off. *)
Theorem toggleAutorotate_flips (v : Viewer) :
  let v' := toggleAutorotate v in
  isAutorotateEnabled v' = negb (isAutorotateEnabled v)
  /\ start_timeout (prop v') = None
  /\ (exists evs, triggered v'
                  = triggered v ++ evs ++ [autorotate (negb (isAutorotateEnabled v))])
  /\ (isAutorotateEnabled v = false ->
      isGyroscopeEnabled v' = false /\ animation_promise (prop v') = None).
Proof.
  unfold toggleAutorotate. cbv zeta.
  destruct (isAutorotateEnabled v) eqn:A; cbn [negb].
  - unfold stopAutorotate.
    assert (A' : isAutorotateEnabled
                   match start_timeout (prop v) with
                   | Some _ => with_prop (set_start_timeout None) v
                   | None => v
                   end = true)
      by (destruct (start_timeout (prop v)); exact A).
    cbv zeta. rewrite A'.
    split; [reflexivity|].
    split; [destruct (start_timeout (prop v)) eqn:T; [reflexivity | exact T]|].
    split; [|discriminate].
    exists []. destruct (start_timeout (prop v)); reflexivity.
  - unfold startAutorotate. cbv zeta.
    destruct (_stopAll_spec v) as (Sa & So & Sn & _ & _ & _ & _ & evs & St).
    split; [reflexivity|].
    split.
    { cbn [prop trigger emit with_prop start_timeout set_autorotate_cb].
      unfold _stopAll.
      assert (G : forall w, start_timeout (prop (stopGyroscopeControl w))
                            = start_timeout (prop w)).
      { intros w. unfold stopGyroscopeControl.
        destruct (isGyroscopeEnabled w); reflexivity. }
      assert (N : forall w, start_timeout (prop (stopAnimation w))
                            = start_timeout (prop w)).
      { intros w. unfold stopAnimation, settle.
        destruct (animation_promise (prop w)) as [a|]; [|reflexivity].
        destruct (running a); [destruct (onTick a)|]; reflexivity. }
      rewrite G, N. apply stopAutorotate_spec. }
    split.
    { exists evs. cbn [triggered trigger emit with_prop].
      rewrite St, <- app_assoc. reflexivity. }
    intros _. unfold isGyroscopeEnabled.
    cbn [prop trigger emit with_prop orientation_cb animation_promise
         set_autorotate_cb].
    rewrite So, Sn. auto.
Qed.

(** X15: [startGyroscopeControl] has three outcomes.  Without the
    orientation controls of Three.js it throws and leaves the viewer as it
    is.  When the device reports no orientation it warns on the console,
    answers a rejected promise and changes nothing else.  Otherwise it
    stops autorotation and any animation, keeps the current heading by
    storing the longitude of the camera direction as alpha offset, and
    ends by triggering [gyroscope-updated] with [true];
    [toggleGyroscopeControl] on a viewer under gyroscope control stops it
    whatever the device supports. *)
Theorem startGyroscopeControl_outcomes (direction : Vector3) (v : Viewer) :
  (has_DeviceOrientationControls = false ->
   forall supported,
     startGyroscopeControl supported direction v
     = thrown "Missing Three.js components: DeviceOrientationControls. Get them from three.js-examples package." v)
  /\ (has_DeviceOrientationControls = true ->
      startGyroscopeControl false direction v
      = returned D_rejected
          (console_warn "PanoSphereViewer: gyroscope not available" v)
      /\ exists v',
          startGyroscopeControl true direction v = returned D_resolved v'
          /\ isGyroscopeEnabled v' = true
          /\ isAutorotateEnabled v' = false
          /\ animation_promise (prop v') = None
          /\ gyro_alpha_offset (prop v')
             = longitude (vector3ToSphericalCoords direction)
          /\ position (prop v') = position (prop v)
          /\ exists evs, triggered v'
                         = triggered v ++ evs ++ [gyroscope_updated true])
  /\ (isGyroscopeEnabled v = true ->
      forall supported,
        toggleGyroscopeControl supported direction v
        = returned tt (stopGyroscopeControl v)
        /\ isGyroscopeEnabled (stopGyroscopeControl v) = false).
Proof.
  split; [|split].
  - intros H supported. unfold startGyroscopeControl. rewrite H. reflexivity.
  - intros H. unfold startGyroscopeControl. rewrite H.
    split; [reflexivity|].
    eexists. split; [reflexivity|]. cbv zeta.
    destruct (_stopAll_spec v) as (Sa & So & Sn & _ & Sp & _ & _ & evs & St).
    unfold isGyroscopeEnabled, isAutorotateEnabled.
    cbn [prop trigger emit with_prop orientation_cb autorotate_cb animation_promise
         gyro_alpha_offset position set_orientation_cb set_gyro_alpha_offset
         triggered isSome].
    rewrite Sa, Sn, Sp, St.
    repeat split; try reflexivity.
    exists evs. rewrite <- app_assoc. reflexivity.
  - intros G supported. unfold toggleGyroscopeControl. rewrite G.
    split; [reflexivity|].
    unfold isGyroscopeEnabled.
    destruct (stopGyroscopeControl_spec v) as (-> & _). reflexivity.
Qed.


(** ** Stereo view *)

Lemma console__stopAll (v : Viewer) : console (_stopAll v) = console v.
Proof.
  unfold _stopAll, stopGyroscopeControl, stopAnimation, stopAutorotate, settle.
  cbv zeta.
  repeat match goal with
         | |- context [match ?x with _ => _ end] => destruct x
         | |- context [if ?x then _ else _] => destruct x
         end; reflexivity.
Qed.

(** X16: [startStereoView] has three outcomes.  Without the stereo effect
    or the orientation controls of Three.js it throws and leaves the
    viewer as it is.  Otherwise it first calls [startNoSleep], which only
    writes a console warning, and that only when NoSleep.js is missing.
    When the device then reports no orientation, the stereo view is not
    entered: the viewer only gets, after it, the console warning of
    [startGyroscopeControl].  Otherwise gyroscope control is started first
    and the stereo effect installed after it, and the notification is
    shown last: the viewer ends in stereo view under gyroscope control,
    flagged for rendering, with autorotation and animation off and the
    notification visible, the console holds what [startNoSleep] left, and
    the last three events are [gyroscope-updated] and [stereo-updated],
    both with [true], and [show-notification]. *)
Theorem startStereoView_outcomes (direction : Vector3) (v : Viewer) :
  ((has_DeviceOrientationControls && has_StereoEffect)%bool = false ->
   forall supported,
     startStereoView supported direction v
     = thrown "Missing Three.js components: StereoEffect, DeviceOrientationControls. Get them from three.js-examples package." v)
  /\ startNoSleep v
     = (if has_NoSleep then v
        else console_warn "PanoSphereViewer: NoSleep is not available" v)
  /\ ((has_DeviceOrientationControls && has_StereoEffect)%bool = true ->
      startStereoView false direction v
      = returned tt (console_warn "PanoSphereViewer: gyroscope not available"
                       (startNoSleep v))
      /\ exists v',
          startStereoView true direction v = returned tt v'
          /\ isStereoEnabled v' = true
          /\ isGyroscopeEnabled v' = true
          /\ isAutorotateEnabled v' = false
          /\ animation_promise (prop v') = None
          /\ needsUpdate (prop v') = true
          /\ notification_visible v' = true
          /\ console v' = console (startNoSleep v)
          /\ exists evs, triggered v'
                         = triggered v ++ evs
                           ++ [gyroscope_updated true; stereo_updated true;
                               show_notification]).
Proof.
  split; [|split].
  - intros H supported. unfold startStereoView. rewrite H. reflexivity.
  - unfold startNoSleep. destruct has_NoSleep; reflexivity.
  - intros H. unfold startStereoView. rewrite H.
    apply andb_true_iff in H. destruct H as [H _].
    unfold startGyroscopeControl. rewrite H. cbv zeta.
    split; [reflexivity|].
    eexists. split; [reflexivity|].
    destruct (_stopAll_spec (startNoSleep v))
      as (Sa & So & Sn & _ & Sp & _ & _ & evs & St).
    assert (Sc : console (_stopAll (startNoSleep v)) = console (startNoSleep v))
      by apply console__stopAll.
    assert (T0 : triggered (startNoSleep v) = triggered v)
      by (unfold startNoSleep; destruct (negb has_NoSleep); reflexivity).
    unfold isGyroscopeEnabled, isAutorotateEnabled, isStereoEnabled, needsUpdate_,
      showNotification.
    cbn [prop trigger emit with_prop orientation_cb autorotate_cb animation_promise
         needsUpdate set_needsUpdate set_orientation_cb set_gyro_alpha_offset
         set_stereoEffect stereoEffect set_notification_visible
         notification_visible console triggered isSome].
    rewrite Sa, Sn, St, Sc, T0.
    repeat split; try reflexivity.
    exists evs. rewrite <- !app_assoc. reflexivity.
Qed.

Lemma stereoEffect_stopAutorotate (v : Viewer) :
  stereoEffect (stopAutorotate v) = stereoEffect v.
Proof.
  unfold stopAutorotate. cbv zeta.
  destruct (isAutorotateEnabled _); [rewrite stereoEffect_trigger|];
    destruct (start_timeout (prop v)); reflexivity.
Qed.

Lemma stereoEffect__logMouseMove (evt : PointerEvt) (now : number) (v v' : Viewer) :
  _logMouseMove evt now v = Some v' -> stereoEffect v' = stereoEffect v.
Proof.
  unfold _logMouseMove. cbv zeta.
  destruct (logMouseMove_loop _ _ _ _ _); [|discriminate].
  intros [= <-]. reflexivity.
Qed.

Lemma stereoEffect__click (evt : PointerEvt) (now : number) (v v' : Viewer) :
  _click evt now v = Some v' -> stereoEffect v' = stereoEffect v.
Proof.
  unfold _click.
  destruct (click_data evt v) as [data|]; [|intros [= <-]; reflexivity].
  destruct (dblclick_timeout (prop v)).
  - destruct (dblclick_data (prop v)) as [first|]; [|discriminate].
    cbv zeta. intros [= <-].
    destruct (near first data); reflexivity.
  - cbv zeta. intros [= <-]. reflexivity.
Qed.

Lemma stereoEffect__stopMove (evt : PointerEvt) (now : number) (v v' : Viewer) :
  _stopMove evt now v = Some v' -> stereoEffect v' = stereoEffect v.
Proof.
  unfold _stopMove.
  destruct (negb (in_hud evt)); [intros [= <-]; reflexivity|].
  destruct (moving (prop v)); [|intros [= <-]; reflexivity].
  destruct (_ && _)%bool.
  - destruct (_click evt now v) as [w|] eqn:C; [|discriminate].
    intros [= <-]. cbn [stereoEffect with_prop].
    apply (stereoEffect__click _ _ _ _ C).
  - destruct (_ && _)%bool.
    + destruct (_logMouseMove evt now v) as [w|] eqn:L; [|discriminate].
      unfold _stopMoveInertia.
      destruct (history_0 (mouse_history (prop w)) 1); [|discriminate].
      destruct (history_0 (mouse_history (prop w)) 2); [|discriminate].
      cbv zeta. intros [= <-]. cbn [stereoEffect with_prop].
      apply (stereoEffect__logMouseMove _ _ _ _ L).
    + intros [= <-]. reflexivity.
Qed.

(** X17: a mouse button released ends the stereo view.  Whatever
    [_stopMove] makes of the event (a click, the start of an inertia, or
    nothing because the pointer is outside the HUD), the viewer is not in
    stereo view once [_onMouseUp] has completed; when it was in stereo view
    before, gyroscope control has been stopped with it, the viewer is
    flagged for rendering and the last event triggered is [stereo-updated]
    with [false].  [stopStereoView] alone does the same, and does nothing to
    a viewer that is not in stereo view.  The end of a touch does not leave
    the stereo view. *)
Theorem mouse_up_ends_stereo_view (evt : PointerEvt) (now : number) (v : Viewer) :
  (forall v',
     _onMouseUp evt now v = Some v' ->
     isStereoEnabled v' = false
     /\ (isStereoEnabled v = true ->
         isGyroscopeEnabled v' = false
         /\ needsUpdate (prop v') = true
         /\ exists evs, triggered v' = triggered v ++ evs ++ [stereo_updated false]))
  /\ (isStereoEnabled (stopStereoView v) = false
      /\ (isStereoEnabled v = false -> stopStereoView v = v))
  /\ (forall v', _onTouchEnd evt now v = Some v' ->
                 isStereoEnabled v' = isStereoEnabled v).
Proof.
  split; [|split].
  - intros v'. unfold _onMouseUp.
    destruct (_stopMove evt now v) as [w|] eqn:M; [|discriminate].
    intros [= <-].
    pose proof (stereoEffect__stopMove _ _ _ _ M) as S.
    unfold isStereoEnabled in *.
    destruct (stereoEffect w) eqn:Sw.
    + split; [apply stereoEffect_stopStereoView|].
      intros _. unfold stopStereoView, isStereoEnabled. rewrite Sw. cbv zeta.
      unfold isGyroscopeEnabled. rewrite !prop_trigger, triggered_trigger.
      destruct (stopGyroscopeControl_spec
                  (needsUpdate_ (set_stereoEffect false w)))
        as (-> & _ & _ & _ & _ & -> & _ & _ & evs & ->).
      split; [reflexivity|]. split; [reflexivity|].
      cbn [triggered needsUpdate_ with_prop set_stereoEffect].
      assert (T : exists evs0, triggered w = triggered v ++ evs0).
      { pose proof (tracked__stopMove evt now v) as K. rewrite M in K.
        destruct K as (evs0 & K & _). exists evs0. exact K. }
      destruct T as (evs0 & ->).
      exists (evs0 ++ evs). rewrite <- !app_assoc. reflexivity.
    + split; [exact Sw|]. rewrite <- S. discriminate.
  - split; [apply stereoEffect_stopStereoView|].
    apply stopStereoView_idle.
  - intros v'. unfold _onTouchEnd, isStereoEnabled. apply stereoEffect__stopMove.
Qed.


(** ** Loading a panorama *)

Lemma scene__stopAll (v : Viewer) : scene (_stopAll v) = scene v.
Proof.
  assert (A : forall w, scene (stopAutorotate w) = scene w).
  { intros w. unfold stopAutorotate. cbv zeta.
    destruct (isAutorotateEnabled _); [rewrite scene_trigger|];
      destruct (start_timeout (prop w)); reflexivity. }
  assert (N : forall w, scene (stopAnimation w) = scene w).
  { intros w. unfold stopAnimation, settle.
    destruct (animation_promise (prop w)) as [a|]; [|reflexivity].
    destruct (running a); [destruct (onTick a)|]; reflexivity. }
  assert (G : forall w, scene (stopGyroscopeControl w) = scene w).
  { intros w. unfold stopGyroscopeControl.
    destruct (isGyroscopeEnabled w); [rewrite scene_trigger|]; reflexivity. }
  unfold _stopAll. rewrite G, N, A. reflexivity.
Qed.

(** X18: when no panorama is loading, [setPanorama] throws only for a
    transition asked on a cubemap, and then leaves the viewer as it is.
    Otherwise it records the new path in the configuration and registers
    the loading promise without moving the camera.  Called without a
    position it stops nothing: autorotation, gyroscope control and the
    ongoing animation go on, and no event is triggered.  Called with a
    position it stops all three first. *)
Theorem setPanorama_stops_drivers_only_for_a_position
    (path : string) (pos : option ExtendedPosition) (with_transition : bool)
    (v : Viewer) :
  loading_promise (prop v) = None ->
  ((with_transition && isCubemap (prop v))%bool = true ->
   setPanorama path pos with_transition v
   = thrown "Transition is not available with cubemap." v)
  /\ ((with_transition && isCubemap (prop v))%bool = false ->
      exists l v',
        setPanorama path pos with_transition v = returned (loading_handle l) v'
        /\ panorama (config v') = Some path
        /\ loading_promise (prop v') = Some l
        /\ load_position l = option_map cleaned pos
        /\ position (prop v') = position (prop v)
        /\ (pos = None ->
            autorotate_cb (prop v') = autorotate_cb (prop v)
            /\ orientation_cb (prop v') = orientation_cb (prop v)
            /\ animation_promise (prop v') = animation_promise (prop v)
            /\ triggered v' = triggered v)
        /\ (pos <> None ->
            autorotate_cb (prop v') = None
            /\ orientation_cb (prop v') = None
            /\ animation_promise (prop v') = None)).
Proof.
  intros L. unfold setPanorama. rewrite L. split.
  - intros ->. reflexivity.
  - intros ->. cbv zeta. eexists _, _. split; [reflexivity|].
    cbn [config prop with_config with_prop panorama set_panorama loading_promise
         set_loading_promise load_position position autorotate_cb orientation_cb
         animation_promise triggered].
    split; [reflexivity|]. split; [reflexivity|]. split; [reflexivity|].
    destruct pos as [p|].
    + destruct (_stopAll_spec v) as (Sa & So & Sn & _ & Sp & _).
      split; [exact Sp|]. split; [discriminate|]. intros _. auto.
    + split; [reflexivity|]. split; [|congruence]. intros _. auto.
Qed.

Lemma canvas_container__stopAll (v : Viewer) :
  canvas_container (_stopAll v) = canvas_container v.
Proof.
  unfold _stopAll, stopGyroscopeControl, stopAnimation, stopAutorotate, settle.
  cbv zeta.
  repeat match goal with
         | |- context [match ?x with _ => _ end] => destruct x
         | |- context [if ?x then _ else _] => destruct x
         end; reflexivity.
Qed.

(** X19: when the loading lock is released.  After an accepted
    [setPanorama], once the texture promise has settled (loaded or
    failed), the loading promise is cleared and the next [setPanorama] is
    accepted in three cases: the load went through a transition, the
    texture was loaded, or the viewer had its canvas container already.
    Otherwise, that is when a load without transition fails in a viewer
    that has not shown a panorama yet, the viewer stays as [setPanorama]
    left it, with the loading promise in place, and every later
    [setPanorama] throws.  A failed load leaves the camera where it was
    and triggers nothing; a load that succeeds without transition creates
    the scene and the canvas container, rotates the camera to the position
    that was given, cleaned and constrained to the ranges, and leaves it
    where it was when none was given. *)
Theorem loading_lock_release
    (path : string) (pos : option ExtendedPosition) (with_transition : bool)
    (ok : bool) (p : Promise) (v v1 : Viewer) :
  setPanorama path pos with_transition v = returned p v1 ->
  let transitioning := (with_transition && transition (config v) && scene v)%bool in
  let v2 := panoramaLoaded ok v1 in
  ((transitioning || ok || canvas_container v)%bool = true ->
   loading_promise (prop v2) = None
   /\ forall path' pos',
        exists p' v3, setPanorama path' pos' false v2 = returned p' v3)
  /\ ((transitioning || ok || canvas_container v)%bool = false ->
      v2 = v1
      /\ loading_promise (prop v2) <> None
      /\ forall path' pos' with_transition',
           setPanorama path' pos' with_transition' v2
           = thrown "Loading already in progress" v2)
  /\ (ok = false -> position (prop v2) = position (prop v1)
                    /\ triggered v2 = triggered v1)
  /\ (ok = true -> transitioning = false ->
      scene v2 = true
      /\ canvas_container v2 = true
      /\ match pos with
         | Some q => position (prop v2) = constrained (cleaned q) v1
                     /\ needsUpdate (prop v2) = true
         | None => position (prop v2) = position (prop v1)
                   /\ triggered v2 = triggered v1
         end).
Proof.
  intros S.
  assert (I : exists l, loading_promise (prop v1) = Some l
                        /\ load_position l = option_map cleaned pos
                        /\ load_transition l
                           = (with_transition && transition (config v) && scene v)%bool
                        /\ canvas_container v1 = canvas_container v).
  { unfold setPanorama in S.
    destruct (loading_promise (prop v)) eqn:L; [discriminate|].
    destruct (with_transition && isCubemap (prop v))%bool; [discriminate|].
    cbv zeta in S. inversion S; subst; clear S.
    eexists. split; [reflexivity|]. split; [reflexivity|].
    cbn [load_transition config with_config scene canvas_container with_prop].
    assert (Cw : forall u, config (match pos with Some _ => _stopAll u | None => u end)
                           = config u)
      by (intros u; destruct pos; [apply _stopAll_spec | reflexivity]).
    assert (Sw : forall u, scene (match pos with Some _ => _stopAll u | None => u end)
                           = scene u)
      by (intros u; destruct pos; [apply scene__stopAll | reflexivity]).
    assert (Kw : forall u, canvas_container
                             (match pos with Some _ => _stopAll u | None => u end)
                           = canvas_container u)
      by (intros u; destruct pos; [apply canvas_container__stopAll | reflexivity]).
    cbn [transition set_panorama]. rewrite Cw, Sw, Kw.
    split; [|reflexivity].
    destruct with_transition, (transition (config v)), (scene v); reflexivity. }
  destruct I as (l & Hl & Hpos & Htr & Hcc).
  cbv zeta. rewrite <- Htr, <- Hcc. clear Htr Hcc S.
  assert (R : forall q u, canvas_container (rotate q (_setTexture u)) = true)
    by (intros q u; destruct (rotate_page q (_setTexture u)) as (-> & _); reflexivity).
  assert (Q : forall q u, scene (rotate q (_setTexture u)) = true)
    by (intros q u; rewrite scene_rotate; reflexivity).
  unfold panoramaLoaded. rewrite Hl, Hpos.
  destruct (load_transition l), ok, (canvas_container v1) eqn:K;
    cbn [orb andb]; (split; [|split; [|split]]); intros;
    try match goal with
        | H : true = false |- _ => discriminate H
        | H : false = true |- _ => discriminate H
        end.
  all: try rewrite K.
  all: try (destruct pos as [q|]; cbn [option_map];
            try rewrite R; try rewrite Q).
  all: cbn [canvas_container _setTexture set_canvas_container set_scene scene
            prop with_prop loading_promise set_loading_promise position
            needsUpdate triggered].
  all: try rewrite !prop_rotate.
  all: try rewrite Hl.
  all: repeat first
         [ reflexivity
         | discriminate
         | apply R
         | apply Q
         | split
         | intros; unfold setPanorama;
           cbn [prop with_prop loading_promise set_loading_promise andb];
           try rewrite Hl; try (eexists _, _); reflexivity ].
Qed.

End MoreFacts2.

Section MoreFacts3.

Context {ext : Externals}.

(** ** The constructor *)

(** X20: for options whose angles and speed are numbers, the constructor
    throws in four cases and in no other, and what it throws tells the
    first requirement that fails: a missing container first (nothing
    given, or the empty string as id), then a browser without canvas, then
    the lack of a renderer (no WebGL, or WebGL not wanted, and no canvas
    renderer loaded), all three as a [PSVError]; last, once the options
    have been corrected, a container given by an id that the document has
    no element for, as the [TypeError] of the assignment to the parent
    element.  Nothing in the rest of the options makes it throw. *)
Theorem constructor_throws_for_four_reasons
    (options : Config) (clientWidth clientHeight : number) :
  (given (container options) = false ->
   PanoSphereViewer options clientWidth clientHeight
   = inl (psv_error "No value given for container."))
  /\ (given (container options) = true -> isCanvasSupported = false ->
      PanoSphereViewer options clientWidth clientHeight
      = inl (psv_error "Canvas is not supported."))
  /\ (given (container options) = true -> isCanvasSupported = true ->
      (isWebGLSupported && webgl options)%bool = false ->
      has_CanvasRenderer_Projector = false ->
      PanoSphereViewer options clientWidth clientHeight
      = inl (psv_error "Missing Three.js components: CanvasRenderer, Projector. Get them from three.js-examples package."))
  /\ (given (container options) = true -> isCanvasSupported = true ->
      ((isWebGLSupported && webgl options) || has_CanvasRenderer_Projector)%bool = true ->
      parent options = false ->
      PanoSphereViewer options clientWidth clientHeight = inl type_error)
  /\ (parent options = false ->
      container options = no_container
      \/ exists id, container options = container_id id /\ getElementById id = false)
  /\ ((exists e, PanoSphereViewer options clientWidth clientHeight = inl e)
      <-> can_construct options = false).
Proof.
  split; [|split; [|split; [|split; [|split]]]].
  - intros C. unfold PanoSphereViewer. rewrite C. reflexivity.
  - intros C S. unfold PanoSphereViewer. rewrite C, S. reflexivity.
  - intros C S W R. unfold PanoSphereViewer. rewrite C, S, R.
    destruct isWebGLSupported, (webgl options); try discriminate W; reflexivity.
  - intros C S W P. unfold PanoSphereViewer. rewrite C, S, P.
    destruct isWebGLSupported, (webgl options), has_CanvasRenderer_Projector;
      try discriminate W; reflexivity.
  - unfold parent. destruct (container options) as [| |id]; intros P;
      [left; reflexivity | discriminate P | right; exists id; auto].
  - split.
    + intros [e E]. destruct (can_construct options) eqn:Pre; [|reflexivity].
      destruct (PanoSphereViewer_builds options clientWidth clientHeight Pre)
        as (_ & v & Ev & _).
      rewrite Ev in E. discriminate.
    + unfold can_construct, PanoSphereViewer.
      destruct (given (container options)); [|eexists; reflexivity].
      destruct (parent options), isCanvasSupported,
        isWebGLSupported, (webgl options), has_CanvasRenderer_Projector;
        cbn [andb orb negb]; try discriminate; intros _; eexists; reflexivity.
Qed.

(** X21: the legacy options [tilt_up_max] and [tilt_down_max] are migrated
    to [latitude_range] when no [latitude_range] is given: the range of
    the constructed viewer runs from [tilt_down_max - PI/4] (or [-PI/2]
    when it is missing) to [tilt_up_max + PI/4] (or [PI/2]), each bound
    parsed as an angle, and the console carries the deprecation warning.
    When a [latitude_range] is given, the legacy options are ignored. *)
Theorem legacy_tilt_options_become_latitude_range
    (options : Config) (clientWidth clientHeight : number) :
  can_construct options = true ->
  exists v,
    PanoSphereViewer options clientWidth clientHeight = inr v
    /\ (latitude_range options = None ->
        tilt_up_max options <> None \/ tilt_down_max options <> None ->
        latitude_range (config v)
        = Some [parseAngle match tilt_down_max options with
                           | Some t => t - Math_PI / 4
                           | None => - PSVUtils.HalfPI
                           end true;
                parseAngle match tilt_up_max options with
                           | Some t => t + Math_PI / 4
                           | None => PSVUtils.HalfPI
                           end true]
        /\ In "PanoSphereViewer: tilt_up_max and tilt_down_max are deprecated, use latitude_range instead."
             (console v))
    /\ (latitude_range options = None ->
        tilt_up_max options = None -> tilt_down_max options = None ->
        latitude_range (config v) = None)
    /\ (forall r, latitude_range options = Some r ->
        latitude_range (config v)
        = option_map (map (fun angle => parseAngle angle true))
            (corrected_latitude_range
               (set_tilt_up_max None (set_tilt_down_max None options)))).
Proof.
  intros Pre.
  destruct (PanoSphereViewer_builds options clientWidth clientHeight Pre)
    as (_ & v & E & _ & _ & _ & _ & _ & _ & _ & La & Co & _).
  exists v. split; [exact E|].
  destruct (configure_spec (blank options)) as (Co' & _ & _ & _ & _ & La' & _).
  destruct (check_config_spec (blank options))
    as (_ & _ & Co'' & _ & La'' & _).
  cbv zeta in *. rewrite La' in La. rewrite La'' in La.
  rewrite Co' in Co. rewrite Co'' in Co.
  cbn [config blank console app] in La, Co.
  rewrite La, Co. clear.
  unfold corrected_latitude_range, latitude_range_warning.
  split; [|split].
  - intros -> T.
    assert (S : (isSome (tilt_up_max options) || isSome (tilt_down_max options))%bool
                = true).
    { destruct (tilt_up_max options), (tilt_down_max options), T;
        try reflexivity; congruence. }
    rewrite S. split; [reflexivity|].
    apply in_or_app. right. apply in_or_app. left. simpl. auto.
  - intros -> -> ->. reflexivity.
  - intros r Hr. cbn [latitude_range set_tilt_up_max set_tilt_down_max].
    rewrite Hr. reflexivity.
Qed.

Lemma _onResize_keeps (clientWidth clientHeight : number) (v : Viewer) :
  let s := _onResize clientWidth clientHeight v in
  moving (prop s) = moving (prop v)
  /\ zooming (prop s) = zooming (prop v)
  /\ autorotate_cb (prop s) = autorotate_cb (prop v)
  /\ orientation_cb (prop s) = orientation_cb (prop v)
  /\ animation_promise (prop s) = animation_promise (prop v)
  /\ start_timeout (prop s) = start_timeout (prop v)
  /\ loading_promise (prop s) = loading_promise (prop v)
  /\ dblclick_timeout (prop s) = dblclick_timeout (prop v)
  /\ mouse_history (prop s) = mouse_history (prop v)
  /\ config s = config v.
Proof.
  unfold _onResize, dividing_by.
  destruct (_ || _)%bool; [destruct (eqb _ 0)|]; repeat split; reflexivity.
Qed.

Lemma default_zoom_and_speed_keep (v : Viewer) :
  let m := apply_move_speed (apply_default_zoom v) in
  moving (prop m) = moving (prop v)
  /\ zooming (prop m) = zooming (prop v)
  /\ autorotate_cb (prop m) = autorotate_cb (prop v)
  /\ orientation_cb (prop m) = orientation_cb (prop v)
  /\ animation_promise (prop m) = animation_promise (prop v)
  /\ start_timeout (prop m) = start_timeout (prop v)
  /\ loading_promise (prop m) = loading_promise (prop v)
  /\ dblclick_timeout (prop m) = dblclick_timeout (prop v)
  /\ mouse_history (prop m) = mouse_history (prop v)
  /\ config m = config v.
Proof.
  unfold apply_default_zoom, dividing_by. cbv zeta.
  destruct (eqb _ 0); repeat split; reflexivity.
Qed.

Lemma default_position_keeps (v : Viewer) :
  autorotate_cb (prop v) = None ->
  let r := apply_default_position v in
  moving (prop r) = moving (prop v)
  /\ zooming (prop r) = zooming (prop v)
  /\ autorotate_cb (prop r) = autorotate_cb (prop v)
  /\ orientation_cb (prop r) = orientation_cb (prop v)
  /\ animation_promise (prop r) = animation_promise (prop v)
  /\ start_timeout (prop r) = start_timeout (prop v)
  /\ loading_promise (prop r) = loading_promise (prop v)
  /\ dblclick_timeout (prop r) = dblclick_timeout (prop v)
  /\ mouse_history (prop r) = mouse_history (prop v)
  /\ needsUpdate (prop r) = true
  /\ position (prop r)
     = fst (applyRanges (config v)
              (cleanPosition (spherical {| longitude := default_long (config v);
                                           latitude := default_lat (config v) |})))
  /\ config r = config v.
Proof.
  intros A. unfold apply_default_position. cbv zeta.
  match goal with
  | |- context [rotate ?p v] =>
      destruct (rotate_spec p v) as (Pr & _ & _ & _ & _ & _ & Ci)
  end.
  rewrite Pr, Ci by (unfold isAutorotateEnabled; rewrite A; reflexivity).
  repeat split; reflexivity.
Qed.

(** The viewer the constructor has before it starts the first load: idle,
    flagged for rendering, looking at the default position. *)
Lemma first_steps_idle (clientWidth clientHeight : number) (c : Viewer) :
  prop c = initial_prop ->
  let r := apply_default_position
             (apply_move_speed
                (apply_default_zoom (_onResize clientWidth clientHeight c))) in
  moving (prop r) = false
  /\ zooming (prop r) = false
  /\ autorotate_cb (prop r) = None
  /\ orientation_cb (prop r) = None
  /\ animation_promise (prop r) = None
  /\ start_timeout (prop r) = None
  /\ loading_promise (prop r) = None
  /\ dblclick_timeout (prop r) = None
  /\ mouse_history (prop r) = []
  /\ needsUpdate (prop r) = true
  /\ position (prop r)
     = fst (applyRanges (config c)
              (cleanPosition (spherical {| longitude := default_long (config c);
                                           latitude := default_lat (config c) |})))
  /\ config r = config c.
Proof.
  intros Pc. cbv zeta.
  destruct (_onResize_keeps clientWidth clientHeight c)
    as (M & Z & A & O & N & T & L & D & H & C).
  generalize dependent (_onResize clientWidth clientHeight c). intros s.
  rewrite Pc.
  cbn [initial_prop moving zooming autorotate_cb orientation_cb animation_promise
       start_timeout loading_promise dblclick_timeout mouse_history].
  intros M Z A O N T L D H C.
  destruct (default_zoom_and_speed_keep s)
    as (M' & Z' & A' & O' & N' & T' & L' & D' & H' & C').
  generalize dependent (apply_move_speed (apply_default_zoom s)). intros m.
  intros M' Z' A' O' N' T' L' D' H' C'.
  destruct (default_position_keeps m)
    as (M2 & Z2 & A2 & O2 & N2 & T2 & L2 & D2 & H2 & U2 & P2 & C2);
    [congruence|].
  generalize dependent (apply_default_position m). intros r.
  intros M2 Z2 A2 O2 N2 T2 L2 D2 H2 U2 P2 C2.
  rewrite C', C in P2.
  repeat split; congruence.
Qed.

(** What the constructor leaves of the gesture flags, the mouse history and
    the double-click timer. *)
Lemma constructed_viewer_is_idle_facts
    (options : Config) (clientWidth clientHeight : number) :
  can_construct options = true ->
  exists v,
    PanoSphereViewer options clientWidth clientHeight = inr v
    /\ moving (prop v) = false
    /\ zooming (prop v) = false
    /\ mouse_history (prop v) = []
    /\ dblclick_timeout (prop v) = None.
Proof.
  intros Pre.
  rewrite (PanoSphereViewer_unfold _ _ _ Pre).
  destruct (first_steps_idle clientWidth clientHeight (configure (blank options))
              (configure_prop _))
    as (M & Z & A & O & N & T & L & D & H & U & P & C).
  cbv zeta in *.
  generalize dependent
    (apply_default_position
       (apply_move_speed
          (apply_default_zoom
             (_onResize clientWidth clientHeight (configure (blank options)))))).
  intros r M Z A O N T L D H U P C.
  destruct (configured_panorama (config r)) as [path|].
  - unfold setPanorama. rewrite L. cbn [andb].
    eexists. split; [reflexivity|]. auto.
  - exists r. auto.
Qed.


(** X22: a viewer fresh from the constructor is idle.  No navigation
    driver is active (no drag, no autorotation, no gyroscope control, no
    animation, no delayed start) and no double click is pending; the
    viewer is flagged for rendering and looks at the default position,
    cleaned and constrained to the ranges.  It is loading exactly when a
    panorama was configured, that is a path other than the empty string,
    and then a call of [setPanorama] is refused until that first load has
    ended. *)
Theorem constructed_viewer_is_idle
    (options : Config) (clientWidth clientHeight : number) :
  can_construct options = true ->
  exists v,
    PanoSphereViewer options clientWidth clientHeight = inr v
    /\ active_drivers v = []
    /\ (moving (prop v) = false /\ zooming (prop v) = false
        /\ start_timeout (prop v) = None /\ dblclick_timeout (prop v) = None)
    /\ needsUpdate (prop v) = true
    /\ position (prop v)
       = fst (applyRanges (config (configure (blank options)))
                (cleanPosition
                   (spherical
                      {| longitude := default_long (config (configure (blank options)));
                         latitude := default_lat (config (configure (blank options))) |})))
    /\ (loading_promise (prop v) = None <-> configured_panorama options = None)
    /\ (configured_panorama options <> None ->
        forall path pos with_transition,
          setPanorama path pos with_transition v
          = thrown "Loading already in progress" v).
Proof.
  intros Pre.
  rewrite (PanoSphereViewer_unfold _ _ _ Pre).
  destruct (first_steps_idle clientWidth clientHeight (configure (blank options))
              (configure_prop _))
    as (M & Z & A & O & N & T & L & D & H & U & P & C).
  cbv zeta in *.
  assert (Pa : panorama (config (configure (blank options))) = panorama options).
  { unfold configure. cbv zeta.
    destruct (check_config_spec (blank options))
      as (_ & _ & _ & _ & _ & _ & _ & _ & _ & Pc).
    cbv zeta in Pc. cbn [config blank] in Pc. rewrite <- Pc.
    generalize (check_config (blank options)). intros w.
    unfold parse_config, set_default_fov_. cbv zeta.
    destruct (default_fov (config w)); cbn [config with_config];
      repeat match goal with
             | |- context [match ?x with _ => _ end] => destruct x eqn:?
             end; cbn [config with_config]; destruct (config w); reflexivity. }
  generalize dependent
    (apply_default_position
       (apply_move_speed
          (apply_default_zoom
             (_onResize clientWidth clientHeight (configure (blank options)))))).
  intros r M Z A O N T L D H U P C.
  assert (Pa' : configured_panorama (config r) = configured_panorama options)
    by (unfold configured_panorama; rewrite C, Pa; reflexivity).
  rewrite Pa'. clear Pa Pa'.
  assert (Idle : forall w, prop w = prop r \/ (exists l, prop w = set_loading_promise l (prop r)) ->
                           active_drivers w = []).
  { intros w Pw. unfold active_drivers, running_animation, isAutorotateEnabled,
      isGyroscopeEnabled.
    destruct Pw as [-> | [l ->]];
      cbn [animation_promise moving autorotate_cb orientation_cb set_loading_promise];
      rewrite N, M, A, O; reflexivity. }
  destruct (configured_panorama options) as [path|] eqn:Po.
  - unfold setPanorama at 1. rewrite L. cbn [andb].
    eexists. split; [reflexivity|].
    split; [apply Idle; right; eexists; reflexivity|].
    cbn [prop with_prop with_config moving zooming start_timeout dblclick_timeout
         needsUpdate position loading_promise set_loading_promise].
    split; [auto|]. split; [exact U|]. split; [exact P|].
    split; [split; discriminate|].
    intros _ path' pos' tr. reflexivity.
  - exists r. split; [reflexivity|].
    split; [apply Idle; left; reflexivity|].
    split; [auto|]. split; [exact U|]. split; [exact P|].
    split; [tauto|]. congruence.
Qed.

End MoreFacts3.

Section MoreFacts4.

Context {ext : Externals}.

(** ** Resizing *)

Lemma parseInt_inject_Z (a : Z) : parseInt (inject_Z a) = inject_Z a.
Proof. unfold parseInt. simpl. rewrite Z.quot_1_r. reflexivity. Qed.

Lemma eqb_refl (x : number) : eqb x x = true.
Proof. unfold eqb. apply Qeq_bool_iff. reflexivity. Qed.

Lemma eqb_inject_Z_0 (b : Z) : eqb (inject_Z b) 0 = true <-> b = 0%Z.
Proof.
  unfold eqb. rewrite Qeq_bool_iff. unfold Qeq, inject_Z. simpl. lia.
Qed.

(** X23: [_onResize] acts only when the size of the container has
    changed.  Called with the size the viewer has stored it leaves the
    viewer as it is and triggers nothing; called with another size (in
    whole pixels, as the browser reports it) it stores that size, flags
    the viewer for rendering and triggers one [size-updated] event with
    the new size; the aspect ratio it stores is width by height when the
    height is not zero, and is no number when the height is zero.  A
    second call with the same size then does nothing. *)
Theorem resize_acts_only_on_a_new_size (a b : Z) (v : Viewer) :
  let w := inject_Z a in
  let h := inject_Z b in
  let v' := _onResize w h v in
  (w == width (size (prop v)) -> h == height (size (prop v)) -> v' = v)
  /\ (~ (w == width (size (prop v)) /\ h == height (size (prop v))) ->
      size (prop v') = {| width := w; height := h |}
      /\ (b <> 0%Z -> aspect (prop v') = w / h /\ non_finite v' = non_finite v)
      /\ (b = 0%Z -> non_finite v' = true)
      /\ needsUpdate (prop v') = true
      /\ triggered v' = triggered v ++ [size_updated {| width := w; height := h |}])
  /\ _onResize w h v' = v'.
Proof.
  intros w h v'.
  assert (Same : w == width (size (prop v)) -> h == height (size (prop v)) -> v' = v).
  { intros Ew Eh. subst v'. unfold _onResize, eqb.
    apply Qeq_bool_iff in Ew, Eh. rewrite Ew, Eh. reflexivity. }
  assert (New : ~ (w == width (size (prop v)) /\ h == height (size (prop v))) ->
                v' = trigger (size_updated {| width := w; height := h |})
                       (needsUpdate_
                          (with_prop (set_aspect (w / h))
                             (dividing_by h
                                (with_prop (set_size {| width := w; height := h |}) v))))).
  { intros N. subst v'. unfold _onResize, eqb.
    destruct (Qeq_bool w (width (size (prop v)))) eqn:Ew;
      destruct (Qeq_bool h (height (size (prop v)))) eqn:Eh;
      cbn [negb orb]; cbv zeta;
      try (subst w h; rewrite !parseInt_inject_Z; unfold dividing_by;
           cbn [height size prop with_prop set_size];
           destruct (eqb (inject_Z b) 0); reflexivity).
    apply Qeq_bool_iff in Ew, Eh. tauto. }
  assert (Z0 := eqb_inject_Z_0 b). fold h in Z0.
  split; [exact Same|]. split.
  - intros N. rewrite (New N). unfold dividing_by.
    destruct (eqb h 0).
    + split; [reflexivity|]. split; [|split; [|split]]; try reflexivity.
      intros B. exfalso. apply B, Z0. reflexivity.
    + split; [reflexivity|]. split; [|split; [|split]]; try reflexivity.
      * intros _. split; reflexivity.
      * intros B. apply Z0 in B. discriminate B.
  - destruct (Qeq_dec w (width (size (prop v)))) as [Ew|Nw];
      [destruct (Qeq_dec h (height (size (prop v)))) as [Eh|Nh]|].
    + rewrite (Same Ew Eh). fold v'. apply (Same Ew Eh).
    + rewrite New by tauto.
      unfold _onResize at 1, dividing_by. destruct (eqb h 0);
      cbn [prop trigger emit needsUpdate_ with_prop size set_size set_aspect
           set_needsUpdate width height set_non_finite];
      rewrite !eqb_refl; reflexivity.
    + rewrite New by tauto.
      unfold _onResize at 1, dividing_by. destruct (eqb h 0);
      cbn [prop trigger emit needsUpdate_ with_prop size set_size set_aspect
           set_needsUpdate width height set_non_finite];
      rewrite !eqb_refl; reflexivity.
Qed.

(** ** Animations *)

(** X24: when the duration is truthy and the target is not within
    [ANGLE_THRESHOLD] of the current position, [animate] stops
    autorotation, gyroscope control and the animation there was, and
    registers a new animation without moving the camera yet: from the
    current longitude along the shortest arc to the longitude of the
    target, and from the current latitude to the latitude of the target,
    the target being cleaned and constrained to the ranges.  The duration
    handed over is the argument as it was given: in this branch it is
    never turned from a speed into a time. *)
Theorem animate_registers_the_animation
    (pos : ExtendedPosition) (dur : value) (v : Viewer) :
  truthy_value dur = true ->
  ANGLE_THRESHOLD
    <= Math_abs (longitude (cleanPosition pos) - longitude (position (prop v)))
  \/ ANGLE_THRESHOLD
     <= Math_abs (latitude (cleanPosition pos) - latitude (position (prop v))) ->
  let target := fst (applyRanges (config v) (cleanPosition pos)) in
  exists a,
    fst (animate pos dur v) = animation_handle a
    /\ animation_promise (prop (snd (animate pos dur v))) = Some a
    /\ duration a = dur
    /\ properties a
       = [("longitude",
           (longitude (position (prop v)),
            longitude (position (prop v))
            + getShortestArc (longitude (position (prop v))) (longitude target)));
          ("latitude", (latitude (position (prop v)), latitude target))]
    /\ easing a = "inOutSine"
    /\ onTick a = on_rotate
    /\ running a = true
    /\ position (prop (snd (animate pos dur v))) = position (prop v)
    /\ autorotate_cb (prop (snd (animate pos dur v))) = None
    /\ orientation_cb (prop (snd (animate pos dur v))) = None.
Proof.
  intros T Far target.
  destruct (_stopAll_spec v) as (Sa & So & Sn & _ & Sp & _ & Sc & _).
  unfold animate. cbv zeta. rewrite T, Sp, Sc. cbn [negb orb andb].
  assert (F : (ltb (Math_abs (longitude (cleanPosition pos)
                              - longitude (position (prop v)))) ANGLE_THRESHOLD
               && ltb (Math_abs (latitude (cleanPosition pos)
                                 - latitude (position (prop v)))) ANGLE_THRESHOLD)%bool
              = false).
  { apply andb_false_iff. destruct Far as [L|L]; [left|right]; apply ltb_ge; exact L. }
  rewrite F. fold target.
  destruct (applyRanges (config v) (cleanPosition pos)) as [tg sides] eqn:R.
  cbn [fst] in target. subst target.
  destruct (reach_spec sides (_stopAll v)) as (Pr & _).
  cbn [fst snd prop with_prop animation_promise set_animation_promise duration
       properties easing onTick running position autorotate_cb orientation_cb].
  rewrite Pr, Sp, Sa, So.
  eexists. repeat split; reflexivity.
Qed.

(** ** The end of a drag *)

Lemma _logMouseMove_keeps (evt : PointerEvt) (now : number) (v v' : Viewer) :
  _logMouseMove evt now v = Some v' ->
  exists h, v' = with_prop (set_mouse_history h) v.
Proof.
  unfold _logMouseMove. cbv zeta.
  destruct (logMouseMove_loop _ _ _ _ _) as [h|]; [|discriminate].
  intros [= <-]. exists h. reflexivity.
Qed.

(** X25: a pointer released farther than [MOVE_THRESHOLD] from where the
    drag began ends the drag in one of two ways.  With inertia configured
    and gyroscope control off, an inertia animation is registered and the
    viewer keeps counting as moving while it runs; the drag is over only
    when that animation settles, whether it reaches its end or is cancelled
    by [stopAnimation].  Without inertia, or under gyroscope control, the
    drag is over at once and no animation is registered.  In both cases the
    mouse history is emptied and the pinch flag cleared. *)
Theorem inertia_keeps_the_drag_until_it_settles
    (evt : PointerEvt) (now : number) (v v' : Viewer) :
  in_hud evt = true ->
  moving (prop v) = true ->
  MOVE_THRESHOLD <= Math_abs (clientX evt - start_mouse_x (prop v))
  \/ MOVE_THRESHOLD <= Math_abs (clientY evt - start_mouse_y (prop v)) ->
  _stopMove evt now v = Some v' ->
  mouse_history (prop v') = []
  /\ zooming (prop v') = false
  /\ ((move_inertia (config v) && negb (isGyroscopeEnabled v))%bool = true ->
      exists a,
        animation_promise (prop v') = Some a
        /\ onTick a = on_inertia
        /\ running a = true
        /\ moving (prop v') = true
        /\ moving (prop (animation_done v')) = false
        /\ running_animation (animation_done v') = None
        /\ moving (prop (stopAnimation v')) = false
        /\ animation_promise (prop (stopAnimation v')) = None)
  /\ ((move_inertia (config v) && negb (isGyroscopeEnabled v))%bool = false ->
      moving (prop v') = false
      /\ animation_promise (prop v') = animation_promise (prop v)).
Proof.
  intros Hud Mv Far. unfold _stopMove. rewrite Hud, Mv. cbn [negb].
  assert (F : (ltb (Math_abs (clientX evt - start_mouse_x (prop v))) MOVE_THRESHOLD
               && ltb (Math_abs (clientY evt - start_mouse_y (prop v))) MOVE_THRESHOLD)%bool
              = false).
  { apply andb_false_iff. destruct Far as [L|L]; [left|right]; apply ltb_ge; exact L. }
  rewrite F.
  destruct (move_inertia (config v) && negb (isGyroscopeEnabled v))%bool eqn:I.
  - destruct (_logMouseMove evt now v) as [w|] eqn:L; [|discriminate].
    destruct (_logMouseMove_keeps _ _ _ _ L) as (h & ->).
    unfold _stopMoveInertia.
    destruct (history_0 _ 1) as [x0|]; [|discriminate].
    destruct (history_0 _ 2) as [y0|]; [|discriminate].
    cbv zeta. intros [= <-].
    split; [reflexivity|]. split; [reflexivity|].
    split; [|discriminate].
    intros _. eexists. split; [reflexivity|].
    unfold animation_done, stopAnimation, running_animation.
    cbn [prop with_prop animation_promise set_animation_promise set_mouse_history
         set_zooming set_moving onTick running settle moving].
    repeat split; try reflexivity. exact Mv.
  - intros [= <-].
    split; [reflexivity|]. split; [reflexivity|].
    split; [discriminate|]. intros _. split; reflexivity.
Qed.

(** ** Dragging under gyroscope control *)

(** X26: under gyroscope control a drag does not rotate the camera itself.
    In a viewer whose numbers are finite and whose stored width is not
    zero, a pointer move during the drag stores no value that is no
    number, leaves the position as it is and triggers no event; it shifts the
    alpha offset of the orientation controls by the horizontal travel of
    the pointer (scaled by the width of the viewer, the move speed, the
    horizontal field of view and the pixel ratio) and ignores the vertical
    travel, whatever the stored height is.  The next frame then reads the
    direction the device gives for the shifted offset.  In a viewer whose
    stored width is zero the shift is no number. *)
Theorem drag_under_gyroscope_shifts_the_heading
    (evt : PointerEvt) (now timestamp : number) (device : number -> Vector3)
    (v v' : Viewer) :
  moving (prop v) = true ->
  isGyroscopeEnabled v = true ->
  autorotate_cb (prop v) = None ->
  non_finite v = false ->
  _move evt true now v = Some v' ->
  let shift := (parseInt (clientX evt) - mouse_x (prop v)) / width (size (prop v))
               * move_speed (prop v) * hFov (prop v) * pixelRatio in
  (width (size (prop v)) == 0 -> non_finite v' = true)
  /\ (~ width (size (prop v)) == 0 ->
      non_finite v' = false
      /\ position (prop v') = position (prop v)
      /\ triggered v' = triggered v
      /\ gyro_alpha_offset (prop v') = gyro_alpha_offset (prop v) + shift
      /\ mouse_x (prop v') = parseInt (clientX evt)
      /\ mouse_y (prop v') = parseInt (clientY evt)
      /\ position (prop (before_render timestamp device v'))
         = let coords := vector3ToSphericalCoords
                           (multiplyScalar (device (gyro_alpha_offset (prop v) + shift))
                                           SPHERE_RADIUS) in
           {| longitude := longitude coords; latitude := latitude coords |}).
Proof.
  intros Mv G A F. unfold _move. rewrite Mv. cbv zeta.
  assert (D : exists nf,
             dividing_by (width (size (prop v))) v = set_non_finite nf v
             /\ (width (size (prop v)) == 0 -> nf = true)
             /\ (~ width (size (prop v)) == 0 -> nf = non_finite v)).
  { unfold dividing_by, eqb.
    destruct (Qeq_bool (width (size (prop v))) 0) eqn:E.
    - exists true. apply Qeq_bool_iff in E. repeat split; tauto.
    - exists (non_finite v). apply Qeq_bool_neq in E.
      split; [destruct v; reflexivity|]. split; tauto. }
  destruct D as (nf & -> & Z & NZ).
  change (isGyroscopeEnabled (set_non_finite nf v)) with (isGyroscopeEnabled v).
  rewrite G.
  intros L. destruct (_logMouseMove_keeps _ _ _ _ L) as (h & ->).
  split; [exact Z|]. intros W.
  split; [rewrite <- F; exact (NZ W)|].
  split; [reflexivity|]. split; [reflexivity|]. split; [reflexivity|].
  split; [reflexivity|]. split; [reflexivity|].
  unfold before_render.
  cbn [prop with_prop autorotate_cb orientation_cb set_mouse_history set_mouse_x
       set_mouse_y set_gyro_alpha_offset set_non_finite].
  rewrite A. unfold isGyroscopeEnabled in G.
  match goal with
  | |- context [match orientation_cb (prop ?w) with _ => _ end] =>
      change (orientation_cb (prop w)) with (orientation_cb (prop v))
  end.
  destruct (orientation_cb (prop v)); [|discriminate].
  unfold orientationUpdate_call, needsUpdate_. reflexivity.
Qed.

End MoreFacts4.

Section MoreFacts5.

Context {ext : Externals}.

(** ** Clicks *)

Lemma click_data_client (evt : PointerEvt) (v : Viewer) (d : ClickData.t) :
  click_data evt v = Some d ->
  ClickData.client_x d = clientX evt /\ ClickData.client_y d = clientY evt.
Proof.
  unfold click_data.
  destruct (viewerCoordsToVector3 _ _ _); [|discriminate].
  intros [= <-]. split; reflexivity.
Qed.

(** X27: a double click closes the cycle.  After a click and a second
    click that makes it a double click, no timer is left pending, and a
    third click is a click of its own whenever it comes, be it within the
    double-click delay of the first two: the viewer triggers [click],
    [dblclick] with the data of the first click, then [click] with the
    data of the third, and arms the timer anew. *)
Theorem click_after_double_click_is_a_click
    (e1 e2 e3 : PointerEvt) (t1 t2 t3 : number) (d1 : ClickData.t) (v : Viewer) :
  dblclick_timeout (prop v) = None ->
  click_data e1 v = Some d1 ->
  t2 < t1 + DBLCLICK_DELAY ->
  Math_abs (clientX e1 - clientX e2) < MOVE_THRESHOLD ->
  Math_abs (clientY e1 - clientY e2) < MOVE_THRESHOLD ->
  exists v1,
    click_at e1 t1 v = Some v1
    /\ forall d2,
         click_data e2 (elapse t2 v1) = Some d2 ->
         exists v2,
           click_at e2 t2 v1 = Some v2
           /\ dblclick_timeout (prop v2) = None
           /\ dblclick_data (prop v2) = None
           /\ forall d3,
                click_data e3 (elapse t3 v2) = Some d3 ->
                exists v3,
                  click_at e3 t3 v2 = Some v3
                  /\ triggered v3
                     = triggered v ++ [click d1; dblclick d1; click d3]
                  /\ dblclick_timeout (prop v3) = Some (t3 + DBLCLICK_DELAY)
                  /\ dblclick_data (prop v3) = Some d3.
Proof.
  intros T0 D1 In Nx Ny.
  destruct (click_data_client _ _ _ D1) as [X1 Y1].
  unfold click_at at 1. rewrite (elapse_idle _ _ T0).
  unfold _click at 1. rewrite D1, T0. cbv zeta.
  eexists. split; [reflexivity|].
  intros d2 D2.
  match goal with
  | |- context [click_at e2 t2 ?w] => set (v1 := w) in *
  end.
  assert (T1 : dblclick_timeout (prop v1) = Some (t1 + DBLCLICK_DELAY)) by reflexivity.
  assert (Dd : dblclick_data (prop v1) = Some d1) by reflexivity.
  assert (Tr : triggered v1 = triggered v ++ [click d1]) by reflexivity.
  assert (El : elapse t2 v1 = v1) by (eapply elapse_before_due; eassumption).
  rewrite El in D2.
  destruct (click_data_client _ _ _ D2) as [X2 Y2].
  unfold click_at at 1. rewrite El.
  unfold _click at 1. rewrite D2, T1, Dd. cbv zeta.
  unfold near. rewrite X1, Y1, X2, Y2.
  apply ltb_lt in Nx, Ny. rewrite Nx, Ny. cbn [andb].
  eexists. split; [reflexivity|].
  split; [reflexivity|]. split; [reflexivity|].
  intros d3 D3.
  match goal with
  | |- context [click_at e3 t3 ?w] => set (v2 := w) in *
  end.
  assert (T2 : dblclick_timeout (prop v2) = None) by reflexivity.
  assert (Tr2 : triggered v2 = triggered v ++ [click d1; dblclick d1]).
  { subst v2. cbn [triggered with_prop trigger emit]. rewrite Tr, <- app_assoc.
    reflexivity. }
  rewrite (elapse_idle _ _ T2) in D3.
  unfold click_at. rewrite (elapse_idle _ _ T2).
  unfold _click. rewrite D3, T2. cbv zeta.
  eexists. split; [reflexivity|].
  cbn [triggered with_prop trigger emit prop dblclick_timeout dblclick_data
       set_dblclick_timeout set_dblclick_data].
  rewrite Tr2, <- app_assoc.
  repeat split; reflexivity.
Qed.

End MoreFacts5.
(** ** The mouse history, sample by sample *)

Section MoreHistory.

Context {ext : Externals}.

Hypothesis window_nonneg : 0 <= INERTIA_WINDOW.

(** From the start of the loop the stale samples at the front go, and the
    first fresh sample, when there is one, ends at the front. *)
Lemma loop_from_start_head (now : number) (fuel : nat) :
  forall h : list (list number),
    Forall is_sample h ->
    (List.length h <= fuel)%nat ->
    exists h', logMouseMove_loop fuel now h 0 None = Some h'
               /\ kept h' h
               /\ hd_error h' = find (fresh now) h.
Proof.
  induction fuel as [|fuel IH]; intros h S Hf.
  - destruct h; simpl in *; [|lia].
    exists []. repeat split. constructor.
  - destruct h as [|s h].
    + exists []. repeat split. constructor.
    + cbn [logMouseMove_loop List.length Nat.ltb Nat.leb].
      inversion S as [|? ? (t & x & y & Es) S']; subst.
      cbn [history_0 nth_error ltb_undef find]. unfold fresh at 1. cbn [nth].
      destruct (ltb t (now - INERTIA_WINDOW)) eqn:D; cbn [negb].
      * unfold splice. cbn [firstn skipn app Nat.add].
        destruct (IH h S') as (h' & R & K & F); [simpl in Hf; lia|].
        exists h'. split; [exact R|]. split; [|exact F].
        constructor. exact K.
      * cbn [pause_longer].
        destruct (loop_after_first window_nonneg now fuel ([t; x; y] :: h) 1)
          as (h' & R & Hd & K).
        { lia. } { simpl in *. lia. }
        exists h'. split; [exact R|]. split; [exact K|]. exact Hd.
Qed.

(** Once the first sample [[t0; x0; y0]] is fresh, the loop goes on
    comparing [x0] with the start of the window: when [x0] lies before it,
    every later sample is dropped. *)
Lemma loop_drops_the_rest (now t0 x0 y0 : number) (fuel : nat) :
  x0 < now - INERTIA_WINDOW ->
  forall rest : list (list number),
    (List.length rest <= fuel)%nat ->
    logMouseMove_loop fuel now ([t0; x0; y0] :: rest) 1 (Some x0)
    = Some [[t0; x0; y0]].
Proof.
  intros L. apply ltb_lt in L.
  induction fuel as [|fuel IH]; intros rest Hf.
  - destruct rest; simpl in *; [reflexivity|lia].
  - destruct rest as [|s rest]; [reflexivity|].
    cbn [logMouseMove_loop List.length Nat.ltb Nat.leb history_0 nth_error ltb_undef].
    rewrite L. unfold splice. cbn [firstn skipn app Nat.add].
    apply IH. simpl in Hf. lia.
Qed.

Lemma find_fresh_last (now x y : number) (h : list (list number)) :
  exists s, find (fresh now) (h ++ [[now; x; y]]) = Some s
            /\ In s (h ++ [[now; x; y]])
            /\ fresh now s = true.
Proof.
  assert (F : fresh now [now; x; y] = true).
  { unfold fresh. cbn [nth]. apply negb_true_iff, ltb_ge. lra. }
  destruct (find (fresh now) (h ++ [[now; x; y]])) as [s|] eqn:E.
  - exists s. split; [reflexivity|]. apply find_some in E. exact E.
  - exfalso.
    assert (I : In [now; x; y] (h ++ [[now; x; y]]))
      by (apply in_or_app; right; left; reflexivity).
    pose proof (find_none _ _ E _ I) as C. rewrite F in C. discriminate.
Qed.

(** [_logMouseMove] completes on a history of samples and leaves a history
    of samples that is not empty: its first sample is the first fresh one
    of the old history with the new sample appended. *)
Lemma _logMouseMove_completes (evt : PointerEvt) (now : number) (v : Viewer) :
  Forall is_sample (mouse_history (prop v)) ->
  exists s h',
    _logMouseMove evt now v = Some (with_prop (set_mouse_history (s :: h')) v)
    /\ find (fresh now) (mouse_history (prop v) ++ [[now; clientX evt; clientY evt]])
       = Some s
    /\ Forall is_sample (s :: h').
Proof.
  intros F. unfold _logMouseMove.
  set (h := mouse_history (prop v) ++ [[now; clientX evt; clientY evt]]).
  assert (Fh : Forall is_sample h).
  { apply Forall_app. split; [exact F|].
    constructor; [|constructor].
    exists now, (clientX evt), (clientY evt). reflexivity. }
  destruct (loop_from_start_head now (logMouseMove_fuel h) h Fh)
    as (h' & R & K & Hd); [unfold logMouseMove_fuel; lia|].
  destruct (find_fresh_last now (clientX evt) (clientY evt) (mouse_history (prop v)))
    as (s & Fs & _).
  fold h in Fs. rewrite Fs in Hd.
  destruct h' as [|s' h']; [discriminate|]. inversion Hd; subst s'.
  exists s, h'. rewrite R. split; [reflexivity|]. split; [exact Fs|].
  apply (kept_Forall _ _ _ K Fh).
Qed.

(** X28: as the loop of [_logMouseMove] is written, it keeps one sample.
    The loop reads [mouse_history[0][i]], the fields of the first sample,
    where it means the times of the samples: past the first sample it
    compares the [x] of that sample with the start of the inertia window.
    With times in milliseconds since 1970 and pointer coordinates in
    pixels that [x] always lies before the window, and every later sample
    is dropped.  So, when the coordinates stored are below
    [now - INERTIA_WINDOW], the history is left with exactly one sample:
    the first one of the old history that is not older than the window, or
    the new sample when all the others are. *)
Theorem mouse_history_keeps_one_sample (evt : PointerEvt) (now : number) (v : Viewer) :
  Forall (fun s => exists t x y, s = [t; x; y] /\ x < now - INERTIA_WINDOW)
    (mouse_history (prop v)) ->
  clientX evt < now - INERTIA_WINDOW ->
  exists s,
    _logMouseMove evt now v = Some (with_prop (set_mouse_history [s]) v)
    /\ find (fresh now) (mouse_history (prop v) ++ [[now; clientX evt; clientY evt]])
       = Some s.
Proof.
  intros F X. unfold _logMouseMove.
  set (new := [now; clientX evt; clientY evt]).
  assert (Fh : Forall (fun s => exists t x y, s = [t; x; y] /\ x < now - INERTIA_WINDOW)
                 (mouse_history (prop v) ++ [new])).
  { apply Forall_app. split; [exact F|].
    constructor; [|constructor].
    exists now, (clientX evt), (clientY evt). split; [reflexivity | exact X]. }
  destruct (find_fresh_last now (clientX evt) (clientY evt) (mouse_history (prop v)))
    as (s & Fs & _).
  fold new in Fs. exists s. split; [|exact Fs].
  unfold logMouseMove_fuel.
  generalize dependent (mouse_history (prop v) ++ [new]). intros h Fh Fs.
  assert (G : forall fuel, (2 * List.length h + 1 <= fuel)%nat ->
                           logMouseMove_loop fuel now h 0 None = Some [s]).
  { clear - window_nonneg Fh Fs. induction h as [|s0 h IH]; [discriminate|].
    intros fuel Hf. destruct fuel as [|fuel]; [simpl in Hf; lia|].
    inversion Fh as [|? ? (t0 & x0 & y0 & -> & Lx) Fh']; subst.
    cbn [logMouseMove_loop List.length Nat.ltb Nat.leb history_0 nth_error ltb_undef].
    cbn [find] in Fs. unfold fresh at 1 in Fs. cbn [nth] in Fs.
    destruct (ltb t0 (now - INERTIA_WINDOW)) eqn:D; cbn [negb] in Fs.
    - unfold splice. cbn [firstn skipn app Nat.add].
      apply IH; [exact Fh' | exact Fs | simpl in Hf; lia].
    - inversion Fs; subst s. cbn [pause_longer].
      apply loop_drops_the_rest; [exact Lx | simpl in Hf; lia]. }
  rewrite G by lia. reflexivity.
Qed.

End MoreHistory.

(** ** Soundness of the interaction state in every run *)

Section Soundness.

Context {ext : Externals}.

Lemma keeps_refl (v : Viewer) : keeps v v.
Proof. unfold keeps. auto. Qed.

Lemma keeps_trans (v1 v2 v3 : Viewer) : keeps v1 v2 -> keeps v2 v3 -> keeps v1 v3.
Proof. unfold keeps. auto. Qed.

Lemma keeps_with_prop (f : Props -> Props) (v : Viewer) :
  (forall p, gesture_ok p -> gesture_ok (f p)) ->
  (forall c p, zoom_ok c p -> zoom_ok c (f p)) ->
  (forall p, history_ok p -> history_ok (f p)) ->
  (forall p, dblclick_ok p -> dblclick_ok (f p)) ->
  keeps v (with_prop f v).
Proof.
  intros G Z H D (Gv & Zv & Hv & Dv). unfold sound.
  cbn [prop config with_prop non_finite].
  auto.
Qed.

Lemma keeps_same (v v' : Viewer) :
  prop v' = prop v ->
  min_fov (config v') = min_fov (config v) ->
  max_fov (config v') = max_fov (config v) ->
  (non_finite v' = false -> non_finite v = false) ->
  keeps v v'.
Proof.
  intros P Mn Mx F (Gv & Zv & Hv & Dv). unfold sound, zoom_ok in *.
  rewrite P, Mn, Mx. auto.
Qed.

Ltac same_viewer := apply keeps_same; solve [reflexivity | exact (fun F => F)].

Lemma keeps_set_stereoEffect (b : bool) (v : Viewer) : keeps v (set_stereoEffect b v).
Proof. same_viewer. Qed.

Lemma keeps_set_scene (b : bool) (v : Viewer) : keeps v (set_scene b v).
Proof. same_viewer. Qed.

Lemma keeps_set_canvas_container (b : bool) (v : Viewer) :
  keeps v (set_canvas_container b v).
Proof. same_viewer. Qed.

Lemma keeps_set_notification_visible (b : bool) (v : Viewer) :
  keeps v (set_notification_visible b v).
Proof. same_viewer. Qed.

Lemma keeps_console_warn (msg : string) (v : Viewer) : keeps v (console_warn msg v).
Proof. same_viewer. Qed.

(** A division by a stored quantity leaves the numbers as they are, or
    leaves a value that is no number. *)
Lemma keeps_dividing_by (y : number) (v : Viewer) : keeps v (dividing_by y v).
Proof.
  unfold dividing_by. destruct (eqb y 0); [|apply keeps_refl].
  apply keeps_same; try reflexivity. discriminate.
Qed.

Lemma keeps_trigger (e : Event) (v : Viewer) : keeps v (trigger e v).
Proof.
  destruct (trigger_spec e v) as (P & _ & _ & _ & _ & C & _).
  apply keeps_same;
    [exact P | rewrite C; reflexivity | rewrite C; reflexivity
     | rewrite non_finite_trigger; auto].
Qed.

Lemma keeps_reach (sides : list string) (v : Viewer) : keeps v (reach sides v).
Proof.
  destruct (reach_spec sides v) as (P & _ & _ & _ & _ & C & _).
  destruct (reach_page sides v) as (_ & _ & F).
  apply keeps_same;
    [exact P | rewrite C; reflexivity | rewrite C; reflexivity | rewrite F; auto].
Qed.

Lemma keeps_rotate (pos : ExtendedPosition) (v : Viewer) : keeps v (rotate pos v).
Proof.
  destruct (rotate_spec pos v) as (P & _ & _ & _ & _ & C & _).
  intros (Gv & Zv & Hv & Dv). unfold sound, zoom_ok in *.
  rewrite P, C, non_finite_rotate. cbn [min_fov max_fov set_anim_speed]. auto.
Qed.

Lemma keeps_zoom (level : number) (v : Viewer) : keeps v (zoom level v).
Proof.
  intros (Gv & Zv & Hv & Dv). unfold sound.
  split; [exact Gv|]. split; [intros _|split; [exact Hv | exact Dv]].
  unfold zoom_ok. split; [|reflexivity].
  change (zoom_lvl (prop (zoom level v)))
    with (PSVUtils.bound (Math_round level) 0 100).
  unfold PSVUtils.bound.
  destruct (ltb (Math_round level) 0) eqn:L0; [exists 0%Z; split; [lia|reflexivity]|].
  destruct (ltb 100 (Math_round level)) eqn:L1;
    [exists 100%Z; split; [lia|reflexivity]|].
  exists (Qfloor (level + (1 # 2))). split; [|reflexivity].
  reflect_ltb. unfold Math_round in *.
  change 0 with (inject_Z 0) in L0. change 100 with (inject_Z 100) in L1.
  rewrite <- Zle_Qle in L0, L1. lia.
Qed.

(** The start of a drag and the start of a pinch set both gesture flags. *)
Lemma keeps_start_drag (v : Viewer) :
  keeps v (with_prop (set_zooming false) (with_prop (set_moving true) v)).
Proof.
  intros (Gv & Zv & Hv & Dv). unfold sound. cbn [prop config with_prop non_finite].
  split; [reflexivity|]. split; [exact Zv|]. split; assumption.
Qed.

Lemma keeps_start_pinch (v : Viewer) :
  keeps v (with_prop (set_zooming true) (with_prop (set_moving false) v)).
Proof.
  intros (Gv & Zv & Hv & Dv). unfold sound. cbn [prop config with_prop non_finite].
  split; [reflexivity|]. split; [exact Zv|]. split; assumption.
Qed.

(** The double-click timer and the data of the first click are set and
    cleared together. *)
Lemma keeps_arm_timer (d : ClickData.t) (due : number) (v : Viewer) :
  keeps v (with_prop (set_dblclick_timeout (Some due))
             (with_prop (set_dblclick_data (Some d)) v)).
Proof.
  intros (Gv & Zv & Hv & Dv). unfold sound. cbn [prop config with_prop non_finite].
  split; [exact Gv|]. split; [exact Zv|]. split; [exact Hv|].
  unfold dblclick_ok. cbn [dblclick_data set_dblclick_timeout set_dblclick_data].
  discriminate.
Qed.

Lemma keeps_clear_timer (v : Viewer) :
  keeps v (with_prop (set_dblclick_data None)
             (with_prop (set_dblclick_timeout None) v)).
Proof.
  intros (Gv & Zv & Hv & Dv). unfold sound. cbn [prop config with_prop non_finite].
  split; [exact Gv|]. split; [exact Zv|]. split; [exact Hv|].
  unfold dblclick_ok. cbn [dblclick_timeout set_dblclick_timeout set_dblclick_data].
  congruence.
Qed.

Lemma keeps_set_mouse_history (h : list (list number)) (v : Viewer) :
  Forall is_sample h -> keeps v (with_prop (set_mouse_history h) v).
Proof.
  intros F (Gv & Zv & Hv & Dv). unfold sound. cbn [prop config with_prop non_finite].
  split; [exact Gv|]. split; [exact Zv|]. split; assumption.
Qed.

Create HintDb keeps.
#[local] Hint Resolve keeps_set_stereoEffect keeps_set_scene
  keeps_set_canvas_container keeps_set_notification_visible keeps_dividing_by
  keeps_console_warn keeps_trigger keeps_reach keeps_rotate keeps_zoom : keeps.

(** A setter that leaves the fields of soundness alone, or clears one of
    the gesture flags, or empties the history. *)
Ltac frame_setter :=
  apply keeps_with_prop;
  [ unfold gesture_ok; intros ? ?;
    first [ assumption | reflexivity | apply andb_false_r ]
  | intros ? ? ?; assumption
  | unfold history_ok; intros ? ?; first [ assumption | constructor ]
  | intros ? ?; assumption ].

Ltac settle_down :=
  cbv zeta;
  lazymatch goal with
  | |- keeps ?v ?v => apply keeps_refl
  | |- keeps ?v (with_prop (set_zooming false) (with_prop (set_moving true) ?w)) =>
      apply (keeps_trans v w); [settle_down | apply keeps_start_drag]
  | |- keeps ?v (with_prop (set_zooming true) (with_prop (set_moving false) ?w)) =>
      apply (keeps_trans v w); [settle_down | apply keeps_start_pinch]
  | |- keeps ?v (with_prop (set_dblclick_timeout (Some _))
                   (with_prop (set_dblclick_data (Some _)) ?w)) =>
      apply (keeps_trans v w); [settle_down | apply keeps_arm_timer]
  | |- keeps ?v (with_prop (set_dblclick_data None)
                   (with_prop (set_dblclick_timeout None) ?w)) =>
      apply (keeps_trans v w); [settle_down | apply keeps_clear_timer]
  | |- keeps ?v (with_prop ?f ?w) =>
      apply (keeps_trans v w); [settle_down | frame_setter]
  | |- keeps ?v (with_config ?f ?w) =>
      apply (keeps_trans v w);
      [settle_down | same_viewer]
  | |- keeps ?v (if ?b then _ else _) => destruct b eqn:?; settle_down
  | |- keeps ?v (match ?x with _ => _ end) => destruct x eqn:?; settle_down
  | |- keeps ?v (viewer_of (if ?b then _ else _)) => destruct b eqn:?; settle_down
  | |- keeps ?v (viewer_of (match ?x with _ => _ end)) => destruct x eqn:?; settle_down
  | |- keeps ?v (viewer_of (returned _ _)) => cbn [viewer_of]; settle_down
  | |- keeps ?v (viewer_of (thrown _ _)) => cbn [viewer_of]; settle_down
  | |- keeps ?v (snd (if ?b then _ else _)) => destruct b eqn:?; settle_down
  | |- keeps ?v (snd (let '(_, _) := ?x in _)) => destruct x eqn:?; settle_down
  | |- keeps ?v (snd (_, _)) => cbn [snd]; settle_down
  | |- keeps ?v (?f ?w) =>
      apply (keeps_trans v w); [settle_down | solve [auto with keeps nocore]]
  end.

Lemma keeps_completed_trans (v w : Viewer) (o : option Viewer) :
  keeps v w -> when_completed keeps w o -> when_completed keeps v o.
Proof.
  destruct o; simpl; [|auto]. apply keeps_trans.
Qed.

Ltac settle_opt :=
  cbv zeta;
  lazymatch goal with
  | |- when_completed keeps ?v (Some ?w) => cbn [when_completed]; settle_down
  | |- when_completed keeps ?v None => exact I
  | |- when_completed keeps ?v (if ?b then _ else _) =>
      destruct b eqn:?; settle_opt
  | |- when_completed keeps ?v (match ?o with _ => _ end) =>
      lazymatch type of o with
      | option Viewer =>
          let T := fresh "T" in
          assert (T : when_completed keeps v o) by settle_opt;
          destruct o eqn:?;
          [ cbn [when_completed] in T;
            eapply keeps_completed_trans; [exact T | settle_opt]
          | exact I ]
      | _ => destruct o eqn:?; settle_opt
      end
  | |- when_completed keeps ?v (?f ?w) =>
      apply (keeps_completed_trans v w);
      [settle_down | solve [auto with keeps nocore]]
  end.

Lemma keeps_zoomIn (v : Viewer) : keeps v (zoomIn v).
Proof. unfold zoomIn. settle_down. Qed.

Lemma keeps_zoomOut (v : Viewer) : keeps v (zoomOut v).
Proof. unfold zoomOut. settle_down. Qed.

Lemma keeps_stopAutorotate (v : Viewer) : keeps v (stopAutorotate v).
Proof. unfold stopAutorotate. settle_down. Qed.

Lemma keeps_stopAnimation (v : Viewer) : keeps v (stopAnimation v).
Proof. unfold stopAnimation, settle. settle_down. Qed.

Lemma keeps_stopGyroscopeControl (v : Viewer) : keeps v (stopGyroscopeControl v).
Proof. unfold stopGyroscopeControl. settle_down. Qed.
#[local] Hint Resolve keeps_zoomIn keeps_zoomOut keeps_stopAutorotate
  keeps_stopAnimation keeps_stopGyroscopeControl : keeps.

Lemma keeps__stopAll (v : Viewer) : keeps v (_stopAll v).
Proof. unfold _stopAll. settle_down. Qed.
#[local] Hint Resolve keeps__stopAll : keeps.

Lemma keeps_startAutorotate (v : Viewer) : keeps v (startAutorotate v).
Proof. unfold startAutorotate. settle_down. Qed.

Lemma keeps_stopStereoView (v : Viewer) : keeps v (stopStereoView v).
Proof. unfold stopStereoView, needsUpdate_. settle_down. Qed.
#[local] Hint Resolve keeps_startAutorotate keeps_stopStereoView : keeps.

Lemma keeps_toggleAutorotate (v : Viewer) : keeps v (toggleAutorotate v).
Proof. unfold toggleAutorotate. settle_down. Qed.

Lemma keeps_autorotateUpdate (cb : AutorotateCb) (timestamp : number) (v : Viewer) :
  keeps v (autorotateUpdate cb timestamp v).
Proof.
  unfold autorotateUpdate. cbv zeta.
  match goal with
  | |- keeps v (rotate ?p ?w) => apply (keeps_trans v w); [|apply keeps_rotate]
  end.
  settle_down.
Qed.

Lemma keeps_startGyroscopeControl (supported : bool) (direction : Vector3) (v : Viewer) :
  keeps v (viewer_of (startGyroscopeControl supported direction v)).
Proof. unfold startGyroscopeControl. settle_down. Qed.

Lemma keeps_toggleGyroscopeControl (supported : bool) (direction : Vector3) (v : Viewer) :
  keeps v (viewer_of (toggleGyroscopeControl supported direction v)).
Proof.
  unfold toggleGyroscopeControl.
  destruct (isGyroscopeEnabled v); [cbn [viewer_of]; apply keeps_stopGyroscopeControl|].
  pose proof (keeps_startGyroscopeControl supported direction v) as K.
  destruct (startGyroscopeControl supported direction v); exact K.
Qed.

Lemma keeps_startNoSleep (v : Viewer) : keeps v (startNoSleep v).
Proof. unfold startNoSleep. settle_down. Qed.

Lemma keeps_showNotification (v : Viewer) : keeps v (showNotification v).
Proof. unfold showNotification. settle_down. Qed.

Lemma keeps_hideNotification (v : Viewer) : keeps v (hideNotification v).
Proof. unfold hideNotification. settle_down. Qed.

Lemma keeps__setTexture (v : Viewer) : keeps v (_setTexture v).
Proof. unfold _setTexture. settle_down. Qed.
#[local] Hint Resolve keeps_startNoSleep keeps_showNotification
  keeps_hideNotification keeps__setTexture : keeps.

Lemma keeps_startStereoView (supported : bool) (direction : Vector3) (v : Viewer) :
  keeps v (viewer_of (startStereoView supported direction v)).
Proof.
  unfold startStereoView.
  destruct (_ && _)%bool; [|apply keeps_refl].
  cbv zeta. apply (keeps_trans v (startNoSleep v)); [apply keeps_startNoSleep|].
  pose proof (keeps_startGyroscopeControl supported direction (startNoSleep v)) as K.
  destruct (startGyroscopeControl supported direction (startNoSleep v)) as [p w|e w];
    cbn [viewer_of] in *; [|exact K].
  destruct p; cbn [viewer_of]; exact K.
Qed.

Lemma keeps_animate (pos : ExtendedPosition) (dur : value) (v : Viewer) :
  keeps v (snd (animate pos dur v)).
Proof. unfold animate. settle_down. Qed.

Lemma keeps_setPanorama (path : string) (pos : option ExtendedPosition)
    (with_transition : bool) (v : Viewer) :
  keeps v (viewer_of (setPanorama path pos with_transition v)).
Proof. unfold setPanorama. settle_down. Qed.

Lemma keeps_panoramaLoaded (ok : bool) (v : Viewer) : keeps v (panoramaLoaded ok v).
Proof. unfold panoramaLoaded. settle_down. Qed.

Lemma keeps__onResize (clientWidth clientHeight : number) (v : Viewer) :
  keeps v (_onResize clientWidth clientHeight v).
Proof. unfold _onResize, needsUpdate_. settle_down. Qed.

Lemma keeps__onKeyDown (key : string) (v : Viewer) : keeps v (_onKeyDown key v).
Proof. unfold _onKeyDown. settle_down. Qed.

Lemma keeps__onMouseWheel (spinY : number) (v : Viewer) : keeps v (_onMouseWheel spinY v).
Proof. unfold _onMouseWheel. settle_down. Qed.

Lemma keeps__startZoom (t0 t1 : PointerEvt) (v : Viewer) : keeps v (_startZoom t0 t1 v).
Proof. unfold _startZoom. settle_down. Qed.

Lemma keeps__zoom (t0 t1 : PointerEvt) (v : Viewer) : keeps v (_zoom t0 t1 v).
Proof. unfold _zoom. settle_down. Qed.

Lemma keeps__moveAbsolute (evt : PointerEvt) (v : Viewer) : keeps v (_moveAbsolute evt v).
Proof. unfold _moveAbsolute. settle_down. Qed.

Lemma keeps_dblclick_expired (v : Viewer) : keeps v (dblclick_expired v).
Proof. unfold dblclick_expired. settle_down. Qed.

Lemma keeps_animation_done (v : Viewer) : keeps v (animation_done v).
Proof. unfold animation_done, settle. settle_down. Qed.

Lemma keeps_orientationUpdate_call (device : number -> Vector3) (v : Viewer) :
  keeps v (orientationUpdate_call device v).
Proof. unfold orientationUpdate_call, needsUpdate_. settle_down. Qed.

Lemma keeps_before_render (timestamp : number) (device : number -> Vector3) (v : Viewer) :
  keeps v (before_render timestamp device v).
Proof.
  unfold before_render. cbv zeta.
  match goal with
  | |- keeps v (match orientation_cb (prop ?w) with _ => _ end) =>
      apply (keeps_trans v w);
      [destruct (autorotate_cb (prop v));
       [apply keeps_autorotateUpdate | apply keeps_refl]
      | destruct (orientation_cb (prop w));
        [apply keeps_orientationUpdate_call | apply keeps_refl]]
  end.
Qed.
#[local] Hint Resolve keeps__zoom keeps__startZoom keeps__moveAbsolute
  keeps_dblclick_expired : keeps.

Lemma keeps__logMouseMove (evt : PointerEvt) (now : number) (v : Viewer) :
  when_completed keeps v (_logMouseMove evt now v).
Proof.
  unfold _logMouseMove. cbv zeta.
  destruct (logMouseMove_loop _ _ _ _ _) as [h|] eqn:R; [|exact I].
  cbn [when_completed]. intros S.
  apply keeps_set_mouse_history; [|exact S].
  (* what the loop leaves was in the history, or is the new sample *)
  assert (K : forall fuel l i previous l',
             logMouseMove_loop fuel now l i previous = Some l' ->
             Forall is_sample l -> Forall is_sample l').
  { clear. induction fuel as [|fuel IH]; intros l i previous l'; simpl.
    - destruct (Nat.ltb i (List.length l)); [discriminate|]. intros [= <-]. auto.
    - destruct (Nat.ltb i (List.length l)); [|intros [= <-]; auto].
      assert (Sp : forall a b, Forall is_sample l -> Forall is_sample (splice l a b)).
      { intros a b F. unfold splice. apply Forall_app. split.
        - rewrite <- (firstn_skipn a l) in F. apply Forall_app in F. apply F.
        - rewrite <- (firstn_skipn (a + b) l) in F. apply Forall_app in F. apply F. }
      destruct (ltb_undef _ _); [intros E F; apply (IH _ _ _ _ E); auto|].
      destruct (pause_longer _ _ _); intros E F; apply (IH _ _ _ _ E); auto. }
  apply (K _ _ _ _ _ R).
  apply Forall_app. split; [apply S|].
  constructor; [|constructor].
  exists now, (clientX evt), (clientY evt). reflexivity.
Qed.
#[local] Hint Resolve keeps__logMouseMove : keeps.

Lemma keeps__startMove (evt : PointerEvt) (now : number) (v : Viewer) :
  when_completed keeps v (_startMove evt now v).
Proof. unfold _startMove. settle_opt. Qed.

Lemma keeps__click (evt : PointerEvt) (now : number) (v : Viewer) :
  when_completed keeps v (_click evt now v).
Proof. unfold _click. settle_opt. Qed.

Lemma keeps__move (evt : PointerEvt) (log : bool) (now : number) (v : Viewer) :
  when_completed keeps v (_move evt log now v).
Proof. unfold _move. settle_opt. Qed.

Lemma keeps__stopMoveInertia (evt : PointerEvt) (v : Viewer) :
  when_completed keeps v (_stopMoveInertia evt v).
Proof. unfold _stopMoveInertia. settle_opt. Qed.
#[local] Hint Resolve keeps__startMove keeps__click keeps__move
  keeps__stopMoveInertia : keeps.

Lemma keeps__stopMove (evt : PointerEvt) (now : number) (v : Viewer) :
  when_completed keeps v (_stopMove evt now v).
Proof. unfold _stopMove. settle_opt. Qed.
#[local] Hint Resolve keeps__stopMove : keeps.

Lemma keeps_animation_tick (a b : number) (v : Viewer) :
  when_completed keeps v (animation_tick a b v).
Proof. unfold animation_tick. settle_opt. Qed.

Lemma keeps_step (op : Op) (v : Viewer) : when_completed keeps v (step op v).
Proof.
  destruct op; cbn [step when_completed].
  - apply keeps_rotate.
  - apply keeps_animate.
  - apply keeps_stopAnimation.
  - apply keeps_zoom.
  - apply keeps_zoomIn.
  - apply keeps_zoomOut.
  - apply keeps_startAutorotate.
  - apply keeps_stopAutorotate.
  - apply keeps_toggleAutorotate.
  - apply keeps_startGyroscopeControl.
  - apply keeps_stopGyroscopeControl.
  - apply keeps_toggleGyroscopeControl.
  - apply keeps_startStereoView.
  - apply keeps_stopStereoView.
  - apply keeps_setPanorama.
  - apply keeps_panoramaLoaded.
  - apply keeps__onResize.
  - apply keeps__onKeyDown.
  - unfold _onMouseDown. apply keeps__startMove.
  - unfold _onMouseUp. settle_opt.
  - unfold _onMouseMove. settle_opt.
  - unfold _onTouchStart. settle_opt.
  - unfold _onTouchEnd. apply keeps__stopMove.
  - unfold _onTouchMove. settle_opt.
  - apply keeps__onMouseWheel.
  - apply keeps_before_render.
  - apply keeps_animation_tick.
  - apply keeps_animation_done.
  - destruct (dblclick_timeout (prop v)); [apply keeps_dblclick_expired | apply keeps_refl].
  - destruct (start_timeout (prop v)); [apply keeps_startAutorotate | apply keeps_refl].
  - apply keeps_hideNotification.
Qed.

End Soundness.

Section Soundness2.

Context {ext : Externals}.

Lemma keeps_run (ops : list Op) :
  forall v v', sound v -> run ops v = Some v' -> sound v'.
Proof.
  induction ops as [|op ops IH]; intros v v' S R; simpl in R.
  - inversion R; subst. exact S.
  - pose proof (keeps_step op v) as K.
    destruct (step op v) as [w|]; [|discriminate].
    apply (IH w); [exact (K S) | exact R].
Qed.

Lemma zoom_level_whole (level : number) :
  exists k : Z, (0 <= k <= 100)%Z /\ PSVUtils.bound (Math_round level) 0 100 = inject_Z k.
Proof.
  unfold PSVUtils.bound.
  destruct (ltb (Math_round level) 0) eqn:L0; [exists 0%Z; split; [lia|reflexivity]|].
  destruct (ltb 100 (Math_round level)) eqn:L1;
    [exists 100%Z; split; [lia|reflexivity]|].
  exists (Qfloor (level + (1 # 2))). split; [|reflexivity].
  reflect_ltb. unfold Math_round in *.
  change 0 with (inject_Z 0) in L0. change 100 with (inject_Z 100) in L1.
  rewrite <- Zle_Qle in L0, L1. lia.
Qed.

(** A value that is no number, once stored, stays recorded. *)
Lemma non_finite_step (op : Op) (v v' : Viewer) :
  step op v = Some v' -> non_finite v = true -> non_finite v' = true.
Proof.
  intros S F.
  assert (T : ~ runs_orientation_hook op v -> non_finite v' = true).
  { intros G. pose proof (tracked_step op v G) as T. rewrite S in T.
    destruct T as (evs & _ & _ & _ & K & _). exact (K F). }
  destruct op; try solve [apply T; cbn [runs_orientation_hook]; tauto].
  cbn [step] in S. inversion S; subst v'; clear S T.
  unfold before_render. cbv zeta.
  assert (A : non_finite (match autorotate_cb (prop v) with
                          | Some cb => autorotateUpdate cb timestamp v
                          | None => v
                          end) = true).
  { destruct (autorotate_cb (prop v)); [|exact F].
    unfold autorotateUpdate. cbv zeta. rewrite non_finite_rotate. exact F. }
  revert A. generalize (match autorotate_cb (prop v) with
                        | Some cb => autorotateUpdate cb timestamp v
                        | None => v
                        end).
  intros w A. destruct (orientation_cb (prop w)); [|exact A]. exact A.
Qed.

Lemma non_finite_run (ops : list Op) :
  forall v v', run ops v = Some v' -> non_finite v = true -> non_finite v' = true.
Proof.
  induction ops as [|op ops IH]; intros v v' R F; simpl in R.
  - inversion R; subst. exact F.
  - destruct (step op v) as [w|] eqn:S; [|discriminate].
    apply (IH w); [exact R | exact (non_finite_step op v w S F)].
Qed.

(** X29: the interaction state is sound in every state the viewer can
    reach.  The viewer the constructor returns is sound, and every
    operation keeps it so: a call of the public API, an input event, a
    frame, a tick or the end of an animation, a timer.  In every such
    state the viewer is not held to drag and to pinch at once; the mouse
    history holds samples [[t; x; y]] only; and while the double-click
    timer is pending the data of the first click is there.  As long as the
    viewer has stored no value that is no number, that is as long as it
    has not divided by a field-of-view range, a height or a width that is
    zero, the zoom level is a whole number from 0 to 100 and the vertical
    field of view is the one of that level.  A value that is no number,
    once stored, stays recorded. *)
Theorem reachable_states_are_sound
    (options : Config) (clientWidth clientHeight : number)
    (ops : list Op) (v0 v : Viewer) :
  can_construct options = true ->
  PanoSphereViewer options clientWidth clientHeight = inr v0 ->
  run ops v0 = Some v ->
  (moving (prop v) && zooming (prop v))%bool = false
  /\ (non_finite v = false ->
      (exists k : Z, (0 <= k <= 100)%Z /\ zoom_lvl (prop v) = inject_Z k)
      /\ vFov (prop v)
         = max_fov (config v)
           + zoom_lvl (prop v) / 100 * (min_fov (config v) - max_fov (config v)))
  /\ (non_finite v0 = true -> non_finite v = true)
  /\ Forall is_sample (mouse_history (prop v))
  /\ (dblclick_timeout (prop v) <> None -> dblclick_data (prop v) <> None).
Proof.
  intros Pre E R.
  assert (S0 : sound v0).
  { destruct (PanoSphereViewer_builds options clientWidth clientHeight Pre)
      as (Cs & v1 & E1 & Zl & Vf & Mn & Mx & _).
    rewrite E in E1. inversion E1; subst v1. clear E1.
    destruct (constructed_viewer_is_idle_facts options clientWidth clientHeight Pre)
      as (v2 & E2 & M & Z & H & D).
    rewrite E in E2. inversion E2; subst v2. clear E2.
    cbv zeta in *.
    destruct (apply_default_zoom_level
                (_onResize clientWidth clientHeight (configure (blank options))))
      as (Lv & Fv).
    cbv zeta in Lv.
    unfold sound, gesture_ok, zoom_ok, history_ok, dblclick_ok.
    rewrite M, Z, H, D, Zl, Vf, Mn, Mx, Fv, Cs.
    split; [reflexivity|].
    split; [intros _|split; [constructor | congruence]].
    split; [|reflexivity].
    rewrite Lv. apply zoom_level_whole. }
  pose proof (keeps_run ops v0 v S0 R) as (G & W & H & D).
  split; [exact G|]. split; [exact W|].
  split; [exact (non_finite_run ops v0 v R)|]. split; assumption.
Qed.

End Soundness2.

Section Completion.

Context {ext : Externals}.

Hypothesis window_nonneg : 0 <= INERTIA_WINDOW.

Lemma _logMouseMove_returns (evt : PointerEvt) (now : number) (v : Viewer) :
  history_ok (prop v) -> exists v', _logMouseMove evt now v = Some v'.
Proof.
  intros H.
  destruct (_logMouseMove_completes window_nonneg evt now v H) as (s & h' & E & _).
  eexists. exact E.
Qed.

Lemma _startMove_returns (evt : PointerEvt) (now : number) (v : Viewer) :
  exists v', _startMove evt now v = Some v'.
Proof.
  unfold _startMove. cbv zeta. apply _logMouseMove_returns. constructor.
Qed.

Lemma _click_returns (evt : PointerEvt) (now : number) (v : Viewer) :
  dblclick_ok (prop v) -> exists v', _click evt now v = Some v'.
Proof.
  intros D. unfold _click.
  destruct (click_data evt v); [|eexists; reflexivity].
  destruct (dblclick_timeout (prop v)) eqn:T; [|eexists; reflexivity].
  destruct (dblclick_data (prop v)) eqn:Dd; [eexists; reflexivity|].
  exfalso. apply D; [rewrite T; discriminate | exact Dd].
Qed.

Lemma prop_dividing_by (y : number) (v : Viewer) : prop (dividing_by y v) = prop v.
Proof. unfold dividing_by. destruct (eqb y 0); reflexivity. Qed.

Lemma _move_returns (evt : PointerEvt) (log : bool) (now : number) (v : Viewer) :
  history_ok (prop v) -> exists v', _move evt log now v = Some v'.
Proof.
  intros H. unfold _move.
  destruct (moving (prop v)); [|eexists; reflexivity].
  cbv zeta. destruct log; [|eexists; reflexivity].
  apply _logMouseMove_returns. unfold history_ok.
  destruct (isGyroscopeEnabled _); cbn [prop with_prop mouse_history set_mouse_y
                                         set_mouse_x set_gyro_alpha_offset].
  - rewrite prop_dividing_by. exact H.
  - rewrite prop_rotate. cbn [mouse_history set_needsUpdate set_position].
    rewrite !prop_dividing_by. exact H.
Qed.

Lemma _stopMove_returns (evt : PointerEvt) (now : number) (v : Viewer) :
  sound v -> exists v', _stopMove evt now v = Some v'.
Proof.
  intros (_ & _ & H & D). unfold _stopMove.
  destruct (negb (in_hud evt)); [eexists; reflexivity|].
  destruct (moving (prop v)); [|eexists; reflexivity].
  destruct (_ && _)%bool.
  - destruct (_click_returns evt now v D) as (w & ->). eexists; reflexivity.
  - destruct (_ && _)%bool; [|eexists; reflexivity].
    destruct (_logMouseMove_completes window_nonneg evt now v H)
      as (s & h' & -> & _ & F).
    inversion F as [|? ? (t & x & y & ->) _]; subst.
    unfold _stopMoveInertia.
    cbn [prop with_prop mouse_history set_mouse_history history_0 nth_error].
    eexists; reflexivity.
Qed.

Lemma step_returns (op : Op) (v : Viewer) :
  sound v -> exists v', step op v = Some v'.
Proof.
  intros S. pose proof S as (_ & _ & H & D).
  destruct op; cbn [step]; try (eexists; reflexivity).
  - apply _startMove_returns.
  - unfold _onMouseUp. destruct (_stopMove_returns evt now v S) as (w & ->).
    eexists; reflexivity.
  - unfold _onMouseMove. destruct (negb _); [apply _move_returns; exact H|].
    destruct (mousemove_hover (config v)); eexists; reflexivity.
  - unfold _onTouchStart.
    destruct touches as [|t0 [|t1 [|t2 touches]]]; try (eexists; reflexivity).
    apply _startMove_returns.
  - unfold _onTouchEnd. apply _stopMove_returns. exact S.
  - unfold _onTouchMove.
    destruct touches as [|t0 [|t1 [|t2 touches]]]; try (eexists; reflexivity).
    apply _move_returns. exact H.
  - unfold animation_tick.
    destruct (animation_promise (prop v)) as [anim|]; [|eexists; reflexivity].
    destruct (running anim); [|eexists; reflexivity].
    destruct (onTick anim); [eexists; reflexivity|].
    apply _move_returns. exact H.
Qed.

(** X30: no handler fails.  From a sound state, and so from the state the
    constructor returns, every sequence of operations runs to its end: the
    loop of [_logMouseMove] terminates, [_stopMoveInertia] finds the sample
    it reads in the mouse history, and [_click] finds the data of the first
    click whenever the double-click timer is pending.  The state reached is
    sound again: the gesture flags, the mouse history and the data of the
    first click are as soundness asks, and so are the zoom level and the
    field of view unless the run has divided by a height or a width that
    is zero and stored a value that is no number. *)
Theorem every_run_completes (ops : list Op) (v : Viewer) :
  sound v -> exists v', run ops v = Some v' /\ sound v'.
Proof.
  revert v. induction ops as [|op ops IH]; intros v S; cbn [run].
  - exists v. auto.
  - destruct (step_returns op v S) as (w & E). rewrite E.
    apply IH. pose proof (keeps_step op v) as K. rewrite E in K. exact (K S).
Qed.

End Completion.
(** * Concrete runs of the further properties *)

(** [square_marker] is a rectangle. *)
Lemma getType_answers_the_only_content_witness :
  PSVMarker.getType square_marker false = inr (Some "rect")
  /\ In "rect" PSVMarker.types
  /\ PSVMarker.truthy (PSVMarker.get square_marker "rect") = true.
Proof.
  assert (G : PSVMarker.getType square_marker false = inr (Some "rect"))
    by reflexivity.
  destruct (getType_answers_the_only_content square_marker false) as (H & _).
  destruct (proj1 (H "rect") G) as (I & C & _).
  split; [exact G|]. split; [exact I | exact C].
Defined.

(** [image_marker] passes the checks of the constructor. *)
Lemma marker_checks_pass_exactly_when_witness :
  PSVMarker.check_properties image_marker = inr (Some "image")
  /\ PSVMarker.truthy (PSVMarker.get image_marker "width") = true
  /\ PSVMarker.truthy (PSVMarker.get image_marker "height") = true.
Proof.
  assert (G : PSVMarker.check_properties image_marker = inr (Some "image"))
    by reflexivity.
  destruct (marker_checks_pass_exactly_when image_marker) as (H & _).
  destruct (proj1 (H "image") G) as (_ & _ & S & _).
  split; [exact G | exact (S eq_refl)].
Defined.

(** [square_marker] can be updated with the properties it was built
    from. *)
Lemma marker_update_keeps_type_witness :
  PSVMarker.check_properties square_marker = inr (Some "rect")
  /\ PSVMarker.check_update (Some "rect") square_marker = inr tt.
Proof.
  assert (G : PSVMarker.check_properties square_marker = inr (Some "rect"))
    by reflexivity.
  destruct (marker_update_keeps_type "rect" square_marker) as (_ & _ & H).
  split; [exact G | exact (H G)].
Defined.

(** [_updateSvg] on [square_marker], twice. *)
Lemma updated_shape_is_settled_witness :
  exists marker',
    PSVMarker._updateSvg_def "rect" square_marker = Some marker'
    /\ PSVMarker._updateSvg_def "rect" marker' = Some marker'
    /\ PSVMarker.get marker' "x" = PSVMarker.get square_marker "x".
Proof.
  destruct (PSVMarker._updateSvg_def "rect" square_marker) as [marker'|] eqn:E;
    [|vm_compute in E; discriminate E].
  destruct (updated_shape_is_settled "rect" square_marker marker' E)
    as (S & K & _).
  exists marker'. split; [reflexivity|]. split; [exact S|].
  apply K. discriminate.
Defined.

(** Clearing [a.jpg] from [sample_cache]. *)
Lemma clearPanoramaCache_removes_first_entry_only_witness :
  truthy (cache_texture (config caching_viewer)) = true
  /\ "a.jpg" <> ""
  /\ exists c',
       PanoramaCache.clearPanoramaCache (Some "a.jpg") caching_viewer sample_cache
       = inr c'
       /\ PanoramaCache.getPanoramaCache "b.jpg" caching_viewer c'
          = PanoramaCache.getPanoramaCache "b.jpg" caching_viewer sample_cache
       /\ S (List.length c') = List.length sample_cache.
Proof.
  assert (T : truthy (cache_texture (config caching_viewer)) = true)
    by reflexivity.
  assert (N : "a.jpg" <> "") by discriminate.
  destruct (clearPanoramaCache_removes_first_entry_only
              "a.jpg" caching_viewer sample_cache) as (H & _).
  destruct (H T) as (H1 & _).
  destruct (H1 N) as (c' & E & _ & _ & O & _ & L).
  split; [exact T|]. split; [exact N|].
  exists c'. split; [exact E|]. split.
  - apply O. discriminate.
  - apply L. vm_compute. discriminate.
Defined.

(** Two notifications of one second, shown half a second apart. *)
Lemma earlier_timer_hides_later_notification_witness :
  PSVNotification.timers hidden_banner = []
  /\ 500 < 0 + PSVNotification.timeout (one_second "one")
  /\ PSVNotification.visible
       (PSVNotification.elapse 1000
          (PSVNotification.showNotification (one_second "two") 500
             (PSVNotification.elapse 500
                (PSVNotification.showNotification (one_second "one") 0
                   hidden_banner)))) = false.
Proof.
  assert (L : 500 < 0 + PSVNotification.timeout (one_second "one"))
    by (vm_compute; reflexivity).
  destruct (earlier_timer_hides_later_notification
              (one_second "one") (one_second "two") 0 500 1000 1500 hidden_banner)
    as (_ & (H & _) & _).
  - reflexivity.
  - vm_compute; reflexivity.
  - vm_compute; reflexivity.
  - vm_compute; discriminate.
  - exact L.
  - vm_compute; discriminate.
  - vm_compute; reflexivity.
  - vm_compute; discriminate.
  - split; [reflexivity|]. split; [exact L | exact H].
Defined.

(** Keyboard control started and the fullscreen mode entered and left on
    [bare_host]. *)
Lemma destroy_leaves_no_listener_witness :
  Listeners.listeners bare_host = []
  /\ Listeners.listeners
       (Listeners.destroy sample_settings
          (fold_left (fun h a => Listeners.act sample_settings a h)
             [Listeners.act_startKeyboardControl;
              Listeners.act_fullscreenToggled true;
              Listeners.act_fullscreenToggled false]
             (Listeners._bindEvents sample_settings bare_host))) = [].
Proof.
  split; [reflexivity|].
  exact (proj1 (destroy_leaves_no_listener sample_settings
                  [Listeners.act_startKeyboardControl;
                   Listeners.act_fullscreenToggled true;
                   Listeners.act_fullscreenToggled false]
                  bare_host eq_refl)).
Defined.

(** The wheel listener of [sample_settings] is dispatched. *)
Lemma every_listener_is_dispatched_witness :
  listener_of_viewer sample_settings (Listeners.hud_container, "wheel")
  /\ exists handler, Listeners.handleEvent sample_settings "wheel" = Some handler.
Proof.
  assert (L : listener_of_viewer sample_settings (Listeners.hud_container, "wheel")).
  { vm_compute. do 8 right. left. reflexivity. }
  split; [exact L|].
  exact (proj1 (every_listener_is_dispatched sample_settings
                  Listeners.hud_container "wheel") L).
Defined.

(** Zooming [sample_viewer] to levels beyond the range. *)
Lemma zoom_keeps_fov_within_bounds_witness :
  min_fov (config sample_viewer) <= max_fov (config sample_viewer)
  /\ min_fov (config sample_viewer)
     <= vFov (prop (zoom (ext := plain_externals) 120 sample_viewer))
  /\ vFov (prop (zoom (ext := plain_externals) 130 sample_viewer))
     <= vFov (prop (zoom (ext := plain_externals) 120 sample_viewer)).
Proof.
  assert (B : min_fov (config sample_viewer) <= max_fov (config sample_viewer))
    by (vm_compute; discriminate).
  destruct (zoom_keeps_fov_within_bounds (ext := plain_externals)
              sample_viewer 120 130 B) as ((L & _) & M).
  split; [exact B|]. split; [exact L|].
  apply M. vm_compute. discriminate.
Defined.

(** [sample_viewer] is at level 50. *)
Lemma zoomIn_zoomOut_step_and_saturate_witness :
  zoom_lvl (prop sample_viewer) = inject_Z 50
  /\ zoom_lvl (prop (zoomIn (ext := plain_externals) sample_viewer)) = inject_Z 51
  /\ zoom_lvl (prop (zoomOut (ext := plain_externals)
                       (zoomIn (ext := plain_externals) sample_viewer)))
     = inject_Z 50.
Proof.
  assert (E : zoom_lvl (prop sample_viewer) = inject_Z 50)
    by (vm_compute; reflexivity).
  destruct (zoomIn_zoomOut_step_and_saturate (ext := plain_externals)
              50 sample_viewer E) as (_ & _ & H & _); [lia|].
  destruct H as (I & _ & O); [lia|].
  split; [exact E|]. split; [exact I | exact O].
Defined.

(** The key [a] does nothing to [sample_viewer]. *)
Lemma keyboard_acts_on_eight_keys_witness :
  _onKeyDown (ext := plain_externals) "a" sample_viewer = sample_viewer
  /\ position (prop (_onKeyDown (ext := plain_externals) "+" sample_viewer))
     = position (prop sample_viewer).
Proof.
  assert (N : ~ In "a" ["ArrowUp"; "ArrowDown"; "ArrowRight"; "ArrowLeft";
                        "PageUp"; "+"; "PageDown"; "-"]).
  { simpl. intros H. repeat (destruct H as [H|H]; [discriminate H|]). exact H. }
  assert (Z : In "+" ["PageUp"; "+"; "PageDown"; "-"]).
  { right. left. reflexivity. }
  destruct (keyboard_acts_on_eight_keys (ext := plain_externals) "a" sample_viewer)
    as (H & _).
  destruct (keyboard_acts_on_eight_keys (ext := plain_externals) "+" sample_viewer)
    as (_ & _ & P & _).
  split; [exact (H N) | exact (P Z)].
Defined.

(** One notch of the wheel up on [sample_viewer]. *)
Lemma wheel_zooms_against_spin_witness :
  zoom_lvl (prop sample_viewer) = inject_Z 50
  /\ 0 < mousewheel_factor (config sample_viewer)
  /\ zoom_lvl (prop sample_viewer)
     <= zoom_lvl (prop (_onMouseWheel (ext := plain_externals) (- (1)) sample_viewer)).
Proof.
  assert (E : zoom_lvl (prop sample_viewer) = inject_Z 50)
    by (vm_compute; reflexivity).
  assert (F : 0 < mousewheel_factor (config sample_viewer))
    by (vm_compute; reflexivity).
  destruct (wheel_zooms_against_spin (ext := plain_externals)
              (- (1)) 50 sample_viewer E) as (_ & H & _); [lia | exact F |].
  destruct H as (L & _); [vm_compute; reflexivity|].
  split; [exact E|]. split; [exact F | exact L].
Defined.

(** Nothing runs on [sample_viewer], so stopping leaves it as it is. *)
Lemma stopping_twice_is_stopping_once_witness :
  isAutorotateEnabled sample_viewer = false
  /\ stopAutorotate sample_viewer = sample_viewer
  /\ stopGyroscopeControl sample_viewer = sample_viewer
  /\ stopStereoView sample_viewer = sample_viewer.
Proof.
  destruct (stopping_twice_is_stopping_once sample_viewer)
    as (_ & A & _ & G & S).
  split; [reflexivity|].
  split; [exact (A eq_refl eq_refl)|].
  split; [exact (G eq_refl) | exact (S eq_refl)].
Defined.

(** Toggling autorotation on [gyroscope_viewer] ends gyroscope control. *)
Lemma toggleAutorotate_flips_witness :
  isAutorotateEnabled gyroscope_viewer = false
  /\ isAutorotateEnabled (toggleAutorotate gyroscope_viewer) = true
  /\ isGyroscopeEnabled (toggleAutorotate gyroscope_viewer) = false.
Proof.
  destruct (toggleAutorotate_flips gyroscope_viewer) as (F & _ & _ & G).
  split; [reflexivity|]. split; [exact F|].
  exact (proj1 (G eq_refl)).
Defined.

(** Gyroscope control on [sample_viewer], with and without a device. *)
Lemma startGyroscopeControl_outcomes_witness :
  has_DeviceOrientationControls (Externals := plain_externals) = true
  /\ startGyroscopeControl (ext := plain_externals) false ahead sample_viewer
     = returned D_rejected
         (console_warn "PanoSphereViewer: gyroscope not available" sample_viewer)
  /\ exists v',
       startGyroscopeControl (ext := plain_externals) true ahead sample_viewer
       = returned D_resolved v'
       /\ isGyroscopeEnabled v' = true.
Proof.
  destruct (startGyroscopeControl_outcomes (ext := plain_externals)
              ahead sample_viewer) as (_ & H & _).
  destruct (H eq_refl) as (R & v' & E & G & _).
  split; [reflexivity|]. split; [exact R|].
  exists v'. split; [exact E | exact G].
Defined.

(** The stereo view on [sample_viewer]. *)
Lemma startStereoView_outcomes_witness :
  (has_DeviceOrientationControls (Externals := plain_externals)
   && has_StereoEffect (Externals := plain_externals))%bool = true
  /\ exists v',
       startStereoView (ext := plain_externals) true ahead sample_viewer
       = returned tt v'
       /\ isStereoEnabled v' = true
       /\ isGyroscopeEnabled v' = true
       /\ notification_visible v' = true.
Proof.
  destruct (startStereoView_outcomes (ext := plain_externals)
              ahead sample_viewer) as (_ & _ & H).
  destruct (H eq_refl) as (_ & v' & E & S & G & _ & _ & _ & N & _).
  split; [reflexivity|].
  exists v'. split; [exact E|]. split; [exact S|]. split; [exact G | exact N].
Defined.

(** A mouse button released on [stereo_viewer]. *)
Lemma mouse_up_ends_stereo_view_witness :
  isStereoEnabled stereo_viewer = true
  /\ exists v',
       _onMouseUp (ext := plain_externals) (pointer 10 10) 1000 stereo_viewer
       = Some v'
       /\ isStereoEnabled v' = false
       /\ isGyroscopeEnabled v' = false.
Proof.
  destruct (_onMouseUp (ext := plain_externals) (pointer 10 10) 1000 stereo_viewer)
    as [v'|] eqn:E; [|vm_compute in E; discriminate E].
  destruct (mouse_up_ends_stereo_view (ext := plain_externals)
              (pointer 10 10) 1000 stereo_viewer) as (H & _).
  destruct (H v' E) as (S & G).
  split; [reflexivity|].
  exists v'. split; [reflexivity|]. split; [exact S|].
  exact (proj1 (G eq_refl)).
Defined.

(** [setPanorama] without a position on [autorotating_viewer]. *)
Lemma setPanorama_stops_drivers_only_for_a_position_witness :
  loading_promise (prop autorotating_viewer) = None
  /\ exists l v',
       setPanorama (ext := plain_externals) "pano.jpg" None false autorotating_viewer
       = returned (loading_handle l) v'
       /\ autorotate_cb (prop v') = autorotate_cb (prop autorotating_viewer).
Proof.
  destruct (setPanorama_stops_drivers_only_for_a_position (ext := plain_externals)
              "pano.jpg" None false autorotating_viewer eq_refl) as (_ & H).
  destruct (H eq_refl) as (l & v' & E & _ & _ & _ & _ & K & _).
  split; [reflexivity|].
  exists l, v'. split; [exact E|].
  exact (proj1 (K eq_refl)).
Defined.

(** The first load of [sample_viewer], which has no canvas container yet:
    when it succeeds the lock is released, when it fails the lock stays. *)
Lemma loading_lock_release_witness :
  setPanorama (ext := plain_externals) "pano.jpg" None false sample_viewer
  = returned (loading_handle {| load_position := None; load_transition := false |})
      loading_viewer
  /\ canvas_container sample_viewer = false
  /\ loading_promise (prop (panoramaLoaded (ext := plain_externals) true loading_viewer))
     = None
  /\ panoramaLoaded (ext := plain_externals) false loading_viewer = loading_viewer
  /\ setPanorama (ext := plain_externals) "other.jpg" None false
       (panoramaLoaded (ext := plain_externals) false loading_viewer)
     = thrown "Loading already in progress"
         (panoramaLoaded (ext := plain_externals) false loading_viewer).
Proof.
  assert (S : setPanorama (ext := plain_externals) "pano.jpg" None false sample_viewer
              = returned
                  (loading_handle {| load_position := None; load_transition := false |})
                  loading_viewer) by (vm_compute; reflexivity).
  destruct (loading_lock_release (ext := plain_externals)
              "pano.jpg" None false true _ sample_viewer loading_viewer S)
    as (Released & _).
  destruct (loading_lock_release (ext := plain_externals)
              "pano.jpg" None false false _ sample_viewer loading_viewer S)
    as (_ & Kept & _).
  split; [exact S|]. split; [reflexivity|].
  split; [exact (proj1 (Released eq_refl))|].
  destruct (Kept eq_refl) as (Same & _ & Refused).
  split; [exact Same|]. apply Refused.
Defined.

(** The constructor without a container, and with the id of an element
    the page does not have. *)
Lemma constructor_throws_for_four_reasons_witness :
  given (container no_container_options) = false
  /\ PanoSphereViewer (ext := plain_externals) no_container_options 800 600
     = inl (psv_error "No value given for container.")
  /\ given (container missing_container_options) = true
  /\ parent (ext := plain_externals) missing_container_options = false
  /\ PanoSphereViewer (ext := plain_externals) missing_container_options 800 600
     = inl type_error.
Proof.
  destruct (constructor_throws_for_four_reasons (ext := plain_externals)
              no_container_options 800 600) as (H & _).
  destruct (constructor_throws_for_four_reasons (ext := plain_externals)
              missing_container_options 800 600) as (_ & _ & _ & T & _).
  split; [reflexivity|]. split; [exact (H eq_refl)|].
  split; [reflexivity|]. split; [reflexivity|].
  exact (T eq_refl eq_refl eq_refl eq_refl).
Defined.

(** The constructor on [legacy_options]. *)
Lemma legacy_tilt_options_become_latitude_range_witness :
  can_construct (ext := plain_externals) legacy_options = true
  /\ exists v,
       PanoSphereViewer (ext := plain_externals) legacy_options 800 600 = inr v
       /\ In "PanoSphereViewer: tilt_up_max and tilt_down_max are deprecated, use latitude_range instead."
            (console v).
Proof.
  assert (P : can_construct (ext := plain_externals) legacy_options = true)
    by reflexivity.
  destruct (legacy_tilt_options_become_latitude_range (ext := plain_externals)
              legacy_options 800 600 P) as (v & E & H & _).
  destruct (H eq_refl) as (_ & W); [left; discriminate|].
  split; [exact P|]. exists v. split; [exact E | exact W].
Defined.

(** The constructor on [sample_options]. *)
Lemma constructed_viewer_is_idle_witness :
  can_construct (ext := plain_externals) sample_options = true
  /\ exists v,
       PanoSphereViewer (ext := plain_externals) sample_options 800 600 = inr v
       /\ active_drivers v = []
       /\ needsUpdate (prop v) = true.
Proof.
  assert (P : can_construct (ext := plain_externals) sample_options = true)
    by reflexivity.
  destruct (constructed_viewer_is_idle (ext := plain_externals)
              sample_options 800 600 P) as (v & E & A & _ & N & _).
  split; [exact P|]. exists v. split; [exact E|]. split; [exact A | exact N].
Defined.

(** The container of [sample_viewer] grows to 1024 by 768. *)
Lemma resize_acts_only_on_a_new_size_witness :
  ~ (inject_Z 1024 == width (size (prop sample_viewer))
     /\ inject_Z 768 == height (size (prop sample_viewer)))
  /\ size (prop (_onResize (inject_Z 1024) (inject_Z 768) sample_viewer))
     = {| width := inject_Z 1024; height := inject_Z 768 |}
  /\ aspect (prop (_onResize (inject_Z 1024) (inject_Z 768) sample_viewer))
     = inject_Z 1024 / inject_Z 768.
Proof.
  assert (N : ~ (inject_Z 1024 == width (size (prop sample_viewer))
                 /\ inject_Z 768 == height (size (prop sample_viewer)))).
  { intros (H & _). vm_compute in H. discriminate H. }
  destruct (resize_acts_only_on_a_new_size 1024 768 sample_viewer) as (_ & H & _).
  destruct (H N) as (Sz & A & _).
  split; [exact N|]. split; [exact Sz|].
  apply A. discriminate.
Defined.

(** [animate] on [sample_viewer] in one second. *)
Lemma animate_registers_the_animation_witness :
  truthy_value (num 1000) = true
  /\ exists a,
       fst (animate (ext := plain_externals)
              (spherical {| longitude := 1; latitude := 1 # 2 |}) (num 1000)
              sample_viewer) = animation_handle a
       /\ duration a = num 1000
       /\ running a = true.
Proof.
  destruct (animate_registers_the_animation (ext := plain_externals)
              (spherical {| longitude := 1; latitude := 1 # 2 |}) (num 1000)
              sample_viewer eq_refl) as (a & F & _ & D & _ & _ & _ & R & _).
  - left. vm_compute. discriminate.
  - split; [reflexivity|]. exists a. split; [exact F|]. split; [exact D | exact R].
Defined.

(** The drag of [dragging_viewer] released 50 pixels away. *)
Lemma inertia_keeps_the_drag_until_it_settles_witness :
  moving (prop dragging_viewer) = true
  /\ MOVE_THRESHOLD (Externals := plain_externals)
     <= Math_abs (clientX (pointer 60 10) - start_mouse_x (prop dragging_viewer))
  /\ exists v',
       _stopMove (ext := plain_externals) (pointer 60 10) 1100 dragging_viewer
       = Some v'
       /\ moving (prop v') = true
       /\ moving (prop (stopAnimation v')) = false.
Proof.
  assert (F : MOVE_THRESHOLD (Externals := plain_externals)
              <= Math_abs (clientX (pointer 60 10)
                           - start_mouse_x (prop dragging_viewer)))
    by (vm_compute; discriminate).
  destruct (_stopMove (ext := plain_externals) (pointer 60 10) 1100 dragging_viewer)
    as [v'|] eqn:E; [|vm_compute in E; discriminate E].
  destruct (inertia_keeps_the_drag_until_it_settles (ext := plain_externals)
              (pointer 60 10) 1100 dragging_viewer v' eq_refl eq_refl
              (or_introl F) E) as (_ & _ & H & _).
  destruct (H eq_refl) as (a & _ & _ & _ & M & _ & _ & S & _).
  split; [reflexivity|]. split; [exact F|].
  exists v'. split; [reflexivity|]. split; [exact M | exact S].
Defined.

(** The pointer moves ten pixels during the drag of
    [gyroscope_dragging_viewer]. *)
Lemma drag_under_gyroscope_shifts_the_heading_witness :
  moving (prop gyroscope_dragging_viewer) = true
  /\ isGyroscopeEnabled gyroscope_dragging_viewer = true
  /\ non_finite gyroscope_dragging_viewer = false
  /\ ~ width (size (prop gyroscope_dragging_viewer)) == 0
  /\ exists v',
       _move (ext := plain_externals) (pointer 20 10) true 1016
         gyroscope_dragging_viewer = Some v'
       /\ position (prop v') = position (prop gyroscope_dragging_viewer)
       /\ triggered v' = triggered gyroscope_dragging_viewer.
Proof.
  destruct (_move (ext := plain_externals) (pointer 20 10) true 1016
              gyroscope_dragging_viewer) as [v'|] eqn:E;
    [|vm_compute in E; discriminate E].
  destruct (drag_under_gyroscope_shifts_the_heading (ext := plain_externals)
              (pointer 20 10) 1016 0 device_reading gyroscope_dragging_viewer v'
              eq_refl eq_refl eq_refl eq_refl E) as (_ & H).
  assert (W : ~ width (size (prop gyroscope_dragging_viewer)) == 0)
    by (vm_compute; discriminate).
  destruct (H W) as (_ & P & T & _).
  split; [reflexivity|]. split; [reflexivity|]. split; [reflexivity|].
  split; [exact W|].
  exists v'. split; [reflexivity|]. split; [exact P | exact T].
Defined.

(** Three clicks at (10, 10) on [sample_viewer], at 1000, 1100 and 1150. *)
Lemma click_after_double_click_is_a_click_witness :
  dblclick_timeout (prop sample_viewer) = None
  /\ 1100 < 1000 + DBLCLICK_DELAY (Externals := plain_externals)
  /\ exists v1 v2 v3 d1 d3,
       click_at (ext := plain_externals) (pointer 10 10) 1000 sample_viewer = Some v1
       /\ click_at (ext := plain_externals) (pointer 10 10) 1100 v1 = Some v2
       /\ click_at (ext := plain_externals) (pointer 10 10) 1150 v2 = Some v3
       /\ triggered v3 = triggered sample_viewer ++ [click d1; dblclick d1; click d3].
Proof.
  assert (L : 1100 < 1000 + DBLCLICK_DELAY (Externals := plain_externals))
    by (vm_compute; reflexivity).
  assert (M : Math_abs (10 - 10) < MOVE_THRESHOLD (Externals := plain_externals))
    by (vm_compute; reflexivity).
  destruct (click_data (ext := plain_externals) (pointer 10 10) sample_viewer)
    as [d1|] eqn:D1; [|vm_compute in D1; discriminate D1].
  destruct (click_after_double_click_is_a_click (ext := plain_externals)
              (pointer 10 10) (pointer 10 10) (pointer 10 10) 1000 1100 1150
              d1 sample_viewer eq_refl D1 L M M) as (v1 & C1 & H).
  destruct (click_data (ext := plain_externals) (pointer 10 10) (elapse 1100 v1))
    as [d2|] eqn:D2.
  2:{ vm_compute in C1. inversion C1; subst. vm_compute in D2. discriminate D2. }
  destruct (H d2 eq_refl) as (v2 & C2 & _ & _ & H3).
  destruct (click_data (ext := plain_externals) (pointer 10 10) (elapse 1150 v2))
    as [d3|] eqn:D3.
  2:{ vm_compute in C1. inversion C1; subst. vm_compute in C2. inversion C2; subst.
      vm_compute in D3. discriminate D3. }
  destruct (H3 d3 eq_refl) as (v3 & C3 & T & _).
  split; [reflexivity|]. split; [exact L|].
  exists v1, v2, v3, d1, d3.
  split; [exact C1|]. split; [exact C2|]. split; [exact C3 | exact T].
Defined.

(** Logging a move 16 ms into the drag of [dragging_viewer]: the sample
    of the start of the drag is the one kept. *)
Lemma mouse_history_keeps_one_sample_witness :
  0 <= INERTIA_WINDOW (Externals := plain_externals)
  /\ clientX (pointer 12 10) < 1016 - INERTIA_WINDOW (Externals := plain_externals)
  /\ _logMouseMove (ext := plain_externals) (pointer 12 10) 1016 dragging_viewer
     = Some (with_prop (set_mouse_history [[1000; 10; 10]]) dragging_viewer).
Proof.
  assert (W : 0 <= INERTIA_WINDOW (Externals := plain_externals))
    by (vm_compute; discriminate).
  assert (X : clientX (pointer 12 10)
              < 1016 - INERTIA_WINDOW (Externals := plain_externals))
    by (vm_compute; reflexivity).
  assert (F : Forall (fun s => exists t x y,
                        s = [t; x; y]
                        /\ x < 1016 - INERTIA_WINDOW (Externals := plain_externals))
                (mouse_history (prop dragging_viewer))).
  { change (mouse_history (prop dragging_viewer)) with [[1000; 10; 10]].
    constructor; [|constructor].
    exists 1000, 10, 10. split; [reflexivity | vm_compute; reflexivity]. }
  destruct (mouse_history_keeps_one_sample (ext := plain_externals) W
              (pointer 12 10) 1016 dragging_viewer F X) as (s & E & K).
  assert (S : s = [1000; 10; 10]).
  { vm_compute in K. inversion K. reflexivity. }
  split; [exact W|]. split; [exact X|].
  rewrite E, S. reflexivity.
Defined.

(** A drag, a key and the wheel on the viewer built from [sample_options]. *)
Lemma reachable_states_are_sound_witness :
  can_construct (ext := plain_externals) sample_options = true
  /\ PanoSphereViewer (ext := plain_externals) sample_options 800 600
     = inr sample_viewer
  /\ exists v,
       run (ext := plain_externals)
         [op_mousedown (pointer 10 10) 1000; op_mousemove (pointer 30 10) 1016;
          op_mouseup (pointer 60 10) 1100; op_keydown "PageUp";
          op_mousewheel (- (1))] sample_viewer = Some v
       /\ non_finite v = false
       /\ (moving (prop v) && zooming (prop v))%bool = false
       /\ exists k : Z, (0 <= k <= 100)%Z /\ zoom_lvl (prop v) = inject_Z k.
Proof.
  assert (P : can_construct (ext := plain_externals) sample_options = true)
    by reflexivity.
  assert (C : PanoSphereViewer (ext := plain_externals) sample_options 800 600
              = inr sample_viewer) by (vm_compute; reflexivity).
  destruct (run (ext := plain_externals)
              [op_mousedown (pointer 10 10) 1000; op_mousemove (pointer 30 10) 1016;
               op_mouseup (pointer 60 10) 1100; op_keydown "PageUp";
               op_mousewheel (- (1))] sample_viewer) as [v|] eqn:R;
    [|vm_compute in R; discriminate R].
  assert (F : non_finite v = false).
  { pose proof R as R'. vm_compute in R'. injection R' as <-. reflexivity. }
  destruct (reachable_states_are_sound (ext := plain_externals)
              sample_options 800 600 _ sample_viewer v P C R) as (G & K & _).
  split; [exact P|]. split; [exact C|].
  exists v. split; [reflexivity|]. split; [exact F|].
  split; [exact G | exact (proj1 (K F))].
Defined.

(** The same run, from the soundness of [sample_viewer]. *)
Lemma every_run_completes_witness :
  0 <= INERTIA_WINDOW (Externals := plain_externals)
  /\ sound sample_viewer
  /\ exists v',
       run (ext := plain_externals)
         [op_mousedown (pointer 10 10) 1000; op_mousemove (pointer 30 10) 1016;
          op_mouseup (pointer 60 10) 1100; op_dblclick_timeout]
         sample_viewer = Some v'
       /\ sound v'.
Proof.
  assert (W : 0 <= INERTIA_WINDOW (Externals := plain_externals))
    by (vm_compute; discriminate).
  assert (S : sound sample_viewer).
  { split; [reflexivity|]. split; [|split].
    - intros _.
      split; [exists 50%Z; split; [lia | vm_compute; reflexivity]
             | vm_compute; reflexivity].
    - change (mouse_history (prop sample_viewer)) with (@nil (list number)).
      constructor.
    - intros T. vm_compute in T. congruence. }
  split; [exact W|]. split; [exact S|].
  exact (every_run_completes (ext := plain_externals) W
           [op_mousedown (pointer 10 10) 1000; op_mousemove (pointer 30 10) 1016;
            op_mouseup (pointer 60 10) 1100; op_dblclick_timeout]
           sample_viewer S).
Defined.
